(** * FlowHarmony: the prep-decision engine of [app.py]

    A shallow embedding of the demand forecaster, the feedback aggregator,
    the prep-decision engine and the decision lifecycle of [src/app.py],
    with the properties the specification states about them.

    Python's [int] is [Z]; Python's [float] is Rocq's primitive binary64
    [float], whose operations are the IEEE 754 ones CPython uses, so that
    every rounding step of the source is part of the model.  An operation
    that raises in Python returns [None]. *)

From Stdlib Require Import ZArith Floats Bool Uint63.
From stdpp Require Import base option list strings gmap.

Local Open Scope Z_scope.
Set Warnings "-inexact-float".

(** ** Python numbers *)

Module Py.

(** [float(z)]: the nearest binary64 value, ties to even.  An int below
    [2^53] in magnitude is a binary64 value already and converts by the
    hardware instruction; CPython raises [OverflowError] when the result
    is not finite. *)
Definition two53 : Z := 9007199254740992.

Definition float_of_Z (z : Z) : float :=
  match z with
  | Z0 => 0%float
  | Zpos _ =>
      if z <? two53 then PrimFloat.of_uint63 (Uint63.of_Z z)
      else SF2Prim (binary_normalize prec emax z 0 false)
  | Zneg p =>
      if Z.pos p <? two53
      then PrimFloat.opp (PrimFloat.of_uint63 (Uint63.of_Z (Z.pos p)))
      else SF2Prim (binary_normalize prec emax z 0 false)
  end.

Definition float_of_int (z : Z) : option float :=
  let f := float_of_Z z in
  if PrimFloat.is_infinity f then None else Some f.

(** The integer part of [m * 2^e] for a positive mantissa [m]. *)
Definition trunc_mantissa (m : positive) (e : Z) : Z :=
  if 0 <=? e then Z.shiftl (Z.pos m) e else Z.shiftr (Z.pos m) (- e).

(** [int(f)]: truncation toward zero; [ValueError] on NaN and
    [OverflowError] on an infinity. *)
Definition int_of_float (f : float) : option Z :=
  match Prim2SF f with
  | S754_zero _ => Some 0
  | S754_finite s m e => Some (cond_Zopp s (trunc_mantissa m e))
  | S754_infinity _ | S754_nan => None
  end.

(** [round(f)] with one argument: the nearest integer, ties to even. *)
Definition round_mantissa (m : positive) (e : Z) : Z :=
  if 0 <=? e then Z.shiftl (Z.pos m) e
  else
    let q := Z.shiftr (Z.pos m) (- e) in
    let r := Z.pos m - Z.shiftl q (- e) in
    match Z.compare (2 * r) (Z.shiftl 1 (- e)) with
    | Lt => q
    | Gt => q + 1
    | Eq => if Z.even q then q else q + 1
    end.

Definition round_of_float (f : float) : option Z :=
  match Prim2SF f with
  | S754_zero _ => Some 0
  | S754_finite s m e => Some (cond_Zopp s (round_mantissa m e))
  | S754_infinity _ | S754_nan => None
  end.

(** [a / b] on two ints: the correctly rounded quotient.  When both fit
    in 53 bits CPython divides the two doubles, otherwise it rounds the
    exact quotient itself; [ZeroDivisionError] on [b = 0],
    [OverflowError] when the result is not finite. *)
Definition sf_of_Z (z : Z) : spec_float :=
  match z with
  | Z0 => S754_zero false
  | Zpos p => S754_finite false p 0
  | Zneg p => S754_finite true p 0
  end.

Definition int_truediv (a b : Z) : option float :=
  if b =? 0 then None
  else if (Z.abs a <? two53) && (Z.abs b <? two53)
  then Some (float_of_Z a / float_of_Z b)%float
  else
    let f := SF2Prim (SFdiv prec emax (sf_of_Z a) (sf_of_Z b)) in
    if PrimFloat.is_infinity f then None else Some f.

(** A Python number is an [int] or a [float]; arithmetic on a mixed pair
    converts the int. *)
Inductive num :=
| PInt (z : Z)
| PFloat (f : float).

Definition to_float (a : num) : option float :=
  match a with
  | PInt z => float_of_int z
  | PFloat f => Some f
  end.

Definition lift2 (fz : Z -> Z -> Z) (ff : float -> float -> float)
    (a b : num) : option num :=
  match a, b with
  | PInt x, PInt y => Some (PInt (fz x y))
  | _, _ => x ← to_float a; y ← to_float b; Some (PFloat (ff x y))
  end.

Definition add := lift2 Z.add PrimFloat.add.
Definition sub := lift2 Z.sub PrimFloat.sub.
Definition mul := lift2 Z.mul PrimFloat.mul.

(** True division; a zero divisor raises [ZeroDivisionError] for floats
    as well. *)
Definition truediv (a b : num) : option num :=
  match a, b with
  | PInt x, PInt y => PFloat <$> int_truediv x y
  | _, _ =>
      x ← to_float a; y ← to_float b;
      if PrimFloat.is_zero y then None else Some (PFloat (PrimFloat.div x y))
  end.

(** Comparison is exact, also between an int and a float: the float
    [(-1)^s * m * 2^e] is compared with [z] over the integers. *)
Definition compare_Z_sf (z : Z) (x : spec_float) : option comparison :=
  match x with
  | S754_nan => None
  | S754_infinity s => Some (if s then Gt else Lt)
  | S754_zero _ => Some (z ?= 0)
  | S754_finite s m e =>
      if 0 <=? e then Some (z ?= cond_Zopp s (Z.shiftl (Z.pos m) e))
      else Some (Z.shiftl z (- e) ?= cond_Zopp s (Z.pos m))
  end.

Definition lt (a b : num) : bool :=
  match a, b with
  | PInt x, PInt y => x <? y
  | PFloat x, PFloat y => PrimFloat.ltb x y
  | PInt x, PFloat y =>
      match compare_Z_sf x (Prim2SF y) with Some Lt => true | _ => false end
  | PFloat x, PInt y =>
      match compare_Z_sf y (Prim2SF x) with Some Gt => true | _ => false end
  end.

(** [max(a, b)] keeps [a] unless [b > a]; [min(a, b)] keeps [a] unless
    [b < a] (CPython's [min_max]). *)
Definition max (a b : num) : num := if lt a b then b else a.
Definition min (a b : num) : num := if lt b a then b else a.

(** [int(a)] and [round(a)]. *)
Definition int (a : num) : option Z :=
  match a with
  | PInt z => Some z
  | PFloat f => int_of_float f
  end.

Definition round (a : num) : option Z :=
  match a with
  | PInt z => Some z
  | PFloat f => round_of_float f
  end.

(** [if a:] on a number. *)
Definition truthy (a : num) : bool :=
  match a with
  | PInt z => negb (z =? 0)
  | PFloat f => negb (PrimFloat.is_zero f)
  end.

End Py.

#[global] Arguments Py.add : simpl never.
#[global] Arguments Py.sub : simpl never.
#[global] Arguments Py.mul : simpl never.
#[global] Arguments Py.truediv : simpl never.
#[global] Arguments Py.int_truediv : simpl never.
#[global] Arguments Py.int : simpl never.
#[global] Arguments Py.round : simpl never.
#[global] Arguments Py.lt : simpl never.
#[global] Arguments Py.float_of_Z : simpl never.

Abbreviation PInt := Py.PInt.
Abbreviation PFloat := Py.PFloat.

(** ** Data model *)

(** [SiteConfig]: the fields the engine reads (the lunch window and the wave
    duration only feed the wave schedule, see [Env.target_wave_idx]). *)
Module SiteConfig.
Record t := {
  site_id : string;
  portion_grams : Z;
  pan_capacity_portions : Z;
}.
End SiteConfig.

Definition DEFAULT_SITE_ID : string := "flavoria".
Definition PRIMARY_SERVICE_SLOT : string := "favourite_1".

(** The one entry of [SITES]. *)
Definition flavoria : SiteConfig.t :=
  {| SiteConfig.site_id := DEFAULT_SITE_ID;
     SiteConfig.portion_grams := 160;
     SiteConfig.pan_capacity_portions := 20 |}.

(** [SITES.get(site_id, SITES[DEFAULT_SITE_ID])]: [SITES] holds the default
    site only, so every id resolves to it. *)
Definition get_site_config (site_id : string) : SiteConfig.t := flavoria.

Inductive Status := pending | done_ | skipped.

(** [DecisionCard]: [timestamp] is kept as its ISO-8601 text, the only form
    in which the code reads it back ([card.timestamp.isoformat()]); the dish
    and label texts of the card are presentation and left out. *)
Module DecisionCard.
Record t := {
  wave_index : Z;
  timestamp : string;
  predicted_diners_next_wave : Z;
  suggested_grams : Z;
  pan_fill_percent : Z;
  satisfaction_percent : option Z;
  suggested_portions : Py.num;
  service_slot : string;
  status : Status;
}.

Definition set_status (st : Status) (c : t) : t :=
  {| wave_index := wave_index c; timestamp := timestamp c;
     predicted_diners_next_wave := predicted_diners_next_wave c;
     suggested_grams := suggested_grams c;
     pan_fill_percent := pan_fill_percent c;
     satisfaction_percent := satisfaction_percent c;
     suggested_portions := suggested_portions c;
     service_slot := service_slot c; status := st |}.
End DecisionCard.

(** One structured feedback entry: [responses] is the dict in insertion
    order, each answer as [str(value)] renders it. *)
Module FeedbackEntry.
Record t := {
  question_set : string;
  timestamp : option string;
  responses : list (string * string);
}.
End FeedbackEntry.

Module Reaction.
Record t := {
  response_key : string;
  value : string;
  source : string;
}.
End Reaction.

(** [ServiceDay]: the mutable session; the wave list and the waste figures
    are display data and left out. *)
Module ServiceDay.
Record t := {
  site_id : string;
  date : Z;
  total_expected_diners : Z;
  diners_so_far : Z;
  wave_index : Z;
  pan_fill_percent : Z;
  feedback_scores : list Z;
  detailed_feedback : list FeedbackEntry.t;
  reaction_stream : list Reaction.t;
  last_decision : option DecisionCard.t;
}.

Definition set_diners_so_far (v : Z) (d : t) : t :=
  {| site_id := site_id d; date := date d;
     total_expected_diners := total_expected_diners d;
     diners_so_far := v; wave_index := wave_index d;
     pan_fill_percent := pan_fill_percent d;
     feedback_scores := feedback_scores d;
     detailed_feedback := detailed_feedback d;
     reaction_stream := reaction_stream d;
     last_decision := last_decision d |}.

Definition set_wave_index (v : Z) (d : t) : t :=
  {| site_id := site_id d; date := date d;
     total_expected_diners := total_expected_diners d;
     diners_so_far := diners_so_far d; wave_index := v;
     pan_fill_percent := pan_fill_percent d;
     feedback_scores := feedback_scores d;
     detailed_feedback := detailed_feedback d;
     reaction_stream := reaction_stream d;
     last_decision := last_decision d |}.

Definition set_pan_fill_percent (v : Z) (d : t) : t :=
  {| site_id := site_id d; date := date d;
     total_expected_diners := total_expected_diners d;
     diners_so_far := diners_so_far d; wave_index := wave_index d;
     pan_fill_percent := v;
     feedback_scores := feedback_scores d;
     detailed_feedback := detailed_feedback d;
     reaction_stream := reaction_stream d;
     last_decision := last_decision d |}.

Definition set_feedback_scores (v : list Z) (d : t) : t :=
  {| site_id := site_id d; date := date d;
     total_expected_diners := total_expected_diners d;
     diners_so_far := diners_so_far d; wave_index := wave_index d;
     pan_fill_percent := pan_fill_percent d;
     feedback_scores := v;
     detailed_feedback := detailed_feedback d;
     reaction_stream := reaction_stream d;
     last_decision := last_decision d |}.

Definition set_detailed_feedback (v : list FeedbackEntry.t) (d : t) : t :=
  {| site_id := site_id d; date := date d;
     total_expected_diners := total_expected_diners d;
     diners_so_far := diners_so_far d; wave_index := wave_index d;
     pan_fill_percent := pan_fill_percent d;
     feedback_scores := feedback_scores d;
     detailed_feedback := v;
     reaction_stream := reaction_stream d;
     last_decision := last_decision d |}.

Definition set_reaction_stream (v : list Reaction.t) (d : t) : t :=
  {| site_id := site_id d; date := date d;
     total_expected_diners := total_expected_diners d;
     diners_so_far := diners_so_far d; wave_index := wave_index d;
     pan_fill_percent := pan_fill_percent d;
     feedback_scores := feedback_scores d;
     detailed_feedback := detailed_feedback d;
     reaction_stream := v;
     last_decision := last_decision d |}.

Definition set_last_decision (v : option DecisionCard.t) (d : t) : t :=
  {| site_id := site_id d; date := date d;
     total_expected_diners := total_expected_diners d;
     diners_so_far := diners_so_far d; wave_index := wave_index d;
     pan_fill_percent := pan_fill_percent d;
     feedback_scores := feedback_scores d;
     detailed_feedback := detailed_feedback d;
     reaction_stream := reaction_stream d;
     last_decision := v |}.
End ServiceDay.

(** [l[-n:]] for a positive [n]: the last [n] items. *)
Definition last_n {A} (n : nat) (l : list A) : list A :=
  drop (length l - n)%nat l.

Definition MAX_REACTIONS_STORED : nat := 75.
Definition FEEDBACK_SCORE_HISTORY_LIMIT : nat := 100.
Definition DETAILED_FEEDBACK_HISTORY_LIMIT : nat := 400.

(** ** Prep quantity and satisfaction *)

Definition compute_suggested_grams
    (predicted_diners_next_wave pan_fill_percent portion_grams pan_capacity_portions : Z)
    : option Z :=
  q ← Py.truediv (PInt pan_fill_percent) (PFloat 100);
  current_portions ← Py.mul q (PInt pan_capacity_portions);
  d ← Py.sub (PInt predicted_diners_next_wave) current_portions;
  let portions_needed := Py.max d (PInt 0) in
  g ← Py.mul portions_needed (PInt portion_grams);
  suggested_grams ← Py.int g;
  Some (Z.max 0 (Z.min suggested_grams 4000)).

(** [sum] of a list of ints. *)
Definition int_sum (l : list Z) : Z := fold_left Z.add l 0.

(** The outer [option] is the exception, the inner one Python's [None]. *)
Definition compute_satisfaction_percent (feedback_scores : list Z) : option (option Z) :=
  match feedback_scores with
  | [] => Some None
  | _ =>
      avg ← Py.int_truediv (int_sum feedback_scores) (Z.of_nat (length feedback_scores));
      k ← Py.truediv (PInt 67) (PFloat 2);
      a ← Py.sub (PFloat avg) (PInt 1);
      b ← Py.mul a k;
      c ← Py.add (PInt 33) b;
      r ← Py.int c;
      Some (Some r)
  end.

(** ** Demand forecaster *)

Definition EXPECTED_WAVES : list Z := [10; 30; 40; 25; 15].

(** [StubForecastAdapter.predict_next_wave]; [weekday] is
    [datetime.now().weekday()], Monday being 0. *)
Definition predict_next_wave (weekday : Z) (service_day : ServiceDay.t)
    (wave_index : Z) (feedback_multiplier : float) : option Z :=
  let idx := Z.min (Z.max wave_index 0) (Z.of_nat (length EXPECTED_WAVES) - 1) in
  expected_in_wave ← EXPECTED_WAVES !! Z.to_nat idx;
  expected_in_wave ←
    (if 5 <=? weekday
     then x ← Py.mul (PInt expected_in_wave) (PFloat 0.7); Py.int x
     else Some expected_in_wave);
  let remaining_expected :=
    Z.max (ServiceDay.total_expected_diners service_day
           - ServiceDay.diners_so_far service_day) 0 in
  let total_waves := Z.of_nat (length EXPECTED_WAVES) in
  let remaining_waves := Z.max (total_waves - wave_index) 1 in
  base_for_wave ← Py.int_truediv remaining_expected remaining_waves;
  a ← Py.mul (PFloat 0.5) (PInt expected_in_wave);
  b ← Py.mul (PFloat 0.5) (PFloat base_for_wave);
  predicted ← Py.add a b;
  predicted ← Py.mul predicted (PFloat feedback_multiplier);
  r ← Py.int predicted;
  Some (Z.max r 0).

(** ** JSON values *)

(** A value [json.load] or [request.get_json] gives: an object is the item
    list of the dict, in its order, with no key twice. *)
#[warnings="-register-all"] Inductive Json :=
| JsNull
| JsBool (b : bool)
| JsInt (z : Z)
| JsFloat (f : float)
| JsStr (s : string)
| JsList (l : list Json)
| JsObj (items : list (string * Json)).

(** ** Feedback aggregator *)

(** The library functions the engine calls: [float(str)], [int(str)] and
    [datetime.fromisoformat] ([None] where Python raises [ValueError]; a
    datetime is its count of microseconds), [str(int)], the built-in
    [sum] on floats, whose rounding depends on the interpreter version, and
    [str()] of a JSON value that is not a string. *)
Class Builtins := {
  float_of_str : string -> option float;
  fromisoformat : string -> option Z;
  float_sum : list float -> float;
  int_of_str : string -> option Z;
  str_of_int : Z -> string;
  json_repr : Json -> string;
}.

Definition DETAILED_FEEDBACK_WINDOW_MINUTES : Z := 90.
Definition MAX_DETAILED_FEEDBACK_SAMPLES : Z := 160.

Definition NUMERIC_FEEDBACK_WEIGHTS : list (string * float) :=
  [("smell", 0.05); ("appearance", 0.04); ("staff_warmth", 0.03);
   ("value_for_money", 0.06)]%float.

Definition CATEGORICAL_FEEDBACK_WEIGHTS : list (string * list (string * float)) :=
  [("temperature", [("too_cold", -0.05); ("just_right", 0.02); ("too_hot", -0.03)]);
   ("wait_time", [("quick", 0.05); ("ok", 0.0); ("too_long", -0.08)]);
   ("flow_speed", [("smooth", 0.04); ("stop_and_go", -0.03); ("stalled", -0.07)]);
   ("portion_size", [("too_light", -0.05); ("just_right", 0.03); ("too_heavy", -0.02)]);
   ("overall_mood", [("energized", 0.05); ("content", 0.02); ("neutral", -0.015)])]%float.

(** [d.get(k)] on a dict written as its item list. *)
Fixpoint dict_get {A} (k : string) (d : list (string * A)) : option A :=
  match d with
  | [] => None
  | (k', v) :: rest => if String.eqb k k' then Some v else dict_get k rest
  end.

(** [stats[key].append(value)] on a [defaultdict(list)]: a new key goes to
    the end of the iteration order. *)
Fixpoint stats_append (key value : string) (stats : list (string * list string))
    : list (string * list string) :=
  match stats with
  | [] => [(key, [value])]
  | (k, vs) :: rest =>
      if String.eqb key k then (k, vs ++ [value]) :: rest
      else (k, vs) :: stats_append key value rest
  end.

Definition timedelta_minutes (m : Z) : Z := m * 60 * 1000000.

(** [max] and [min] on two floats, by the rule of [Py.max] and [Py.min]. *)
Definition fmax (a b : float) : float := if PrimFloat.ltb a b then b else a.
Definition fmin (a b : float) : float := if PrimFloat.ltb b a then b else a.

Section Aggregator.
Context `{B : Builtins}.

(** The scan of [reversed(entries)]: [break] at the sample cap, [continue]
    on an entry older than the cutoff. *)
Fixpoint collect_stats (cutoff : Z) (entries : list FeedbackEntry.t)
    (samples : Z) (stats : list (string * list string))
    : list (string * list string) :=
  match entries with
  | [] => stats
  | entry :: rest =>
      if MAX_DETAILED_FEEDBACK_SAMPLES <=? samples then stats
      else
        let entry_time :=
          match FeedbackEntry.timestamp entry with
          | Some ts => if String.eqb ts "" then None else fromisoformat ts
          | None => None
          end in
        match entry_time with
        | Some t =>
            if t <? cutoff then collect_stats cutoff rest samples stats
            else
              collect_stats cutoff rest (samples + 1)
                (fold_left (fun st kv => stats_append kv.1 kv.2 st)
                   (FeedbackEntry.responses entry) stats)
        | None =>
            collect_stats cutoff rest (samples + 1)
              (fold_left (fun st kv => stats_append kv.1 kv.2 st)
                 (FeedbackEntry.responses entry) stats)
        end
  end.

(** [numbers]: the answers [float()] accepts. *)
Definition parse_numbers (values : list string) : list float :=
  omap float_of_str values.

(** The delta one question key adds to [total_delta]; [None] where the
    loop body adds nothing. *)
Definition key_delta (key : string) (values : list string) : option float :=
  match dict_get key NUMERIC_FEEDBACK_WEIGHTS with
  | Some weight =>
      let numbers := parse_numbers values in
      match numbers with
      | [] => None
      | _ =>
          let avg_value :=
            (float_sum numbers / Py.float_of_Z (Z.of_nat (length numbers)))%float in
          let normalized := ((avg_value - 3.0) / 2.0)%float in
          Some (normalized * weight)%float
      end
  | None =>
      match dict_get key CATEGORICAL_FEEDBACK_WEIGHTS with
      | Some mapping =>
          let weights := map (fun value => default 0.0%float (dict_get value mapping)) values in
          match weights with
          | [] => None
          | _ =>
              Some (float_sum weights / Py.float_of_Z (Z.of_nat (length weights)))%float
          end
      | None => None
      end
  end.

Definition add_key_deltas (stats : list (string * list string)) (total_delta : float)
    : float :=
  fold_left
    (fun total kv =>
       match key_delta kv.1 kv.2 with
       | Some delta => (total + delta)%float
       | None => total
       end)
    stats total_delta.

(** [total_delta] before it is bounded. *)
Definition feedback_total_delta (utcnow : Z) (scores : list Z)
    (entries : list FeedbackEntry.t) : option float :=
  total_delta ←
    match scores with
    | [] => Some 0.0%float
    | _ =>
        avg_rating ← Py.int_truediv (int_sum scores) (Z.of_nat (length scores));
        let rating_delta := ((avg_rating - 2.0) * 0.08)%float in
        Some (0.0 + rating_delta)%float
    end;
  match entries with
  | [] => Some total_delta
  | _ =>
      let cutoff := utcnow - timedelta_minutes DETAILED_FEEDBACK_WINDOW_MINUTES in
      let stats := collect_stats cutoff (rev entries) 0 [] in
      Some (add_key_deltas stats total_delta)
  end.

(** [compute_feedback_demand_multiplier], called with both histories given
    (as its one caller does): the multiplier.  The breakdown dictionary it
    also returns holds display roundings of the same deltas and feeds
    nothing back. *)
Definition compute_feedback_demand_multiplier (utcnow : Z) (feedback_scores : list Z)
    (detailed_entries : list FeedbackEntry.t) : option float :=
  total_delta ← feedback_total_delta utcnow feedback_scores detailed_entries;
  let bounded_delta := fmax (-0.2) (fmin total_delta 0.18) in
  let multiplier := (1.0 + bounded_delta)%float in
  Some multiplier.

End Aggregator.

(** ** Urgency tier *)

Inductive SignalLevel := critical | warning | ready.

(** The [if]/[elif]/[else] chain of [compute_current_state] that picks
    [signal_level]. *)
Definition signal_level (suggested_grams pan_fill_percent : Z) : SignalLevel :=
  if (1800 <=? suggested_grams) || (pan_fill_percent <=? 35) then critical
  else if (600 <=? suggested_grams) || (pan_fill_percent <=? 55) then warning
  else ready.

(** ** Refill *)

(** [adjust_pan_after_refill]: the new value of [pan_fill_percent]. *)
Definition adjust_pan_after_refill
    (pan_fill_percent suggested_grams portion_grams capacity_portions : Z) : option Z :=
  portions_added ←
    (if suggested_grams =? 0 then Some (PInt 0)
     else Py.truediv (PInt suggested_grams) (PInt portion_grams));
  q ← Py.truediv (PInt pan_fill_percent) (PFloat 100);
  current_portions ← Py.mul q (PInt capacity_portions);
  s ← Py.add current_portions portions_added;
  let new_portions := Py.min (PInt capacity_portions) s in
  r ← Py.truediv new_portions (PInt capacity_portions);
  r ← Py.mul r (PInt 100);
  Py.int r.

(** ** Sessions, the event store and the request environment *)

(** The Redis lists of the three streams, each under the storage id
    [(site_id, date)] of its session; [lrange key -n -1] is [last_n]. *)
Module Redis.
Record t := {
  scores : gmap (string * Z) (list Z);
  detailed_feedback : gmap (string * Z) (list FeedbackEntry.t);
  reactions : gmap (string * Z) (list Reaction.t);
}.
End Redis.

Record World := {
  SERVICE_DAYS : gmap (string * Z) ServiceDay.t;
  REDIS_CLIENT : option Redis.t;
}.

(** What one request reads from outside the session: the process setting
    [DEMO_MODE], the clock, the wave the schedule selects for [now]
    ([target_wave_idx], with [lunch_finished]), the slot of the menu day the
    calendar resolves, and whether the store answers ([redis_up = false]: its
    calls raise [RedisError], which the code catches). *)
Record Env := {
  DEMO_MODE : bool;
  today : Z;
  now_iso : string;
  utcnow : Z;
  utcnow_iso : string;
  weekday : Z;
  target_wave_idx : Z;
  lunch_finished : bool;
  menu_service_slot : option string;
  redis_up : bool;
}.

(** State passing with exceptions: an exception ([None]) keeps the
    mutations made before it, as in Python. *)
Definition M (A : Type) : Type := World -> World * option A.

#[global] Instance M_ret : MRet M := fun _ a w => (w, Some a).
#[global] Instance M_bind : MBind M := fun _ _ f m w =>
  match m w with
  | (w', Some a) => f a w'
  | (w', None) => (w', None)
  end.

Definition lift {A} (o : option A) : M A := fun w => (w, o).
Definition get_world : M World := fun w => (w, Some w).
Definition put_world (w : World) : M unit := fun _ => (w, Some tt).

Definition service_day (key : string * Z) : M ServiceDay.t :=
  fun w => (w, SERVICE_DAYS w !! key).

Definition update_service_day (key : string * Z) (f : ServiceDay.t -> ServiceDay.t)
    : M unit :=
  fun w => ({| SERVICE_DAYS := alter f key (SERVICE_DAYS w);
               REDIS_CLIENT := REDIS_CLIENT w |}, Some tt).

Definition update_redis (f : Redis.t -> Redis.t) : M unit :=
  fun w => ({| SERVICE_DAYS := SERVICE_DAYS w;
               REDIS_CLIENT := f <$> REDIS_CLIENT w |}, Some tt).

Definition storage_id (d : ServiceDay.t) : string * Z :=
  (ServiceDay.site_id d, ServiceDay.date d).

(** [rpush] then [ltrim key -limit -1]. *)
Definition push_trim {A} (limit : nat) (x : A) (id : string * Z)
    (m : gmap (string * Z) (list A)) : gmap (string * Z) (list A) :=
  <[id := last_n limit (default [] (m !! id) ++ [x])]> m.

Definition _persist_feedback_score (env : Env) (d : ServiceDay.t) (score : Z) : M unit :=
  if redis_up env then
    update_redis (fun r =>
      {| Redis.scores := push_trim FEEDBACK_SCORE_HISTORY_LIMIT score (storage_id d) (Redis.scores r);
         Redis.detailed_feedback := Redis.detailed_feedback r;
         Redis.reactions := Redis.reactions r |})
  else mret tt.

Definition _persist_detailed_feedback (env : Env) (d : ServiceDay.t)
    (entry : FeedbackEntry.t) : M unit :=
  if redis_up env then
    update_redis (fun r =>
      {| Redis.scores := Redis.scores r;
         Redis.detailed_feedback :=
           push_trim DETAILED_FEEDBACK_HISTORY_LIMIT entry (storage_id d) (Redis.detailed_feedback r);
         Redis.reactions := Redis.reactions r |})
  else mret tt.

Definition _persist_reaction (env : Env) (d : ServiceDay.t) (reaction : Reaction.t) : M unit :=
  if redis_up env then
    update_redis (fun r =>
      {| Redis.scores := Redis.scores r;
         Redis.detailed_feedback := Redis.detailed_feedback r;
         Redis.reactions :=
           push_trim MAX_REACTIONS_STORED reaction (storage_id d) (Redis.reactions r) |})
  else mret tt.

(** [_load_list_entries]: [[]] without a client or on [RedisError]. *)
Definition _load_list_entries {A} (env : Env) (w : World)
    (stream : Redis.t -> gmap (string * Z) (list A)) (d : ServiceDay.t) (limit : nat)
    : list A :=
  match REDIS_CLIENT w with
  | None => []
  | Some r =>
      if redis_up env then last_n limit (default [] (stream r !! storage_id d)) else []
  end.

Definition _redis_available (w : World) : bool := bool_decide (is_Some (REDIS_CLIENT w)).

Definition _clear_service_day_storage (env : Env) (d : ServiceDay.t) : M unit :=
  if redis_up env then
    update_redis (fun r =>
      {| Redis.scores := delete (storage_id d) (Redis.scores r);
         Redis.detailed_feedback := delete (storage_id d) (Redis.detailed_feedback r);
         Redis.reactions := delete (storage_id d) (Redis.reactions r) |})
  else mret tt.

Definition is_nil {A} (l : list A) : bool := match l with [] => true | _ => false end.

Definition get_feedback_scores (env : Env) (key : string * Z) : M (list Z) :=
  d ← service_day key;
  w ← get_world;
  let cached :=
    if _redis_available w
    then _load_list_entries env w Redis.scores d FEEDBACK_SCORE_HISTORY_LIMIT else [] in
  if is_nil cached
  then mret (last_n FEEDBACK_SCORE_HISTORY_LIMIT (ServiceDay.feedback_scores d))
  else
    _ ← update_service_day key (ServiceDay.set_feedback_scores cached);
    mret cached.

Definition get_detailed_feedback_entries (env : Env) (key : string * Z) (limit : nat)
    : M (list FeedbackEntry.t) :=
  d ← service_day key;
  w ← get_world;
  let cached :=
    if _redis_available w
    then _load_list_entries env w Redis.detailed_feedback d
           (Nat.max limit DETAILED_FEEDBACK_HISTORY_LIMIT)
    else [] in
  if is_nil cached
  then mret (last_n limit (ServiceDay.detailed_feedback d))
  else
    _ ← update_service_day key (ServiceDay.set_detailed_feedback cached);
    mret (last_n limit cached).

Definition REACTION_RESPONSE_LIMIT : nat := 10.

Definition get_recent_reactions (env : Env) (key : string * Z) : M (list Reaction.t) :=
  d ← service_day key;
  w ← get_world;
  let entries :=
    if _redis_available w
    then _load_list_entries env w Redis.reactions d
           (Nat.max REACTION_RESPONSE_LIMIT MAX_REACTIONS_STORED)
    else [] in
  if is_nil entries
  then mret (last_n REACTION_RESPONSE_LIMIT (ServiceDay.reaction_stream d))
  else
    _ ← update_service_day key (ServiceDay.set_reaction_stream entries);
    mret (last_n REACTION_RESPONSE_LIMIT entries).

Definition _hydrate_service_day_from_store (env : Env) (w : World) (d : ServiceDay.t)
    : ServiceDay.t :=
  if _redis_available w then
    let reactions := _load_list_entries env w Redis.reactions d MAX_REACTIONS_STORED in
    let d := if is_nil reactions then d else ServiceDay.set_reaction_stream reactions d in
    let scores_raw := _load_list_entries env w Redis.scores d FEEDBACK_SCORE_HISTORY_LIMIT in
    let d := if is_nil scores_raw then d else ServiceDay.set_feedback_scores scores_raw d in
    let detailed_entries :=
      _load_list_entries env w Redis.detailed_feedback d DETAILED_FEEDBACK_HISTORY_LIMIT in
    if is_nil detailed_entries then d else ServiceDay.set_detailed_feedback detailed_entries d
  else d.

(** The session [get_or_create_service_day] builds: the values of
    [SERVICE_DAY_PRESETS] for the default site, the fallbacks of
    [preset.get] for any other id. *)
Definition new_service_day (site_id : string) (today : Z) : ServiceDay.t :=
  if String.eqb site_id DEFAULT_SITE_ID then
    {| ServiceDay.site_id := site_id; ServiceDay.date := today;
       ServiceDay.total_expected_diners := 360;
       ServiceDay.diners_so_far := 148;
       ServiceDay.wave_index := 2;
       ServiceDay.pan_fill_percent := 46;
       ServiceDay.feedback_scores := [3; 3; 2; 3; 3; 1; 3; 2; 3; 2; 3; 3];
       ServiceDay.detailed_feedback := [];
       ServiceDay.reaction_stream := [];
       ServiceDay.last_decision := None |}
  else
    {| ServiceDay.site_id := site_id; ServiceDay.date := today;
       ServiceDay.total_expected_diners := 120;
       ServiceDay.diners_so_far := 0;
       ServiceDay.wave_index := 0;
       ServiceDay.pan_fill_percent := 60;
       ServiceDay.feedback_scores := [];
       ServiceDay.detailed_feedback := [];
       ServiceDay.reaction_stream := [];
       ServiceDay.last_decision := None |}.

(** Returns the key under which the session lives in [SERVICE_DAYS]. *)
Definition get_or_create_service_day (env : Env) (site_id : string) : M (string * Z) :=
  let key := (site_id, today env) in
  w ← get_world;
  match SERVICE_DAYS w !! key with
  | Some _ => mret key
  | None =>
      let d := _hydrate_service_day_from_store env w (new_service_day site_id (today env)) in
      _ ← put_world {| SERVICE_DAYS := <[key := d]> (SERVICE_DAYS w);
                       REDIS_CLIENT := REDIS_CLIENT w |};
      mret key
  end.

Definition append_reaction_entry (env : Env) (key : string * Z)
    (response_key value source : string) : M unit :=
  let reaction :=
    {| Reaction.response_key := response_key; Reaction.value := value;
       Reaction.source := source |} in
  _ ← update_service_day key (fun d =>
        let l := ServiceDay.reaction_stream d ++ [reaction] in
        ServiceDay.set_reaction_stream
          (if (MAX_REACTIONS_STORED <? length l)%nat then last_n MAX_REACTIONS_STORED l else l) d);
  d ← service_day key;
  _persist_reaction env d reaction.

(** ** Decision lifecycle *)

(** [payload.get(k)]: an absent key and a JSON [null] both give [None]. *)
Definition payload_get (payload : gmap string Json) (k : string) : option Json :=
  match payload !! k with
  | Some JsNull | None => None
  | Some v => Some v
  end.

(** The fields of the state dictionary the claims read; [feedback_multiplier]
    is kept before its display rounding. *)
Module StateSnapshot.
Record t := {
  diners_so_far : Z;
  wave_index : Z;
  predicted_diners_next_wave : Z;
  suggested_grams : Z;
  pan_fill_percent : Z;
  satisfaction_percent : option Z;
  feedback_multiplier : float;
  last_decision : DecisionCard.t;
  signal_level : SignalLevel;
}.
End StateSnapshot.

(** The JSON answers of the routes: [RInvalid] is the 400 answer,
    [RStale] the 409 "stale decision" answer. *)
Inductive Response :=
| RState (state : StateSnapshot.t)
| RDiners (diners_so_far : Z)
| RRating (rating : Z)
| RTotal (total : nat)
| RPan (pan_fill_percent : Z)
| RStatus (status : Status)
| RReset
| RInvalid
| RStale.

Section Engine.
Context `{B : Builtins}.

(** [str(v)] and [int(v)] on a JSON value: [int] cuts a float toward zero
    and raises on NaN, an infinity, [None], a list and an object. *)
Definition json_str (v : Json) : string :=
  match v with
  | JsStr s => s
  | _ => json_repr v
  end.

Definition json_int (v : Json) : option Z :=
  match v with
  | JsInt z => Some z
  | JsBool b => Some (if b then 1 else 0)
  | JsFloat f => Py.int_of_float f
  | JsStr s => int_of_str s
  | JsNull | JsList _ | JsObj _ => None
  end.

(** [get_matching_decision]: the outer [option] is the exception of a
    wave index [int()] rejects, the inner one the card or [None]. *)
Definition get_matching_decision (d : ServiceDay.t) (payload : gmap string Json)
    : option (option DecisionCard.t) :=
  match ServiceDay.last_decision d with
  | None => Some None
  | Some card =>
      if decide (payload = ∅) then Some (Some card)
      else
        wave_ok ←
          match payload_get payload "decision_wave_index" with
          | Some wave_idx =>
              i ← json_int wave_idx;
              Some (DecisionCard.wave_index card =? i)
          | None => Some true
          end;
        if negb wave_ok then Some None
        else
          let ts_ok :=
            match payload_get payload "decision_timestamp" with
            | Some (JsStr ts) => String.eqb ts (DecisionCard.timestamp card)
            | Some _ => false
            | None => true
            end in
          if negb ts_ok then Some None
          else
            let slot_ok :=
              match payload_get payload "service_slot" with
              | Some slot => String.eqb (DecisionCard.service_slot card) (json_str slot)
              | None => true
              end in
            if negb slot_ok then Some None else Some (Some card)
  end.

(** ** Recomputation *)

(** The dish, the menu day and the wave come with the request environment;
    [served_pct] is computed for its exception only, the [OverflowError] of
    a quotient too large for a float. *)
Definition compute_current_state (env : Env) (site_id : string) : M StateSnapshot.t :=
  let site := get_site_config site_id in
  key ← get_or_create_service_day env site_id;
  _ ← update_service_day key (ServiceDay.set_wave_index (target_wave_idx env));
  feedback_scores ← get_feedback_scores env key;
  detailed_entries ← get_detailed_feedback_entries env key DETAILED_FEEDBACK_HISTORY_LIMIT;
  feedback_multiplier ←
    lift (compute_feedback_demand_multiplier (utcnow env) feedback_scores detailed_entries);
  d ← service_day key;
  predicted ←
    (if negb (lunch_finished env) || DEMO_MODE env
     then lift (predict_next_wave (weekday env) d (target_wave_idx env) feedback_multiplier)
     else mret 0);
  let diners_remaining :=
    Z.max (ServiceDay.total_expected_diners d - ServiceDay.diners_so_far d) 0 in
  let predicted :=
    if DEMO_MODE env then
      let predicted :=
        if lunch_finished env && negb (diners_remaining =? 0)
        then Z.max predicted (Z.min (Z.max (diners_remaining / 3) 14) 40)
        else predicted in
      if (predicted <=? 0) && negb (diners_remaining =? 0)
      then Z.max 12 (Z.min diners_remaining 32)
      else predicted
    else predicted in
  _ ← (if DEMO_MODE env && (75 <=? ServiceDay.pan_fill_percent d)
       then update_service_day key
              (ServiceDay.set_pan_fill_percent (Z.max 45 (ServiceDay.pan_fill_percent d - 20)))
       else mret tt);
  d ← service_day key;
  suggested_grams ←
    lift (compute_suggested_grams predicted (ServiceDay.pan_fill_percent d)
            (SiteConfig.portion_grams site) (SiteConfig.pan_capacity_portions site));
  satisfaction ← lift (compute_satisfaction_percent feedback_scores);
  suggested_portions ←
    (if SiteConfig.portion_grams site =? 0 then mret (PInt 0)
     else lift (Py.truediv (PInt suggested_grams) (PInt (SiteConfig.portion_grams site))));
  _ ← (if ServiceDay.total_expected_diners d =? 0 then mret (PInt 0)
       else lift (served ← Py.truediv (PInt (ServiceDay.diners_so_far d))
                             (PInt (ServiceDay.total_expected_diners d));
                  Py.mul served (PInt 100)));
  let status :=
    match ServiceDay.last_decision d with
    | Some last =>
        if DecisionCard.wave_index last =? target_wave_idx env
        then DecisionCard.status last else pending
    | None => pending
    end in
  let service_slot := default PRIMARY_SERVICE_SLOT (menu_service_slot env) in
  let card :=
    {| DecisionCard.wave_index := target_wave_idx env;
       DecisionCard.timestamp := now_iso env;
       DecisionCard.predicted_diners_next_wave := predicted;
       DecisionCard.suggested_grams := suggested_grams;
       DecisionCard.pan_fill_percent := ServiceDay.pan_fill_percent d;
       DecisionCard.satisfaction_percent := satisfaction;
       DecisionCard.suggested_portions := suggested_portions;
       DecisionCard.service_slot := service_slot;
       DecisionCard.status := status |} in
  _ ← update_service_day key (ServiceDay.set_last_decision (Some card));
  _ ← get_recent_reactions env key;
  mret {| StateSnapshot.diners_so_far := ServiceDay.diners_so_far d;
          StateSnapshot.wave_index := target_wave_idx env;
          StateSnapshot.predicted_diners_next_wave := predicted;
          StateSnapshot.suggested_grams := suggested_grams;
          StateSnapshot.pan_fill_percent := ServiceDay.pan_fill_percent d;
          StateSnapshot.satisfaction_percent := satisfaction;
          StateSnapshot.feedback_multiplier := feedback_multiplier;
          StateSnapshot.last_decision := card;
          StateSnapshot.signal_level :=
            signal_level suggested_grams (ServiceDay.pan_fill_percent d) |}.

(** ** Routes *)

Definition api_state (env : Env) (site_id : string) : M Response :=
  state ← compute_current_state env site_id;
  mret (RState state).

(** [data] is the JSON object of the request body, [{}] when the body is
    empty or no JSON; [int()] raises on a delta it cannot read. *)
Definition api_increment_diner (env : Env) (site_id : string) (data : gmap string Json)
    : M Response :=
  key ← get_or_create_service_day env site_id;
  d ← service_day key;
  delta ← lift (json_int (default (JsInt 1) (data !! "delta")));
  let total := Z.max (ServiceDay.diners_so_far d + delta) 0 in
  _ ← update_service_day key (ServiceDay.set_diners_so_far total);
  mret (RDiners total).

(** [data] is the JSON object of the request body; [int()] raises on a
    rating it cannot read. *)
Definition api_feedback (env : Env) (site_id : string) (data : gmap string Json)
    : M Response :=
  key ← get_or_create_service_day env site_id;
  rating ← lift (json_int (default (JsInt 0) (data !! "rating")));
  if (rating =? 1) || (rating =? 2) || (rating =? 3) then
    _ ← update_service_day key (fun d =>
          ServiceDay.set_feedback_scores
            (last_n 100 (ServiceDay.feedback_scores d ++ [rating])) d);
    d ← service_day key;
    _ ← _persist_feedback_score env d rating;
    _ ← append_reaction_entry env key "lunch_pulse" (str_of_int rating) "quick";
    mret (RRating rating)
  else mret RInvalid.

(** [responses] is [None] when the body holds no dict under that key. *)
Definition api_feedback_extended (env : Env) (site_id : string) (question_set : string)
    (responses : option (list (string * string))) : M Response :=
  key ← get_or_create_service_day env site_id;
  match responses with
  | None | Some [] => mret RInvalid
  | Some responses =>
      let entry :=
        {| FeedbackEntry.question_set := question_set;
           FeedbackEntry.timestamp := Some (utcnow_iso env);
           FeedbackEntry.responses := responses |} in
      _ ← update_service_day key (fun d =>
            ServiceDay.set_detailed_feedback
              (last_n 400 (ServiceDay.detailed_feedback d ++ [entry])) d);
      d ← service_day key;
      _ ← _persist_detailed_feedback env d entry;
      _ ← foldr (fun kv rest => _ ← append_reaction_entry env key kv.1 kv.2 "extended"; rest)
            (mret tt) responses;
      entries ← get_detailed_feedback_entries env key DETAILED_FEEDBACK_HISTORY_LIMIT;
      mret (RTotal (length entries))
  end.

(** [card] is the object [last_decision] holds, so setting its status
    changes the session. *)
Definition api_done (env : Env) (site_id : string) (payload : gmap string Json)
    : M Response :=
  let site := get_site_config site_id in
  key ← get_or_create_service_day env site_id;
  d ← service_day key;
  card ← lift (get_matching_decision d payload);
  match card with
  | None => mret RStale
  | Some card =>
      pan ← lift (adjust_pan_after_refill (ServiceDay.pan_fill_percent d)
                    (DecisionCard.suggested_grams card)
                    (SiteConfig.portion_grams site) (SiteConfig.pan_capacity_portions site));
      _ ← update_service_day key (ServiceDay.set_pan_fill_percent pan);
      _ ← update_service_day key
            (ServiceDay.set_last_decision (Some (DecisionCard.set_status done_ card)));
      mret (RPan pan)
  end.

Definition api_skip (env : Env) (site_id : string) (payload : gmap string Json)
    : M Response :=
  key ← get_or_create_service_day env site_id;
  d ← service_day key;
  card ← lift (get_matching_decision d payload);
  match card with
  | None => mret RStale
  | Some card =>
      _ ← update_service_day key
            (ServiceDay.set_last_decision (Some (DecisionCard.set_status skipped card)));
      mret (RStatus skipped)
  end.

Definition pop_service_day (key : string * Z) : M (option ServiceDay.t) :=
  fun w => ({| SERVICE_DAYS := delete key (SERVICE_DAYS w);
               REDIS_CLIENT := REDIS_CLIENT w |}, Some (SERVICE_DAYS w !! key)).

Definition api_reset_day (env : Env) (site_id : string) : M Response :=
  let key := (site_id, today env) in
  popped ← pop_service_day key;
  d ← match popped with
      | Some d => mret d
      | None => k ← get_or_create_service_day env site_id; service_day k
      end;
  _ ← _clear_service_day_storage env d;
  _ ← pop_service_day key;
  mret RReset.

(** The operations the engine exposes. *)
Inductive Op :=
| OpState
| OpIncrement (data : gmap string Json)
| OpFeedback (data : gmap string Json)
| OpFeedbackExtended (question_set : string) (responses : option (list (string * string)))
| OpDone (payload : gmap string Json)
| OpSkip (payload : gmap string Json)
| OpReset.

Definition run_op (env : Env) (site_id : string) (op : Op) : M Response :=
  match op with
  | OpState => api_state env site_id
  | OpIncrement data => api_increment_diner env site_id data
  | OpFeedback data => api_feedback env site_id data
  | OpFeedbackExtended qs responses => api_feedback_extended env site_id qs responses
  | OpDone payload => api_done env site_id payload
  | OpSkip payload => api_skip env site_id payload
  | OpReset => api_reset_day env site_id
  end.

End Engine.

(** * More of the engine

    The functions below are embedded for the further properties at the end
    of the file. *)

(** ** Wave schedule *)

(** A [datetime.time] is its count of microseconds since midnight, a
    [datetime.datetime] its count of microseconds since the start of day 1
    (January 1 of year 1), and a [datetime.date] its proleptic Gregorian
    ordinal; the last day is December 31 of year 9999. *)
Definition MICROSECONDS_PER_DAY : Z := 86400000000.
Definition MAX_ORDINAL : Z := 3652059.

Definition time_of_hm (hour minute : Z) : Z := (hour * 60 + minute) * 60 * 1000000.

(** [datetime.combine(day, t)]. *)
Definition datetime_combine (day t : Z) : Z := (day - 1) * MICROSECONDS_PER_DAY + t.

(** [dt.time()]. *)
Definition datetime_time (dt : Z) : Z := dt mod MICROSECONDS_PER_DAY.

(** [dt + timedelta(minutes=m)]: [OverflowError] outside years 1 to 9999. *)
Definition datetime_add_minutes (dt m : Z) : option Z :=
  let r := dt + timedelta_minutes m in
  if (0 <=? r) && (r <? MAX_ORDINAL * MICROSECONDS_PER_DAY) then Some r else None.

(** The schedule fields of [SiteConfig]. *)
Module SiteSchedule.
Record t := {
  lunch_window_start : Z;
  lunch_window_end : Z;
  wave_duration_minutes : Z;
}.
End SiteSchedule.

(** The schedule of the one entry of [SITES]: 11:00 to 13:30 in waves of
    30 minutes. *)
Definition flavoria_schedule : SiteSchedule.t :=
  {| SiteSchedule.lunch_window_start := time_of_hm 11 0;
     SiteSchedule.lunch_window_end := time_of_hm 13 30;
     SiteSchedule.wave_duration_minutes := 30 |}.

(** [WaveState], without the two counts that are never filled in. *)
Module WaveState.
Record t := {
  index : Z;
  start_time : Z;
  end_time : Z;
  expected_diners_pattern : Z;
}.
End WaveState.

(** The [while] loop of [get_wave_template], one round per item left of
    [expected_pattern]. *)
Fixpoint wave_loop (end_ : Z) (duration : Z) (pattern : list Z) (idx : Z) (current : Z)
    : option (list WaveState.t) :=
  match pattern with
  | [] => Some []
  | expected :: pattern' =>
      if datetime_time current <? datetime_time end_ then
        next_slot ← datetime_add_minutes current duration;
        waves ← wave_loop end_ duration pattern' (idx + 1) next_slot;
        Some ({| WaveState.index := idx;
                 WaveState.start_time := datetime_time current;
                 WaveState.end_time := datetime_time next_slot;
                 WaveState.expected_diners_pattern := expected |} :: waves)
      else Some []
  end.

(** [get_wave_template]; [today] is [date.today()]. *)
Definition get_wave_template (today : Z) (site : SiteSchedule.t) : option (list WaveState.t) :=
  let current := datetime_combine today (SiteSchedule.lunch_window_start site) in
  let end_ := datetime_combine today (SiteSchedule.lunch_window_end site) in
  wave_loop end_ (SiteSchedule.wave_duration_minutes site) EXPECTED_WAVES 0 current.

(** [get_current_wave_index]: [None] also for the [IndexError] of an empty
    template. *)
Definition get_current_wave_index (today now : Z) (site : SiteSchedule.t) : option Z :=
  waves ← get_wave_template today site;
  match List.find (fun wave => (WaveState.start_time wave <=? now)
                               && (now <? WaveState.end_time wave)) waves with
  | Some wave => Some (WaveState.index wave)
  | None =>
      first ← head waves;
      if now <? WaveState.start_time first then Some (WaveState.index first)
      else WaveState.index <$> last waves
  end.

(** The wave [compute_current_state] prepares for, with [lunch_finished];
    [session_waves] is [service_day.waves]. *)
Definition schedule_target (today now : Z) (site : SiteSchedule.t)
    (session_waves : list WaveState.t) : option (Z * bool) :=
  waves ← (if is_nil session_waves then get_wave_template today site
           else Some session_waves);
  current_wave_idx ← get_current_wave_index today now site;
  target_wave_idx ←
    match waves with
    | [] => Some current_wave_idx
    | first :: _ =>
        if now <? WaveState.start_time first then Some (WaveState.index first)
        else
          last_wave ← last waves;
          Some (Z.min (current_wave_idx + 1) (WaveState.index last_wave))
    end;
  let lunch_finished := SiteSchedule.lunch_window_end site <=? now in
  Some (target_wave_idx, lunch_finished).

(** ** Menu calendar *)

(** [round(x, ndigits)] on a float, for [ndigits >= 0]: the decimal with
    [ndigits] places nearest to the exact value of [x], ties to even, and
    then the binary64 value nearest to that decimal; an infinity or NaN is
    returned as it is. *)
Definition round_half_even_div (n d : Z) : Z :=
  let q := n / d in
  let r := n mod d in
  match Z.compare (2 * r) d with
  | Lt => q
  | Gt => q + 1
  | Eq => if Z.even q then q else q + 1
  end.

Definition decimal_round (x : spec_float) (ndigits : Z) : spec_float :=
  match x with
  | S754_finite s m e =>
      let scale := 10 ^ ndigits in
      let q :=
        if 0 <=? e then Z.pos m * 2 ^ e * scale
        else round_half_even_div (Z.pos m * scale) (2 ^ (- e)) in
      match q with
      | Zpos p => SFdiv prec emax (S754_finite s p 0) (S754_finite false (Z.to_pos scale) 0)
      | _ => S754_zero s
      end
  | _ => x
  end.

Definition float_round (x : float) (ndigits : Z) : float :=
  SF2Prim (decimal_round (Prim2SF x) ndigits).

Module Dish.
Record t := {
  dish_id : string;
  name : string;
  type : string;
  avg_portion_grams : Z;
  co2_per_kg : float;
  cost_per_kg : float;
}.
End Dish.

Definition mk_dish (dish_id name type : string) (avg_portion_grams : Z)
    (co2_per_kg cost_per_kg : float) : string * Dish.t :=
  (dish_id,
   {| Dish.dish_id := dish_id; Dish.name := name; Dish.type := type;
      Dish.avg_portion_grams := avg_portion_grams;
      Dish.co2_per_kg := co2_per_kg; Dish.cost_per_kg := cost_per_kg |}).

Definition DISHES : list (string * Dish.t) :=
  [ mk_dish "salmon" "Nordic Salmon" "fish" 160 5.4 22.0;
    mk_dish "lentil" "Smoky Lentil Stew" "veg" 180 1.8 6.5;
    mk_dish "chicken" "Herb Chicken" "meat" 170 4.1 16.0;
    mk_dish "pasta" "Autumn Veggie Pasta" "veg" 150 1.2 5.2;
    mk_dish "cod" "Citrus Cod" "fish" 155 4.8 19.0;
    mk_dish "tofu" "Gochujang Tofu Bowl" "veg" 170 1.6 7.8;
    mk_dish "risotto" "Porcini Risotto" "veg" 180 2.3 9.4;
    mk_dish "beef" "Slow Cooked Beef" "meat" 190 6.2 25.5;
    mk_dish "curry" "Coconut Pumpkin Curry" "veg" 165 1.5 6.9;
    mk_dish "pea_soup" "Smoked Pea Soup" "soup" 320 0.9 3.8;
    mk_dish "tomato_soup" "Roasted Tomato Soup" "soup" 310 0.8 3.4;
    mk_dish "bbq_pork" "BBQ Pulled Pork" "grill" 185 5.9 21.5;
    mk_dish "grill_salmon" "Charred Herb Salmon" "grill" 180 5.7 24.0;
    mk_dish "grill_halloumi" "Halloumi & Veg Skewers" "grill" 165 2.4 12.5;
    mk_dish "wd_salmon" "Weigh&Dine Citrus Salmon" "weigh" 150 4.9 18.5;
    mk_dish "wd_meatballs" "Weigh&Dine Nordic Meatballs" "weigh" 160 4.4 15.8;
    mk_dish "wd_lentil" "Weigh&Dine Lentil Roast" "weigh" 155 1.9 7.2 ]%float.

Definition salmon : Dish.t := (mk_dish "salmon" "Nordic Salmon" "fish" 160 5.4 22.0).2.
Definition lentil : Dish.t := (mk_dish "lentil" "Smoky Lentil Stew" "veg" 180 1.8 6.5).2.

(** [DISHES.get(dish_id, fallback)]. *)
Definition dish_or (fallback : Dish.t) (dish_id : string) : Dish.t :=
  default fallback (dict_get dish_id DISHES).

Module SlotConfig.
Record t := {
  service_slot : string;
  slot_label : string;
  station : string;
  cover_ratio : float;
  min_covers : Z;
  swap_focus : bool;
  status_default : string;
  savings_weight : float;
  planned_kg : float;
  sold_pct : float;
  forecast_pct : float;
  pan_level_base : Z;
  satisfaction_base : Z;
  main_cycle : list string;
  recommended_cycle : list string;
}.
End SlotConfig.

Definition SERVICE_SLOT_CONFIGS : list SlotConfig.t :=
  [ {| SlotConfig.service_slot := "favourite_1"; SlotConfig.slot_label := "Favourite 1";
       SlotConfig.station := "Lunch Line"; SlotConfig.cover_ratio := 0.33;
       SlotConfig.min_covers := 120; SlotConfig.swap_focus := true;
       SlotConfig.status_default := "suggested"; SlotConfig.savings_weight := 1.0;
       SlotConfig.planned_kg := 11.5; SlotConfig.sold_pct := 0.45;
       SlotConfig.forecast_pct := 0.4; SlotConfig.pan_level_base := 48;
       SlotConfig.satisfaction_base := 78;
       SlotConfig.main_cycle := ["salmon"; "beef"; "cod"; "chicken"; "risotto"];
       SlotConfig.recommended_cycle := ["lentil"; "tofu"; "risotto"; "pasta"; "curry"] |};
    {| SlotConfig.service_slot := "favourite_2"; SlotConfig.slot_label := "Favourite 2";
       SlotConfig.station := "Lunch Line"; SlotConfig.cover_ratio := 0.24;
       SlotConfig.min_covers := 90; SlotConfig.swap_focus := true;
       SlotConfig.status_default := "suggested"; SlotConfig.savings_weight := 0.75;
       SlotConfig.planned_kg := 10.0; SlotConfig.sold_pct := 0.38;
       SlotConfig.forecast_pct := 0.34; SlotConfig.pan_level_base := 44;
       SlotConfig.satisfaction_base := 74;
       SlotConfig.main_cycle := ["chicken"; "salmon"; "beef"; "risotto"; "cod"];
       SlotConfig.recommended_cycle := ["pasta"; "lentil"; "tofu"; "curry"; "risotto"] |};
    {| SlotConfig.service_slot := "vegan";
       SlotConfig.slot_label := "From the Field (Vegan)";
       SlotConfig.station := "Lunch Line"; SlotConfig.cover_ratio := 0.18;
       SlotConfig.min_covers := 70; SlotConfig.swap_focus := true;
       SlotConfig.status_default := "suggested"; SlotConfig.savings_weight := 0.65;
       SlotConfig.planned_kg := 9.5; SlotConfig.sold_pct := 0.31;
       SlotConfig.forecast_pct := 0.28; SlotConfig.pan_level_base := 52;
       SlotConfig.satisfaction_base := 82;
       SlotConfig.main_cycle := ["tofu"; "lentil"; "curry"; "pasta"; "risotto"];
       SlotConfig.recommended_cycle := ["lentil"; "risotto"; "tofu"; "curry"; "pasta"] |};
    {| SlotConfig.service_slot := "soup"; SlotConfig.slot_label := "Soup Bowl";
       SlotConfig.station := "Soup Station"; SlotConfig.cover_ratio := 0.14;
       SlotConfig.min_covers := 60; SlotConfig.swap_focus := false;
       SlotConfig.status_default := "monitor"; SlotConfig.savings_weight := 0.45;
       SlotConfig.planned_kg := 13.5; SlotConfig.sold_pct := 0.26;
       SlotConfig.forecast_pct := 0.24; SlotConfig.pan_level_base := 58;
       SlotConfig.satisfaction_base := 80;
       SlotConfig.main_cycle :=
         ["pea_soup"; "tomato_soup"; "pea_soup"; "tomato_soup"; "pea_soup"];
       SlotConfig.recommended_cycle :=
         ["tomato_soup"; "lentil"; "pea_soup"; "curry"; "pea_soup"] |};
    {| SlotConfig.service_slot := "grill"; SlotConfig.slot_label := "Grill";
       SlotConfig.station := "Grill"; SlotConfig.cover_ratio := 0.08;
       SlotConfig.min_covers := 45; SlotConfig.swap_focus := false;
       SlotConfig.status_default := "monitor"; SlotConfig.savings_weight := 0.55;
       SlotConfig.planned_kg := 12.0; SlotConfig.sold_pct := 0.29;
       SlotConfig.forecast_pct := 0.26; SlotConfig.pan_level_base := 62;
       SlotConfig.satisfaction_base := 76;
       SlotConfig.main_cycle :=
         ["bbq_pork"; "grill_salmon"; "grill_halloumi"; "bbq_pork"; "grill_salmon"];
       SlotConfig.recommended_cycle :=
         ["grill_halloumi"; "grill_salmon"; "tofu"; "grill_halloumi"; "grill_salmon"] |};
    {| SlotConfig.service_slot := "weigh_protein";
       SlotConfig.slot_label := "Weigh & Dine – Protein";
       SlotConfig.station := "Weigh & Dine"; SlotConfig.cover_ratio := 0.07;
       SlotConfig.min_covers := 40; SlotConfig.swap_focus := false;
       SlotConfig.status_default := "monitor"; SlotConfig.savings_weight := 0.5;
       SlotConfig.planned_kg := 14.0; SlotConfig.sold_pct := 0.24;
       SlotConfig.forecast_pct := 0.22; SlotConfig.pan_level_base := 48;
       SlotConfig.satisfaction_base := 79;
       SlotConfig.main_cycle :=
         ["wd_salmon"; "wd_meatballs"; "bbq_pork"; "wd_salmon"; "wd_meatballs"];
       SlotConfig.recommended_cycle := ["wd_lentil"; "tofu"; "lentil"; "wd_lentil"; "tofu"] |};
    {| SlotConfig.service_slot := "weigh_green";
       SlotConfig.slot_label := "Weigh & Dine – Plant";
       SlotConfig.station := "Weigh & Dine"; SlotConfig.cover_ratio := 0.06;
       SlotConfig.min_covers := 35; SlotConfig.swap_focus := false;
       SlotConfig.status_default := "monitor"; SlotConfig.savings_weight := 0.45;
       SlotConfig.planned_kg := 12.5; SlotConfig.sold_pct := 0.22;
       SlotConfig.forecast_pct := 0.2; SlotConfig.pan_level_base := 55;
       SlotConfig.satisfaction_base := 83;
       SlotConfig.main_cycle := ["wd_lentil"; "pasta"; "curry"; "wd_lentil"; "risotto"];
       SlotConfig.recommended_cycle := ["pasta"; "tofu"; "lentil"; "risotto"; "tofu"] |}
  ]%float.

(** [SLOT_CONFIG_MAP.get(service_slot)]. *)
Definition slot_config (service_slot : string) : option SlotConfig.t :=
  List.find (fun cfg => String.eqb (SlotConfig.service_slot cfg) service_slot)
    SERVICE_SLOT_CONFIGS.

Module MenuTemplate.
Record t := {
  weather : string;
  predicted_covers : Z;
  main : string;
  recommended : string;
  uptake : float;
  savings_kg : float;
  status : string;
}.
End MenuTemplate.

Definition MOCK_MENU_TEMPLATES : list MenuTemplate.t :=
  [ {| MenuTemplate.weather := "Rain 4°C · Gusty"; MenuTemplate.predicted_covers := 360;
       MenuTemplate.main := "salmon"; MenuTemplate.recommended := "lentil";
       MenuTemplate.uptake := 0.58; MenuTemplate.savings_kg := 2.1;
       MenuTemplate.status := "suggested" |};
    {| MenuTemplate.weather := "Cloudy 6°C"; MenuTemplate.predicted_covers := 342;
       MenuTemplate.main := "chicken"; MenuTemplate.recommended := "pasta";
       MenuTemplate.uptake := 0.51; MenuTemplate.savings_kg := 1.6;
       MenuTemplate.status := "suggested" |};
    {| MenuTemplate.weather := "Sleet 2°C · Wind"; MenuTemplate.predicted_covers := 328;
       MenuTemplate.main := "beef"; MenuTemplate.recommended := "tofu";
       MenuTemplate.uptake := 0.47; MenuTemplate.savings_kg := 2.4;
       MenuTemplate.status := "approved" |};
    {| MenuTemplate.weather := "Sun 9°C"; MenuTemplate.predicted_covers := 355;
       MenuTemplate.main := "cod"; MenuTemplate.recommended := "risotto";
       MenuTemplate.uptake := 0.62; MenuTemplate.savings_kg := 1.2;
       MenuTemplate.status := "ignored" |};
    {| MenuTemplate.weather := "Showers 5°C"; MenuTemplate.predicted_covers := 330;
       MenuTemplate.main := "beef"; MenuTemplate.recommended := "curry";
       MenuTemplate.uptake := 0.49; MenuTemplate.savings_kg := 2.8;
       MenuTemplate.status := "suggested" |};
    {| MenuTemplate.weather := "Drizzle 7°C"; MenuTemplate.predicted_covers := 318;
       MenuTemplate.main := "salmon"; MenuTemplate.recommended := "tofu";
       MenuTemplate.uptake := 0.53; MenuTemplate.savings_kg := 1.4;
       MenuTemplate.status := "approved" |};
    {| MenuTemplate.weather := "Frost -1°C"; MenuTemplate.predicted_covers := 296;
       MenuTemplate.main := "chicken"; MenuTemplate.recommended := "risotto";
       MenuTemplate.uptake := 0.44; MenuTemplate.savings_kg := 1.9;
       MenuTemplate.status := "ignored" |} ]%float.

(** [if v:] on such a value. *)
Definition json_truthy (v : Json) : bool :=
  match v with
  | JsNull => false
  | JsBool b => b
  | JsInt z => negb (z =? 0)
  | JsFloat f => negb (PrimFloat.is_zero f)
  | JsStr s => negb (String.eqb s "")
  | JsList l => negb (is_nil l)
  | JsObj items => negb (is_nil items)
  end.

(** [MenuDay]: [date] is the ordinal of the day; [weather] and [station]
    hold a string or [None] in a generated row and whatever value the menu
    file gave in a loaded one. *)
Module MenuDay.
Record t := {
  date : Z;
  weather : Json;
  predicted_covers : Z;
  main_dish_planned : Dish.t;
  recommended_dish : Dish.t;
  service_slot : string;
  slot_label : string;
  station : Json;
  uptake_if_kept : float;
  suggested_swap_savings_kg : float;
  suggested_swap_savings_eur : float;
  swap_status : string;
  additional_dishes : list Dish.t;
}.

Definition set_swap_status (v : string) (m : t) : t :=
  {| date := date m; weather := weather m; predicted_covers := predicted_covers m;
     main_dish_planned := main_dish_planned m; recommended_dish := recommended_dish m;
     service_slot := service_slot m; slot_label := slot_label m; station := station m;
     uptake_if_kept := uptake_if_kept m;
     suggested_swap_savings_kg := suggested_swap_savings_kg m;
     suggested_swap_savings_eur := suggested_swap_savings_eur m;
     swap_status := v; additional_dishes := additional_dishes m |}.

Definition set_additional_dishes (v : list Dish.t) (m : t) : t :=
  {| date := date m; weather := weather m; predicted_covers := predicted_covers m;
     main_dish_planned := main_dish_planned m; recommended_dish := recommended_dish m;
     service_slot := service_slot m; slot_label := slot_label m; station := station m;
     uptake_if_kept := uptake_if_kept m;
     suggested_swap_savings_kg := suggested_swap_savings_kg m;
     suggested_swap_savings_eur := suggested_swap_savings_eur m;
     swap_status := swap_status m; additional_dishes := v |}.
End MenuDay.

(** [start_date + timedelta(days=offset)]: [OverflowError] outside years 1
    to 9999. *)
Definition date_add_days (day offset : Z) : option Z :=
  let r := day + offset in
  if (1 <=? r) && (r <=? MAX_ORDINAL) then Some r else None.

(** [cycle[i % len(cycle)]], with the one-item fallback of
    [slot_cfg.get(key, []) or [fallback]]. *)
Definition cycle_at (cycle : list string) (fallback : string) (i : Z) : option string :=
  let cycle := if is_nil cycle then [fallback] else cycle in
  cycle !! Z.to_nat (i mod Z.of_nat (length cycle)).

(** One round of the inner loop of [generate_menu_plan]: the row of a slot. *)
Definition menu_entry (day offset : Z) (tpl : MenuTemplate.t) (total_predicted : Z)
    (slot_index : Z) (slot_cfg : SlotConfig.t) : option MenuDay.t :=
  main_id ← cycle_at (SlotConfig.main_cycle slot_cfg) "salmon" (offset + slot_index);
  rec_id ← cycle_at (SlotConfig.recommended_cycle slot_cfg) "lentil" (offset + slot_index);
  let main := dish_or salmon main_id in
  let recommended := dish_or lentil rec_id in
  let ratio := SlotConfig.cover_ratio slot_cfg in
  let min_covers := SlotConfig.min_covers slot_cfg in
  covers ← Py.mul (PInt total_predicted) (PFloat ratio);
  covers ← Py.int covers;
  let slot_covers := Z.max min_covers covers in
  t1 ← Py.mul (PFloat 0.012) (PInt offset);
  t2 ← Py.sub (PFloat (MenuTemplate.uptake tpl)) t1;
  t3 ← Py.mul (PFloat 0.015) (PInt slot_index);
  slot_uptake ← Py.add t2 t3;
  slot_uptake ← Py.to_float (Py.max (PFloat 0.25) (Py.min slot_uptake (PFloat 0.88)));
  let savings_weight := SlotConfig.savings_weight slot_cfg in
  s1 ← Py.mul (PFloat (MenuTemplate.savings_kg tpl)) (PFloat savings_weight);
  s2 ← Py.mul (PFloat 0.04) (PInt offset);
  s3 ← Py.sub s1 s2;
  s4 ← Py.to_float (Py.max (PFloat 0.2) s3);
  let slot_savings := float_round s4 1 in
  let status :=
    if SlotConfig.swap_focus slot_cfg
    then (if offset <? 2 then "suggested" else MenuTemplate.status tpl)
    else SlotConfig.status_default slot_cfg in
  Some {| MenuDay.date := day;
          MenuDay.weather := JsStr (MenuTemplate.weather tpl);
          MenuDay.predicted_covers := slot_covers;
          MenuDay.main_dish_planned := main;
          MenuDay.recommended_dish := recommended;
          MenuDay.service_slot := SlotConfig.service_slot slot_cfg;
          MenuDay.slot_label := SlotConfig.slot_label slot_cfg;
          MenuDay.station :=
            (if String.eqb (SlotConfig.station slot_cfg) "" then JsNull
             else JsStr (SlotConfig.station slot_cfg));
          MenuDay.uptake_if_kept := slot_uptake;
          MenuDay.suggested_swap_savings_kg := slot_savings;
          MenuDay.suggested_swap_savings_eur :=
            float_round (slot_savings * Dish.cost_per_kg main) 1;
          MenuDay.swap_status := status;
          MenuDay.additional_dishes := [] |}.

(** The rows of the slots from [slot_index] on. *)
Fixpoint menu_entries (day offset : Z) (tpl : MenuTemplate.t) (total_predicted : Z)
    (slot_index : Z) (slots : list SlotConfig.t) : option (list MenuDay.t) :=
  match slots with
  | [] => Some []
  | slot_cfg :: slots' =>
      entry ← menu_entry day offset tpl total_predicted slot_index slot_cfg;
      rest ← menu_entries day offset tpl total_predicted (slot_index + 1) slots';
      Some (entry :: rest)
  end.

(** The first row of the primary slot gets the main dishes of the other
    rows of the day. *)
Fixpoint set_primary_additional (all_entries : list MenuDay.t) (before after : list MenuDay.t)
    : list MenuDay.t :=
  match after with
  | [] => all_entries
  | entry :: after' =>
      if String.eqb (MenuDay.service_slot entry) PRIMARY_SERVICE_SLOT
      then before
           ++ MenuDay.set_additional_dishes
                (map MenuDay.main_dish_planned (before ++ after')) entry
           :: after'
      else set_primary_additional all_entries (before ++ [entry]) after'
  end.

(** One round of the outer loop: the rows of the day at [offset]. *)
Definition menu_day_entries (start_date offset : Z) : option (list MenuDay.t) :=
  day ← date_add_days start_date offset;
  tpl ← MOCK_MENU_TEMPLATES
        !! Z.to_nat (offset mod Z.of_nat (length MOCK_MENU_TEMPLATES));
  let cover_baseline := MenuTemplate.predicted_covers tpl in
  let trend_adjustment := offset * 6 in
  let total_predicted := Z.max 240 (cover_baseline - trend_adjustment) in
  day_entries ← menu_entries day offset tpl total_predicted 0 SERVICE_SLOT_CONFIGS;
  Some (set_primary_additional day_entries [] day_entries).

(** The offsets [offset], [offset + 1], ... of [range(days)], [n] of them. *)
Fixpoint menu_plan_from (start_date : Z) (n : nat) (offset : Z) : option (list MenuDay.t) :=
  match n with
  | O => Some []
  | S n' =>
      day_entries ← menu_day_entries start_date offset;
      rest ← menu_plan_from start_date n' (offset + 1);
      Some (day_entries ++ rest)
  end.

(** [generate_menu_plan]; the site id is not used. *)
Definition generate_menu_plan (site_id : string) (start_date days : Z)
    : option (list MenuDay.t) :=
  menu_plan_from start_date (Z.to_nat days) 0.

(** The library functions of the menu calendar: [date.isoformat()],
    [datetime.fromisoformat(s).date()] ([None] where Python raises
    [ValueError]), [str.lower()], the characters of a string, the two
    [strftime] formats and the two float formats of the f-strings. *)
Class MenuBuiltins := {
  date_isoformat : Z -> string;
  date_fromisoformat : string -> option Z;
  str_lower : string -> string;
  str_chars : string -> list string;
  strftime_A_d_b : Z -> string;
  strftime_a_d_b : Z -> string;
  format_1f : float -> string;
  format_0f : float -> string;
}.

Definition MENU_DATA_VERSION : Z := 3.

Section MenuCalendar.
Context `{B : Builtins} `{MB : MenuBuiltins}.

(** [float(v)] on a JSON value. *)
Definition json_float (v : Json) : option float :=
  match v with
  | JsFloat f => Some f
  | JsInt z => Py.float_of_int z
  | JsBool b => Some (if b then 1.0 else 0.0)%float
  | JsStr s => float_of_str s
  | JsNull | JsList _ | JsObj _ => None
  end.

(** The items [for x in v] goes through; [TypeError] on a value that is
    not iterable. *)
Definition json_iter (v : Json) : option (list Json) :=
  match v with
  | JsList l => Some l
  | JsStr s => Some (JsStr <$> str_chars s)
  | JsObj items => Some ((fun kv => JsStr kv.1) <$> items)
  | JsNull | JsBool _ | JsInt _ | JsFloat _ => None
  end.

Definition menu_day_to_dict (menu : MenuDay.t) : Json :=
  JsObj
    [ ("date", JsStr (date_isoformat (MenuDay.date menu)));
      ("weather", MenuDay.weather menu);
      ("predicted_covers", JsInt (MenuDay.predicted_covers menu));
      ("main_dish_id", JsStr (Dish.dish_id (MenuDay.main_dish_planned menu)));
      ("recommended_dish_id", JsStr (Dish.dish_id (MenuDay.recommended_dish menu)));
      ("service_slot", JsStr (MenuDay.service_slot menu));
      ("slot_label", JsStr (MenuDay.slot_label menu));
      ("station", MenuDay.station menu);
      ("uptake_if_kept", JsFloat (MenuDay.uptake_if_kept menu));
      ("suggested_swap_savings_kg", JsFloat (MenuDay.suggested_swap_savings_kg menu));
      ("suggested_swap_savings_eur", JsFloat (MenuDay.suggested_swap_savings_eur menu));
      ("swap_status", JsStr (MenuDay.swap_status menu));
      ("additional_dish_ids",
       JsList ((fun dish => JsStr (Dish.dish_id dish)) <$> MenuDay.additional_dishes menu)) ].

(** [str(v).lower() or fallback]. *)
Definition lower_or (fallback : string) (v : Json) : string :=
  let s := str_lower (json_str v) in
  if String.eqb s "" then fallback else s.

(** [menu_day_from_dict]: [None] for the [AttributeError] of a payload that
    is no object, the [KeyError] of a missing date, and the errors of
    [fromisoformat], [int] and [float]. *)
Definition menu_day_from_dict (payload : Json) : option MenuDay.t :=
  match payload with
  | JsObj items =>
      let get (k : string) (fallback : Json) := default fallback (dict_get k items) in
      let main_id := lower_or "salmon" (get "main_dish_id" (JsStr "")) in
      let rec_id := lower_or "lentil" (get "recommended_dish_id" (JsStr "")) in
      let main_dish := dish_or salmon main_id in
      let recommended_dish := dish_or lentil rec_id in
      day ← match dict_get "date" items with
            | Some (JsStr s) => date_fromisoformat s
            | _ => None
            end;
      additional_ids ← json_iter (get "additional_dish_ids" (JsList []));
      let additional_dishes :=
        (fun did => dish_or lentil (str_lower (json_str did))) <$> additional_ids in
      let service_slot := json_str (get "service_slot" (JsStr PRIMARY_SERVICE_SLOT)) in
      let cfg := slot_config service_slot in
      let slot_label :=
        let v := get "slot_label" JsNull in
        if json_truthy v then v
        else JsStr (match cfg with
                    | Some cfg => SlotConfig.slot_label cfg
                    | None => "Favourite 1"
                    end) in
      let station :=
        let v := get "station" JsNull in
        if json_truthy v then v
        else match cfg with
             | Some cfg => JsStr (SlotConfig.station cfg)
             | None => JsNull
             end in
      predicted_covers ← json_int (get "predicted_covers" (JsInt 0));
      uptake_if_kept ← json_float (get "uptake_if_kept" (JsFloat 0.0));
      savings_kg ← json_float (get "suggested_swap_savings_kg" (JsFloat 0.0));
      savings_eur ← json_float (get "suggested_swap_savings_eur" (JsFloat 0.0));
      Some {| MenuDay.date := day;
              MenuDay.weather := get "weather" JsNull;
              MenuDay.predicted_covers := predicted_covers;
              MenuDay.main_dish_planned := main_dish;
              MenuDay.recommended_dish := recommended_dish;
              MenuDay.service_slot := service_slot;
              MenuDay.slot_label := json_str slot_label;
              MenuDay.station := station;
              MenuDay.uptake_if_kept := uptake_if_kept;
              MenuDay.suggested_swap_savings_kg := savings_kg;
              MenuDay.suggested_swap_savings_eur := savings_eur;
              MenuDay.swap_status := json_str (get "swap_status" (JsStr "suggested"));
              MenuDay.additional_dishes := additional_dishes |}
  | _ => None
  end.

End MenuCalendar.

(** ** The calendar in memory and on disk *)

(** [data/menu_days.json]: missing, bytes that are no UTF-8 text
    ([UnicodeDecodeError]), text that is no JSON ([JSONDecodeError]), or a
    JSON value. [json.dump] followed by [json.load] gives the value back. *)
Inductive MenuFile :=
| FileMissing
| FileNotText
| FileNotJson
| FileJson (payload : Json).

(** The module globals [MENU_DAYS], [MENU_DAYS_REFRESHED_AT] (dicts, in
    insertion order) and [MENU_DATA_LOADED], and the menu file. *)
Record MenuStore := {
  MENU_DAYS : list (string * list MenuDay.t);
  MENU_DAYS_REFRESHED_AT : list (string * option Z);
  MENU_DATA_LOADED : bool;
  MENU_DATA_FILE : MenuFile;
}.

(** [d[k] = v]: a key the dict has keeps its place, a new one goes last. *)
Fixpoint dict_set {A} (k : string) (v : A) (d : list (string * A)) : list (string * A) :=
  match d with
  | [] => [(k, v)]
  | (k', v') :: rest =>
      if String.eqb k k' then (k, v) :: rest else (k', v') :: dict_set k v rest
  end.

(** The keys of [SITES]. *)
Definition SITE_IDS : list string := [DEFAULT_SITE_ID].

(** State passing with exceptions over the calendar. *)
Definition MM (A : Type) : Type := MenuStore -> MenuStore * option A.

#[global] Instance MM_ret : MRet MM := fun _ a s => (s, Some a).
#[global] Instance MM_bind : MBind MM := fun _ _ f m s =>
  match m s with
  | (s', Some a) => f a s'
  | (s', None) => (s', None)
  end.

Definition mm_lift {A} (o : option A) : MM A := fun s => (s, o).
Definition mm_get : MM MenuStore := fun s => (s, Some s).

Definition set_menu_days (site_id : string) (rows : list MenuDay.t) : MM unit :=
  fun s =>
    ({| MENU_DAYS := dict_set site_id rows (MENU_DAYS s);
        MENU_DAYS_REFRESHED_AT := MENU_DAYS_REFRESHED_AT s;
        MENU_DATA_LOADED := MENU_DATA_LOADED s;
        MENU_DATA_FILE := MENU_DATA_FILE s |}, Some tt).

Definition set_refreshed_at (site_id : string) (day : option Z) : MM unit :=
  fun s =>
    ({| MENU_DAYS := MENU_DAYS s;
        MENU_DAYS_REFRESHED_AT := dict_set site_id day (MENU_DAYS_REFRESHED_AT s);
        MENU_DATA_LOADED := MENU_DATA_LOADED s;
        MENU_DATA_FILE := MENU_DATA_FILE s |}, Some tt).

Definition set_loaded : MM unit :=
  fun s =>
    ({| MENU_DAYS := MENU_DAYS s;
        MENU_DAYS_REFRESHED_AT := MENU_DAYS_REFRESHED_AT s;
        MENU_DATA_LOADED := true;
        MENU_DATA_FILE := MENU_DATA_FILE s |}, Some tt).

Definition write_menu_file (data : Json) : MM unit :=
  fun s =>
    ({| MENU_DAYS := MENU_DAYS s;
        MENU_DAYS_REFRESHED_AT := MENU_DAYS_REFRESHED_AT s;
        MENU_DATA_LOADED := MENU_DATA_LOADED s;
        MENU_DATA_FILE := FileJson data |}, Some tt).

(** [MENU_DAYS.get(site_id, [])] and [MENU_DAYS_REFRESHED_AT.get(site_id)]. *)
Definition menu_rows (site_id : string) (s : MenuStore) : list MenuDay.t :=
  default [] (dict_get site_id (MENU_DAYS s)).

Definition refreshed_at (site_id : string) (s : MenuStore) : option Z :=
  mjoin (dict_get site_id (MENU_DAYS_REFRESHED_AT s)).

(** [v.get(k, fallback)]: [AttributeError] on a value that is no object. *)
Definition json_get (k : string) (fallback : Json) (v : Json) : option Json :=
  match v with
  | JsObj items => Some (default fallback (dict_get k items))
  | _ => None
  end.

(** [v == n] for an integer [n]. *)
Definition json_eq_int (v : Json) (n : Z) : bool :=
  match v with
  | JsInt z => z =? n
  | JsFloat f => PrimFloat.eqb f (Py.float_of_Z n)
  | JsBool b => (if b then 1 else 0) =? n
  | _ => false
  end.

(** [rows.sort(key=lambda m: (m.date, m.service_slot))]: a stable sort. *)
Definition row_key_le (a b : MenuDay.t) : bool :=
  (MenuDay.date a <? MenuDay.date b)
  || ((MenuDay.date a =? MenuDay.date b)
      && String.leb (MenuDay.service_slot a) (MenuDay.service_slot b)).

Fixpoint insert_by {A} (le : A -> A -> bool) (x : A) (l : list A) : list A :=
  match l with
  | [] => [x]
  | y :: l' => if le x y then x :: l else y :: insert_by le x l'
  end.

Definition sort_by {A} (le : A -> A -> bool) (l : list A) : list A :=
  foldr (insert_by le) [] l.

(** [sorted({row.date for row in rows})]. *)
Fixpoint insert_date (d : Z) (l : list Z) : list Z :=
  match l with
  | [] => [d]
  | y :: l' =>
      if d <? y then d :: l
      else if d =? y then l
      else y :: insert_date d l'
  end.

Definition sorted_dates (rows : list MenuDay.t) : list Z :=
  foldr insert_date [] (MenuDay.date <$> rows).

Section MenuStoreOps.
Context `{B : Builtins} `{MB : MenuBuiltins}.

Definition menu_data (s : MenuStore) : Json :=
  JsObj
    [ ("version", JsInt MENU_DATA_VERSION);
      ("sites",
       JsObj ((fun kv => (kv.1, JsList (menu_day_to_dict <$> kv.2))) <$> MENU_DAYS s));
      ("refreshed_at",
       JsObj ((fun site_id =>
                 (site_id,
                  match refreshed_at site_id s with
                  | Some day => JsStr (date_isoformat day)
                  | None => JsNull
                  end)) <$> SITE_IDS)) ].

Definition persist_menu_days : MM unit :=
  s ← mm_get;
  write_menu_file (menu_data s).

(** The first loop of [load_menu_data], over the sites from [sites] on. *)
Fixpoint load_sites (today : Z) (sites_payload refreshed_map : Json)
    (sites : list string) (ensure_save : bool) : MM bool :=
  match sites with
  | [] => mret ensure_save
  | site_id :: sites' =>
      rows_payload ← mm_lift (json_get site_id (JsList []) sites_payload);
      ensure_save ←
        (if json_truthy rows_payload
         then
           items ← mm_lift (json_iter rows_payload);
           rows ← mm_lift (mapM menu_day_from_dict items);
           _ ← set_menu_days site_id rows;
           mret ensure_save
         else
           rows ← mm_lift (generate_menu_plan site_id today 7);
           _ ← set_menu_days site_id rows;
           mret true);
      refreshed_value ← mm_lift (json_get site_id JsNull refreshed_map);
      _ ← (if json_truthy refreshed_value
           then match refreshed_value with
                | JsStr text => set_refreshed_at site_id (date_fromisoformat text)
                | _ => mm_lift None
                end
           else set_refreshed_at site_id None);
      load_sites today sites_payload refreshed_map sites' ensure_save
  end.

(** The second loop: a fresh week for every site. *)
Fixpoint regenerate_sites (today : Z) (sites : list string) : MM unit :=
  match sites with
  | [] => mret tt
  | site_id :: sites' =>
      rows ← mm_lift (generate_menu_plan site_id today 7);
      _ ← set_menu_days site_id rows;
      _ ← set_refreshed_at site_id (Some today);
      regenerate_sites today sites'
  end.

Definition load_menu_data (today : Z) : MM unit :=
  s ← mm_get;
  if MENU_DATA_LOADED s then mret tt
  else
    ensure_save ←
      match MENU_DATA_FILE s with
      | FileMissing => mret true
      | FileNotText => mm_lift None
      | file =>
          let payload := match file with FileJson payload => payload | _ => JsObj [] end in
          version ← mm_lift (json_get "version" JsNull payload);
          if json_eq_int version MENU_DATA_VERSION
          then
            sites_payload ← mm_lift (json_get "sites" (JsObj []) payload);
            refreshed_map ← mm_lift (json_get "refreshed_at" (JsObj []) payload);
            load_sites today sites_payload refreshed_map SITE_IDS false
          else mret true
      end;
    _ ← (if ensure_save : bool
         then _ ← regenerate_sites today SITE_IDS; persist_menu_days
         else mret tt);
    set_loaded.

Definition ensure_menu_days_current (site_id : string) (today : Z) : MM unit :=
  _ ← load_menu_data today;
  s ← mm_get;
  if bool_decide (refreshed_at site_id s = Some today) then mret tt
  else
    let rows := filter (fun row => today <= MenuDay.date row) (menu_rows site_id s) in
    let rows := sort_by row_key_le rows in
    let existing_dates := sorted_dates rows in
    let needed := 7 - Z.of_nat (length existing_dates) in
    rows ←
      (if 0 <? needed
       then
         start_date ← mm_lift (match last existing_dates with
                               | None => Some today
                               | Some day => date_add_days day 1
                               end);
         more ← mm_lift (generate_menu_plan site_id start_date needed);
         mret (rows ++ more)
       else mret rows);
    let rows := sort_by row_key_le rows in
    _ ← set_menu_days site_id rows;
    _ ← set_refreshed_at site_id (Some today);
    persist_menu_days.

(** [get_current_menu_day]: [target_date = None] stands for today,
    [service_slot = None] for no slot. *)
Definition get_current_menu_day (site_id : string) (today : Z)
    (target_date : option Z) (service_slot : option string) : MM (option MenuDay.t) :=
  _ ← ensure_menu_days_current site_id today;
  s ← mm_get;
  let target := default today target_date in
  let rows := menu_rows site_id s in
  let of_slot :=
    match service_slot with
    | Some slot =>
        if String.eqb slot "" then None
        else List.find (fun menu => (MenuDay.date menu =? target)
                                    && String.eqb (MenuDay.service_slot menu) slot) rows
    | None => None
    end in
  mret (match of_slot with
        | Some menu => Some menu
        | None =>
            match List.find (fun menu => MenuDay.date menu =? target) rows with
            | Some menu => Some menu
            | None => head rows
            end
        end).

Definition get_menu_days_for_date (site_id : string) (today target_date : Z)
    : MM (list MenuDay.t) :=
  _ ← ensure_menu_days_current site_id today;
  s ← mm_get;
  mret (List.filter (fun menu => MenuDay.date menu =? target_date) (menu_rows site_id s)).

(** [service_slot is None or menu.service_slot == service_slot], for the
    value the request body gave. *)
Definition slot_matches (service_slot : Json) (menu : MenuDay.t) : bool :=
  match service_slot with
  | JsNull => true
  | JsStr slot => String.eqb (MenuDay.service_slot menu) slot
  | _ => false
  end.

Definition status_target (target_date : Z) (service_slot : Json) (menu : MenuDay.t) : bool :=
  (MenuDay.date menu =? target_date) && slot_matches service_slot menu.

Definition update_menu_status (site_id : string) (today target_date : Z) (status : string)
    (service_slot : Json) : MM unit :=
  _ ← ensure_menu_days_current site_id today;
  s ← mm_get;
  let rows := menu_rows site_id s in
  let updated := existsb (status_target target_date service_slot) rows in
  if updated
  then
    _ ← set_menu_days site_id
          ((fun menu =>
              if status_target target_date service_slot menu
              then MenuDay.set_swap_status status menu else menu) <$> rows);
    persist_menu_days
  else mret tt.

(** [resolve_display_dish]; [dish_name] and [portion_grams] are the site's. *)
Definition resolve_display_dish (dish_name : string) (portion_grams : Z)
    (site_id : string) (today service_date : Z) : MM (Dish.t * option MenuDay.t) :=
  menu_day ← get_current_menu_day site_id today (Some service_date)
               (Some PRIMARY_SERVICE_SLOT);
  match menu_day with
  | Some menu_day =>
      if String.eqb (MenuDay.swap_status menu_day) "approved"
      then mret (MenuDay.recommended_dish menu_day, Some menu_day)
      else mret (MenuDay.main_dish_planned menu_day, Some menu_day)
  | None =>
      let key := str_lower dish_name in
      match dict_get key DISHES with
      | Some dish => mret (dish, None)
      | None =>
          mret ({| Dish.dish_id := (if String.eqb key "" then "kitchen" else key);
                   Dish.name := dish_name; Dish.type := "veg";
                   Dish.avg_portion_grams := portion_grams;
                   Dish.co2_per_kg := 2.0; Dish.cost_per_kg := 8.0 |}, None)
      end
  end.

(** The manager's routes; [payload] is the parsed body, [None] where the
    body is no JSON. *)
Definition api_manager_send_menu_to_jamix (site_id : string) (today : Z)
    (payload : option Json) : MM unit :=
  let payload := match payload with
                 | Some v => if json_truthy v then v else JsObj []
                 | None => JsObj []
                 end in
  day_str ← mm_lift (json_get "date" JsNull payload);
  service_slot ← mm_lift (json_get "service_slot" JsNull payload);
  if json_truthy day_str
  then
    target ← mm_lift (match day_str with
                      | JsStr text => date_fromisoformat text
                      | _ => None
                      end);
    update_menu_status site_id today target "approved" service_slot
  else mret tt.

Definition manager_swap (status : string) (site_id : string) (today : Z)
    (payload : option Json) : MM unit :=
  payload ← mm_lift payload;
  target ← mm_lift (match payload with
                    | JsObj items =>
                        match dict_get "date" items with
                        | Some (JsStr text) => date_fromisoformat text
                        | _ => None
                        end
                    | _ => None
                    end);
  service_slot ← mm_lift (json_get "service_slot" JsNull payload);
  update_menu_status site_id today target status service_slot.

Definition api_manager_approve_swap := manager_swap "approved".
Definition api_manager_ignore_swap := manager_swap "ignored".

End MenuStoreOps.

(** ** The manager's menu table and alerts *)

Module MenuPreventionRow.
Record t := {
  date_str : string;
  date_iso : string;
  weather : Json;
  predicted_covers : Z;
  recommended_dish_name : string;
  current_dish_name : string;
  service_slot : string;
  slot_label : string;
  station_label : Json;
  uptake_if_kept_pct : Z;
  suggested_swap_text : string;
  swap_status : string;
  other_items : string;
}.
End MenuPreventionRow.

Module AlertItem.
Record t := {
  date_str : string;
  date_iso : string;
  message : string;
  action_text : string;
  from_dish_name : string;
  to_dish_name : string;
  service_slot : string;
  slot_label : string;
}.
End AlertItem.

(** [", ".join(items)]. *)
Fixpoint join_comma (items : list string) : string :=
  match items with
  | [] => ""
  | [item] => item
  | item :: rest => item +:+ ", " +:+ join_comma rest
  end.

(** [v or text]. *)
Definition json_or (v : Json) (text : string) : Json :=
  if json_truthy v then v else JsStr text.

Definition slot_le (a b : MenuDay.t) : bool :=
  String.leb (MenuDay.service_slot a) (MenuDay.service_slot b).

Section MenuViews.
Context `{B : Builtins} `{MB : MenuBuiltins}.

(** [int(menu.uptake_if_kept * 100)]. *)
Definition uptake_pct (menu : MenuDay.t) : option Z :=
  Py.mul (PFloat (MenuDay.uptake_if_kept menu)) (PInt 100) ≫= Py.int.

(** The row [build_menu_rows] appends for a date: [menu] is the entry the
    inner loop ended on, and [swap_text] and [other_items] are those of its
    last round. *)
Definition menu_prevention_row (daily_entries : list MenuDay.t) (menu : MenuDay.t)
    : option MenuPreventionRow.t :=
  let peers :=
    List.filter (fun peer => negb (String.eqb (MenuDay.service_slot peer)
                                              (MenuDay.service_slot menu)))
      daily_entries in
  let other_items :=
    join_comma ((fun peer => Dish.name (MenuDay.main_dish_planned peer)) <$> take 4 peers) in
  let swap_focus :=
    match slot_config (MenuDay.service_slot menu) with
    | Some cfg => SlotConfig.swap_focus cfg
    | None => false
    end in
  let swap_text :=
    if swap_focus
    then "→ Swap = –" +:+ format_1f (MenuDay.suggested_swap_savings_kg menu) +:+ " kg "
         +:+ str_lower (Dish.name (MenuDay.main_dish_planned menu))
    else "Monitor station (saves " +:+ format_1f (MenuDay.suggested_swap_savings_kg menu)
         +:+ " kg)" in
  pct ← uptake_pct menu;
  Some {| MenuPreventionRow.date_str := strftime_a_d_b (MenuDay.date menu);
          MenuPreventionRow.date_iso := date_isoformat (MenuDay.date menu);
          MenuPreventionRow.weather := json_or (MenuDay.weather menu) "–";
          MenuPreventionRow.predicted_covers := MenuDay.predicted_covers menu;
          MenuPreventionRow.recommended_dish_name := Dish.name (MenuDay.recommended_dish menu);
          MenuPreventionRow.current_dish_name := Dish.name (MenuDay.main_dish_planned menu);
          MenuPreventionRow.service_slot := MenuDay.service_slot menu;
          MenuPreventionRow.slot_label := MenuDay.slot_label menu;
          MenuPreventionRow.station_label := json_or (MenuDay.station menu) "–";
          MenuPreventionRow.uptake_if_kept_pct := pct;
          MenuPreventionRow.suggested_swap_text := swap_text;
          MenuPreventionRow.swap_status := MenuDay.swap_status menu;
          MenuPreventionRow.other_items := other_items |}.

(** One round of the outer loop: [by_date[target_date]] is the rows of
    that date in calendar order; the [rows.append] stands after the inner
    loop, so it runs once, on the last of the sorted entries. *)
Definition menu_row_of_date (rows : list MenuDay.t) (target_date : Z)
    : option MenuPreventionRow.t :=
  let daily_entries :=
    sort_by slot_le (List.filter (fun menu => MenuDay.date menu =? target_date) rows) in
  menu ← last daily_entries;
  menu_prevention_row daily_entries menu.

Definition build_menu_rows (site_id : string) (today : Z)
    : MM (list MenuPreventionRow.t) :=
  _ ← ensure_menu_days_current site_id today;
  s ← mm_get;
  let rows := menu_rows site_id s in
  mm_lift (mapM (menu_row_of_date rows) (sorted_dates rows)).

(** The test of [build_alerts] on a row. *)
Definition alert_due (today : Z) (menu : MenuDay.t) : bool :=
  match slot_config (MenuDay.service_slot menu) with
  | Some cfg =>
      SlotConfig.swap_focus cfg
      && (let delta := MenuDay.date menu - today in (1 <=? delta) && (delta <=? 2))
      && String.eqb (MenuDay.swap_status menu) "suggested"
  | None => false
  end.

Definition alert_item (menu : MenuDay.t) : option AlertItem.t :=
  pct ← uptake_pct menu;
  Some {| AlertItem.date_str := strftime_A_d_b (MenuDay.date menu);
          AlertItem.date_iso := date_isoformat (MenuDay.date menu);
          AlertItem.message :=
            Dish.name (MenuDay.main_dish_planned menu) +:+ ": only " +:+ str_of_int pct
            +:+ "% uptake expected (" +:+ str_of_int (MenuDay.predicted_covers menu)
            +:+ " covers, " +:+ json_str (MenuDay.weather menu) +:+ ")";
          AlertItem.action_text :=
            "Swap to " +:+ Dish.name (MenuDay.recommended_dish menu) +:+ " now – prevent "
            +:+ format_1f (MenuDay.suggested_swap_savings_kg menu) +:+ " kg waste + €"
            +:+ format_0f (MenuDay.suggested_swap_savings_eur menu);
          AlertItem.from_dish_name := Dish.name (MenuDay.main_dish_planned menu);
          AlertItem.to_dish_name := Dish.name (MenuDay.recommended_dish menu);
          AlertItem.service_slot := MenuDay.service_slot menu;
          AlertItem.slot_label := MenuDay.slot_label menu |}.

Definition build_alerts (site_id : string) (today : Z) : MM (list AlertItem.t) :=
  _ ← ensure_menu_days_current site_id today;
  s ← mm_get;
  mm_lift (mapM alert_item (List.filter (alert_due today) (menu_rows site_id s))).

End MenuViews.

(** * The specification's formulas

    Each definition below follows the words of the specification; the
    theorems compare it with the function translated from the source. *)

Definition clamp (lo hi x : Z) : Z :=
  if x <? lo then lo else if hi <? x then hi else x.

(** §4.4: [currentPortions = panFillPercent/100 * capacityPortions],
    [shortfall = max(predicted - currentPortions, 0)], then
    [shortfall * portionGrams] brought to an integer by [to_int] and clamped
    to [[0, 4000]]. *)
Definition spec_suggested_grams (to_int : Py.num -> option Z)
    (predicted panFillPercent portionGrams capacityPortions : Z) : option Z :=
  ratio ← Py.truediv (PInt panFillPercent) (PFloat 100);
  currentPortions ← Py.mul ratio (PInt capacityPortions);
  difference ← Py.sub (PInt predicted) currentPortions;
  let shortfall := if Py.lt difference (PInt 0) then PInt 0 else difference in
  product ← Py.mul shortfall (PInt portionGrams);
  grams ← to_int product;
  Some (clamp 0 4000 grams).

(** §4.4: null if empty, else [33 + (avg-1)*33.5] brought to an integer. *)
Definition spec_satisfaction_percent (to_int : Py.num -> option Z) (scores : list Z)
    : option (option Z) :=
  if decide (scores = []) then Some None
  else
    avg ← Py.truediv (PInt (foldr Z.add 0 scores)) (PInt (Z.of_nat (length scores)));
    a ← Py.sub avg (PInt 1);
    b ← Py.mul a (PFloat 33.5);
    c ← Py.add (PInt 33) b;
    r ← to_int c;
    Some (Some r).

(** §4.2: the forecast; [discount] is what a weekend does to the pattern
    value. *)
Definition spec_predict_next_wave (discount : Z -> option Py.num) (weekend : bool)
    (totalExpected dinersSoFar waveIndex : Z) (feedbackMultiplier : float) : option Z :=
  let index := clamp 0 4 waveIndex in
  pattern ← EXPECTED_WAVES !! Z.to_nat index;
  expectedInWave ← (if weekend then discount pattern else Some (PInt pattern));
  let remainingExpected := Z.max (totalExpected - dinersSoFar) 0 in
  let remainingWaves := Z.max (5 - waveIndex) 1 in
  baseForWave ← Py.truediv (PInt remainingExpected) (PInt remainingWaves);
  half1 ← Py.mul (PFloat 0.5) expectedInWave;
  half2 ← Py.mul (PFloat 0.5) baseForWave;
  blend ← Py.add half1 half2;
  scaled ← Py.mul blend (PFloat feedbackMultiplier);
  truncated ← Py.int scaled;
  Some (Z.max truncated 0).

(** The discount as the specification words it, and as the code applies
    it. *)
Definition discount_plain (pattern : Z) : option Py.num :=
  Py.mul (PInt pattern) (PFloat 0.7).

Definition discount_truncated (pattern : Z) : option Py.num :=
  x ← Py.mul (PInt pattern) (PFloat 0.7); PInt <$> Py.int x.

(** §4.4: the tier as a relation between the numbers and the level. *)
Definition tier_spec (grams panFillPercent : Z) (level : SignalLevel) : Prop :=
  (level = critical <-> 1800 <= grams \/ panFillPercent <= 35) /\
  (level = warning <->
     ~ (1800 <= grams \/ panFillPercent <= 35) /\ (600 <= grams \/ panFillPercent <= 55)) /\
  (level = ready <->
     ~ (1800 <= grams \/ panFillPercent <= 35) /\ ~ (600 <= grams \/ panFillPercent <= 55)).

(** * Notions the properties are stated with *)

(** Saturday and Sunday, by [date.weekday()]. *)
Definition is_weekend (weekday : Z) : bool := 5 <=? weekday.

(** The session of [key] after a step, read off the world. *)
Definition session (w : World) (key : string * Z) : option ServiceDay.t :=
  SERVICE_DAYS w !! key.

(** The identity triple of a decision card. *)
Definition card_identity (card : DecisionCard.t) : Z * string * string :=
  (DecisionCard.wave_index card, DecisionCard.timestamp card,
   DecisionCard.service_slot card).

(** A payload that supplies the whole identity triple. *)
Definition supplies (payload : gmap string Json) (identity : Z * string * string) : Prop :=
  payload !! "decision_wave_index" = Some (JsInt identity.1.1)
  /\ payload !! "decision_timestamp" = Some (JsStr identity.1.2)
  /\ payload !! "service_slot" = Some (JsStr identity.2).

(** What the two counters' routes read from the body:
    [int(data.get("delta", 1))] and [int(data.get("rating", 0))]. *)
Definition posted_delta `{B : Builtins} (data : gmap string Json) : option Z :=
  json_int (default (JsInt 1) (data !! "delta")).

Definition posted_rating `{B : Builtins} (data : gmap string Json) : option Z :=
  json_int (default (JsInt 0) (data !! "rating")).

(** A payload in which none of the three identity fields is present
    ([payload.get] gives [None] for each). *)
Definition omits_identity (payload : gmap string Json) : Prop :=
  payload_get payload "decision_wave_index" = None
  /\ payload_get payload "decision_timestamp" = None
  /\ payload_get payload "service_slot" = None.

(** The wave index of a payload is one [int()] reads, or there is none. *)
Definition wave_index_readable `{B : Builtins} (payload : gmap string Json) : Prop :=
  forall v, payload_get payload "decision_wave_index" = Some v -> is_Some (json_int v).

(** A payload one of whose identity fields differs from that of the card,
    as the code compares them: the wave index after [int()], the timestamp
    as the value it is, the service slot after [str()].  The code looks at
    the timestamp and at the slot only after [int()] has read the wave
    index. *)
Definition differs_from_card `{B : Builtins} (payload : gmap string Json)
    (card : DecisionCard.t) : Prop :=
  (exists v i,
      payload_get payload "decision_wave_index" = Some v
      /\ json_int v = Some i /\ i <> DecisionCard.wave_index card)
  \/ (wave_index_readable payload
      /\ ((exists v,
              payload_get payload "decision_timestamp" = Some v
              /\ v <> JsStr (DecisionCard.timestamp card))
          \/ (exists v,
                payload_get payload "service_slot" = Some v
                /\ json_str v <> DecisionCard.service_slot card))).

(** The world after a successful done: the refilled pan and the card's
    status written to the session. *)
Definition after_done (key : string * Z) (pan : Z) (card : DecisionCard.t) (w : World)
    : World :=
  {| SERVICE_DAYS :=
       alter (ServiceDay.set_last_decision (Some (DecisionCard.set_status done_ card))) key
         (alter (ServiceDay.set_pan_fill_percent pan) key (SERVICE_DAYS w));
     REDIS_CLIENT := REDIS_CLIENT w |}.

(** The world after a successful skip: only the card's status changes. *)
Definition after_skip (key : string * Z) (card : DecisionCard.t) (w : World) : World :=
  {| SERVICE_DAYS :=
       alter (ServiceDay.set_last_decision (Some (DecisionCard.set_status skipped card))) key
         (SERVICE_DAYS w);
     REDIS_CLIENT := REDIS_CLIENT w |}.

(** The three streams of a storage id are empty (or there is no store). *)
Definition store_cleared (w : World) (id : string * Z) : Prop :=
  match REDIS_CLIENT w with
  | None => True
  | Some r =>
      Redis.scores r !! id = None
      /\ Redis.detailed_feedback r !! id = None
      /\ Redis.reactions r !! id = None
  end.

(** The store after the three deletes of [_clear_service_day_storage]. *)
Definition cleared_redis (id : string * Z) (r : Redis.t) : Redis.t :=
  {| Redis.scores := delete id (Redis.scores r);
     Redis.detailed_feedback := delete id (Redis.detailed_feedback r);
     Redis.reactions := delete id (Redis.reactions r) |}.

(** ** Relating the world before and after a step *)

(** Whatever the outcome of [m] from [w], also an exception, the world it
    leaves is related to [w]. *)
Definition steps_at (P : World -> World -> Prop) {A} (m : M A) (w : World) : Prop :=
  forall w' r, m w = (w', r) -> P w w'.

Definition steps (P : World -> World -> Prop) {A} (m : M A) : Prop :=
  forall w, steps_at P m w.

(** An update of the session under [key] by a function [P] accepts. *)
Definition accepts (P : World -> World -> Prop) (f : ServiceDay.t -> ServiceDay.t) : Prop :=
  forall w key,
    P w {| SERVICE_DAYS := alter f key (SERVICE_DAYS w); REDIS_CLIENT := REDIS_CLIENT w |}.

(** Every session of [w] is still there in [w'], its pan fill not
    higher. *)
Definition pan_not_raised (w w' : World) : Prop :=
  forall key d,
    session w key = Some d ->
    exists d', session w' key = Some d'
               /\ ServiceDay.pan_fill_percent d' <= ServiceDay.pan_fill_percent d.



(** The pan fill after [grams] more grams, capped at the full pan, in
    percent times the grams of a full pan. *)
Definition refilled_level (pan grams portion_grams capacity_portions : Z) : Z :=
  Z.min (100 * (capacity_portions * portion_grams))
        (pan * (capacity_portions * portion_grams) + 100 * grams).


(** The refill of the configured site, checked on every pan fill from 0 to
    100 and every suggestion from 0 to 4000 grams: it returns the refilled
    level cut to a whole percent (or one point less where the level is
    whole), a percentage, at most 100, that credits at most [grams / 160]
    portions of the 20, and is not below the old one when some grams were
    suggested. *)
Definition refill_check (pan grams : Z) : bool :=
  match adjust_pan_after_refill pan grams 160 20 with
  | Some r =>
      let level := refilled_level pan grams 160 20 in
      ((r =? level / (20 * 160))
       || ((level mod (20 * 160) =? 0) && (r =? level / (20 * 160) - 1)))
      && (0 <=? r) && (r <=? 100) && ((r - pan) * (20 * 160) <=? 100 * grams)
      && ((grams =? 0) || (pan <=? r))
  | None => false
  end.

(** [f] on the [n] integers from [lo] on. *)
Fixpoint all_from (n : nat) (lo : Z) (f : Z -> bool) : bool :=
  match n with
  | O => true
  | S n' => f lo && all_from n' (lo + 1) f
  end.

(** What every session of a reachable world satisfies: it is stored under
    its own storage id, its pan fill is a percentage, and the suggestion of
    its card is within the 4000-gram ceiling. *)
Definition wf_session (key : string * Z) (d : ServiceDay.t) : Prop :=
  storage_id d = key
  /\ 0 <= ServiceDay.pan_fill_percent d <= 100
  /\ (forall card, ServiceDay.last_decision d = Some card ->
                   0 <= DecisionCard.suggested_grams card <= 4000).

Definition wf_world (w : World) : Prop :=
  forall key d, session w key = Some d -> wf_session key d.

Definition keeps_wf (w w' : World) : Prop := wf_world w -> wf_world w'.

(** The worlds the routes produce from a process that starts with no
    session. *)
Inductive reachable `{B : Builtins} : World -> Prop :=
| reachable_start client :
    reachable {| SERVICE_DAYS := ∅; REDIS_CLIENT := client |}
| reachable_step env site op w w' r :
    reachable w -> run_op env site op w = (w', r) -> reachable w'.

(** ** Binary64 constants *)

Definition two52 : Z := 4503599627370496.

(** The spec floats of the five constants of the clamp. *)
Definition sf_one : spec_float := S754_finite false 4503599627370496 (-52).
Definition sf_0_8 : spec_float := S754_finite false 7205759403792794 (-53).
Definition sf_1_18 : spec_float := S754_finite false 5314247560297185 (-52).
Definition sf_neg_0_2 : spec_float := S754_finite true 7205759403792794 (-55).
Definition sf_0_18 : spec_float := S754_finite false 6485183463413514 (-55).

(** ** Sample requests *)

(** The text of a decimal digit. *)
Definition digit_text (d : Z) : string :=
  String (Ascii.ascii_of_nat (48 + Z.to_nat d)) "".

(** The last [width] decimal digits of [z], zero-padded. *)
Fixpoint padded_decimal (width : nat) (z : Z) : string :=
  match width with
  | O => ""
  | S width' => padded_decimal width' (z / 10) +:+ digit_text (z mod 10)
  end.

Fixpoint decimal_digits (fuel : nat) (z : Z) : string :=
  match fuel with
  | O => ""
  | S fuel' =>
      (if z <? 10 then "" else decimal_digits fuel' (z / 10)) +:+ digit_text (z mod 10)
  end.

(** [str(z)] for an integer of at most 40 digits. *)
Definition decimal_text (z : Z) : string :=
  if z <? 0 then "-" +:+ decimal_digits 40 (- z) else decimal_digits 40 z.

(** [str] of [None], a boolean and an integer, as far as the samples need
    it. *)
Definition sample_repr (v : Json) : string :=
  match v with
  | JsNull => "None"
  | JsBool b => if b then "True" else "False"
  | JsInt z => decimal_text z
  | _ => "?"
  end.

(** An interpreter's library, as far as the samples below need it: [float]
    reads the answers 1 to 5, [str] writes the ratings 1 to 3, [int] and
    [fromisoformat] reject every text, and [sum] adds from the left. *)
Definition sample_builtins : Builtins :=
  {| float_of_str := fun s =>
       if String.eqb s "1" then Some 1%float
       else if String.eqb s "2" then Some 2%float
       else if String.eqb s "3" then Some 3%float
       else if String.eqb s "4" then Some 4%float
       else if String.eqb s "5" then Some 5%float
       else None;
     fromisoformat := fun _ => None;
     float_sum := fun l => fold_left PrimFloat.add l 0%float;
     int_of_str := fun _ => None;
     str_of_int := fun z =>
       if z =? 1 then "1" else if z =? 2 then "2" else if z =? 3 then "3" else "";
     json_repr := sample_repr |}.

Definition sample_env : Env :=
  {| DEMO_MODE := true; today := 0; now_iso := "2024-05-02T11:40:00";
     utcnow := 0; utcnow_iso := "2024-05-02T09:40:00"; weekday := 3;
     target_wave_idx := 2; lunch_finished := false; menu_service_slot := None;
     redis_up := true |}.

(** The same request environment with the store not answering. *)
Definition sample_env_store_down : Env :=
  {| DEMO_MODE := true; today := 0; now_iso := "2024-05-02T11:40:00";
     utcnow := 0; utcnow_iso := "2024-05-02T09:40:00"; weekday := 3;
     target_wave_idx := 2; lunch_finished := false; menu_service_slot := None;
     redis_up := false |}.

Definition sample_key : string * Z := (DEFAULT_SITE_ID, 0).

Definition sample_card : DecisionCard.t :=
  {| DecisionCard.wave_index := 2;
     DecisionCard.timestamp := "2024-05-02T11:40:00";
     DecisionCard.predicted_diners_next_wave := 15;
     DecisionCard.suggested_grams := 928;
     DecisionCard.pan_fill_percent := 46;
     DecisionCard.satisfaction_percent := Some 86;
     DecisionCard.suggested_portions := PFloat 5.8;
     DecisionCard.service_slot := PRIMARY_SERVICE_SLOT;
     DecisionCard.status := pending |}.

Definition sample_session : ServiceDay.t :=
  ServiceDay.set_last_decision (Some sample_card) (new_service_day DEFAULT_SITE_ID 0).

Definition sample_world : World :=
  {| SERVICE_DAYS := {[ sample_key := sample_session ]}; REDIS_CLIENT := None |}.

(** A world whose store holds one rating for the sample session. *)
Definition sample_world_with_store : World :=
  {| SERVICE_DAYS := {[ sample_key := sample_session ]};
     REDIS_CLIENT :=
       Some {| Redis.scores := {[ sample_key := [1] ]};
               Redis.detailed_feedback := ∅;
               Redis.reactions := ∅ |} |}.

(** A payload that names an earlier card, and one that names the sample
    card. *)
Definition stale_payload : gmap string Json :=
  {[ "decision_wave_index" := JsInt 1;
     "decision_timestamp" := JsStr "2024-05-02T11:10:00";
     "service_slot" := JsStr PRIMARY_SERVICE_SLOT ]}.

Definition matching_payload : gmap string Json :=
  {[ "decision_wave_index" := JsInt 2;
     "decision_timestamp" := JsStr "2024-05-02T11:40:00";
     "service_slot" := JsStr PRIMARY_SERVICE_SLOT ]}.

(** A payload that names wave 2.9 with the timestamp and the slot of the
    sample card. *)
Definition fractional_payload : gmap string Json :=
  {[ "decision_wave_index" := JsFloat 2.9;
     "decision_timestamp" := JsStr "2024-05-02T11:40:00";
     "service_slot" := JsStr PRIMARY_SERVICE_SLOT ]}.

(** The request environment after lunch, at the last wave. *)
Definition sample_env_after_lunch : Env :=
  {| DEMO_MODE := true; today := 0; now_iso := "2024-05-02T13:45:00";
     utcnow := 0; utcnow_iso := "2024-05-02T11:45:00"; weekday := 3;
     target_wave_idx := 4; lunch_finished := true; menu_service_slot := None;
     redis_up := true |}.

(** The bodies of a diner count and of a quick rating. *)
Definition delta_body (v : Json) : gmap string Json := {[ "delta" := v ]}.
Definition rating_body (v : Json) : gmap string Json := {[ "rating" := v ]}.

(** One answer sheet of the detailed questionnaire. *)
Definition sample_entries : list FeedbackEntry.t :=
  [{| FeedbackEntry.question_set := "dining_room";
      FeedbackEntry.timestamp := None;
      FeedbackEntry.responses := [("smell", "5"); ("wait_time", "quick")] |}].

(** A Saturday session with one diner still expected. *)
Definition weekend_session : ServiceDay.t :=
  {| ServiceDay.site_id := DEFAULT_SITE_ID; ServiceDay.date := 0;
     ServiceDay.total_expected_diners := 120; ServiceDay.diners_so_far := 119;
     ServiceDay.wave_index := 3; ServiceDay.pan_fill_percent := 60;
     ServiceDay.feedback_scores := []; ServiceDay.detailed_feedback := [];
     ServiceDay.reaction_stream := []; ServiceDay.last_decision := None |}.

(** ** Notions of the further properties *)

(** The fields of a session the feedback histories do not touch. *)
Definition same_core (d d' : ServiceDay.t) : Prop :=
  ServiceDay.site_id d' = ServiceDay.site_id d
  /\ ServiceDay.date d' = ServiceDay.date d
  /\ ServiceDay.total_expected_diners d' = ServiceDay.total_expected_diners d
  /\ ServiceDay.diners_so_far d' = ServiceDay.diners_so_far d
  /\ ServiceDay.wave_index d' = ServiceDay.wave_index d
  /\ ServiceDay.pan_fill_percent d' = ServiceDay.pan_fill_percent d
  /\ ServiceDay.last_decision d' = ServiceDay.last_decision d.

(** Every session of [w] is still there in [w'], with the same core. *)
Definition core_kept (w w' : World) : Prop :=
  forall key d,
    session w key = Some d -> exists d', session w' key = Some d' /\ same_core d d'.

(** The pan fill a recomputation leaves: in demo mode a pan at 75% or more
    is taken down by 20 points, not below 45%. *)
Definition demo_pan_relief (demo : bool) (pan : Z) : Z :=
  if demo && (75 <=? pan) then Z.max 45 (pan - 20) else pan.

(** The status of the card a recomputation for wave [target] stores. *)
Definition carried_status (target : Z) (last : option DecisionCard.t) : Status :=
  match last with
  | Some card => if DecisionCard.wave_index card =? target then DecisionCard.status card else pending
  | None => pending
  end.

(** The forecast a recomputation reports, from the adapter's [raw] one: in
    demo mode it is raised to a floor while diners remain. *)
Definition demo_forecast (demo finished : bool) (diners_remaining raw : Z) : Z :=
  if demo then
    let predicted :=
      if finished && negb (diners_remaining =? 0)
      then Z.max raw (Z.min (Z.max (diners_remaining / 3) 14) 40)
      else raw in
    if (predicted <=? 0) && negb (diners_remaining =? 0)
    then Z.max 12 (Z.min diners_remaining 32)
    else predicted
  else raw.

(** The tiers in order of urgency. *)
Definition urgency (level : SignalLevel) : Z :=
  match level with ready => 0 | warning => 1 | critical => 2 end.




(** An entry the scan counts: it has no timestamp, or one that does not
    parse, or one at or after the cutoff. *)
Definition fresh_entry `{B : Builtins} (cutoff : Z) (entry : FeedbackEntry.t) : bool :=
  match FeedbackEntry.timestamp entry with
  | Some ts =>
      if String.eqb ts "" then true
      else match fromisoformat ts with
           | Some t => negb (t <? cutoff)
           | None => true
           end
  | None => true
  end.

(** The satisfaction percentage as a function of the sum and the count of
    the ratings. *)
Definition satisfaction_of_sum (sum n : Z) : option (option Z) :=
  avg ← Py.int_truediv sum n;
  k ← Py.truediv (PInt 67) (PFloat 2);
  a ← Py.sub (PFloat avg) (PInt 1);
  b ← Py.mul a k;
  c ← Py.add (PInt 33) b;
  r ← Py.int c;
  Some (Some r).

(** The multiplier of ratings alone, as a function of their sum and
    count. *)
Definition multiplier_of_sum (sum n : Z) : option float :=
  avg_rating ← Py.int_truediv sum n;
  let rating_delta := ((avg_rating - 2.0) * 0.08)%float in
  let total_delta := (0.0 + rating_delta)%float in
  Some (1.0 + fmax (-0.2) (fmin total_delta 0.18))%float.

(** What the table below checks for [n] ratings of sum [s]: the
    satisfaction is a percentage from 33 to 100, not above that of the next
    sum, with 33, 66 and 100 for all ones, twos and threes; the multiplier
    is between 0.92 and 1.08, with 1.0 for all twos. *)
Definition ratings_check (n s : Z) : bool :=
  match satisfaction_of_sum s n, satisfaction_of_sum (s + 1) n, multiplier_of_sum s n with
  | Some (Some r), Some (Some r'), Some m =>
      (33 <=? r) && (r <=? 100)
      && ((3 * n <=? s) || (r <=? r'))
      && (negb (s =? n) || (r =? 33))
      && (negb (s =? 2 * n) || ((r =? 66) && PrimFloat.Leibniz.eqb m 1.0))
      && (negb (s =? 3 * n) || (r =? 100))
      && PrimFloat.leb 0.92 m && PrimFloat.leb m 1.08
  | _, _, _ => false
  end.

(** A session within the three history caps. *)
Definition capped_session (d : ServiceDay.t) : Prop :=
  (length (ServiceDay.feedback_scores d) <= FEEDBACK_SCORE_HISTORY_LIMIT)%nat
  /\ (length (ServiceDay.detailed_feedback d) <= DETAILED_FEEDBACK_HISTORY_LIMIT)%nat
  /\ (length (ServiceDay.reaction_stream d) <= MAX_REACTIONS_STORED)%nat.

Definition capped_world (w : World) : Prop :=
  forall key d, session w key = Some d -> capped_session d.

Definition keeps_capped (w w' : World) : Prop := capped_world w -> capped_world w'.

(** The prep quantity in exact arithmetic: 160 grams for each predicted
    diner beyond the pan's 20 * pan / 100 portions, capped at 4000. *)
Definition exact_grams (predicted pan : Z) : Z :=
  Z.max 0 (Z.min (160 * predicted - 32 * pan) 4000).

Definition grams_check (pan predicted : Z) : bool :=
  match compute_suggested_grams predicted pan 160 20 with
  | Some g =>
      ((g =? exact_grams predicted pan) || (g =? exact_grams predicted pan - 1))
      && (0 <=? g)
      && (negb (pan mod 5 =? 0) || (g =? exact_grams predicted pan))
  | None => false
  end.

(** The five waves of the configured site. *)
Definition flavoria_waves : list WaveState.t :=
  [ {| WaveState.index := 0; WaveState.start_time := time_of_hm 11 0;
       WaveState.end_time := time_of_hm 11 30; WaveState.expected_diners_pattern := 10 |};
    {| WaveState.index := 1; WaveState.start_time := time_of_hm 11 30;
       WaveState.end_time := time_of_hm 12 0; WaveState.expected_diners_pattern := 30 |};
    {| WaveState.index := 2; WaveState.start_time := time_of_hm 12 0;
       WaveState.end_time := time_of_hm 12 30; WaveState.expected_diners_pattern := 40 |};
    {| WaveState.index := 3; WaveState.start_time := time_of_hm 12 30;
       WaveState.end_time := time_of_hm 13 0; WaveState.expected_diners_pattern := 25 |};
    {| WaveState.index := 4; WaveState.start_time := time_of_hm 13 0;
       WaveState.end_time := time_of_hm 13 30; WaveState.expected_diners_pattern := 15 |} ].

(** The index [get_current_wave_index] gives for the configured site at
    [now]: the half hours from
    11:00 on, the first one before and the last one after. *)
Definition flavoria_wave_at (now : Z) : Z :=
  Z.max 0 (Z.min 4 ((now - time_of_hm 11 0) / timedelta_minutes 30)).

(** The wave a recomputation at [now] prepares for at the configured site:
    the first wave before 11:00, afterwards the wave after the current
    one, at most the last. *)
Definition flavoria_target_at (now : Z) : Z :=
  if now <? time_of_hm 11 0 then 0 else Z.min (flavoria_wave_at now + 1) 4.

(** ** Notions of the calendar properties *)

(** A row with another date. *)
Definition with_date (day : Z) (m : MenuDay.t) : MenuDay.t :=
  {| MenuDay.date := day; MenuDay.weather := MenuDay.weather m;
     MenuDay.predicted_covers := MenuDay.predicted_covers m;
     MenuDay.main_dish_planned := MenuDay.main_dish_planned m;
     MenuDay.recommended_dish := MenuDay.recommended_dish m;
     MenuDay.service_slot := MenuDay.service_slot m;
     MenuDay.slot_label := MenuDay.slot_label m; MenuDay.station := MenuDay.station m;
     MenuDay.uptake_if_kept := MenuDay.uptake_if_kept m;
     MenuDay.suggested_swap_savings_kg := MenuDay.suggested_swap_savings_kg m;
     MenuDay.suggested_swap_savings_eur := MenuDay.suggested_swap_savings_eur m;
     MenuDay.swap_status := MenuDay.swap_status m;
     MenuDay.additional_dishes := MenuDay.additional_dishes m |}.

(** What a row of a generated day shows of its slot. *)
Definition row_of_slot (cfg : SlotConfig.t) (m : MenuDay.t) : bool :=
  String.eqb (MenuDay.service_slot m) (SlotConfig.service_slot cfg)
  && String.eqb (MenuDay.slot_label m) (SlotConfig.slot_label cfg)
  && (SlotConfig.min_covers cfg <=? MenuDay.predicted_covers m)
  && PrimFloat.leb 0.25 (MenuDay.uptake_if_kept m)
  && PrimFloat.leb (MenuDay.uptake_if_kept m) 0.88.

Fixpoint rows_of_slots (cfgs : list SlotConfig.t) (rows : list MenuDay.t) : bool :=
  match cfgs, rows with
  | [], [] => true
  | cfg :: cfgs', m :: rows' => row_of_slot cfg m && rows_of_slots cfgs' rows'
  | _, _ => false
  end.

Definition dish_ids (dishes : list Dish.t) : list string := Dish.dish_id <$> dishes.

(** The rows of a day: one per slot, in the order of the slots, and only the
    first one lists other dishes, the main dishes of the six rows after it. *)
Definition day_shape (rows : list MenuDay.t) : bool :=
  rows_of_slots SERVICE_SLOT_CONFIGS rows
  && match rows with
     | first :: others =>
         bool_decide (dish_ids (MenuDay.additional_dishes first)
                      = dish_ids (MenuDay.main_dish_planned <$> others))
         && forallb (fun m => is_nil (MenuDay.additional_dishes m)) others
     | [] => false
     end.

Definition day_check (offset : Z) : bool :=
  match menu_day_entries 1 offset with
  | Some rows => day_shape rows
  | None => false
  end.

(** A dish that is the entry of [DISHES] under its own id. *)
Definition dish_in_table (dish : Dish.t) : Prop :=
  dict_get (Dish.dish_id dish) DISHES = Some dish.

(** The station [menu_day_from_dict] falls back on. *)
Definition fallback_station (service_slot : string) : Json :=
  match slot_config service_slot with
  | Some cfg => JsStr (SlotConfig.station cfg)
  | None => JsNull
  end.

(** What [menu_day_from_dict] can read back as it was written. *)
Definition stable_row (m : MenuDay.t) : Prop :=
  dish_in_table (MenuDay.main_dish_planned m)
  /\ dish_in_table (MenuDay.recommended_dish m)
  /\ Forall dish_in_table (MenuDay.additional_dishes m)
  /\ MenuDay.slot_label m <> ""
  /\ (json_truthy (MenuDay.station m) = true
      \/ MenuDay.station m = fallback_station (MenuDay.service_slot m)).

(** The rows the code makes: generated, read from the file, or one of
    these with another status. *)
Inductive made_row `{B : Builtins} `{MB : MenuBuiltins} : MenuDay.t -> Prop :=
| made_generated site_id start_date days rows m :
    generate_menu_plan site_id start_date days = Some rows -> m ∈ rows -> made_row m
| made_loaded payload m :
    menu_day_from_dict payload = Some m -> made_row m
| made_status status m :
    made_row m -> made_row (MenuDay.set_swap_status status m).

(** Laws of the interpreter's library: [lower()] leaves the ids of
    [DISHES] as they are, and [str()] of a value is never empty. *)
Definition lower_keeps_dish_ids `{MB : MenuBuiltins} : Prop :=
  Forall (fun kv : string * Dish.t => str_lower kv.1 = kv.1) DISHES.

Definition repr_not_empty `{B : Builtins} : Prop :=
  forall v : Json, json_repr v <> "".

(** [isoformat] writes the day as a text, not empty, that [fromisoformat]
    reads back. *)
Definition date_round_trips `{MB : MenuBuiltins} (day : Z) : Prop :=
  date_isoformat day <> "" /\ date_fromisoformat (date_isoformat day) = Some day.

(** A new process on the same disk: the globals are empty again. *)
Definition restart (s : MenuStore) : MenuStore :=
  {| MENU_DAYS := []; MENU_DAYS_REFRESHED_AT := []; MENU_DATA_LOADED := false;
     MENU_DATA_FILE := MENU_DATA_FILE s |}.

(** A list in the order [le]: each item is [le] the next. *)
Fixpoint in_order {A} (le : A -> A -> bool) (l : list A) : bool :=
  match l with
  | x :: (y :: _) as l' => le x y && in_order le l'
  | _ => true
  end.

(** Strictly ascending numbers. *)
Fixpoint ascending (l : list Z) : Prop :=
  match l with
  | [] => True
  | x :: l' => Forall (Z.lt x) l' /\ ascending l'
  end.

(** The rows [ensure_menu_days_current] keeps: those not before today. *)
Definition kept_rows (site_id : string) (today : Z) (s : MenuStore) : list MenuDay.t :=
  filter (fun row => today <= MenuDay.date row) (menu_rows site_id s).

(** A menu file [load_menu_data] does not take rows from: none, text that
    is no JSON, or an object of another version. *)
Definition file_unusable (file : MenuFile) : Prop :=
  file = FileMissing \/ file = FileNotJson
  \/ exists items, file = FileJson (JsObj items)
       /\ json_eq_int (default JsNull (dict_get "version" items)) MENU_DATA_VERSION = false.

(** A menu file [load_menu_data] fails on: bytes that are no text, or a
    JSON value that is no object. *)
Definition file_broken (file : MenuFile) : Prop :=
  file = FileNotText
  \/ exists payload, file = FileJson payload /\ forall items, payload <> JsObj items.

(** The rows after [update_menu_status] has gone through them. *)
Definition with_status (target_date : Z) (service_slot : Json) (status : string)
    (rows : list MenuDay.t) : list MenuDay.t :=
  (fun menu =>
     if status_target target_date service_slot menu
     then MenuDay.set_swap_status status menu else menu) <$> rows.

(** The calendar of a site has a row for a day. *)
Definition has_day (site_id : string) (day : Z) (s : MenuStore) : Prop :=
  exists m, m ∈ menu_rows site_id s /\ MenuDay.date m = day.

(** A request body with a date and no service slot. *)
Definition body_for_day `{MB : MenuBuiltins} (items : list (string * Json)) (day : Z) : Prop :=
  (exists text, dict_get "date" items = Some (JsStr text)
                /\ text <> "" /\ date_fromisoformat text = Some day)
  /\ default JsNull (dict_get "service_slot" items) = JsNull.

(** [isoformat] tells the day [day] from the other days of the rows. *)
Definition iso_singles_out `{MB : MenuBuiltins} (day : Z) (rows : list MenuDay.t) : Prop :=
  Forall (fun m => date_isoformat (MenuDay.date m) = date_isoformat day ->
                   MenuDay.date m = day) rows.

(** The calls into the calendar. *)
Inductive MenuCall :=
| CallLoad
| CallEnsure
| CallCurrent (target_date : option Z) (service_slot : option string)
| CallForDate (target_date : Z)
| CallUpdate (target_date : Z) (status : string) (service_slot : Json)
| CallDisplay (dish_name : string) (portion_grams : Z) (service_date : Z)
| CallMenuRows
| CallAlerts
| CallSendToJamix (payload : option Json)
| CallApproveSwap (payload : option Json)
| CallIgnoreSwap (payload : option Json).

(** The store a call leaves, whether it returns or raises. *)
Definition menu_call_effect `{B : Builtins} `{MB : MenuBuiltins}
    (site_id : string) (today : Z) (call : MenuCall) (s : MenuStore) : MenuStore :=
  match call with
  | CallLoad => (load_menu_data today s).1
  | CallEnsure => (ensure_menu_days_current site_id today s).1
  | CallCurrent target_date service_slot =>
      (get_current_menu_day site_id today target_date service_slot s).1
  | CallForDate target_date => (get_menu_days_for_date site_id today target_date s).1
  | CallUpdate target_date status service_slot =>
      (update_menu_status site_id today target_date status service_slot s).1
  | CallDisplay dish_name portion_grams service_date =>
      (resolve_display_dish dish_name portion_grams site_id today service_date s).1
  | CallMenuRows => (build_menu_rows site_id today s).1
  | CallAlerts => (build_alerts site_id today s).1
  | CallSendToJamix payload => (api_manager_send_menu_to_jamix site_id today payload s).1
  | CallApproveSwap payload => (api_manager_approve_swap site_id today payload s).1
  | CallIgnoreSwap payload => (api_manager_ignore_swap site_id today payload s).1
  end.

(** The stores of a process that starts with empty globals, whatever the
    menu file holds. *)
Inductive menu_reachable `{B : Builtins} `{MB : MenuBuiltins} : MenuStore -> Prop :=
| menu_reachable_start file :
    menu_reachable {| MENU_DAYS := []; MENU_DAYS_REFRESHED_AT := [];
                      MENU_DATA_LOADED := false; MENU_DATA_FILE := file |}
| menu_reachable_call site_id today call s :
    menu_reachable s -> menu_reachable (menu_call_effect site_id today call s).

(** A site with a refresh date has rows. *)
Definition refreshed_sites_have_rows (s : MenuStore) : Prop :=
  forall site_id day, refreshed_at site_id s = Some day -> menu_rows site_id s <> [].

(** A law of the interpreter's library: a text that is not empty has
    characters. *)
Definition chars_not_empty `{MB : MenuBuiltins} : Prop :=
  forall text : string, text <> "" -> str_chars text <> [].

(** ** A sample interpreter's library for the calendar *)

Definition is_leap (year : Z) : bool :=
  (year mod 4 =? 0) && (negb (year mod 100 =? 0) || (year mod 400 =? 0)).

Definition days_before_year (year : Z) : Z :=
  let y := year - 1 in y * 365 + y / 4 - y / 100 + y / 400.

Definition DAYS_IN_MONTH : list Z := [31; 28; 31; 30; 31; 30; 31; 31; 30; 31; 30; 31].

Definition days_in_month (year month : Z) : Z :=
  if (month =? 2) && is_leap year then 29
  else default 0 (DAYS_IN_MONTH !! Z.to_nat (month - 1)).

Definition days_before_month (year month : Z) : Z :=
  foldr Z.add 0 (take (Z.to_nat (month - 1)) DAYS_IN_MONTH)
  + (if (2 <? month) && is_leap year then 1 else 0).

Definition ymd2ord (year month day : Z) : Z :=
  days_before_year year + days_before_month year month + day.

(** The calendar date of an ordinal, as [datetime._ord2ymd] finds it. *)
Definition ord2ymd (ordinal : Z) : Z * Z * Z :=
  let n := ordinal - 1 in
  let n400 := n / 146097 in
  let n := n mod 146097 in
  let n100 := n / 36524 in
  let n := n mod 36524 in
  let n4 := n / 1461 in
  let n := n mod 1461 in
  let n1 := n / 365 in
  let n := n mod 365 in
  let year := n400 * 400 + 1 + n100 * 100 + n4 * 4 + n1 in
  if (n1 =? 4) || (n100 =? 4) then (year - 1, 12, 31)
  else
    let leapyear := (n1 =? 3) && (negb (n4 =? 24) || (n100 =? 3)) in
    let month := Z.shiftr (n + 50) 5 in
    let preceding :=
      foldr Z.add 0 (take (Z.to_nat (month - 1)) DAYS_IN_MONTH)
      + (if (2 <? month) && leapyear then 1 else 0) in
    if n <? preceding
    then
      let month := month - 1 in
      let preceding :=
        preceding - (default 0 (DAYS_IN_MONTH !! Z.to_nat (month - 1))
                     + (if (month =? 2) && leapyear then 1 else 0)) in
      (year, month, n - preceding + 1)
    else (year, month, n - preceding + 1).

Definition sample_isoformat (ordinal : Z) : string :=
  let '(year, month, day) := ord2ymd ordinal in
  padded_decimal 4 year +:+ "-" +:+ padded_decimal 2 month +:+ "-" +:+ padded_decimal 2 day.

(** The number a text of decimal digits writes. *)
Fixpoint digits_value (acc : Z) (text : string) : option Z :=
  match text with
  | EmptyString => Some acc
  | String c rest =>
      let code := Z.of_nat (Ascii.nat_of_ascii c) in
      if (48 <=? code) && (code <=? 57) then digits_value (acc * 10 + (code - 48)) rest
      else None
  end.

(** [fromisoformat] on the form [YYYY-MM-DD]; other forms are refused. *)
Definition sample_date_fromisoformat (text : string) : option Z :=
  if (String.length text =? 10)%nat
     && String.eqb (String.substring 4 1 text) "-"
     && String.eqb (String.substring 7 1 text) "-"
  then
    year ← digits_value 0 (String.substring 0 4 text);
    month ← digits_value 0 (String.substring 5 2 text);
    day ← digits_value 0 (String.substring 8 2 text);
    if (1 <=? year) && (1 <=? month) && (month <=? 12) && (1 <=? day)
       && (day <=? days_in_month year month)
    then Some (ymd2ord year month day) else None
  else None.

(** [str.lower()] on ASCII text. *)
Fixpoint ascii_lower (text : string) : string :=
  match text with
  | EmptyString => EmptyString
  | String c rest =>
      let code := Ascii.nat_of_ascii c in
      String (if (65 <=? code)%nat && (code <=? 90)%nat
              then Ascii.ascii_of_nat (code + 32) else c)
        (ascii_lower rest)
  end.

Definition WEEKDAY_NAMES : list string :=
  ["Monday"; "Tuesday"; "Wednesday"; "Thursday"; "Friday"; "Saturday"; "Sunday"].

Definition MONTH_ABBREVIATIONS : list string :=
  ["Jan"; "Feb"; "Mar"; "Apr"; "May"; "Jun"; "Jul"; "Aug"; "Sep"; "Oct"; "Nov"; "Dec"].

Definition sample_strftime (short : bool) (ordinal : Z) : string :=
  let '(_, month, day) := ord2ymd ordinal in
  let weekday := default "" (WEEKDAY_NAMES !! Z.to_nat ((ordinal + 6) mod 7)) in
  (if short then String.substring 0 3 weekday else weekday)
  +:+ " " +:+ padded_decimal 2 day +:+ " "
  +:+ default "" (MONTH_ABBREVIATIONS !! Z.to_nat (month - 1)).

(** [f"{x:.{places}f}"] on a finite float. *)
Definition sample_format_f (places : Z) (x : float) : string :=
  match Prim2SF x with
  | S754_zero s => (if s then "-" else "") +:+ "0"
      +:+ (if places =? 0 then "" else "." +:+ padded_decimal (Z.to_nat places) 0)
  | S754_finite s m e =>
      let scale := 10 ^ places in
      let q :=
        if 0 <=? e then Z.pos m * 2 ^ e * scale
        else round_half_even_div (Z.pos m * scale) (2 ^ (- e)) in
      (if s then "-" else "") +:+ decimal_text (q / scale)
      +:+ (if places =? 0 then "" else "." +:+ padded_decimal (Z.to_nat places) (q mod scale))
  | S754_infinity s => if s then "-inf" else "inf"
  | S754_nan => "nan"
  end.

(** As far as the samples need it: dates in the form [YYYY-MM-DD] and
    ASCII text. *)
Definition sample_menu_builtins : MenuBuiltins :=
  {| date_isoformat := sample_isoformat;
     date_fromisoformat := sample_date_fromisoformat;
     str_lower := ascii_lower;
     str_chars := fun text => (fun c => String c "") <$> String.list_ascii_of_string text;
     strftime_A_d_b := sample_strftime false;
     strftime_a_d_b := sample_strftime true;
     format_1f := sample_format_f 1;
     format_0f := sample_format_f 0 |}.

(** ** A sample calendar *)

(** The interpreter's library for the calendar samples: [str] of an
    integer in decimal, [int] of a text of digits, and no [float] of a
    text. *)
Definition calendar_builtins : Builtins :=
  {| float_of_str := fun _ => None;
     fromisoformat := fun _ => None;
     float_sum := fun l => fold_left PrimFloat.add l 0%float;
     int_of_str := fun text => if String.eqb text "" then None else digits_value 0 text;
     str_of_int := decimal_text;
     json_repr := sample_repr |}.

(** 2 May 2024, a Thursday, and the two days after it. *)
Definition may_2 : Z := 739008.
Definition may_3 : Z := 739009.
Definition may_4 : Z := 739010.

(** A process that has not loaded the calendar, without a menu file. *)
Definition new_menu_store : MenuStore :=
  {| MENU_DAYS := []; MENU_DAYS_REFRESHED_AT := []; MENU_DATA_LOADED := false;
     MENU_DATA_FILE := FileMissing |}.

(** The same with a menu file that holds a JSON list. *)
Definition broken_menu_store : MenuStore :=
  {| MENU_DAYS := []; MENU_DAYS_REFRESHED_AT := []; MENU_DATA_LOADED := false;
     MENU_DATA_FILE := FileJson (JsList [JsInt 3]) |}.

(** The calendar after its first use on 2 May: the week from 2 to 8 May. *)
Definition may_2_store : MenuStore :=
  Eval vm_compute in
    (ensure_menu_days_current (B := calendar_builtins) (MB := sample_menu_builtins)
       DEFAULT_SITE_ID may_2 new_menu_store).1.

(** The calendar two days later: the week from 4 to 10 May. *)
Definition may_4_store : MenuStore :=
  Eval vm_compute in
    (ensure_menu_days_current (B := calendar_builtins) (MB := sample_menu_builtins)
       DEFAULT_SITE_ID may_4 may_2_store).1.

(** The body of a decision on the whole of 3 May. *)
Definition may_3_body : list (string * Json) := [("date", JsStr "2024-05-03")].

(** The alerts and the menu table of 2 May. *)
Definition may_2_alerts : list AlertItem.t :=
  Eval vm_compute in
    default [] (build_alerts (B := calendar_builtins) (MB := sample_menu_builtins)
                  DEFAULT_SITE_ID may_2 may_2_store).2.

Definition may_2_table : list MenuPreventionRow.t :=
  Eval vm_compute in
    default [] (build_menu_rows (B := calendar_builtins) (MB := sample_menu_builtins)
                  DEFAULT_SITE_ID may_2 may_2_store).2.

(** ** More sample requests *)


(** The sample world after a done that refilled the pan to 75%. *)
Definition refilled_world : World := after_done sample_key 75 sample_card sample_world.

Definition empty_world : World := {| SERVICE_DAYS := ∅; REDIS_CLIENT := None |}.






(** The sample world with [served] diners so far. *)
Definition served_world (served : Z) : World :=
  {| SERVICE_DAYS := {[ sample_key := ServiceDay.set_diners_so_far served sample_session ]};
     REDIS_CLIENT := None |}.

(** The world after the first poll of the state. *)
Definition polled_world : World :=
  (run_op (B := sample_builtins) sample_env DEFAULT_SITE_ID OpState empty_world).1.

(** Day 738000 of the calendar, and a quarter past noon. *)
Definition sample_day : Z := 738000.
Definition quarter_past_noon : Z := time_of_hm 12 15.

(** * Properties *)

Lemma clamp_max_min (x : Z) : Z.max 0 (Z.min x 4000) = clamp 0 4000 x.
Proof.
  unfold clamp.
  destruct (Z.ltb_spec x 0), (Z.ltb_spec 4000 x); lia.
Qed.

Lemma clamp_index (x : Z) : Z.min (Z.max x 0) 4 = clamp 0 4 x.
Proof.
  unfold clamp.
  destruct (Z.ltb_spec x 0), (Z.ltb_spec 4 x); lia.
Qed.

Lemma int_sum_foldr (l : list Z) : int_sum l = foldr Z.add 0 l.
Proof.
  unfold int_sum.
  enough (Hgen : forall a, fold_left Z.add l a = a + foldr Z.add 0 l) by (rewrite Hgen; lia).
  induction l as [|x l IH]; intros a; simpl; [lia|].
  rewrite IH. lia.
Qed.

(** ** Prep quantity (C2) *)

Lemma suggested_grams_refines p f g c :
  compute_suggested_grams p f g c = spec_suggested_grams Py.int p f g c.
Proof.
  unfold compute_suggested_grams, spec_suggested_grams, Py.max.
  repeat (apply option_bind_ext; [intros ?|done]).
  by rewrite clamp_max_min.
Qed.

Lemma suggested_grams_bounds p f g c grams :
  compute_suggested_grams p f g c = Some grams -> 0 <= grams <= 4000.
Proof.
  unfold compute_suggested_grams. intros Hg.
  repeat (apply bind_Some in Hg as (? & _ & Hg)).
  injection Hg as <-. lia.
Qed.

(** C2, as amended: on every input [compute_suggested_grams] is the
    specification's formula with the product truncated toward zero (Python's
    [int]), not rounded; a returned value lies in [[0, 4000]]; and
    [compute_suggested_grams(15, 60, 160, 20) = 480]. *)
Theorem C2_suggested_grams_truncates (predicted pan_fill_percent portion_grams capacity : Z) :
  compute_suggested_grams predicted pan_fill_percent portion_grams capacity
    = spec_suggested_grams Py.int predicted pan_fill_percent portion_grams capacity
  /\ (forall grams,
        compute_suggested_grams predicted pan_fill_percent portion_grams capacity = Some grams ->
        0 <= grams <= 4000)
  /\ compute_suggested_grams 15 60 160 20 = Some 480.
Proof.
  split; [by apply suggested_grams_refines|].
  split; [|by vm_compute].
  intros grams. apply suggested_grams_bounds.
Qed.

(** C2 as stated fails: with the product rounded to the nearest integer the
    formula gives 1 gram for [(1, 40, 1, 1)] (a shortfall of 0.6 portions of
    one gram) where the code returns 0, and 96 grams for the configured
    site's [(2, 7, 160, 20)] where the code returns 95. *)
Lemma C2_rounding_counterexample :
  compute_suggested_grams 1 40 1 1 = Some 0
  /\ spec_suggested_grams Py.round 1 40 1 1 = Some 1
  /\ compute_suggested_grams 2 7 160 20 = Some 95
  /\ spec_suggested_grams Py.round 2 7 160 20 = Some 96.
Proof. by vm_compute. Qed.

(** ** Satisfaction estimate (C7) *)

Lemma satisfaction_refines (scores : list Z) :
  compute_satisfaction_percent scores = spec_satisfaction_percent Py.int scores.
Proof.
  unfold compute_satisfaction_percent, spec_satisfaction_percent.
  destruct scores as [|x l]; [done|].
  rewrite decide_False by done.
  rewrite int_sum_foldr. unfold Py.truediv at 2.
  destruct (Py.int_truediv _ _) as [avg|]; [|done].
  change (Py.truediv (PInt 67) (PFloat 2)) with (Some (PFloat 33.5)).
  done.
Qed.

(** C7, as amended: [compute_satisfaction_percent] returns null for an empty
    list and otherwise [33 + (avg - 1) * 33.5] truncated toward zero
    (Python's [int]), not rounded; it maps [[1,1,1]] to 33 and [[3,3,3]] to
    100. *)
Theorem C7_satisfaction_truncates (scores : list Z) :
  compute_satisfaction_percent scores = spec_satisfaction_percent Py.int scores
  /\ compute_satisfaction_percent [] = Some None
  /\ compute_satisfaction_percent [1; 1; 1] = Some (Some 33)
  /\ compute_satisfaction_percent [3; 3; 3] = Some (Some 100).
Proof.
  split; [apply satisfaction_refines|].
  by vm_compute.
Qed.

(** C7 as stated fails: the scores [[1, 2]] average 1.5, the formula gives
    49.75, which rounds to 50, and the code returns 49. *)
Lemma C7_rounding_counterexample :
  compute_satisfaction_percent [1; 2] = Some (Some 49)
  /\ spec_satisfaction_percent Py.round [1; 2] = Some (Some 50).
Proof. by vm_compute. Qed.

(** ** Forecast (C6) *)

Lemma predict_next_wave_refines weekday (d : ServiceDay.t) wave_index multiplier :
  predict_next_wave weekday d wave_index multiplier
  = spec_predict_next_wave discount_truncated (is_weekend weekday)
      (ServiceDay.total_expected_diners d) (ServiceDay.diners_so_far d)
      wave_index multiplier.
Proof.
  unfold predict_next_wave, spec_predict_next_wave, is_weekend, discount_truncated.
  change (Z.of_nat (length EXPECTED_WAVES)) with 5.
  change (5 - 1) with 4. rewrite clamp_index.
  destruct (EXPECTED_WAVES !! _) as [pattern|]; [simpl|done].
  destruct (5 <=? weekday).
  - destruct (Py.mul (PInt pattern) (PFloat 0.7)) as [x|]; [simpl|done].
    destruct (Py.int x) as [e|]; [simpl|done].
    unfold Py.truediv. by destruct (Py.int_truediv _ _).
  - simpl. unfold Py.truediv. by destruct (Py.int_truediv _ _).
Qed.

Lemma predict_next_wave_nonneg weekday d wave_index multiplier r :
  predict_next_wave weekday d wave_index multiplier = Some r -> 0 <= r.
Proof.
  unfold predict_next_wave. intros Hr.
  repeat (apply bind_Some in Hr as (? & _ & Hr)).
  injection Hr as <-. lia.
Qed.

(** C6, as amended: [predict_next_wave] is the specification's forecast with
    the weekend discount truncated to an integer ([int(pattern * 0.7)])
    before the blend; on a weekday it is the forecast exactly as the
    specification words it; and a returned forecast is never negative. *)
Theorem C6_forecast_truncates_weekend_discount
    weekday (d : ServiceDay.t) wave_index multiplier :
  predict_next_wave weekday d wave_index multiplier
  = spec_predict_next_wave discount_truncated (is_weekend weekday)
      (ServiceDay.total_expected_diners d) (ServiceDay.diners_so_far d)
      wave_index multiplier
  /\ (is_weekend weekday = false ->
      predict_next_wave weekday d wave_index multiplier
      = spec_predict_next_wave discount_plain false
          (ServiceDay.total_expected_diners d) (ServiceDay.diners_so_far d)
          wave_index multiplier)
  /\ (forall r, predict_next_wave weekday d wave_index multiplier = Some r -> 0 <= r).
Proof.
  split; [apply predict_next_wave_refines|].
  split; [|apply predict_next_wave_nonneg].
  intros Hwd. rewrite predict_next_wave_refines, Hwd. done.
Qed.

(** C6 as stated fails on a weekend: on a Saturday ([weekday = 5]), wave 3
    (pattern 25), one diner still expected over two waves and multiplier 1,
    the plain discount gives [0.5 * 17.5 + 0.5 * 0.5 = 9], and the code,
    which blends [int(17.5) = 17], returns 8. *)
Lemma C6_weekend_counterexample :
  predict_next_wave 5 weekend_session 3 1 = Some 8
  /\ spec_predict_next_wave discount_plain true 120 119 3 1 = Some 9.
Proof. by vm_compute. Qed.

(** ** Urgency tier (C3) *)

Lemma signal_level_tier_spec (grams pan : Z) : tier_spec grams pan (signal_level grams pan).
Proof.
  unfold tier_spec, signal_level.
  destruct (Z.leb_spec 1800 grams), (Z.leb_spec pan 35),
    (Z.leb_spec 600 grams), (Z.leb_spec pan 55); simpl;
    repeat split; intros; try discriminate; try lia; try tauto.
Qed.

(** ** Monadic steps *)

Lemma M_bind_Some {A B} (m : M A) (f : A -> M B) w w' b :
  (m ≫= f) w = (w', Some b) ->
  exists w1 a, m w = (w1, Some a) /\ f a w1 = (w', Some b).
Proof.
  unfold mbind, M_bind. destruct (m w) as [w1 [a|]]; [eauto|discriminate].
Qed.

Lemma M_bind_run {A B} (m : M A) (f : A -> M B) w w1 a :
  m w = (w1, Some a) -> (m ≫= f) w = f a w1.
Proof. unfold mbind, M_bind. by intros ->. Qed.

Lemma M_bind_raise {A B} (m : M A) (f : A -> M B) w w1 :
  m w = (w1, None) -> (m ≫= f) w = (w1, None).
Proof. unfold mbind, M_bind. by intros ->. Qed.

Section Lifecycle.
Context `{B : Builtins}.

Lemma get_or_create_existing env site w d :
  session w (site, today env) = Some d ->
  get_or_create_service_day env site w = (w, Some (site, today env)).
Proof.
  unfold session, get_or_create_service_day. intros Hd.
  unfold mbind, M_bind, get_world. by rewrite Hd.
Qed.

Lemma get_or_create_fresh env site w :
  session w (site, today env) = None ->
  get_or_create_service_day env site w
  = ({| SERVICE_DAYS :=
          <[(site, today env) :=
              _hydrate_service_day_from_store env w (new_service_day site (today env))]>
            (SERVICE_DAYS w);
        REDIS_CLIENT := REDIS_CLIENT w |}, Some (site, today env)).
Proof.
  unfold session, get_or_create_service_day. intros Hd.
  unfold mbind, M_bind, get_world. by rewrite Hd.
Qed.

Lemma service_day_run w key d :
  session w key = Some d -> service_day key w = (w, Some d).
Proof. unfold session, service_day. by intros ->. Qed.

Lemma world_eta w :
  {| SERVICE_DAYS := SERVICE_DAYS w; REDIS_CLIENT := REDIS_CLIENT w |} = w.
Proof. by destruct w. Qed.

(** ** Diner counter (C9) *)

(** C9, as amended: the counter is not monotonic.  [api_increment_diner]
    sets the counter of the session to [max(old + delta, 0)], where [delta]
    is the integer [int()] reads from the body (1 when the body has none;
    an integer delta is read as it is): the counter never becomes negative,
    and it does not decrease when the delta is not negative; a negative
    delta lowers a counter that is above 0 and leaves at 0 a counter that
    is not.  A delta [int()] cannot read raises and leaves the world as it
    was. *)
Theorem C9_increment_clamps_at_zero env site data w d :
  session w (site, today env) = Some d ->
  let old := ServiceDay.diners_so_far d in
  (forall delta,
      posted_delta data = Some delta ->
      let total := Z.max (old + delta) 0 in
      exists w',
        api_increment_diner env site data w = (w', Some (RDiners total))
        /\ session w' (site, today env) = Some (ServiceDay.set_diners_so_far total d)
        /\ 0 <= total
        /\ (0 <= delta -> old <= total)
        /\ (delta < 0 -> 0 < old -> total < old)
        /\ (delta < 0 -> old <= 0 -> total = 0))
  /\ (posted_delta data = None -> api_increment_diner env site data w = (w, None))
  /\ (data !! "delta" = None -> posted_delta data = Some 1)
  /\ (forall delta : Z, data !! "delta" = Some (JsInt delta) -> posted_delta data = Some delta).
Proof.
  intros Hd old.
  split; [|split; [|split]].
  - intros delta Hdelta total. unfold posted_delta in Hdelta. unfold api_increment_diner.
    erewrite M_bind_run by (by eapply get_or_create_existing).
    erewrite M_bind_run by (by apply service_day_run).
    unfold lift at 1. erewrite M_bind_run by (by rewrite Hdelta).
    eexists. split; [reflexivity|].
    split; [|unfold total, old; lia].
    unfold session in *. simpl. by rewrite lookup_alter_eq, Hd.
  - intros Hdelta. unfold posted_delta in Hdelta. unfold api_increment_diner.
    erewrite M_bind_run by (by eapply get_or_create_existing).
    erewrite M_bind_run by (by apply service_day_run).
    unfold lift at 1, mbind, M_bind. by rewrite Hdelta.
  - intros Hnone. unfold posted_delta. by rewrite Hnone.
  - intros delta Hdelta. unfold posted_delta. by rewrite Hdelta.
Qed.

(** ** Staleness guard (C5) *)

Lemma timestamp_differs payload card :
  match payload_get payload "decision_timestamp" with
  | Some (JsStr ts) => String.eqb ts (DecisionCard.timestamp card)
  | Some _ => false
  | None => true
  end = false
  <-> exists v, payload_get payload "decision_timestamp" = Some v
                /\ v <> JsStr (DecisionCard.timestamp card).
Proof.
  destruct (payload_get payload "decision_timestamp") as [v|]; [|split; [done|by intros (? & ? & ?)]].
  split.
  - intros Hv. exists v. split; [done|]. intros ->. by rewrite String.eqb_refl in Hv.
  - intros (v' & [= <-] & Hne). destruct v; try done.
    destruct (String.eqb_spec s (DecisionCard.timestamp card)); [|done]. by subst.
Qed.

Lemma slot_differs payload card :
  match payload_get payload "service_slot" with
  | Some slot => String.eqb (DecisionCard.service_slot card) (json_str slot)
  | None => true
  end = false
  <-> exists v, payload_get payload "service_slot" = Some v
                /\ json_str v <> DecisionCard.service_slot card.
Proof.
  destruct (payload_get payload "service_slot") as [v|]; [|split; [done|by intros (? & ? & ?)]].
  destruct (String.eqb_spec (DecisionCard.service_slot card) (json_str v)) as [E|E].
  - split; [done|]. intros (v' & [= <-] & Hne). by rewrite E in Hne.
  - split; [|done]. intros _. exists v. split; [done|]. by intros Heq.
Qed.

Lemma payload_get_nonempty payload k v : payload_get payload k = Some v -> payload <> ∅.
Proof. intros Hv ->. unfold payload_get in Hv. by rewrite lookup_empty in Hv. Qed.

Lemma differs_from_card_nonempty payload card : differs_from_card payload card -> payload <> ∅.
Proof.
  intros [(v & i & Hv & _) | (_ & [(v & Hv & _) | (v & Hv & _)])];
    by eapply payload_get_nonempty.
Qed.

(** [get_matching_decision] gives no card exactly when the session holds
    none or the payload differs from the one it holds. *)
Lemma get_matching_decision_stale d payload :
  get_matching_decision d payload = Some None
  <-> (forall card, ServiceDay.last_decision d = Some card -> differs_from_card payload card).
Proof.
  unfold get_matching_decision.
  destruct (ServiceDay.last_decision d) as [card|]; [|split; [by intros _ card|done]].
  split.
  - intros Hm c [= <-].
    destruct (decide (payload = ∅)); [done|].
    unfold differs_from_card, wave_index_readable.
    destruct (payload_get payload "decision_wave_index") as [v|] eqn:Ew.
    + destruct (json_int v) as [i|] eqn:Ei; [|done]. cbn [mbind option_bind] in Hm.
      destruct (Z.eqb_spec (DecisionCard.wave_index card) i) as [Ei'|Ei']; cbn [negb] in Hm.
      * right. split; [intros v' [= <-]; by rewrite Ei|].
        destruct (match payload_get payload "decision_timestamp" with
                  | Some (JsStr ts) => _ | Some _ => _ | None => _ end) eqn:Ets;
          cbn [negb] in Hm.
        -- right. apply slot_differs.
           destruct (match payload_get payload "service_slot" with
                     | Some slot => _ | None => _ end); [done|done].
        -- left. by apply timestamp_differs.
      * left. exists v, i. split; [done|]. split; [done|]. by intros ->.
    + cbn [mbind option_bind negb] in Hm.
      right. split; [by intros v'|].
      destruct (match payload_get payload "decision_timestamp" with
                | Some (JsStr ts) => _ | Some _ => _ | None => _ end) eqn:Ets;
        cbn [negb] in Hm.
      * right. apply slot_differs.
        destruct (match payload_get payload "service_slot" with
                  | Some slot => _ | None => _ end); [done|done].
      * left. by apply timestamp_differs.
  - intros Hdiff. specialize (Hdiff card eq_refl).
    rewrite decide_False by (by eapply differs_from_card_nonempty).
    destruct Hdiff as [(v & i & Hv & Hi & Hne) | (Hread & Hrest)].
    + rewrite Hv, Hi. cbn [mbind option_bind].
      destruct (Z.eqb_spec (DecisionCard.wave_index card) i); [by subst|done].
    + assert (Hwave : exists ok,
        match payload_get payload "decision_wave_index" with
        | Some wave_idx => i ← json_int wave_idx; Some (DecisionCard.wave_index card =? i)
        | None => Some true
        end = Some ok).
      { destruct (payload_get payload "decision_wave_index") as [v|] eqn:Ev; [|by eexists].
        destruct (Hread v Ev) as [i ->]. by eexists. }
      destruct Hwave as [ok ->]. cbn [mbind option_bind].
      destruct ok; [|done]. cbn [negb].
      destruct Hrest as [Hts | Hslot].
      * apply timestamp_differs in Hts. by rewrite Hts.
      * apply slot_differs in Hslot. rewrite Hslot.
        by destruct (match payload_get payload "decision_timestamp" with
                     | Some (JsStr ts) => _ | Some _ => _ | None => _ end).
Qed.

Lemma supplied_identity_differs payload identity card :
  supplies payload identity ->
  card_identity card <> identity ->
  differs_from_card payload card.
Proof.
  intros (Hw & Ht & Hs) Hne. unfold differs_from_card, wave_index_readable, payload_get.
  rewrite Hw, Ht, Hs.
  destruct (decide (identity.1.1 = DecisionCard.wave_index card)) as [Ew|Ew].
  - right. split; [intros v [= <-]; by eexists|].
    destruct (decide (identity.1.2 = DecisionCard.timestamp card)) as [Et|Et].
    + right. eexists. split; [done|]. cbn [json_str]. intros Es.
      apply Hne. unfold card_identity. destruct identity as [[a b] c]. simpl in *. by subst.
    + left. eexists. split; [done|]. by intros [= ?].
  - left. by exists (JsInt identity.1.1), identity.1.1.
Qed.

(** C5, as amended: the match is not exact.  A done or skip request is
    answered with the stale-decision failure, and the world after it is the
    world before it (pan fill and the card's status unchanged), when the
    session holds no card or the payload differs from the card as the code
    compares them: the wave index after [int()], then the timestamp as the
    value it is, then the service slot after [str()].  These are the only
    requests [get_matching_decision] turns down; a request that supplies an
    integer wave index and two texts that are not the triple of the card is
    one of them. *)
Theorem C5_stale_decision_rejected env site payload w d :
  session w (site, today env) = Some d ->
  (get_matching_decision d payload = Some None
   <-> (forall card, ServiceDay.last_decision d = Some card ->
                     differs_from_card payload card))
  /\ ((forall card, ServiceDay.last_decision d = Some card ->
                    differs_from_card payload card) ->
      api_done env site payload w = (w, Some RStale)
      /\ api_skip env site payload w = (w, Some RStale))
  /\ (forall identity,
        supplies payload identity ->
        (forall card, ServiceDay.last_decision d = Some card ->
                      card_identity card <> identity) ->
        forall card, ServiceDay.last_decision d = Some card ->
                     differs_from_card payload card).
Proof.
  intros Hd.
  split; [apply get_matching_decision_stale|].
  split.
  - intros Hdiff. apply get_matching_decision_stale in Hdiff as Hm.
    unfold api_done, api_skip.
    split.
    + erewrite M_bind_run by (by eapply get_or_create_existing).
      erewrite M_bind_run by (by apply service_day_run).
      unfold lift at 1. erewrite M_bind_run by (by rewrite Hm). done.
    + erewrite M_bind_run by (by eapply get_or_create_existing).
      erewrite M_bind_run by (by apply service_day_run).
      unfold lift at 1. erewrite M_bind_run by (by rewrite Hm). done.
  - intros identity Hp Hne card Hc. eapply supplied_identity_differs; [done|by apply Hne].
Qed.

End Lifecycle.

(** ** Relating the world before and after a step *)

Section Steps.
Variable P : World -> World -> Prop.
Context `{!PreOrder P}.

Lemma steps_at_bind {A B} (m : M A) (f : A -> M B) w :
  steps_at P m w ->
  (forall a w1, m w = (w1, Some a) -> steps_at P (f a) w1) ->
  steps_at P (m ≫= f) w.
Proof.
  intros Hm Hf w' r. unfold mbind, M_bind.
  destruct (m w) as [w1 [a|]] eqn:E.
  - intros Hr. transitivity w1; [by eapply Hm|by eapply Hf].
  - intros [= <- <-]. by eapply Hm.
Qed.

Lemma steps_bind {A B} (m : M A) (f : A -> M B) :
  steps P m -> (forall a, steps P (f a)) -> steps P (m ≫= f).
Proof. intros Hm Hf w. apply steps_at_bind; [apply Hm|]. intros a w1 _. apply Hf. Qed.

Lemma steps_ret {A} (a : A) : steps P (mret a).
Proof. intros w w' r [= <- <-]. reflexivity. Qed.

Lemma steps_lift {A} (o : option A) : steps P (lift o).
Proof. intros w w' r [= <- <-]. reflexivity. Qed.

Lemma steps_get_world : steps P get_world.
Proof. intros w w' r [= <- <-]. reflexivity. Qed.

Lemma steps_service_day key : steps P (service_day key).
Proof. intros w w' r [= <- <-]. reflexivity. Qed.

Lemma steps_if {A} (b : bool) (m1 m2 : M A) :
  steps P m1 -> steps P m2 -> steps P (if b then m1 else m2).
Proof. by destruct b. Qed.

(** The two ways a step changes the world. *)
Hypothesis P_redis : forall w f,
  P w {| SERVICE_DAYS := SERVICE_DAYS w; REDIS_CLIENT := f <$> REDIS_CLIENT w |}.

Lemma steps_update_redis f : steps P (update_redis f).
Proof. intros w w' r [= <- <-]. apply P_redis. Qed.

Lemma steps_persist_feedback_score env d score : steps P (_persist_feedback_score env d score).
Proof. unfold _persist_feedback_score. apply steps_if; [apply steps_update_redis|apply steps_ret]. Qed.

Lemma steps_persist_detailed_feedback env d entry :
  steps P (_persist_detailed_feedback env d entry).
Proof. unfold _persist_detailed_feedback. apply steps_if; [apply steps_update_redis|apply steps_ret]. Qed.

Lemma steps_persist_reaction env d reaction : steps P (_persist_reaction env d reaction).
Proof. unfold _persist_reaction. apply steps_if; [apply steps_update_redis|apply steps_ret]. Qed.

Lemma steps_clear_storage env d : steps P (_clear_service_day_storage env d).
Proof. unfold _clear_service_day_storage. apply steps_if; [apply steps_update_redis|apply steps_ret]. Qed.

Lemma steps_update_service_day key f : accepts P f -> steps P (update_service_day key f).
Proof. intros Hf w w' r [= <- <-]. apply Hf. Qed.

Hypothesis P_feedback_scores : forall g,
  accepts P (fun d => ServiceDay.set_feedback_scores (g d) d).
Hypothesis P_detailed_feedback : forall g,
  accepts P (fun d => ServiceDay.set_detailed_feedback (g d) d).
Hypothesis P_reaction_stream : forall g,
  accepts P (fun d => ServiceDay.set_reaction_stream (g d) d).
Hypothesis P_wave_index : forall v, accepts P (ServiceDay.set_wave_index v).

Lemma steps_get_feedback_scores env key : steps P (get_feedback_scores env key).
Proof.
  unfold get_feedback_scores.
  apply steps_bind; [apply steps_service_day|intros d].
  apply steps_bind; [apply steps_get_world|intros w0].
  apply steps_if; [apply steps_ret|].
  apply steps_bind; [|intros _; apply steps_ret].
  apply steps_update_service_day, (P_feedback_scores (fun _ => _)).
Qed.

Lemma steps_get_detailed_feedback_entries env key limit :
  steps P (get_detailed_feedback_entries env key limit).
Proof.
  unfold get_detailed_feedback_entries.
  apply steps_bind; [apply steps_service_day|intros d].
  apply steps_bind; [apply steps_get_world|intros w0].
  apply steps_if; [apply steps_ret|].
  apply steps_bind; [|intros _; apply steps_ret].
  apply steps_update_service_day, (P_detailed_feedback (fun _ => _)).
Qed.

Lemma steps_get_recent_reactions env key : steps P (get_recent_reactions env key).
Proof.
  unfold get_recent_reactions.
  apply steps_bind; [apply steps_service_day|intros d].
  apply steps_bind; [apply steps_get_world|intros w0].
  apply steps_if; [apply steps_ret|].
  apply steps_bind; [|intros _; apply steps_ret].
  apply steps_update_service_day, (P_reaction_stream (fun _ => _)).
Qed.

Lemma steps_append_reaction_entry env key response_key value source :
  steps P (append_reaction_entry env key response_key value source).
Proof.
  unfold append_reaction_entry.
  apply steps_bind; [apply steps_update_service_day, P_reaction_stream|].
  intros _. apply steps_bind; [apply steps_service_day|intros d].
  apply steps_persist_reaction.
Qed.

Hypothesis P_created : forall env w site,
  SERVICE_DAYS w !! (site, today env) = None ->
  P w {| SERVICE_DAYS :=
           <[(site, today env) :=
               _hydrate_service_day_from_store env w (new_service_day site (today env))]>
             (SERVICE_DAYS w);
         REDIS_CLIENT := REDIS_CLIENT w |}.

Lemma steps_get_or_create env site : steps P (get_or_create_service_day env site).
Proof.
  intros w w' r. unfold get_or_create_service_day, mbind, M_bind, get_world.
  destruct (SERVICE_DAYS w !! (site, today env)) eqn:E.
  - intros [= <- <-]. reflexivity.
  - intros [= <- <-]. by apply P_created.
Qed.

Hypothesis P_diners_so_far : forall v, accepts P (ServiceDay.set_diners_so_far v).

Section WithBuiltins.
Context `{B : Builtins}.

Lemma steps_api_increment_diner env site data :
  steps P (api_increment_diner env site data).
Proof.
  unfold api_increment_diner.
  apply steps_bind; [apply steps_get_or_create|intros key].
  apply steps_bind; [apply steps_service_day|intros d].
  apply steps_bind; [apply steps_lift|intros delta].
  apply steps_bind; [by apply steps_update_service_day|intros _; apply steps_ret].
Qed.

Lemma steps_api_feedback env site data : steps P (api_feedback env site data).
Proof.
  unfold api_feedback.
  apply steps_bind; [apply steps_get_or_create|intros key].
  apply steps_bind; [apply steps_lift|intros rating].
  apply steps_if; [|apply steps_ret].
  apply steps_bind; [apply steps_update_service_day, P_feedback_scores|intros _].
  apply steps_bind; [apply steps_service_day|intros d].
  apply steps_bind; [apply steps_persist_feedback_score|intros _].
  apply steps_bind; [apply steps_append_reaction_entry|intros _; apply steps_ret].
Qed.

Lemma steps_api_feedback_extended env site question_set responses :
  steps P (api_feedback_extended env site question_set responses).
Proof.
  unfold api_feedback_extended.
  apply steps_bind; [apply steps_get_or_create|intros key].
  destruct responses as [[|kv l]|]; try apply steps_ret.
  apply steps_bind; [apply steps_update_service_day, P_detailed_feedback|intros _].
  apply steps_bind; [apply steps_service_day|intros d].
  apply steps_bind; [apply steps_persist_detailed_feedback|intros _].
  apply steps_bind; [|intros _].
  - generalize (kv :: l). intros l'.
    induction l' as [|x l' IH]; simpl; [apply steps_ret|].
    apply steps_bind; [apply steps_append_reaction_entry|by intros _].
  - apply steps_bind; [apply steps_get_detailed_feedback_entries|intros ?; apply steps_ret].
Qed.

(** A status change on the card the session holds. *)
Hypothesis P_status : forall w key d card st,
  session w key = Some d ->
  ServiceDay.last_decision d = Some card ->
  P w {| SERVICE_DAYS :=
           alter (ServiceDay.set_last_decision (Some (DecisionCard.set_status st card)))
             key (SERVICE_DAYS w);
         REDIS_CLIENT := REDIS_CLIENT w |}.

Lemma get_matching_decision_card d payload card :
  get_matching_decision d payload = Some (Some card) ->
  ServiceDay.last_decision d = Some card.
Proof.
  unfold get_matching_decision.
  destruct (ServiceDay.last_decision d) as [c|]; [|done].
  destruct (decide _); [congruence|].
  intros Hm. apply bind_Some in Hm as (ok & _ & Hm).
  repeat (match type of Hm with (if ?b then _ else _) = _ => destruct b end;
          try discriminate).
  congruence.
Qed.

Lemma steps_api_skip env site payload : steps P (api_skip env site payload).
Proof.
  unfold api_skip. intros w.
  apply steps_at_bind; [apply steps_get_or_create|intros key w1 _].
  apply steps_at_bind; [apply steps_service_day|intros d w2 [= <- Hd]].
  apply steps_at_bind; [apply steps_lift|intros [card|] w3 [= <- Hm]];
    [|apply steps_ret].
  apply steps_at_bind; [|intros _ w4 _; apply steps_ret].
  intros w' r [= <- <-].
  eapply P_status; [exact Hd|by eapply get_matching_decision_card].
Qed.

(** The demo lowering of the pan, and the card a recomputation stores. *)
Hypothesis P_demo : forall w key d,
  session w key = Some d ->
  75 <= ServiceDay.pan_fill_percent d ->
  P w {| SERVICE_DAYS :=
           alter (ServiceDay.set_pan_fill_percent
                    (Z.max 45 (ServiceDay.pan_fill_percent d - 20)))
             key (SERVICE_DAYS w);
         REDIS_CLIENT := REDIS_CLIENT w |}.

Hypothesis P_card : forall w key card,
  0 <= DecisionCard.suggested_grams card <= 4000 ->
  P w {| SERVICE_DAYS :=
           alter (ServiceDay.set_last_decision (Some card)) key (SERVICE_DAYS w);
         REDIS_CLIENT := REDIS_CLIENT w |}.

Lemma steps_compute_current_state env site : steps P (compute_current_state env site).
Proof.
  unfold compute_current_state. intros w.
  apply steps_at_bind; [apply steps_get_or_create|intros key w1 _].
  apply steps_at_bind; [by apply steps_update_service_day|intros _ w2 _].
  apply steps_at_bind; [apply steps_get_feedback_scores|intros scores w3 _].
  apply steps_at_bind; [apply steps_get_detailed_feedback_entries|intros entries w4 _].
  apply steps_at_bind; [apply steps_lift|intros multiplier w5 _].
  apply steps_at_bind; [apply steps_service_day|intros d w6 [= <- Hd]].
  apply steps_at_bind;
    [apply steps_if; [apply steps_lift|apply steps_ret]|intros predicted w7 Hp].
  assert (w7 = w5) as ->.
  { destruct (negb _ || _); unfold lift in Hp; by injection Hp. }
  apply steps_at_bind.
  { destruct (DEMO_MODE env && (75 <=? ServiceDay.pan_fill_percent d)) eqn:Edemo;
      [|apply steps_ret].
    intros w' r [= <- <-]. apply P_demo; [done|].
    apply andb_true_iff in Edemo as [_ Hpan]. lia. }
  intros _ w8 _.
  apply steps_at_bind; [apply steps_service_day|intros d' w9 _].
  apply steps_at_bind; [apply steps_lift|intros grams w10 [= <- Hg]].
  apply steps_at_bind; [apply steps_lift|intros satisfaction w11 _].
  apply steps_at_bind;
    [apply steps_if; [apply steps_ret|apply steps_lift]|intros portions w12 _].
  apply steps_at_bind;
    [apply steps_if; [apply steps_ret|apply steps_lift]|intros served w12' _].
  apply steps_at_bind.
  { intros w' r [= <- <-]. apply P_card. simpl.
    by eapply suggested_grams_bounds. }
  intros _ w13 _.
  apply steps_at_bind; [apply steps_get_recent_reactions|intros ? w14 _; apply steps_ret].
Qed.

Lemma steps_api_state env site : steps P (api_state env site).
Proof.
  unfold api_state.
  apply steps_bind; [apply steps_compute_current_state|intros ?; apply steps_ret].
Qed.

(** The refill of a done action on the card the session holds. *)
Hypothesis P_done : forall w key d card pan,
  session w key = Some d ->
  ServiceDay.last_decision d = Some card ->
  adjust_pan_after_refill (ServiceDay.pan_fill_percent d)
    (DecisionCard.suggested_grams card) 160 20 = Some pan ->
  P w {| SERVICE_DAYS :=
           alter (ServiceDay.set_last_decision (Some (DecisionCard.set_status done_ card)))
             key
             (alter (ServiceDay.set_pan_fill_percent pan) key (SERVICE_DAYS w));
         REDIS_CLIENT := REDIS_CLIENT w |}.

Lemma steps_api_done env site payload : steps P (api_done env site payload).
Proof.
  unfold api_done. intros w.
  apply steps_at_bind; [apply steps_get_or_create|intros key w1 _].
  apply steps_at_bind; [apply steps_service_day|intros d w2 [= <- Hd]].
  apply steps_at_bind; [apply steps_lift|intros [card|] w3 [= <- Hm]];
    [|apply steps_ret].
  apply steps_at_bind; [apply steps_lift|intros pan w4 [= <- Hpan]].
  intros w' r Hr.
  unfold mbind, M_bind, update_service_day in Hr. simpl in Hr.
  injection Hr as <- <-.
  eapply P_done; [exact Hd|by eapply get_matching_decision_card|exact Hpan].
Qed.

End WithBuiltins.

End Steps.

(** ** Pan fill (C4) *)

#[local] Instance pan_not_raised_preorder : PreOrder pan_not_raised.
Proof.
  split.
  - intros w key d Hd. exists d. split; [done|lia].
  - intros w1 w2 w3 H12 H23 key d Hd.
    destruct (H12 key d Hd) as (d2 & Hd2 & Hle2).
    destruct (H23 key d2 Hd2) as (d3 & Hd3 & Hle3).
    exists d3. split; [done|lia].
Qed.




Section PanFill.
Context `{B : Builtins}.

Lemma reset_removes env site w w' r key d' :
  api_reset_day env site w = (w', r) ->
  session w' key = Some d' ->
  session w key = Some d'.
Proof.
  unfold api_reset_day, session.
  unfold mbind at 1, M_bind at 1, pop_service_day at 1.
  destruct (SERVICE_DAYS w !! (site, today env)) as [d|] eqn:E; simpl.
  - unfold _clear_service_day_storage, pop_service_day, update_redis, mbind, M_bind.
    destruct (redis_up env); simpl; intros [= <- <-]; simpl;
      (destruct (decide (key = (site, today env))) as [->|Hk];
       [by rewrite lookup_delete_eq
       |by rewrite !lookup_delete_ne by done]).
  - unfold get_or_create_service_day, get_world, put_world, service_day, mbind, M_bind.
    simpl. rewrite lookup_delete_eq. simpl. rewrite lookup_insert_eq.
    unfold _clear_service_day_storage, pop_service_day, update_redis, mbind, M_bind.
    destruct (redis_up env); simpl; intros [= <- <-]; simpl;
      (destruct (decide (key = (site, today env))) as [->|Hk];
       [by rewrite lookup_delete_eq
       |by rewrite !lookup_delete_ne, lookup_insert_ne, lookup_delete_ne by done]).
Qed.



End PanFill.

Lemma all_from_spec n lo f z :
  all_from n lo f = true -> lo <= z < lo + Z.of_nat n -> f z = true.
Proof.
  revert lo. induction n as [|n IH]; intros lo Hall Hz; [lia|].
  simpl in Hall. apply andb_true_iff in Hall as [Hlo Hrest].
  destruct (decide (z = lo)) as [->|Hne]; [done|].
  apply (IH (lo + 1)); [done|lia].
Qed.

Lemma refill_table :
  all_from (Z.to_nat 101) 0 (fun pan => all_from (Z.to_nat 4001) 0 (refill_check pan)) = true.
Proof. vm_compute. reflexivity. Qed.

Lemma refill_facts pan grams :
  0 <= pan <= 100 -> 0 <= grams <= 4000 ->
  exists r,
    adjust_pan_after_refill pan grams 160 20 = Some r
    /\ 0 <= r <= 100
    /\ (r - pan) * (20 * 160) <= 100 * grams
    /\ (0 < grams -> pan <= r).
Proof.
  intros Hpan Hgrams.
  assert (Hc : refill_check pan grams = true).
  { apply (all_from_spec (Z.to_nat 4001) 0); [|lia].
    apply (all_from_spec (Z.to_nat 101) 0 _ pan refill_table). lia. }
  unfold refill_check in Hc.
  destruct (adjust_pan_after_refill pan grams 160 20) as [r|]; [|done].
  exists r. split; [done|].
  repeat (apply andb_true_iff in Hc as [Hc ?]).
  apply orb_true_iff in H as Hor.
  repeat split; try lia.
Qed.


(** ** Binary64 addition near one (for C1) *)

Lemma digits2_pos_bounds (p : positive) :
  2 ^ (Z.pos (digits2_pos p) - 1) <= Z.pos p < 2 ^ Z.pos (digits2_pos p).
Proof.
  induction p as [p IH|p IH|]; simpl digits2_pos.
  - rewrite Pos2Z.inj_succ.
    replace (Z.succ (Z.pos (digits2_pos p)) - 1) with (Z.succ (Z.pos (digits2_pos p) - 1)) by lia.
    rewrite !Z.pow_succ_r by lia. lia.
  - rewrite Pos2Z.inj_succ.
    replace (Z.succ (Z.pos (digits2_pos p)) - 1) with (Z.succ (Z.pos (digits2_pos p) - 1)) by lia.
    rewrite !Z.pow_succ_r by lia. lia.
  - simpl. lia.
Qed.

Lemma digits2_pos_unique (p : positive) (k : Z) :
  2 ^ (k - 1) <= Z.pos p < 2 ^ k -> Z.pos (digits2_pos p) = k.
Proof.
  intros [Hlo Hhi].
  pose proof (digits2_pos_bounds p) as [Hlo' Hhi'].
  assert (0 < k).
  { destruct (Z.le_gt_cases k 0) as [Hk|Hk]; [|done].
    assert (2 ^ k <= 2 ^ 0) by (apply Z.pow_le_mono_r; lia). simpl in *. lia. }
  destruct (Z.lt_trichotomy (Z.pos (digits2_pos p)) k) as [Hlt|[Heq|Hgt]]; [|done|].
  - assert (2 ^ Z.pos (digits2_pos p) <= 2 ^ (k - 1)) by (apply Z.pow_le_mono_r; lia). lia.
  - assert (2 ^ k <= 2 ^ (Z.pos (digits2_pos p) - 1)) by (apply Z.pow_le_mono_r; lia). lia.
Qed.

(** [iter_pos] is iteration. *)
Lemma iter_pos_nat {A} (f : A -> A) (n : positive) (x : A) :
  SpecFloat.iter_pos f n x = Nat.iter (Pos.to_nat n) f x.
Proof.
  revert x. induction n as [n IH|n IH|]; intros x; cbn [SpecFloat.iter_pos].
  - rewrite !IH, Pos2Nat.inj_xI, Nat.iter_succ_r.
    replace (2 * Pos.to_nat n)%nat with (Pos.to_nat n + Pos.to_nat n)%nat by lia.
    by rewrite Nat.iter_add.
  - rewrite !IH, Pos2Nat.inj_xO.
    replace (2 * Pos.to_nat n)%nat with (Pos.to_nat n + Pos.to_nat n)%nat by lia.
    by rewrite Nat.iter_add.
  - done.
Qed.

(** One step of the shift: the mantissa is halved, the round bit is the bit
    dropped, the sticky bit remembers the earlier ones. *)
Lemma shr_1_spec (m : Z) (r s : bool) :
  0 <= m ->
  shr_1 {| shr_m := m; shr_r := r; shr_s := s |}
  = {| shr_m := m / 2; shr_r := Z.odd m; shr_s := r || s |}.
Proof.
  intros Hm. unfold shr_1.
  destruct m as [|[p|p|]|p]; try lia; try done.
  - f_equal. rewrite Pos2Z.inj_xI. apply Z.div_unique with 1; lia.
  - f_equal. rewrite Pos2Z.inj_xO. apply Z.div_unique with 0; lia.
Qed.

(** After [k >= 1] steps from an exact mantissa [S]. *)
Lemma shr_iter_spec (S : Z) (k : nat) :
  0 <= S ->
  Nat.iter (Datatypes.S k) shr_1 {| shr_m := S; shr_r := false; shr_s := false |}
  = {| shr_m := S / 2 ^ Z.of_nat (Datatypes.S k);
       shr_r := Z.odd (S / 2 ^ Z.of_nat k);
       shr_s := negb (S mod 2 ^ Z.of_nat k =? 0) |}.
Proof.
  intros HS. induction k as [|k IH].
  - change (Nat.iter 1 shr_1 ?x) with (shr_1 x). rewrite shr_1_spec by done.
    change (2 ^ Z.of_nat 1) with 2. change (2 ^ Z.of_nat 0) with 1.
    by rewrite Z.div_1_r, Z.mod_1_r.
  - change (Nat.iter (Datatypes.S (Datatypes.S k)) shr_1 ?x)
      with (shr_1 (Nat.iter (Datatypes.S k) shr_1 x)).
    rewrite IH.
    assert (Hp : 0 < 2 ^ Z.of_nat k) by (apply Z.pow_pos_nonneg; lia).
    assert (Hq : 0 <= S / 2 ^ Z.of_nat (Datatypes.S k)) by (apply Z.div_pos; [done|apply Z.pow_pos_nonneg; lia]).
    rewrite shr_1_spec by done.
    f_equal.
    + rewrite Z.div_div by (try apply Z.pow_pos_nonneg; lia).
      f_equal. rewrite (Nat2Z.inj_succ (Datatypes.S k)), Z.pow_succ_r by lia. lia.
    + rewrite (Nat2Z.inj_succ k), Z.pow_succ_r by lia.
      set (P := 2 ^ Z.of_nat k) in *. set (A := S / P) in *.
      pose proof (Z.div_mod S P ltac:(lia)) as Hdm. fold A in Hdm.
      pose proof (Z.mod_pos_bound S P Hp) as Hb.
      pose proof (Z.div_mod A 2 ltac:(lia)) as Hdm2.
      assert (Hbit : A mod 2 = Z.b2z (Z.odd A)) by (by rewrite <- Z.bit0_odd, Z.bit0_mod).
      assert (Hmod : S mod (2 * P) = Z.b2z (Z.odd A) * P + S mod P).
      { symmetry. apply Z.mod_unique with (A / 2); [destruct (Z.odd A); simpl; lia|].
        rewrite Hbit in Hdm2. nia. }
      rewrite Hmod.
      destruct (Z.odd A); simpl Z.b2z;
        destruct (Z.eqb_spec (S mod P) 0); simpl;
        symmetry; rewrite ?negb_true_iff, ?negb_false_iff, ?Z.eqb_neq, ?Z.eqb_eq; lia.
Qed.

(** Shifting [n] bits out of an exact mantissa [S] and rounding to nearest
    even gives an [R] with [(2R - 1) * 2^(n-1) <= S <= (2R + 1) * 2^(n-1)]. *)
Lemma shift_round_nearest (S : Z) (n : positive) :
  0 <= S ->
  let mrs := SpecFloat.iter_pos shr_1 n {| shr_m := S; shr_r := false; shr_s := false |} in
  let R := round_nearest_even (shr_m mrs) (loc_of_shr_record mrs) in
  (2 * R - 1) * 2 ^ (Z.pos n - 1) <= S <= (2 * R + 1) * 2 ^ (Z.pos n - 1).
Proof.
  intros HS mrs R. subst R mrs.
  rewrite iter_pos_nat.
  destruct (Pos.to_nat n) as [|k] eqn:Ek; [lia|].
  rewrite shr_iter_spec by done.
  replace (Z.pos n - 1) with (Z.of_nat k) by lia.
  replace (Z.of_nat (Datatypes.S k)) with (Z.succ (Z.of_nat k)) by lia.
  rewrite Z.pow_succ_r by lia.
  set (P := 2 ^ Z.of_nat k).
  assert (Hp : 0 < P) by (apply Z.pow_pos_nonneg; lia).
  set (A := S / P).
  pose proof (Z.div_mod S P ltac:(lia)) as Hdm. fold A in Hdm.
  pose proof (Z.mod_pos_bound S P Hp) as Hb.
  assert (Hq : S / (2 * P) = A / 2).
  { unfold A. rewrite Z.div_div by lia. f_equal. lia. }
  rewrite Hq.
  pose proof (Z.div_mod A 2 ltac:(lia)) as Hdm2.
  assert (Hbit : A mod 2 = Z.b2z (Z.odd A)) by (by rewrite <- Z.bit0_odd, Z.bit0_mod).
  rewrite Hbit in Hdm2.
  unfold loc_of_shr_record, round_nearest_even. simpl.
  destruct (Z.odd A); simpl Z.b2z in Hdm2;
    destruct (Z.eqb_spec (S mod P) 0) as [E0|E0]; simpl.
  - destruct (Z.even (A / 2)); nia.
  - nia.
  - nia.
  - nia.
Qed.

(** Rounding an exact positive mantissa with [53 + k] digits into binary64,
    away from the subnormal and overflow ranges. *)
Lemma binary_round_aux_near (sx : bool) (S : positive) (e k : Z) :
  0 < k ->
  Z.pos (digits2_pos S) = 53 + k ->
  -1074 <= e + k -> e + k + 1 <= 971 ->
  exists R,
    (2 * R - 1) * 2 ^ (k - 1) <= Z.pos S <= (2 * R + 1) * 2 ^ (k - 1)
    /\ two52 <= R <= Py.two53
    /\ binary_round_aux prec emax sx (Z.pos S) e loc_Exact
       = if R <? Py.two53 then S754_finite sx (Z.to_pos R) (e + k)
         else S754_finite sx (Z.to_pos two52) (e + k + 1).
Proof.
  intros Hk Hdig Hlo Hhi.
  destruct k as [|n|n]; try lia.
  pose proof (shift_round_nearest (Z.pos S) n ltac:(lia)) as Hrne.
  cbv zeta in Hrne.
  set (mrs := SpecFloat.iter_pos shr_1 n {| shr_m := Z.pos S; shr_r := false; shr_s := false |}) in *.
  set (R := round_nearest_even (shr_m mrs) (loc_of_shr_record mrs)) in *.
  exists R.
  pose proof (digits2_pos_bounds S) as [HSlo HShi]. rewrite Hdig in HSlo, HShi.
  replace (53 + Z.pos n - 1) with (53 + (Z.pos n - 1)) in HSlo by lia.
  replace (53 + Z.pos n) with (54 + (Z.pos n - 1)) in HShi by lia.
  rewrite Z.pow_add_r in HSlo, HShi by lia.
  set (Hh := 2 ^ (Z.pos n - 1)) in *.
  assert (HHpos : 0 < Hh) by (apply Z.pow_pos_nonneg; lia).
  change (2 ^ 53) with Py.two53 in HSlo. change (2 ^ 54) with (2 * Py.two53) in HShi.
  assert (HR : two52 <= R <= Py.two53).
  { unfold two52, Py.two53 in *. split; nia. }
  split; [done|]. split; [done|].
  unfold binary_round_aux.
  assert (Hfirst : shr_fexp prec emax (Z.pos S) e loc_Exact = (mrs, e + Z.pos n)).
  { unfold shr_fexp, Zdigits2. rewrite Hdig. unfold fexp, emin, prec, emax.
    replace (Z.max (53 + Z.pos n + e - 53) (3 - 1024 - 53) - e) with (Z.pos n) by lia.
    done. }
  rewrite Hfirst. fold R.
  destruct (Z.ltb_spec R Py.two53) as [Hlt|Hge].
  - assert (Hdig2 : Zdigits2 R = 53).
    { destruct R as [|r|r]; unfold two52 in *; try lia.
      simpl. apply digits2_pos_unique. unfold Py.two53 in *. simpl. lia. }
    unfold shr_fexp. rewrite Hdig2. unfold fexp, emin, prec, emax.
    replace (Z.max (53 + (e + Z.pos n) - 53) (3 - 1024 - 53) - (e + Z.pos n)) with 0 by lia.
    simpl shr. simpl shr_m.
    destruct R as [|r|r]; unfold two52 in *; try lia.
    cbn [shr_m Z.to_pos].
    destruct (Z.leb_spec (e + Z.pos n) (1024 - 53)); [reflexivity|lia].
  - assert (R = Py.two53) as -> by lia.
    unfold shr_fexp. change (Zdigits2 Py.two53) with 54. unfold fexp, emin, prec, emax.
    replace (Z.max (54 + (e + Z.pos n) - 53) (3 - 1024 - 53) - (e + Z.pos n)) with 1 by lia.
    change (shr (shr_record_of_loc Py.two53 loc_Exact) (e + Z.pos n) 1)
      with ({| shr_m := two52; shr_r := false; shr_s := false |}, e + Z.pos n + 1).
    cbn [shr_m]. change (Z.to_pos two52) with 4503599627370496%positive.
    unfold two52.
    destruct (Z.leb_spec (e + Z.pos n + 1) (1024 - 53)); [reflexivity|lia].
Qed.

Lemma pos_iter_xO (p n : positive) : Z.pos (Pos.iter xO p n) = Z.pos p * 2 ^ Z.pos n.
Proof.
  induction n as [|n IH] using Pos.peano_ind.
  - simpl. lia.
  - rewrite Pos.iter_succ, Pos2Z.inj_xO, IH, Pos2Z.inj_succ, Z.pow_succ_r by lia. lia.
Qed.

(** A valid binary64 mantissa has at most 53 bits, and its exponent is at
    least that of the subnormals. *)
Lemma valid_binary_bounds (s : bool) (m : positive) (e : Z) :
  valid_binary (S754_finite s m e) = true -> Z.pos m < Py.two53 /\ -1074 <= e.
Proof.
  unfold valid_binary, SpecFloat.valid_binary, bounded, canonical_mantissa, fexp, emin, prec, emax.
  intros Hv. apply andb_true_iff in Hv as [Hc _]. apply Z.eqb_eq in Hc.
  pose proof (digits2_pos_bounds m) as [_ Hhi].
  assert (Hd : Z.pos (digits2_pos m) <= 53) by lia.
  split; [|lia].
  assert (2 ^ Z.pos (digits2_pos m) <= 2 ^ 53) by (apply Z.pow_le_mono_r; lia).
  unfold Py.two53. change (2 ^ 53) with 9007199254740992 in *. lia.
Qed.

(** Adding to one a positive value of at most [0.18], given by a mantissa
    and an exponent. *)
Lemma one_plus_positive (m : positive) (e : Z) :
  Z.pos m < Py.two53 -> -1074 <= e ->
  e < -55 \/ (e = -55 /\ Z.pos m <= 6485183463413514) ->
  exists R : positive,
    SFadd prec emax sf_one (S754_finite false m e) = S754_finite false R (-52)
    /\ Z.pos R <= 5314247560297185.
Proof.
  intros Hm He Hle.
  set (d := - 52 - e).
  assert (Hd : 3 <= d) by lia.
  unfold sf_one, SFadd. rewrite Z.min_r by lia.
  unfold shl_align at 1.
  destruct (e - -52) as [|q|q] eqn:Eq; try lia.
  assert (Hq : Z.pos q = d) by lia.
  unfold shl_align. rewrite Z.sub_diag. cbn [fst cond_Zopp].
  pose proof (pos_iter_xO 4503599627370496 q) as Hbig. rewrite Hq in Hbig.
  set (big := Pos.iter xO 4503599627370496%positive q) in *.
  change (Z.pos big + Z.pos m) with (Z.pos (big + m)).
  unfold binary_normalize, binary_round.
  assert (Hpow : 2 ^ d = 2 * 2 ^ (d - 1)).
  { replace d with (Z.succ (d - 1)) at 1 by lia. rewrite Z.pow_succ_r by lia. done. }
  set (Hh := 2 ^ (d - 1)) in *.
  assert (HHpos : 0 < Hh) by (apply Z.pow_pos_nonneg; lia).
  assert (HS : Z.pos (big + m) = Py.two53 * Hh + Z.pos m).
  { rewrite Pos2Z.inj_add, Hbig, Hpow. unfold Py.two53. lia. }
  assert (HH4 : 4 <= Hh).
  { unfold Hh. change 4 with (2 ^ 2). apply Z.pow_le_mono_r; lia. }
  assert (Hdig : Z.pos (digits2_pos (big + m)) = 53 + d).
  { apply digits2_pos_unique.
    replace (53 + d - 1) with (53 + (d - 1)) by lia.
    replace (53 + d) with (54 + (d - 1)) by lia.
    rewrite !Z.pow_add_r by lia. fold Hh.
    change (2 ^ 53) with Py.two53. change (2 ^ 54) with (2 * Py.two53).
    unfold Py.two53 in *. nia. }
  rewrite Hdig. unfold shl_align, fexp, emin, prec, emax.
  replace (Z.max (53 + d + e - 53) (3 - 1024 - 53) - e) with d by lia.
  destruct d as [|dp|dp] eqn:Ed; try lia.
  destruct (binary_round_aux_near false (big + m) e (Z.pos dp))
    as (R & Hrne & HR & Hres); try lia.
  change SpecFloat.binary_round_aux with binary_round_aux in *.
  fold Hh in Hrne. rewrite HS in Hrne.
  assert (HRle : R <= 5314247560297185).
  { destruct Hle as [Hlt|[Heq Hmle]].
    - assert (8 <= Hh).
      { unfold Hh. change 8 with (2 ^ 3). apply Z.pow_le_mono_r; lia. }
      unfold Py.two53 in *. nia.
    - assert (Hh = 4) as HhEq.
      { unfold Hh. replace (Z.pos dp - 1) with 2 by lia. done. }
      rewrite HhEq in Hrne. unfold Py.two53 in *. lia. }
  destruct (Z.ltb_spec R Py.two53) as [Hlt|Hge]; [|unfold Py.two53 in *; lia].
  unfold two52 in HR. destruct R as [|r|r]; try lia.
  exists r. split; [|done].
  unfold prec, emax in Hres. rewrite Hres. cbn [Z.to_pos]. f_equal. lia.
Qed.

(** Adding to one a negative value above [-0.2]. *)
Lemma one_plus_negative (m : positive) (e : Z) :
  Z.pos m < Py.two53 -> -1074 <= e ->
  e < -55 \/ (e = -55 /\ Z.pos m < 7205759403792794) ->
  exists (R : positive) (e' : Z),
    SFadd prec emax sf_one (S754_finite true m e) = S754_finite false R e'
    /\ ((e' = -53 /\ 7205759403792794 <= Z.pos R) \/ (e' = -52 /\ Z.pos R = two52)).
Proof.
  intros Hm He Hle.
  set (d := - 52 - e).
  assert (Hd : 3 <= d) by lia.
  unfold sf_one, SFadd. rewrite Z.min_r by lia.
  unfold shl_align at 1.
  destruct (e - -52) as [|q|q] eqn:Eq; try lia.
  assert (Hq : Z.pos q = d) by lia.
  unfold shl_align. rewrite Z.sub_diag. cbn [fst cond_Zopp].
  pose proof (pos_iter_xO 4503599627370496 q) as Hbig. rewrite Hq in Hbig.
  set (big := Pos.iter xO 4503599627370496%positive q) in *.
  assert (Hpow : 2 ^ d = 4 * 2 ^ (d - 2)).
  { replace d with (Z.succ (Z.succ (d - 2))) at 1 by lia.
    rewrite !Z.pow_succ_r by lia. lia. }
  set (Hh := 2 ^ (d - 2)) in *.
  assert (HHpos : 0 < Hh) by (apply Z.pow_pos_nonneg; lia).
  assert (HH2 : 2 <= Hh).
  { unfold Hh. change 2 with (2 ^ 1) at 1. apply Z.pow_le_mono_r; lia. }
  change (- Z.pos m) with (Z.neg m).
  destruct (Z.pos big + Z.neg m) as [|p|p] eqn:Ep; try (unfold Py.two53 in *; nia).
  assert (HS : Z.pos p = 2 * Py.two53 * Hh - Z.pos m).
  { rewrite <- Ep, Hbig, Hpow. unfold Py.two53. lia. }
  unfold binary_normalize, binary_round.
  assert (Hdig : Z.pos (digits2_pos p) = 53 + (d - 1)).
  { apply digits2_pos_unique.
    replace (53 + (d - 1) - 1) with (53 + (d - 2)) by lia.
    replace (53 + (d - 1)) with (54 + (d - 2)) by lia.
    rewrite !Z.pow_add_r by lia. fold Hh.
    change (2 ^ 53) with Py.two53. change (2 ^ 54) with (2 * Py.two53).
    unfold Py.two53 in *. nia. }
  rewrite Hdig. unfold shl_align, fexp, emin, prec, emax.
  replace (Z.max (53 + (d - 1) + e - 53) (3 - 1024 - 53) - e) with (d - 1) by lia.
  destruct (d - 1) as [|dp|dp] eqn:Ed; try lia.
  destruct (binary_round_aux_near false p e (Z.pos dp))
    as (R & Hrne & HR & Hres); try lia.
  replace (Z.pos dp - 1) with (d - 2) in Hrne by lia.
  fold Hh in Hrne. rewrite HS in Hrne.
  unfold prec, emax in Hres. rewrite Hres.
  destruct (Z.ltb_spec R Py.two53) as [Hlt|Hge].
  - unfold two52 in HR. destruct R as [|r|r]; try lia.
    exists r, (e + Z.pos dp). split; [done|]. left. split; [lia|].
    destruct Hle as [Hlt'|[Heq Hmlt]].
    + assert (4 <= Hh).
      { unfold Hh. change 4 with (2 ^ 2). apply Z.pow_le_mono_r; lia. }
      unfold Py.two53 in *. nia.
    + assert (Hh = 2) as HhEq.
      { unfold Hh. replace (d - 2) with 1 by lia. done. }
      rewrite HhEq in Hrne. unfold Py.two53 in *. lia.
  - exists (Z.to_pos two52), (e + Z.pos dp + 1). split; [done|]. right. split; [lia|done].
Qed.

Lemma sf_one_plus_in_range (x : spec_float) :
  valid_binary x = true ->
  SFltb sf_neg_0_2 x = true ->
  SFltb sf_0_18 x = false ->
  SFleb sf_0_8 (SFadd prec emax sf_one x) = true
  /\ SFleb (SFadd prec emax sf_one x) sf_1_18 = true.
Proof.
  intros Hv Hlo Hhi.
  destruct x as [s|s| |s m e].
  - destruct s; split; reflexivity.
  - destruct s; discriminate.
  - discriminate.
  - apply valid_binary_bounds in Hv as [Hm He].
    destruct s.
    + (* negative *)
      assert (Hle : e < -55 \/ (e = -55 /\ Z.pos m < 7205759403792794)).
      { unfold sf_neg_0_2, SFltb, SFcompare in Hlo.
        destruct (Z.compare_spec (-55) e) as [Heq|Hlt|Hgt]; [|discriminate|lia].
        right. split; [symmetry; exact Heq|].
        replace (Pos.compare_cont Eq 7205759403792794 m)
          with (Pos.compare 7205759403792794 m) in Hlo by reflexivity.
        destruct (Pos.compare_spec 7205759403792794 m) as [E|E|E];
          cbn [CompOpp] in Hlo; try discriminate. exact E. }
      destruct (one_plus_negative m e Hm He Hle) as (R & e' & -> & [[-> HR]|[-> HR]]).
      * unfold sf_0_8, sf_1_18, SFleb, SFcompare.
        change (-53 ?= -53) with Eq. change (-53 ?= -52) with Lt. cbv iota.
        replace (Pos.compare_cont Eq 7205759403792794 R)
          with (Pos.compare 7205759403792794 R) by reflexivity.
        split; [|reflexivity].
        destruct (Pos.compare_spec 7205759403792794 R) as [E|E|E]; try reflexivity.
        apply Pos2Z.pos_lt_pos in E. clear -E HR. lia.
      * unfold sf_0_8, sf_1_18, SFleb, SFcompare.
        change (-53 ?= -52) with Lt. change (-52 ?= -52) with Eq. cbv iota.
        replace (Pos.compare_cont Eq R 5314247560297185)
          with (Pos.compare R 5314247560297185) by reflexivity.
        split; [reflexivity|].
        destruct (Pos.compare_spec R 5314247560297185) as [E|E|E]; try reflexivity.
        apply Pos2Z.pos_lt_pos in E. unfold two52 in HR. clear -E HR. lia.
    + (* positive *)
      assert (Hle : e < -55 \/ (e = -55 /\ Z.pos m <= 6485183463413514)).
      { unfold sf_0_18, SFltb, SFcompare in Hhi.
        destruct (Z.compare_spec (-55) e) as [Heq|Hlt|Hgt]; [|discriminate|lia].
        right. split; [symmetry; exact Heq|].
        replace (Pos.compare_cont Eq 6485183463413514 m)
          with (Pos.compare 6485183463413514 m) in Hhi by reflexivity.
        destruct (Pos.compare_spec 6485183463413514 m) as [E|E|E]; try discriminate.
        - rewrite <- E. apply Z.le_refl.
        - apply Z.lt_le_incl. exact E. }
      destruct (one_plus_positive m e Hm He Hle) as (R & -> & HR).
      unfold sf_0_8, sf_1_18, SFleb, SFcompare.
      change (-53 ?= -52) with Lt. change (-52 ?= -52) with Eq. cbv iota.
      replace (Pos.compare_cont Eq R 5314247560297185)
        with (Pos.compare R 5314247560297185) by reflexivity.
      split; [reflexivity|].
      destruct (Pos.compare_spec R 5314247560297185) as [E|E|E]; try reflexivity.
      apply Pos2Z.pos_lt_pos in E. clear -E HR. lia.
Qed.

(** In binary64, [1.0 + t] lies between [0.8] and [1.18] for every [t] above
    [-0.2] and not above [0.18]. *)
Lemma one_plus_in_range (t : float) :
  PrimFloat.ltb (-0.2) t = true ->
  PrimFloat.ltb 0.18 t = false ->
  PrimFloat.leb 0.8 (1.0 + t) = true /\ PrimFloat.leb (1.0 + t) 1.18 = true.
Proof.
  rewrite !FloatAxioms.ltb_spec, !FloatAxioms.leb_spec, FloatAxioms.add_spec.
  change (Prim2SF (-0.2)) with sf_neg_0_2.
  change (Prim2SF 0.18) with sf_0_18.
  change (Prim2SF 0.8) with sf_0_8.
  change (Prim2SF 1.18) with sf_1_18.
  change (Prim2SF 1.0) with sf_one.
  apply sf_one_plus_in_range, Prim2SF_valid.
Qed.

(** The clamp of the aggregator: whatever the total, NaN and the infinities
    included, one plus the bounded delta is between [0.8] and [1.18]. *)
Lemma clamped_multiplier_in_range (total_delta : float) :
  let bounded_delta := fmax (-0.2) (fmin total_delta 0.18) in
  PrimFloat.leb (-0.2) bounded_delta = true
  /\ PrimFloat.leb bounded_delta 0.18 = true
  /\ PrimFloat.leb 0.8 (1.0 + bounded_delta) = true
  /\ PrimFloat.leb (1.0 + bounded_delta) 1.18 = true.
Proof.
  unfold fmax, fmin.
  destruct (PrimFloat.ltb 0.18 total_delta) eqn:Hhi.
  - vm_compute. repeat split.
  - destruct (PrimFloat.ltb (-0.2) total_delta) eqn:Hlo.
    + destruct (one_plus_in_range total_delta Hlo Hhi) as [H1 H2].
      split; [|split; [|split; assumption]].
      * rewrite FloatAxioms.leb_spec. rewrite FloatAxioms.ltb_spec in Hlo.
        unfold SFleb, SFltb in *.
        destruct (SFcompare _ _) as [[]|]; try discriminate; reflexivity.
      * rewrite FloatAxioms.leb_spec. rewrite !FloatAxioms.ltb_spec in Hlo, Hhi.
        change (Prim2SF (-0.2)) with sf_neg_0_2 in Hlo.
        change (Prim2SF 0.18) with sf_0_18 in *.
        pose proof (Prim2SF_valid total_delta) as Hv.
        destruct (Prim2SF total_delta) as [s|s| |s m e].
        -- reflexivity.
        -- destruct s; discriminate.
        -- discriminate.
        -- unfold sf_0_18, sf_neg_0_2, SFleb, SFltb, SFcompare in *.
           destruct s; [reflexivity|].
           rewrite (Z.compare_antisym (-55) e).
           destruct (Z.compare_spec (-55) e) as [E|E|E]; cbn [CompOpp] in *;
             try reflexivity; try discriminate.
           replace (Pos.compare_cont Eq 6485183463413514 m)
             with (Pos.compare 6485183463413514 m) in Hhi by reflexivity.
           replace (Pos.compare_cont Eq m 6485183463413514)
             with (Pos.compare m 6485183463413514) by reflexivity.
           rewrite (Pos.compare_antisym 6485183463413514 m).
           destruct (Pos.compare 6485183463413514 m); cbn [CompOpp];
             try reflexivity; discriminate.
    + vm_compute. repeat split.
Qed.

(** ** The feedback multiplier (C1) *)

Section Multiplier.
Context `{B : Builtins}.

Lemma compute_feedback_demand_multiplier_clamped utcnow scores entries multiplier :
compute_feedback_demand_multiplier utcnow scores entries = Some multiplier ->
exists total_delta,
  feedback_total_delta utcnow scores entries = Some total_delta
  /\ multiplier = (1.0 + fmax (-0.2) (fmin total_delta 0.18))%float.
Proof.
unfold compute_feedback_demand_multiplier. intros Hm.
apply bind_Some in Hm as (total_delta & Htotal & Hm).
exists total_delta. split; [exact Htotal|]. by injection Hm as <-.
Qed.

Lemma compute_feedback_demand_multiplier_total utcnow scores entries :
Z.abs (int_sum scores) < Py.two53 ->
Z.of_nat (length scores) < Py.two53 ->
is_Some (compute_feedback_demand_multiplier utcnow scores entries).
Proof.
intros Hsum Hlen.
unfold compute_feedback_demand_multiplier, feedback_total_delta.
destruct scores as [|s scores].
- destruct entries; by eexists.
- unfold Py.int_truediv.
  destruct (Z.eqb_spec (Z.of_nat (length (s :: scores))) 0) as [E|_];
    [by cbn [length] in E; lia|].
  replace (Z.abs (int_sum (s :: scores)) <? Py.two53) with true
    by (symmetry; apply Z.ltb_lt; exact Hsum).
  replace (Z.abs (Z.of_nat (length (s :: scores))) <? Py.two53) with true
    by (symmetry; apply Z.ltb_lt; rewrite Z.abs_eq by lia; exact Hlen).
  cbn [andb mbind option_bind]. destruct entries; by eexists.
Qed.

Lemma compute_current_state_multiplier env site w w' state :
compute_current_state env site w = (w', Some state) ->
exists scores entries,
  compute_feedback_demand_multiplier (utcnow env) scores entries
  = Some (StateSnapshot.feedback_multiplier state).
Proof.
unfold compute_current_state. intros Hrun.
apply M_bind_Some in Hrun as (? & ? & _ & Hrun).
apply M_bind_Some in Hrun as (? & ? & _ & Hrun).
apply M_bind_Some in Hrun as (? & scores & _ & Hrun).
apply M_bind_Some in Hrun as (? & entries & _ & Hrun).
apply M_bind_Some in Hrun as (? & multiplier & Hm & Hrun).
repeat (apply M_bind_Some in Hrun as (? & ? & _ & Hrun)).
injection Hrun as _ <-. cbn [StateSnapshot.feedback_multiplier].
exists scores, entries. unfold lift in Hm. by injection Hm as _ ->.
Qed.

End Multiplier.

(** C1: whatever the rating history, the detailed-feedback history and the
    library's parsers and float sum, a multiplier returned by
    [compute_feedback_demand_multiplier] is 1.0 plus a delta clamped to
    [-0.2, 0.18], and lies in [0.8, 1.18] (comparisons of binary64 floats);
    the function does return one whenever the ratings' sum and count are
    below 2^53; and the multiplier of every recomputed state is in range. *)
Theorem C1_multiplier_within_bounds :
  forall (B : Builtins) (utcnow : Z) (scores : list Z) (entries : list FeedbackEntry.t),
    (forall multiplier,
        compute_feedback_demand_multiplier utcnow scores entries = Some multiplier ->
        exists bounded_delta,
          multiplier = (1.0 + bounded_delta)%float
          /\ PrimFloat.leb (-0.2) bounded_delta = true
          /\ PrimFloat.leb bounded_delta 0.18 = true
          /\ PrimFloat.leb 0.8 multiplier = true
          /\ PrimFloat.leb multiplier 1.18 = true)
    /\ (Z.abs (int_sum scores) < Py.two53 ->
        Z.of_nat (length scores) < Py.two53 ->
        is_Some (compute_feedback_demand_multiplier utcnow scores entries))
    /\ (forall env site w w' state,
          compute_current_state env site w = (w', Some state) ->
          PrimFloat.leb 0.8 (StateSnapshot.feedback_multiplier state) = true
          /\ PrimFloat.leb (StateSnapshot.feedback_multiplier state) 1.18 = true).
Proof.
  intros B utcnow scores entries. split; [|split].
  - intros multiplier Hm.
    apply compute_feedback_demand_multiplier_clamped in Hm as (total_delta & _ & ->).
    exists (fmax (-0.2) (fmin total_delta 0.18)).
    split; [reflexivity|]. apply clamped_multiplier_in_range.
  - apply compute_feedback_demand_multiplier_total.
  - intros env site w w' state Hrun.
    apply compute_current_state_multiplier in Hrun as (scores' & entries' & Hm).
    apply compute_feedback_demand_multiplier_clamped in Hm as (total_delta & _ & ->).
    apply clamped_multiplier_in_range.
Qed.

(** C1 on the preset ratings with one detailed answer sheet. *)
Lemma C1_witness :
  compute_feedback_demand_multiplier (B := sample_builtins) 0
    [3; 3; 2; 3; 3; 1; 3; 2; 3; 2; 3; 3] sample_entries
  = Some 1.1466666666666667%float
  /\ PrimFloat.leb 0.8 1.1466666666666667 = true
  /\ PrimFloat.leb 1.1466666666666667 1.18 = true.
Proof.
  split; [vm_compute; reflexivity|].
  destruct (proj1 (C1_multiplier_within_bounds sample_builtins 0
                     [3; 3; 2; 3; 3; 1; 3; 2; 3; 2; 3; 3] sample_entries)
              1.1466666666666667%float)
    as (bounded_delta & _ & _ & _ & Hlow & Hhigh); [vm_compute; reflexivity|].
  split; assumption.
Defined.

(** ** Done and skip on a matching card *)

Section Actions.
Context `{B : Builtins}.

Lemma session_after_done key pan card w d :
  session w key = Some d ->
  session (after_done key pan card w) key
  = Some (ServiceDay.set_last_decision (Some (DecisionCard.set_status done_ card))
            (ServiceDay.set_pan_fill_percent pan d)).
Proof. unfold session, after_done. simpl. intros Hd. by rewrite !lookup_alter_eq, Hd. Qed.

Lemma session_after_skip key card w d :
  session w key = Some d ->
  session (after_skip key card w) key
  = Some (ServiceDay.set_last_decision (Some (DecisionCard.set_status skipped card)) d).
Proof. unfold session, after_skip. simpl. intros Hd. by rewrite lookup_alter_eq, Hd. Qed.

Lemma api_done_run env site payload w d card pan :
  session w (site, today env) = Some d ->
  get_matching_decision d payload = Some (Some card) ->
  adjust_pan_after_refill (ServiceDay.pan_fill_percent d)
    (DecisionCard.suggested_grams card) 160 20 = Some pan ->
  api_done env site payload w = (after_done (site, today env) pan card w, Some (RPan pan)).
Proof.
  intros Hd Hm Hpan. unfold api_done.
  erewrite M_bind_run by (by eapply get_or_create_existing).
  erewrite M_bind_run by (by apply service_day_run).
  unfold lift at 1. erewrite M_bind_run by (by rewrite Hm).
  cbv beta iota. erewrite M_bind_run by (by simpl; rewrite Hpan).
  done.
Qed.

Lemma api_skip_run env site payload w d card :
  session w (site, today env) = Some d ->
  get_matching_decision d payload = Some (Some card) ->
  api_skip env site payload w = (after_skip (site, today env) card w, Some (RStatus skipped)).
Proof.
  intros Hd Hm. unfold api_skip.
  erewrite M_bind_run by (by eapply get_or_create_existing).
  erewrite M_bind_run by (by apply service_day_run).
  unfold lift at 1. erewrite M_bind_run by (by rewrite Hm).
  done.
Qed.


Lemma empty_payload_omits_identity : omits_identity ∅.
Proof. unfold omits_identity, payload_get. by rewrite !lookup_empty. Qed.

Lemma get_matching_decision_wildcard d payload card :
  ServiceDay.last_decision d = Some card ->
  omits_identity payload ->
  get_matching_decision d payload = Some (Some card).
Proof.
  intros Hc (Hw & Ht & Hs). unfold get_matching_decision. rewrite Hc.
  destruct (decide _); [done|].
  by rewrite Hw, Ht, Hs.
Qed.

(** ** Wildcard matching (C10) *)

(** C10: when a done or skip request omits all three identity fields (the
    empty payload included), [get_matching_decision] returns whatever card
    the session holds; skip then marks that card skipped, and done, in a
    session whose pan fill is a percentage and whose suggestion is within
    the 4000-gram ceiling (as in every reachable world, [reachable_wf]),
    refills the pan and marks the card done. *)
Theorem C10_absent_identity_matches_any_card env site payload w d card :
  session w (site, today env) = Some d ->
  ServiceDay.last_decision d = Some card ->
  omits_identity payload ->
  0 <= ServiceDay.pan_fill_percent d <= 100 ->
  0 <= DecisionCard.suggested_grams card <= 4000 ->
  omits_identity ∅
  /\ get_matching_decision d payload = Some (Some card)
  /\ (exists pan,
        api_done env site payload w
        = (after_done (site, today env) pan card w, Some (RPan pan))
        /\ session (after_done (site, today env) pan card w) (site, today env)
           = Some (ServiceDay.set_last_decision
                     (Some (DecisionCard.set_status done_ card))
                     (ServiceDay.set_pan_fill_percent pan d)))
  /\ api_skip env site payload w
     = (after_skip (site, today env) card w, Some (RStatus skipped))
  /\ session (after_skip (site, today env) card w) (site, today env)
     = Some (ServiceDay.set_last_decision
               (Some (DecisionCard.set_status skipped card)) d).
Proof.
  intros Hd Hc Hp Hpan Hgrams.
  pose proof (get_matching_decision_wildcard d payload card Hc Hp) as Hm.
  destruct (refill_facts _ _ Hpan Hgrams) as (pan & Hadj & _).
  split; [apply empty_payload_omits_identity|].
  split; [done|].
  split.
  - exists pan. split; [by eapply api_done_run|by apply session_after_done].
  - split; [by eapply api_skip_run|by apply session_after_skip].
Qed.

End Actions.

(** ** Reset (C8) *)

Lemma storage_id_hydrate env w d :
  storage_id (_hydrate_service_day_from_store env w d) = storage_id d.
Proof.
  unfold _hydrate_service_day_from_store.
  destruct (_redis_available w); [|done].
  repeat match goal with |- context [if ?b then _ else _] => destruct b end; done.
Qed.

Lemma storage_id_new site today : storage_id (new_service_day site today) = (site, today).
Proof. unfold new_service_day. by destruct (String.eqb _ _). Qed.

Lemma hydrate_cleared env w d :
  store_cleared w (storage_id d) ->
  _hydrate_service_day_from_store env w d = d.
Proof.
  unfold store_cleared, _hydrate_service_day_from_store, _redis_available,
    _load_list_entries.
  destruct (REDIS_CLIENT w) as [r|]; [|done].
  intros (Hs & Hd & Hr). simpl.
  destruct (redis_up env); [|done].
  rewrite Hr. simpl. rewrite Hs. simpl. by rewrite Hd.
Qed.

(** The world a reset leaves when the session was there: the session is
    gone and, if the store answered, so are its three streams. *)
Lemma api_reset_day_existing env site w d :
  session w (site, today env) = Some d ->
  api_reset_day env site w
  = ({| SERVICE_DAYS := delete (site, today env) (delete (site, today env) (SERVICE_DAYS w));
        REDIS_CLIENT :=
          if redis_up env then cleared_redis (storage_id d) <$> REDIS_CLIENT w
          else REDIS_CLIENT w |},
     Some RReset).
Proof.
  intros Hd. unfold api_reset_day, session in *.
  unfold mbind at 1, M_bind at 1, pop_service_day at 1. rewrite Hd. simpl.
  unfold _clear_service_day_storage, pop_service_day, update_redis, mbind, M_bind.
  by destruct (redis_up env).
Qed.

Lemma api_reset_day_absent env site w :
  session w (site, today env) = None ->
  api_reset_day env site w
  = ({| SERVICE_DAYS :=
          delete (site, today env)
            (<[(site, today env) :=
                 _hydrate_service_day_from_store env
                   {| SERVICE_DAYS := delete (site, today env) (SERVICE_DAYS w);
                      REDIS_CLIENT := REDIS_CLIENT w |}
                   (new_service_day site (today env))]>
               (delete (site, today env) (SERVICE_DAYS w)));
        REDIS_CLIENT :=
          if redis_up env then cleared_redis (site, today env) <$> REDIS_CLIENT w
          else REDIS_CLIENT w |},
     Some RReset).
Proof.
  intros Hd. unfold api_reset_day, session in *.
  unfold mbind at 1, M_bind at 1, pop_service_day at 1. rewrite Hd. simpl.
  unfold get_or_create_service_day, get_world, put_world, service_day, mbind, M_bind.
  simpl. rewrite lookup_delete_eq. simpl. rewrite lookup_insert_eq.
  unfold _clear_service_day_storage, pop_service_day, update_redis, mbind, M_bind.
  rewrite storage_id_hydrate, storage_id_new.
  by destruct (redis_up env).
Qed.

(** C8, as amended: after a reset of the session of a (site, date) key
    during which the event store answered (or with no store configured), the
    session is gone, its three streams in the store are empty, and the next
    access builds the session of the presets again: diners so far, pan fill
    and the three feedback histories at their defaults.  (When the store's
    delete fails, the code logs and goes on, and the histories come back.) *)
Theorem C8_reset_restores_defaults env env' site w :
  (forall d, session w (site, today env) = Some d -> storage_id d = (site, today env)) ->
  REDIS_CLIENT w = None \/ redis_up env = true ->
  today env' = today env ->
  exists w1 w2,
    api_reset_day env site w = (w1, Some RReset)
    /\ session w1 (site, today env) = None
    /\ store_cleared w1 (site, today env)
    /\ get_or_create_service_day env' site w1 = (w2, Some (site, today env))
    /\ session w2 (site, today env) = Some (new_service_day site (today env)).
Proof.
  intros Hid Hstore Htoday.
  assert (Hreset : exists w1,
    api_reset_day env site w = (w1, Some RReset)
    /\ session w1 (site, today env) = None
    /\ store_cleared w1 (site, today env)).
  { destruct (session w (site, today env)) as [d|] eqn:Hd.
    - eexists. split; [by apply api_reset_day_existing|].
      split; [unfold session; simpl; by rewrite lookup_delete_eq|].
      unfold store_cleared. simpl. rewrite (Hid d eq_refl).
      destruct Hstore as [->| ->]; [by destruct (redis_up env)|].
      destruct (REDIS_CLIENT w); simpl; [|done].
      by rewrite !lookup_delete_eq.
    - eexists. split; [by apply api_reset_day_absent|].
      split; [unfold session; simpl; by rewrite lookup_delete_eq|].
      unfold store_cleared. simpl.
      destruct Hstore as [->| ->]; [by destruct (redis_up env)|].
      destruct (REDIS_CLIENT w); simpl; [|done].
      by rewrite !lookup_delete_eq. }
  destruct Hreset as (w1 & Hrun & Hgone & Hclear).
  exists w1. eexists. split; [done|]. split; [done|]. split; [done|].
  rewrite <- Htoday in *.
  split; [by apply get_or_create_fresh|].
  unfold session. simpl. rewrite lookup_insert_eq. f_equal.
  apply hydrate_cleared. by rewrite storage_id_new.
Qed.

(** ** Refill on done (C4) *)



Section Refill.
Context `{B : Builtins}.


End Refill.

(** ** Reachable worlds *)

#[local] Instance keeps_wf_preorder : PreOrder keeps_wf.
Proof. split; [intros w Hw; exact Hw|intros w1 w2 w3 H12 H23 Hw; by apply H23, H12]. Qed.

Lemma keeps_wf_alter (f : ServiceDay.t -> ServiceDay.t) w key :
  (forall d, session w key = Some d -> wf_session key d -> wf_session key (f d)) ->
  keeps_wf w
    {| SERVICE_DAYS := alter f key (SERVICE_DAYS w); REDIS_CLIENT := REDIS_CLIENT w |}.
Proof.
  intros Hf Hw k d. unfold session in *. simpl.
  destruct (decide (key = k)) as [->|Hk].
  - rewrite lookup_alter_eq. destruct (SERVICE_DAYS w !! k) as [d0|] eqn:E; [|done].
    intros [= <-]. apply Hf; [done|]. by apply Hw.
  - rewrite lookup_alter_ne by done. apply Hw.
Qed.

Lemma wf_session_hydrate env w key d :
  wf_session key d -> wf_session key (_hydrate_service_day_from_store env w d).
Proof.
  intros (Hid & Hpan & Hcard). unfold wf_session.
  rewrite storage_id_hydrate. split; [done|].
  unfold _hydrate_service_day_from_store.
  destruct (_redis_available w); [|done].
  repeat match goal with |- context [if ?b then _ else _] => destruct b end; done.
Qed.

Lemma wf_session_new site today : wf_session (site, today) (new_service_day site today).
Proof.
  split; [apply storage_id_new|].
  unfold new_service_day. destruct (String.eqb _ _); simpl; (split; [lia|done]).
Qed.

Section Reachable.
Context `{B : Builtins}.

Lemma run_op_keeps_wf env site op w w' r :
  run_op env site op w = (w', r) -> wf_world w -> wf_world w'.
Proof.
  intros Hrun.
  destruct op; simpl in Hrun.
  7: { intros Hw key d Hd. apply Hw. by eapply reset_removes. }
  all: revert Hrun.
  all: first [ eapply (steps_api_state keeps_wf)
             | eapply (steps_api_increment_diner keeps_wf)
             | eapply (steps_api_feedback keeps_wf)
             | eapply (steps_api_feedback_extended keeps_wf)
             | eapply (steps_api_done keeps_wf)
             | eapply (steps_api_skip keeps_wf) ].
  all: try (intros w0 f Hw0; exact Hw0).
  all: unfold accepts.
  all: try (match goal with
            | |- forall _ _ _, keeps_wf _ _ =>
                intros ? ? ?; apply keeps_wf_alter; unfold wf_session, storage_id;
                intros d0 Hd0 (Hid & Hpan & Hcard); (split; [|split]); simpl; done
            end).
  all: try (intros env0 w0 site0 Hnone Hw0 key d; unfold session; simpl;
            destruct (decide ((site0, today env0) = key)) as [<-|Hk];
            [rewrite lookup_insert_eq; intros [= <-];
             apply wf_session_hydrate, wf_session_new
            |rewrite lookup_insert_ne by done; apply Hw0]).
  - (* the demo lowering *)
    intros w0 key d Hd Hge Hw0.
    assert (Hle : ServiceDay.pan_fill_percent d <= 100) by (by apply (Hw0 key d Hd)).
    revert Hw0. apply keeps_wf_alter. unfold wf_session, storage_id in *.
    intros d0 Hd0 (Hid & Hpan & Hcard). (split; [|split]); simpl; try done; lia.
  - (* the card of a recomputation *)
    intros w0 key card Hg. apply keeps_wf_alter. unfold wf_session, storage_id.
    intros d0 Hd0 (Hid & Hpan & Hcard). (split; [|split]); simpl; try done.
    by intros c [= <-].
  - (* done *)
    intros w0 key d card pan Hd Hc Hadj Hw0.
    destruct (Hw0 key d Hd) as (Hid & Hpan & Hcard).
    destruct (refill_facts _ _ Hpan (Hcard card Hc)) as (pan' & Hadj' & Hr & _).
    assert (pan' = pan) as -> by congruence.
    revert Hw0.
    change (keeps_wf w0
      {| SERVICE_DAYS :=
           alter (ServiceDay.set_last_decision (Some (DecisionCard.set_status done_ card)))
             key (SERVICE_DAYS
                    {| SERVICE_DAYS :=
                         alter (ServiceDay.set_pan_fill_percent pan) key (SERVICE_DAYS w0);
                       REDIS_CLIENT := REDIS_CLIENT w0 |});
         REDIS_CLIENT := REDIS_CLIENT w0 |}).
    transitivity
      {| SERVICE_DAYS := alter (ServiceDay.set_pan_fill_percent pan) key (SERVICE_DAYS w0);
         REDIS_CLIENT := REDIS_CLIENT w0 |}.
    + apply keeps_wf_alter. unfold wf_session, storage_id.
      intros d0 Hd0 (Hid0 & Hpan0 & Hcard0).
      (split; [|split]); simpl; try done; lia.
    + apply (keeps_wf_alter _ {| SERVICE_DAYS := _; REDIS_CLIENT := _ |}).
      unfold wf_session, storage_id.
      intros d0 Hd0 (Hid0 & Hpan0 & Hcard0). (split; [|split]); simpl; try done.
      intros c [= <-]; simpl; by apply Hcard.
  - (* a status change *)
    intros w0 key d card st Hd Hc Hw0.
    destruct (Hw0 key d Hd) as (Hid & Hpan & Hcard).
    revert Hw0. apply keeps_wf_alter. unfold wf_session, storage_id.
    intros d0 Hd0 (Hid0 & Hpan0 & Hcard0). (split; [|split]); simpl; try done.
    intros c [= <-]; simpl; by apply Hcard.
Qed.

Lemma reachable_wf w : reachable w -> wf_world w.
Proof.
  induction 1 as [client|env site op w w' r _ IH Hrun].
  - intros key d. unfold session. simpl. by rewrite lookup_empty.
  - by eapply run_op_keeps_wf.
Qed.

End Reachable.

(** ** Urgency tier of a recomputation (C3) *)

Section Snapshot.
Context `{B : Builtins}.

Lemma compute_current_state_snapshot env site w w' state :
  compute_current_state env site w = (w', Some state) ->
  StateSnapshot.signal_level state
  = signal_level (StateSnapshot.suggested_grams state)
      (StateSnapshot.pan_fill_percent state)
  /\ DecisionCard.suggested_grams (StateSnapshot.last_decision state)
     = StateSnapshot.suggested_grams state
  /\ DecisionCard.pan_fill_percent (StateSnapshot.last_decision state)
     = StateSnapshot.pan_fill_percent state.
Proof.
  unfold compute_current_state. intros Hrun.
  repeat (apply M_bind_Some in Hrun as (? & ? & _ & Hrun)).
  by injection Hrun as _ <-.
Qed.

End Snapshot.

(** C3: the tier is critical iff grams >= 1800 or pan fill <= 35, otherwise
    warning iff grams >= 600 or pan fill <= 55, otherwise ready; 0 grams at
    80% is ready and 2000 grams is critical at every pan fill; and the tier
    of a recomputation is the tier of the grams and the pan fill it
    reports. *)
Theorem C3_signal_level_by_priority :
  (forall grams pan, tier_spec grams pan (signal_level grams pan))
  /\ signal_level 0 80 = ready
  /\ (forall pan, signal_level 2000 pan = critical)
  /\ (forall (B : Builtins) env site w w' state,
        compute_current_state env site w = (w', Some state) ->
        tier_spec (StateSnapshot.suggested_grams state)
          (StateSnapshot.pan_fill_percent state) (StateSnapshot.signal_level state)).
Proof.
  split; [apply signal_level_tier_spec|].
  split; [done|].
  split; [done|].
  intros B env site w w' state Hrun.
  apply compute_current_state_snapshot in Hrun as (-> & _).
  apply signal_level_tier_spec.
Qed.

(** ** The properties on the sample requests *)

Lemma sample_session_there : session sample_world (DEFAULT_SITE_ID, today sample_env) = Some sample_session.
Proof. by vm_compute. Qed.

(** C9 as stated fails: a delta of -1 takes the counter of the sample
    session from 148 to 147. *)
Lemma C9_negative_delta_counterexample :
  ServiceDay.diners_so_far <$> session sample_world sample_key = Some 148
  /\ (api_increment_diner (B := sample_builtins) sample_env DEFAULT_SITE_ID
        (delta_body (JsInt (-1))) sample_world).2
     = Some (RDiners 147)
  /\ ServiceDay.diners_so_far
       <$> session (api_increment_diner (B := sample_builtins) sample_env DEFAULT_SITE_ID
                      (delta_body (JsInt (-1))) sample_world).1
             sample_key
     = Some 147.
Proof. by vm_compute. Qed.

(** C9 on the sample session: five more diners take the counter from 148
    to 153, and 200 fewer take it to 0. *)
Lemma C9_witness :
  (exists w',
     api_increment_diner (B := sample_builtins) sample_env DEFAULT_SITE_ID
       (delta_body (JsInt 5)) sample_world
     = (w', Some (RDiners 153))
     /\ session w' (DEFAULT_SITE_ID, today sample_env)
        = Some (ServiceDay.set_diners_so_far 153 sample_session))
  /\ (exists w',
        api_increment_diner (B := sample_builtins) sample_env DEFAULT_SITE_ID
          (delta_body (JsInt (-200))) sample_world
        = (w', Some (RDiners 0))
        /\ session w' (DEFAULT_SITE_ID, today sample_env)
           = Some (ServiceDay.set_diners_so_far 0 sample_session)).
Proof.
  split.
  - destruct (proj1 (C9_increment_clamps_at_zero (B := sample_builtins) sample_env
                       DEFAULT_SITE_ID (delta_body (JsInt 5)) sample_world sample_session
                       sample_session_there) 5 eq_refl)
      as (w' & Hrun & Hd' & _).
    exists w'. split; [exact Hrun|exact Hd'].
  - destruct (proj1 (C9_increment_clamps_at_zero (B := sample_builtins) sample_env
                       DEFAULT_SITE_ID (delta_body (JsInt (-200))) sample_world
                       sample_session sample_session_there) (-200) eq_refl)
      as (w' & Hrun & Hd' & _).
    exists w'. split; [exact Hrun|exact Hd'].
Defined.

(** C5 as stated fails: a done request that names wave 2.9, with the
    timestamp and the slot of the card, does not match the card of wave 2,
    yet [int()] reads the index as 2 and the request is accepted: the pan
    of the sample session goes from 46% to 75% and the card is marked done;
    the skip request with that payload marks it skipped. *)
Lemma C5_fractional_index_counterexample :
  fractional_payload !! "decision_wave_index" = Some (JsFloat 2.9)
  /\ DecisionCard.wave_index <$> ServiceDay.last_decision sample_session = Some 2
  /\ ServiceDay.pan_fill_percent <$> session sample_world sample_key = Some 46
  /\ (api_done (B := sample_builtins) sample_env DEFAULT_SITE_ID fractional_payload
        sample_world).2
     = Some (RPan 75)
  /\ ServiceDay.pan_fill_percent
       <$> session (api_done (B := sample_builtins) sample_env DEFAULT_SITE_ID
                      fractional_payload sample_world).1 sample_key
     = Some 75
  /\ (DecisionCard.status
       <$> (session (api_done (B := sample_builtins) sample_env DEFAULT_SITE_ID
                       fractional_payload sample_world).1 sample_key
            ≫= ServiceDay.last_decision))
     = Some done_
  /\ (api_skip (B := sample_builtins) sample_env DEFAULT_SITE_ID fractional_payload
        sample_world).2
     = Some (RStatus skipped).
Proof. by vm_compute. Qed.

(** C5 on the sample session: a request that names the card of wave 1 is
    turned down and the world stays as it was. *)
Lemma C5_witness :
  api_done (B := sample_builtins) sample_env DEFAULT_SITE_ID stale_payload sample_world
  = (sample_world, Some RStale)
  /\ api_skip (B := sample_builtins) sample_env DEFAULT_SITE_ID stale_payload sample_world
     = (sample_world, Some RStale).
Proof.
  apply (C5_stale_decision_rejected (B := sample_builtins) sample_env DEFAULT_SITE_ID
           stale_payload sample_world sample_session sample_session_there).
  intros card [= <-]. left. exists (JsInt 1), 1.
  split; [reflexivity|]. split; [reflexivity|]. by vm_compute.
Defined.

(** C10 on the sample session: the empty payload matches the sample
    card. *)
Lemma C10_witness :
  omits_identity ∅
  /\ get_matching_decision (B := sample_builtins) sample_session ∅ = Some (Some sample_card)
  /\ (exists pan,
        api_done (B := sample_builtins) sample_env DEFAULT_SITE_ID ∅ sample_world
        = (after_done (DEFAULT_SITE_ID, today sample_env) pan sample_card sample_world,
           Some (RPan pan))
        /\ session (after_done (DEFAULT_SITE_ID, today sample_env) pan sample_card sample_world)
             (DEFAULT_SITE_ID, today sample_env)
           = Some (ServiceDay.set_last_decision
                     (Some (DecisionCard.set_status done_ sample_card))
                     (ServiceDay.set_pan_fill_percent pan sample_session)))
  /\ api_skip (B := sample_builtins) sample_env DEFAULT_SITE_ID ∅ sample_world
     = (after_skip (DEFAULT_SITE_ID, today sample_env) sample_card sample_world,
        Some (RStatus skipped))
  /\ session (after_skip (DEFAULT_SITE_ID, today sample_env) sample_card sample_world)
       (DEFAULT_SITE_ID, today sample_env)
     = Some (ServiceDay.set_last_decision
               (Some (DecisionCard.set_status skipped sample_card)) sample_session).
Proof.
  apply (C10_absent_identity_matches_any_card (B := sample_builtins) sample_env
           DEFAULT_SITE_ID ∅ sample_world sample_session sample_card
           sample_session_there eq_refl empty_payload_omits_identity).
  - by vm_compute.
  - by vm_compute.
Defined.

(** C8 as stated fails: the store holds the rating [[1]] for the session; a
    reset during which the store does not answer leaves it there, and the
    next access hydrates the new session with it instead of the preset
    ratings. *)
Lemma C8_failed_delete_counterexample :
  (api_reset_day sample_env_store_down DEFAULT_SITE_ID sample_world_with_store).2
  = Some RReset
  /\ ServiceDay.feedback_scores
       <$> session
             (get_or_create_service_day sample_env DEFAULT_SITE_ID
                (api_reset_day sample_env_store_down DEFAULT_SITE_ID
                   sample_world_with_store).1).1
             sample_key
     = Some [1]
  /\ ServiceDay.feedback_scores (new_service_day DEFAULT_SITE_ID 0)
     = [3; 3; 2; 3; 3; 1; 3; 2; 3; 2; 3; 3].
Proof. by vm_compute. Qed.

(** C8 on the sample world with a store that answers. *)
Lemma C8_witness :
  exists w1 w2,
    api_reset_day sample_env DEFAULT_SITE_ID sample_world_with_store = (w1, Some RReset)
    /\ session w1 (DEFAULT_SITE_ID, today sample_env) = None
    /\ store_cleared w1 (DEFAULT_SITE_ID, today sample_env)
    /\ get_or_create_service_day sample_env DEFAULT_SITE_ID w1
       = (w2, Some (DEFAULT_SITE_ID, today sample_env))
    /\ session w2 (DEFAULT_SITE_ID, today sample_env)
       = Some (new_service_day DEFAULT_SITE_ID (today sample_env)).
Proof.
  apply (C8_reset_restores_defaults sample_env sample_env DEFAULT_SITE_ID
           sample_world_with_store).
  - intros d Hd. vm_compute in Hd. injection Hd as <-. by vm_compute.
  - by right.
  - done.
Defined.




(** * Further properties of the code *)

(** ** Feedback requests *)

Section FeedbackRequests.
Context `{B : Builtins}.

Lemma last_n_length {A} (n : nat) (l : list A) : (length (last_n n l) <= n)%nat.
Proof. unfold last_n. rewrite length_drop. lia. Qed.

Lemma last_n_app_last {A} (n : nat) (l : list A) (x : A) :
  (0 < n)%nat -> last (last_n n (l ++ [x])) = Some x.
Proof.
  intros Hn. unfold last_n. rewrite length_app. simpl.
  rewrite drop_app_le by lia.
  by rewrite last_app.
Qed.

Lemma last_n_all {A} (n : nat) (l : list A) : (length l <= n)%nat -> last_n n l = l.
Proof. intros Hl. unfold last_n. by replace (length l - n)%nat with 0%nat by lia. Qed.

(** X1: feedback that is not valid changes nothing.  The quick rating is
    the integer [int()] reads from the body (0 when the body has none; a
    fraction is cut toward zero first, so 0.5 reads as 0 and 2.7 as 2): a
    rating that reads as another integer than 1, 2 or 3 is answered with the
    invalid-request answer, and one [int()] cannot read ([null], a list, NaN,
    a text that is no integer) raises instead of being answered.  A
    structured feedback whose [responses] are missing or empty is answered
    with the invalid-request answer.  In each case the world after it is the
    world [get_or_create_service_day] left, which is the world before the
    request when the session exists. *)
Theorem X1_invalid_feedback_changes_nothing env site w :
  let w0 := (get_or_create_service_day env site w).1 in
  (forall data rating,
      posted_rating data = Some rating -> rating <> 1 -> rating <> 2 -> rating <> 3 ->
      api_feedback env site data w = (w0, Some RInvalid))
  /\ (forall data, posted_rating data = None -> api_feedback env site data w = (w0, None))
  /\ (forall data, data !! "rating" = None -> posted_rating data = Some 0)
  /\ (forall data (z : Z), data !! "rating" = Some (JsInt z) -> posted_rating data = Some z)
  /\ (forall data x,
        data !! "rating" = Some (JsFloat x) -> posted_rating data = Py.int_of_float x)
  /\ (forall data,
        data !! "rating" = Some JsNull \/ (exists l, data !! "rating" = Some (JsList l))
        \/ (exists items, data !! "rating" = Some (JsObj items)) ->
        posted_rating data = None)
  /\ (forall question_set,
        api_feedback_extended env site question_set None w = (w0, Some RInvalid)
        /\ api_feedback_extended env site question_set (Some []) w = (w0, Some RInvalid))
  /\ (forall d, session w (site, today env) = Some d -> w0 = w).
Proof.
  intros w0.
  assert (Hcreate : get_or_create_service_day env site w = (w0, Some (site, today env))).
  { unfold w0, get_or_create_service_day, mbind, M_bind, get_world.
    by destruct (SERVICE_DAYS w !! (site, today env)). }
  unfold posted_rating.
  split; [|split; [|split; [|split; [|split; [|split; [|split]]]]]].
  - intros data rating Hrating H1 H2 H3. unfold api_feedback.
    erewrite M_bind_run by exact Hcreate.
    unfold lift at 1. erewrite M_bind_run by (by rewrite Hrating).
    destruct (Z.eqb_spec rating 1); [done|].
    destruct (Z.eqb_spec rating 2); [done|].
    destruct (Z.eqb_spec rating 3); [done|].
    done.
  - intros data Hrating. unfold api_feedback.
    erewrite M_bind_run by exact Hcreate.
    unfold lift at 1, mbind, M_bind. by rewrite Hrating.
  - by intros data ->.
  - by intros data z ->.
  - by intros data x ->.
  - by intros data [-> | [[l ->] | [items ->]]].
  - intros question_set. unfold api_feedback_extended.
    split; by erewrite M_bind_run by exact Hcreate.
  - intros d Hd. unfold w0. by erewrite get_or_create_existing.
Qed.

End FeedbackRequests.

Section FeedbackRecorded.
Context `{B : Builtins}.

Lemma append_reaction_entry_run env key response_key value source w d :
  session w key = Some d ->
  let reaction :=
    {| Reaction.response_key := response_key; Reaction.value := value;
       Reaction.source := source |} in
  let d' :=
    ServiceDay.set_reaction_stream
      (last_n MAX_REACTIONS_STORED (ServiceDay.reaction_stream d ++ [reaction])) d in
  exists w',
    append_reaction_entry env key response_key value source w = (w', Some tt)
    /\ SERVICE_DAYS w' = <[key := d']> (SERVICE_DAYS w)
    /\ REDIS_CLIENT w'
       = (if redis_up env
          then (fun r =>
                  {| Redis.scores := Redis.scores r;
                     Redis.detailed_feedback := Redis.detailed_feedback r;
                     Redis.reactions :=
                       push_trim MAX_REACTIONS_STORED reaction (storage_id d)
                         (Redis.reactions r) |}) <$> REDIS_CLIENT w
          else REDIS_CLIENT w).
Proof.
  intros Hd reaction d'. unfold session in Hd.
  unfold append_reaction_entry, mbind, M_bind, update_service_day, service_day,
    _persist_reaction, update_redis.
  cbn [SERVICE_DAYS REDIS_CLIENT].
  rewrite lookup_alter_eq, Hd. cbn [fmap option_fmap option_map].
  assert (Hd' :
    ServiceDay.set_reaction_stream
      (if (MAX_REACTIONS_STORED <? length (ServiceDay.reaction_stream d ++ [reaction]))%nat
       then last_n MAX_REACTIONS_STORED (ServiceDay.reaction_stream d ++ [reaction])
       else ServiceDay.reaction_stream d ++ [reaction]) d = d').
  { unfold d'. f_equal.
    destruct (Nat.ltb_spec MAX_REACTIONS_STORED
                (length (ServiceDay.reaction_stream d ++ [reaction]))); [done|].
    by rewrite last_n_all. }
  assert (Halter :
    alter (fun d0 =>
      ServiceDay.set_reaction_stream
        (if (MAX_REACTIONS_STORED <? length (ServiceDay.reaction_stream d0 ++ [reaction]))%nat
         then last_n MAX_REACTIONS_STORED (ServiceDay.reaction_stream d0 ++ [reaction])
         else ServiceDay.reaction_stream d0 ++ [reaction]) d0) key (SERVICE_DAYS w)
    = <[key := d']> (SERVICE_DAYS w)).
  { apply map_eq. intros k. destruct (decide (k = key)) as [->|Hk].
    - by rewrite lookup_alter_eq, lookup_insert_eq, Hd; simpl; rewrite Hd'.
    - by rewrite lookup_alter_ne, lookup_insert_ne. }
  destruct (redis_up env); eexists; (split; [reflexivity|]); simpl;
    (split; [exact Halter|]); reflexivity.
Qed.

End FeedbackRecorded.

Section RatingRecorded.
Context `{B : Builtins}.

Lemma update_service_day_run key f w :
  update_service_day key f w
  = ({| SERVICE_DAYS := alter f key (SERVICE_DAYS w); REDIS_CLIENT := REDIS_CLIENT w |},
     Some tt).
Proof. reflexivity. Qed.

Lemma alter_insert_session (f : ServiceDay.t -> ServiceDay.t) (key : string * Z)
    (m : gmap (string * Z) ServiceDay.t) d :
  m !! key = Some d -> alter f key m = <[key := f d]> m.
Proof.
  intros Hd. apply map_eq. intros k. destruct (decide (k = key)) as [->|Hk].
  - by rewrite lookup_alter_eq, lookup_insert_eq, Hd.
  - by rewrite lookup_alter_ne, lookup_insert_ne.
Qed.

Lemma api_feedback_run env site data rating w d :
  session w (site, today env) = Some d ->
  posted_rating data = Some rating ->
  1 <= rating <= 3 ->
  let reaction :=
    {| Reaction.response_key := "lunch_pulse"; Reaction.value := str_of_int rating;
       Reaction.source := "quick" |} in
  let d' :=
    ServiceDay.set_reaction_stream
      (last_n MAX_REACTIONS_STORED (ServiceDay.reaction_stream d ++ [reaction]))
      (ServiceDay.set_feedback_scores
         (last_n 100 (ServiceDay.feedback_scores d ++ [rating])) d) in
  exists w',
    api_feedback env site data w = (w', Some (RRating rating))
    /\ SERVICE_DAYS w' = <[(site, today env) := d']> (SERVICE_DAYS w)
    /\ REDIS_CLIENT w'
       = (if redis_up env
          then (fun r =>
                  {| Redis.scores :=
                       push_trim FEEDBACK_SCORE_HISTORY_LIMIT rating (storage_id d)
                         (Redis.scores r);
                     Redis.detailed_feedback := Redis.detailed_feedback r;
                     Redis.reactions :=
                       push_trim MAX_REACTIONS_STORED reaction (storage_id d)
                         (Redis.reactions r) |}) <$> REDIS_CLIENT w
          else REDIS_CLIENT w).
Proof.
  intros Hd Hrating Hr reaction d'. unfold api_feedback.
  erewrite M_bind_run by (by eapply get_or_create_existing).
  unfold lift at 1. erewrite M_bind_run by (by rewrite <- Hrating).
  replace ((rating =? 1) || (rating =? 2) || (rating =? 3)) with true
    by (symmetry; rewrite !orb_true_iff, !Z.eqb_eq; lia).
  erewrite M_bind_run by apply update_service_day_run.
  set (d1 := ServiceDay.set_feedback_scores
               (last_n 100 (ServiceDay.feedback_scores d ++ [rating])) d).
  unfold session in Hd. rewrite (alter_insert_session _ _ _ d Hd). fold d1.
  set (w1 := {| SERVICE_DAYS := <[_ := d1]> (SERVICE_DAYS w); REDIS_CLIENT := REDIS_CLIENT w |}).
  assert (Hd1 : session w1 (site, today env) = Some d1).
  { unfold session, w1. simpl. apply lookup_insert_eq. }
  erewrite M_bind_run by (by apply service_day_run).
  set (w2 := (_persist_feedback_score env d1 rating w1).1).
  assert (Hrun2 : _persist_feedback_score env d1 rating w1 = (w2, Some tt)).
  { unfold w2, _persist_feedback_score, update_redis. by destruct (redis_up env). }
  erewrite M_bind_run by exact Hrun2.
  assert (Hsd2 : SERVICE_DAYS w2 = SERVICE_DAYS w1).
  { unfold w2, _persist_feedback_score, update_redis. by destruct (redis_up env). }
  assert (Hd2 : session w2 (site, today env) = Some d1).
  { unfold session in *. by rewrite Hsd2. }
  destruct (append_reaction_entry_run env (site, today env) "lunch_pulse"
              (str_of_int rating) "quick" w2 d1 Hd2) as (w3 & Hrun3 & Hsd3 & Hredis3).
  erewrite M_bind_run by exact Hrun3.
  exists w3. split; [reflexivity|].
  split.
  { rewrite Hsd3, Hsd2. unfold w1. simpl. by rewrite insert_insert_eq. }
  rewrite Hredis3. unfold w2, _persist_feedback_score, update_redis.
  destruct (redis_up env); simpl; [|done].
  destruct (REDIS_CLIENT w); reflexivity.
Qed.

End RatingRecorded.

Section RatingReadBack.
Context `{B : Builtins}.

(** X2: a rating of 1, 2 or 3 (the integer [int()] reads from the body,
    so also a 2.7, recorded as 2) is appended to the session's scores, of
    which the newest 100 are kept, with the new rating last; one
    [lunch_pulse] reaction is appended to the reaction stream, of which the
    newest 75 are kept; the other sessions, the diners, the pan fill, the
    card and the detailed feedback stay as they were. *)
Theorem X2_rating_recorded env site data rating w d :
  session w (site, today env) = Some d ->
  posted_rating data = Some rating ->
  1 <= rating <= 3 ->
  exists w' d',
    api_feedback env site data w = (w', Some (RRating rating))
    /\ session w' (site, today env) = Some d'
    /\ (forall k, k <> (site, today env) -> session w' k = session w k)
    /\ ServiceDay.feedback_scores d'
       = last_n 100 (ServiceDay.feedback_scores d ++ [rating])
    /\ last (ServiceDay.feedback_scores d') = Some rating
    /\ (length (ServiceDay.feedback_scores d') <= 100)%nat
    /\ ServiceDay.reaction_stream d'
       = last_n MAX_REACTIONS_STORED
           (ServiceDay.reaction_stream d
            ++ [{| Reaction.response_key := "lunch_pulse";
                   Reaction.value := str_of_int rating;
                   Reaction.source := "quick" |}])
    /\ (length (ServiceDay.reaction_stream d') <= 75)%nat
    /\ ServiceDay.diners_so_far d' = ServiceDay.diners_so_far d
    /\ ServiceDay.pan_fill_percent d' = ServiceDay.pan_fill_percent d
    /\ ServiceDay.last_decision d' = ServiceDay.last_decision d
    /\ ServiceDay.detailed_feedback d' = ServiceDay.detailed_feedback d.
Proof.
  intros Hd Hrating Hr.
  destruct (api_feedback_run env site data rating w d Hd Hrating Hr) as (w' & Hrun & Hsd & _).
  eexists w', _. split; [exact Hrun|].
  split; [unfold session; rewrite Hsd; apply lookup_insert_eq|].
  split; [intros k Hk; unfold session; by rewrite Hsd, lookup_insert_ne|].
  simpl.
  split; [done|].
  split; [apply last_n_app_last; lia|].
  split; [apply last_n_length|].
  split; [done|].
  split; [apply last_n_length|done].
Qed.

Lemma last_n_last_n {A} (n : nat) (l : list A) : last_n n (last_n n l) = last_n n l.
Proof. apply last_n_all, last_n_length. Qed.

Lemma last_n_app_nonempty {A} (n : nat) (l : list A) (x : A) :
  (0 < n)%nat -> last_n n (l ++ [x]) <> [].
Proof.
  intros Hn Hnil. pose proof (last_n_app_last n l x Hn) as Hlast.
  by rewrite Hnil in Hlast.
Qed.

(** X3: with a store that answers, the ratings the engine reads after a
    rating was posted are the store's list for the session with the new
    rating appended (the newest 100), whatever scores the session held in
    memory, and they replace the scores in memory; without a store, or with
    a store that does not answer, the engine reads the scores in memory and
    the store is left as it was. *)
Theorem X3_stored_ratings_override_memory env site data rating w d :
  session w (site, today env) = Some d ->
  posted_rating data = Some rating ->
  1 <= rating <= 3 ->
  (forall r,
      REDIS_CLIENT w = Some r ->
      redis_up env = true ->
      let stored := default [] (Redis.scores r !! storage_id d) in
      let kept := last_n 100 (stored ++ [rating]) in
      exists w1 w2 d2,
        api_feedback env site data w = (w1, Some (RRating rating))
        /\ get_feedback_scores env (site, today env) w1 = (w2, Some kept)
        /\ session w2 (site, today env) = Some d2
        /\ ServiceDay.feedback_scores d2 = kept
        /\ last kept = Some rating)
  /\ (REDIS_CLIENT w = None \/ redis_up env = false ->
      exists w1,
        api_feedback env site data w = (w1, Some (RRating rating))
        /\ REDIS_CLIENT w1 = REDIS_CLIENT w
        /\ get_feedback_scores env (site, today env) w1
           = (w1, Some (last_n 100 (ServiceDay.feedback_scores d ++ [rating])))).
Proof.
  intros Hd Hrating Hr.
  destruct (api_feedback_run env site data rating w d Hd Hrating Hr)
    as (w1 & Hrun & Hsd & Hredis).
  set (d1 := ServiceDay.set_reaction_stream _ _) in Hsd.
  assert (Hd1 : session w1 (site, today env) = Some d1).
  { unfold session. rewrite Hsd. apply lookup_insert_eq. }
  split.
  - intros r Hclient Hup stored kept.
    rewrite Hup, Hclient in Hredis. simpl in Hredis.
    assert (Hload :
      _load_list_entries env w1 Redis.scores d1 FEEDBACK_SCORE_HISTORY_LIMIT = kept).
    { unfold _load_list_entries. rewrite Hredis, Hup. simpl.
      unfold push_trim. change (storage_id d1) with (storage_id d).
      rewrite lookup_insert_eq. simpl. apply last_n_last_n. }
    assert (Hkept : kept <> []) by (apply last_n_app_nonempty; lia).
    assert (Hnil : is_nil kept = false) by by destruct kept.
    exists w1,
      {| SERVICE_DAYS :=
           alter (ServiceDay.set_feedback_scores kept) (site, today env) (SERVICE_DAYS w1);
         REDIS_CLIENT := REDIS_CLIENT w1 |},
      (ServiceDay.set_feedback_scores kept d1).
    split; [exact Hrun|].
    unfold get_feedback_scores.
    erewrite M_bind_run by (by apply service_day_run).
    unfold get_world at 1. erewrite M_bind_run by reflexivity.
    unfold _redis_available. rewrite Hredis.
    rewrite bool_decide_eq_true_2 by by eexists.
    rewrite <- Hredis, Hload, Hnil.
    erewrite M_bind_run by apply update_service_day_run.
    split; [reflexivity|].
    split; [unfold session in *; simpl; by rewrite lookup_alter_eq, Hd1|].
    split; [done|].
    apply last_n_app_last. lia.
  - intros Hoff.
    assert (Hsame : REDIS_CLIENT w1 = REDIS_CLIENT w).
    { rewrite Hredis. destruct Hoff as [-> | ->]; [by destruct (redis_up env)|done]. }
    assert (Hload :
      (if _redis_available w1
       then _load_list_entries env w1 Redis.scores d1 FEEDBACK_SCORE_HISTORY_LIMIT
       else []) = []).
    { unfold _redis_available, _load_list_entries. rewrite Hsame.
      destruct Hoff as [-> | ->]; [by rewrite bool_decide_eq_false_2 by (by intros [? ?])|].
      destruct (REDIS_CLIENT w); [by rewrite bool_decide_eq_true_2 by by eexists|].
      by rewrite bool_decide_eq_false_2 by (by intros [? ?]). }
    exists w1. split; [exact Hrun|]. split; [exact Hsame|].
    unfold get_feedback_scores.
    erewrite M_bind_run by (by apply service_day_run).
    unfold get_world at 1. erewrite M_bind_run by reflexivity.
    rewrite Hload. cbn [is_nil]. unfold d1. simpl. by rewrite last_n_last_n.
Qed.

End RatingReadBack.

Section DoneTwice.
Context `{B : Builtins}.

Lemma get_matching_decision_status d d' payload card st :
  get_matching_decision d payload = Some (Some card) ->
  ServiceDay.last_decision d' = Some (DecisionCard.set_status st card) ->
  get_matching_decision d' payload = Some (Some (DecisionCard.set_status st card)).
Proof.
  intros Hm Hd'. pose proof (get_matching_decision_card _ _ _ Hm) as Hc.
  unfold get_matching_decision in *. rewrite Hc in Hm. rewrite Hd'.
  destruct (decide (payload = ∅)); [done|].
  cbn [DecisionCard.set_status DecisionCard.wave_index DecisionCard.timestamp
       DecisionCard.service_slot].
  destruct (match payload_get payload "decision_wave_index" with
            | Some wave_idx => _
            | None => _
            end) as [ok|]; [|done].
  cbn [mbind option_bind] in *.
  destruct (negb ok); [done|].
  destruct (negb _); [done|].
  destruct (negb _); [done|].
  done.
Qed.

(** X4: done is not idempotent: matching does not look at the status of the
    card, so the request that was accepted once is accepted again on the
    card now marked done, and refills the pan a second time with the same
    suggestion. *)
Theorem X4_done_is_repeatable env site payload w d card :
  session w (site, today env) = Some d ->
  get_matching_decision d payload = Some (Some card) ->
  0 <= ServiceDay.pan_fill_percent d <= 100 ->
  0 <= DecisionCard.suggested_grams card <= 4000 ->
  exists pan1 pan2 w1 w2 d2,
    api_done env site payload w = (w1, Some (RPan pan1))
    /\ api_done env site payload w1 = (w2, Some (RPan pan2))
    /\ adjust_pan_after_refill (ServiceDay.pan_fill_percent d)
         (DecisionCard.suggested_grams card) 160 20 = Some pan1
    /\ adjust_pan_after_refill pan1 (DecisionCard.suggested_grams card) 160 20 = Some pan2
    /\ session w2 (site, today env) = Some d2
    /\ ServiceDay.pan_fill_percent d2 = pan2
    /\ ServiceDay.last_decision d2 = Some (DecisionCard.set_status done_ card)
    /\ (0 < DecisionCard.suggested_grams card ->
        ServiceDay.pan_fill_percent d <= pan1 <= pan2).
Proof.
  intros Hd Hm Hpan Hgrams.
  destruct (refill_facts _ _ Hpan Hgrams) as (pan1 & Hadj1 & Hr1 & _ & Hup1).
  destruct (refill_facts _ _ Hr1 Hgrams) as (pan2 & Hadj2 & Hr2 & _ & Hup2).
  pose proof (api_done_run env site payload w d card pan1 Hd Hm Hadj1) as Hrun1.
  set (w1 := after_done (site, today env) pan1 card w) in *.
  set (d1 := ServiceDay.set_last_decision (Some (DecisionCard.set_status done_ card))
               (ServiceDay.set_pan_fill_percent pan1 d)).
  assert (Hd1 : session w1 (site, today env) = Some d1) by by apply session_after_done.
  assert (Hm1 : get_matching_decision d1 payload
                = Some (Some (DecisionCard.set_status done_ card))).
  { by eapply get_matching_decision_status. }
  pose proof (api_done_run env site payload w1 d1 _ pan2 Hd1 Hm1 Hadj2) as Hrun2.
  exists pan1, pan2, w1. eexists _, _.
  split; [exact Hrun1|]. split; [exact Hrun2|].
  split; [exact Hadj1|]. split; [exact Hadj2|].
  split; [by apply session_after_done|].
  split; [done|]. split; [done|].
  intros Hpos. split; [by apply Hup1|by apply Hup2].
Qed.

End DoneTwice.

(** ** What a recomputation does to the session *)

Lemma same_core_refl d : same_core d d.
Proof. by repeat split. Qed.

Lemma same_core_trans d1 d2 d3 : same_core d1 d2 -> same_core d2 d3 -> same_core d1 d3.
Proof.
  intros (? & ? & ? & ? & ? & ? & ?) (? & ? & ? & ? & ? & ? & ?).
  repeat split; congruence.
Qed.

#[local] Instance core_kept_preorder : PreOrder core_kept.
Proof.
  split.
  - intros w key d Hd. exists d. split; [done|apply same_core_refl].
  - intros w1 w2 w3 H12 H23 key d Hd.
    destruct (H12 key d Hd) as (d2 & Hd2 & Hc2).
    destruct (H23 key d2 Hd2) as (d3 & Hd3 & Hc3).
    exists d3. split; [done|by eapply same_core_trans].
Qed.

Lemma core_kept_alter (f : ServiceDay.t -> ServiceDay.t) w key :
  (forall d, same_core d (f d)) ->
  core_kept w
    {| SERVICE_DAYS := alter f key (SERVICE_DAYS w); REDIS_CLIENT := REDIS_CLIENT w |}.
Proof.
  intros Hf k d Hd. unfold session in *. simpl.
  destruct (decide (key = k)) as [->|Hk].
  - rewrite lookup_alter_eq, Hd. simpl. by eexists.
  - rewrite lookup_alter_ne by done. exists d. split; [done|apply same_core_refl].
Qed.

Lemma core_kept_redis w (f : Redis.t -> Redis.t) :
  core_kept w {| SERVICE_DAYS := SERVICE_DAYS w; REDIS_CLIENT := f <$> REDIS_CLIENT w |}.
Proof. intros k d Hd. exists d. split; [done|apply same_core_refl]. Qed.

Lemma core_kept_feedback_scores (g : ServiceDay.t -> list Z) :
  accepts core_kept (fun d => ServiceDay.set_feedback_scores (g d) d).
Proof. intros w k. apply core_kept_alter. intros d. by repeat split. Qed.

Lemma core_kept_detailed_feedback (g : ServiceDay.t -> list FeedbackEntry.t) :
  accepts core_kept (fun d => ServiceDay.set_detailed_feedback (g d) d).
Proof. intros w k. apply core_kept_alter. intros d. by repeat split. Qed.

Lemma core_kept_reaction_stream (g : ServiceDay.t -> list Reaction.t) :
  accepts core_kept (fun d => ServiceDay.set_reaction_stream (g d) d).
Proof. intros w k. apply core_kept_alter. intros d. by repeat split. Qed.

Section Recomputation.
Context `{B : Builtins}.

Lemma compute_current_state_effect env site w w' state d :
  session w (site, today env) = Some d ->
  compute_current_state env site w = (w', Some state) ->
  exists d',
    session w' (site, today env) = Some d'
    /\ ServiceDay.diners_so_far d' = ServiceDay.diners_so_far d
    /\ ServiceDay.total_expected_diners d' = ServiceDay.total_expected_diners d
    /\ ServiceDay.wave_index d' = target_wave_idx env
    /\ ServiceDay.pan_fill_percent d'
       = demo_pan_relief (DEMO_MODE env) (ServiceDay.pan_fill_percent d)
    /\ ServiceDay.last_decision d' = Some (StateSnapshot.last_decision state)
    /\ DecisionCard.status (StateSnapshot.last_decision state)
       = carried_status (target_wave_idx env) (ServiceDay.last_decision d)
    /\ DecisionCard.wave_index (StateSnapshot.last_decision state) = target_wave_idx env
    /\ StateSnapshot.diners_so_far state = ServiceDay.diners_so_far d
    /\ StateSnapshot.pan_fill_percent state = ServiceDay.pan_fill_percent d'
    /\ (exists raw,
          (if negb (lunch_finished env) || DEMO_MODE env
           then predict_next_wave (weekday env) d (target_wave_idx env)
                  (StateSnapshot.feedback_multiplier state) = Some raw
           else raw = 0)
          /\ StateSnapshot.predicted_diners_next_wave state
             = demo_forecast (DEMO_MODE env) (lunch_finished env)
                 (Z.max (ServiceDay.total_expected_diners d - ServiceDay.diners_so_far d) 0)
                 raw)
    /\ compute_suggested_grams (StateSnapshot.predicted_diners_next_wave state)
         (ServiceDay.pan_fill_percent d') 160 20
       = Some (StateSnapshot.suggested_grams state).
Proof.
  intros Hd Hrun. unfold compute_current_state in Hrun.
  erewrite M_bind_run in Hrun by (by eapply get_or_create_existing).
  set (key := (site, today env)) in *.
  erewrite M_bind_run in Hrun by apply update_service_day_run.
  set (w1 := {| SERVICE_DAYS := alter _ key (SERVICE_DAYS w); REDIS_CLIENT := _ |}) in Hrun.
  assert (Hd1 : session w1 key = Some (ServiceDay.set_wave_index (target_wave_idx env) d)).
  { unfold session, w1 in *. simpl. by rewrite lookup_alter_eq, Hd. }
  apply M_bind_Some in Hrun as (w2 & scores & Hscores & Hrun).
  assert (H12 : core_kept w1 w2).
  { exact (steps_get_feedback_scores core_kept core_kept_feedback_scores
             env key w1 w2 _ Hscores). }
  apply M_bind_Some in Hrun as (w3 & entries & Hentries & Hrun).
  assert (H23 : core_kept w2 w3).
  { exact (steps_get_detailed_feedback_entries core_kept core_kept_detailed_feedback
             env key _ w2 w3 _ Hentries). }
  destruct (H12 _ _ Hd1) as (d2 & Hd2 & Hc2).
  destruct (H23 _ _ Hd2) as (d3 & Hd3 & Hc3).
  pose proof (same_core_trans _ _ _ Hc2 Hc3) as Hc13.
  apply M_bind_Some in Hrun as (w4 & multiplier & Hmult & Hrun).
  unfold lift in Hmult. injection Hmult as <- Hmult.
  erewrite M_bind_run in Hrun by (by apply service_day_run).
  apply M_bind_Some in Hrun as (w5 & predicted & Hpred & Hrun).
  assert (w5 = w3) as ->.
  { destruct (negb _ || _); unfold lift in Hpred; by injection Hpred. }
  assert (Hraw : if negb (lunch_finished env) || DEMO_MODE env
                 then predict_next_wave (weekday env) d (target_wave_idx env) multiplier
                      = Some predicted
                 else predicted = 0).
  { destruct (negb _ || _).
    - unfold lift in Hpred. injection Hpred as Hpred. rewrite <- Hpred.
      unfold predict_next_wave.
      destruct Hc13 as (_ & _ & -> & -> & _). done.
    - by injection Hpred. }
  fold (demo_forecast (DEMO_MODE env) (lunch_finished env)
          (Z.max (ServiceDay.total_expected_diners d3 - ServiceDay.diners_so_far d3) 0)
          predicted) in Hrun.
  set (predicted' := demo_forecast _ _ _ predicted) in Hrun.
  apply M_bind_Some in Hrun as (w6 & [] & Hrelief & Hrun).
  set (pan' := demo_pan_relief (DEMO_MODE env) (ServiceDay.pan_fill_percent d3)).
  assert (Hd6 : session w6 key = Some (ServiceDay.set_pan_fill_percent pan' d3)).
  { unfold pan', demo_pan_relief.
    destruct (DEMO_MODE env && (75 <=? ServiceDay.pan_fill_percent d3)).
    - rewrite update_service_day_run in Hrelief. injection Hrelief as <-.
      unfold session in *. simpl. by rewrite lookup_alter_eq, Hd3.
    - injection Hrelief as <-. rewrite Hd3. by destruct d3. }
  erewrite M_bind_run in Hrun by (by apply service_day_run).
  apply M_bind_Some in Hrun as (w7 & grams & Hgrams & Hrun).
  unfold lift in Hgrams. injection Hgrams as <- Hgrams.
  apply M_bind_Some in Hrun as (w8 & satisfaction & Hsat & Hrun).
  unfold lift in Hsat. injection Hsat as <- Hsat.
  apply M_bind_Some in Hrun as (w9 & portions & Hportions & Hrun).
  assert (w9 = w6) as ->.
  { destruct (_ =? 0); unfold lift in Hportions; by injection Hportions. }
  apply M_bind_Some in Hrun as (w9 & served & Hserved & Hrun).
  assert (w9 = w6) as ->.
  { destruct (_ =? 0); unfold lift in Hserved; by injection Hserved. }
  cbv zeta in Hrun.
  erewrite M_bind_run in Hrun by apply update_service_day_run.
  set (card := {| DecisionCard.wave_index := target_wave_idx env |}) in Hrun.
  set (w10 := {| SERVICE_DAYS := alter _ key (SERVICE_DAYS w6); REDIS_CLIENT := _ |}) in Hrun.
  assert (Hd10 : session w10 key
                 = Some (ServiceDay.set_last_decision (Some card)
                           (ServiceDay.set_pan_fill_percent pan' d3))).
  { unfold session, w10 in *. simpl. by rewrite lookup_alter_eq, Hd6. }
  apply M_bind_Some in Hrun as (w11 & reactions & Hreactions & Hrun).
  assert (H1011 : core_kept w10 w11).
  { exact (steps_get_recent_reactions core_kept core_kept_reaction_stream
             env key w10 w11 _ Hreactions). }
  destruct (H1011 _ _ Hd10) as (d11 & Hd11 & Hc11).
  injection Hrun as <- <-.
  destruct Hc13 as (_ & _ & Htotal & Hdiners & Hwave & Hpan & Hlast).
  destruct Hc11 as (_ & _ & Htotal' & Hdiners' & Hwave' & Hpan' & Hlast').
  simpl in *.
  exists d11. split; [done|].
  split; [congruence|]. split; [congruence|]. split; [congruence|].
  split; [unfold pan' in Hpan'; congruence|].
  split; [done|].
  split; [unfold carried_status; by rewrite Hlast|].
  split; [done|].
  split; [congruence|]. split; [congruence|].
  split.
  - exists predicted. split; [done|]. unfold predicted'. by rewrite Htotal, Hdiners.
  - rewrite Hpan'. exact Hgrams.
Qed.

End Recomputation.

Section TurnedDown.
Context `{B : Builtins}.

Lemma api_done_stale env site payload w d :
  session w (site, today env) = Some d ->
  get_matching_decision d payload = Some None ->
  api_done env site payload w = (w, Some RStale).
Proof.
  intros Hd Hm. unfold api_done.
  erewrite M_bind_run by (by eapply get_or_create_existing).
  erewrite M_bind_run by (by apply service_day_run).
  unfold lift at 1. by erewrite M_bind_run by (by rewrite Hm).
Qed.

Lemma api_skip_stale env site payload w d :
  session w (site, today env) = Some d ->
  get_matching_decision d payload = Some None ->
  api_skip env site payload w = (w, Some RStale).
Proof.
  intros Hd Hm. unfold api_skip.
  erewrite M_bind_run by (by eapply get_or_create_existing).
  erewrite M_bind_run by (by apply service_day_run).
  unfold lift at 1. by erewrite M_bind_run by (by rewrite Hm).
Qed.

Lemma api_done_raises env site payload w d :
  session w (site, today env) = Some d ->
  get_matching_decision d payload = None ->
  api_done env site payload w = (w, None).
Proof.
  intros Hd Hm. unfold api_done.
  erewrite M_bind_run by (by eapply get_or_create_existing).
  erewrite M_bind_run by (by apply service_day_run).
  unfold lift at 1. by erewrite M_bind_raise by (by rewrite Hm).
Qed.

Lemma api_skip_raises env site payload w d :
  session w (site, today env) = Some d ->
  get_matching_decision d payload = None ->
  api_skip env site payload w = (w, None).
Proof.
  intros Hd Hm. unfold api_skip.
  erewrite M_bind_run by (by eapply get_or_create_existing).
  erewrite M_bind_run by (by apply service_day_run).
  unfold lift at 1. by erewrite M_bind_raise by (by rewrite Hm).
Qed.

Lemma payload_nonempty (payload : gmap string Json) k v : payload !! k = Some v -> payload <> ∅.
Proof. intros Hk ->. by rewrite lookup_empty in Hk. Qed.

(** X5: when done and skip are turned down, with the world left as it was:
    a session without a card answers every request, also the empty one,
    with the stale-decision answer; so does a request whose
    [decision_wave_index] is an integer other than the card's; and a
    [decision_wave_index] that [int()] rejects makes the request raise. *)
Theorem X5_done_and_skip_turned_down env site payload w d :
  session w (site, today env) = Some d ->
  (ServiceDay.last_decision d = None ->
     api_done env site payload w = (w, Some RStale)
     /\ api_skip env site payload w = (w, Some RStale))
  /\ (forall card i,
        ServiceDay.last_decision d = Some card ->
        payload !! "decision_wave_index" = Some (JsInt i) ->
        i <> DecisionCard.wave_index card ->
        api_done env site payload w = (w, Some RStale)
        /\ api_skip env site payload w = (w, Some RStale))
  /\ (forall card s,
        ServiceDay.last_decision d = Some card ->
        payload !! "decision_wave_index" = Some (JsStr s) ->
        int_of_str s = None ->
        api_done env site payload w = (w, None)
        /\ api_skip env site payload w = (w, None)).
Proof.
  intros Hd. split; [|split].
  - intros Hnone.
    assert (Hm : get_matching_decision d payload = Some None).
    { unfold get_matching_decision. by rewrite Hnone. }
    split; [by eapply api_done_stale|by eapply api_skip_stale].
  - intros card i Hc Hw Hi.
    assert (Hm : get_matching_decision d payload = Some None).
    { unfold get_matching_decision. rewrite Hc.
      rewrite decide_False by by eapply payload_nonempty.
      unfold payload_get. rewrite Hw. simpl.
      destruct (Z.eqb_spec (DecisionCard.wave_index card) i); [congruence|done]. }
    split; [by eapply api_done_stale|by eapply api_skip_stale].
  - intros card s Hc Hw Hs.
    assert (Hm : get_matching_decision d payload = None).
    { unfold get_matching_decision. rewrite Hc.
      rewrite decide_False by by eapply payload_nonempty.
      unfold payload_get. rewrite Hw. simpl. by rewrite Hs. }
    split; [by eapply api_done_raises|by eapply api_skip_raises].
Qed.

End TurnedDown.

(** ** Urgency is monotone *)

(** X6: the urgency tier is monotone: more suggested grams or a lower pan
    fill never give a less urgent tier. *)
Theorem X6_signal_level_monotone (grams grams' pan pan' : Z) :
  grams <= grams' -> pan' <= pan ->
  urgency (signal_level grams pan) <= urgency (signal_level grams' pan').
Proof.
  intros Hg Hp. unfold signal_level.
  destruct (Z.leb_spec 1800 grams), (Z.leb_spec pan 35),
    (Z.leb_spec 600 grams), (Z.leb_spec pan 55),
    (Z.leb_spec 1800 grams'), (Z.leb_spec pan' 35),
    (Z.leb_spec 600 grams'), (Z.leb_spec pan' 55); simpl; lia.
Qed.

(** ** Detailed feedback the aggregator leaves out *)

Section Ignored.
Context `{B : Builtins}.







End Ignored.

Section SampleCap.
Context `{B : Builtins}.

Lemma collect_stats_take cutoff entries samples stats :
  Forall (fun e => fresh_entry cutoff e = true) entries ->
  collect_stats cutoff entries samples stats
  = collect_stats cutoff
      (take (Z.to_nat (MAX_DETAILED_FEEDBACK_SAMPLES - samples)) entries) samples stats.
Proof.
  revert samples stats.
  induction entries as [|e entries IH]; intros samples stats He.
  - by rewrite take_nil.
  - inversion He as [|? ? Hfresh Htail]; subst.
    destruct (Z.leb_spec MAX_DETAILED_FEEDBACK_SAMPLES samples) as [Hfull|Hroom].
    + replace (Z.to_nat (MAX_DETAILED_FEEDBACK_SAMPLES - samples)) with 0%nat by lia.
      simpl. by replace (MAX_DETAILED_FEEDBACK_SAMPLES <=? samples) with true
        by (symmetry; by apply Z.leb_le).
    + replace (Z.to_nat (MAX_DETAILED_FEEDBACK_SAMPLES - samples))
        with (S (Z.to_nat (MAX_DETAILED_FEEDBACK_SAMPLES - (samples + 1)))) by lia.
      cbn [take collect_stats].
      replace (MAX_DETAILED_FEEDBACK_SAMPLES <=? samples) with false
        by (symmetry; by apply Z.leb_gt).
      unfold fresh_entry in Hfresh.
      destruct (FeedbackEntry.timestamp e) as [ts|]; [|by apply IH].
      destruct (String.eqb ts ""); [by apply IH|].
      destruct (fromisoformat ts) as [t|]; [|by apply IH].
      destruct (t <? cutoff); [done|by apply IH].
Qed.

(** X8: when no entry is older than the window, only the newest 160
    entries of the detailed feedback count for the multiplier. *)
Theorem X8_newest_160_entries_count utcnow scores entries :
  Forall (fun e =>
            fresh_entry (utcnow - timedelta_minutes DETAILED_FEEDBACK_WINDOW_MINUTES) e = true)
    entries ->
  compute_feedback_demand_multiplier utcnow scores entries
  = compute_feedback_demand_multiplier utcnow scores (last_n 160 entries).
Proof.
  intros He. unfold compute_feedback_demand_multiplier, feedback_total_delta.
  destruct (match scores with [] => _ | _ => _ end) as [total|]; [|done].
  cbn [mbind option_bind].
  destruct entries as [|e entries]; [done|].
  destruct (last_n 160 (e :: entries)) as [|e' kept] eqn:Ekept.
  { exfalso. apply (f_equal length) in Ekept. unfold last_n in Ekept.
    rewrite length_drop in Ekept. simpl in Ekept. lia. }
  rewrite <- Ekept. f_equal. f_equal. f_equal.
  rewrite collect_stats_take by by apply List.Forall_rev.
  f_equal. change (Z.to_nat (MAX_DETAILED_FEEDBACK_SAMPLES - 0)) with 160%nat.
  unfold last_n. apply firstn_rev.
Qed.

End SampleCap.

(** ** Ratings on the 1-3 scale *)

Lemma ratings_table :
  all_from 100 1 (fun n => all_from (Z.to_nat (2 * n + 1)) n (ratings_check n)) = true.
Proof. vm_compute. reflexivity. Qed.

Lemma ratings_facts (n s : Z) :
  1 <= n <= 100 -> n <= s <= 3 * n -> ratings_check n s = true.
Proof.
  intros Hn Hs.
  apply (all_from_spec (Z.to_nat (2 * n + 1)) n); [|lia].
  apply (all_from_spec 100 1 _ n ratings_table). lia.
Qed.

Lemma int_sum_range (scores : list Z) :
  Forall (fun x => 1 <= x <= 3) scores ->
  Z.of_nat (length scores) <= int_sum scores <= 3 * Z.of_nat (length scores).
Proof.
  rewrite int_sum_foldr. induction 1 as [|x l Hx Hl IH]; simpl; lia.
Qed.

Lemma satisfaction_of_sum_spec (scores : list Z) :
  scores <> [] ->
  compute_satisfaction_percent scores
  = satisfaction_of_sum (int_sum scores) (Z.of_nat (length scores)).
Proof. by destruct scores. Qed.

Section RatingsOnly.
Context `{B : Builtins}.

Lemma multiplier_of_sum_spec utcnow (scores : list Z) :
  scores <> [] ->
  compute_feedback_demand_multiplier utcnow scores []
  = multiplier_of_sum (int_sum scores) (Z.of_nat (length scores)).
Proof.
  intros Hne. unfold compute_feedback_demand_multiplier, feedback_total_delta, multiplier_of_sum.
  destruct scores as [|x l]; [done|].
  by destruct (Py.int_truediv _ _).
Qed.

End RatingsOnly.

Lemma int_sum_constant (c : Z) (scores : list Z) :
  Forall (fun x => x = c) scores -> int_sum scores = c * Z.of_nat (length scores).
Proof.
  rewrite int_sum_foldr. induction 1 as [|x l Hx Hl IH]; simpl; lia.
Qed.

(** The table read at one sum and count. *)
Lemma ratings_check_spec (n s : Z) :
  1 <= n <= 100 -> n <= s <= 3 * n ->
  exists r r' m,
    satisfaction_of_sum s n = Some (Some r)
    /\ satisfaction_of_sum (s + 1) n = Some (Some r')
    /\ multiplier_of_sum s n = Some m
    /\ 33 <= r <= 100
    /\ (s < 3 * n -> r <= r')
    /\ (s = n -> r = 33)
    /\ (s = 2 * n -> r = 66 /\ m = 1.0%float)
    /\ (s = 3 * n -> r = 100)
    /\ PrimFloat.leb 0.92 m = true
    /\ PrimFloat.leb m 1.08 = true.
Proof.
  intros Hn Hs. pose proof (ratings_facts n s Hn Hs) as Hc.
  unfold ratings_check in Hc.
  destruct (satisfaction_of_sum s n) as [[r|]|]; try done.
  destruct (satisfaction_of_sum (s + 1) n) as [[r'|]|]; try done.
  destruct (multiplier_of_sum s n) as [m|]; try done.
  apply andb_true_iff in Hc as [Hc Hhigh].
  apply andb_true_iff in Hc as [Hc Hlow].
  apply andb_true_iff in Hc as [Hc H3].
  apply andb_true_iff in Hc as [Hc H2].
  apply andb_true_iff in Hc as [Hc H1].
  apply andb_true_iff in Hc as [Hc Hmono].
  apply andb_true_iff in Hc as [Hr1 Hr2].
  exists r, r', m. split; [done|]. split; [done|]. split; [done|].
  split; [lia|].
  split; [intros Hlt; apply orb_true_iff in Hmono as [Hm|Hm]; lia|].
  split; [intros ->; rewrite Z.eqb_refl in H1; simpl in H1; lia|].
  split.
  { intros ->. rewrite Z.eqb_refl in H2. simpl in H2.
    apply andb_true_iff in H2 as [Hr Hm].
    split; [lia|by apply FloatAxioms.Leibniz.eqb_spec]. }
  split; [intros ->; rewrite Z.eqb_refl in H3; simpl in H3; lia|].
  done.
Qed.

Lemma satisfaction_of_sum_facts (n s : Z) :
  1 <= n <= 100 -> n <= s <= 3 * n ->
  exists r,
    satisfaction_of_sum s n = Some (Some r)
    /\ 33 <= r <= 100
    /\ (s = n -> r = 33) /\ (s = 2 * n -> r = 66) /\ (s = 3 * n -> r = 100)
    /\ (s < 3 * n -> exists r', satisfaction_of_sum (s + 1) n = Some (Some r') /\ r <= r').
Proof.
  intros Hn Hs.
  destruct (ratings_check_spec n s Hn Hs)
    as (r & r' & m & Hr & Hr' & _ & Hrange & Hmono & H1 & H2 & H3 & _).
  exists r. split; [done|]. split; [done|]. split; [done|].
  split; [intros E; by apply H2|]. split; [done|].
  intros Hlt. exists r'. split; [done|by apply Hmono].
Qed.

Lemma satisfaction_of_sum_monotone (n : Z) (k : nat) (s : Z) :
  1 <= n <= 100 -> n <= s -> s + Z.of_nat k <= 3 * n ->
  exists r r',
    satisfaction_of_sum s n = Some (Some r)
    /\ satisfaction_of_sum (s + Z.of_nat k) n = Some (Some r')
    /\ r <= r'.
Proof.
  intros Hn. revert s. induction k as [|k IH]; intros s Hs Hk.
  - destruct (satisfaction_of_sum_facts n s Hn ltac:(lia)) as (r & Hr & _).
    exists r, r. replace (s + Z.of_nat 0) with s by lia. by repeat split.
  - destruct (satisfaction_of_sum_facts n s Hn ltac:(lia)) as (r & Hr & _ & _ & _ & _ & Hnext).
    destruct Hnext as (r1 & Hr1 & Hle1); [lia|].
    destruct (IH (s + 1) ltac:(lia) ltac:(lia)) as (r1' & r' & Hr1' & Hr' & Hle).
    replace (s + 1 + Z.of_nat k) with (s + Z.of_nat (S k)) in Hr' by lia.
    exists r, r'. split; [done|]. split; [done|].
    rewrite Hr1 in Hr1'. injection Hr1' as <-. lia.
Qed.

(** X9: for up to 100 ratings on the 1-3 scale the satisfaction is a whole
    percentage between 33 and 100: 33 for all ones, 66 for all twos, 100 for
    all threes, and of two histories of the same length the one with the
    higher sum has the satisfaction that is not lower. *)
Theorem X9_satisfaction_of_ratings (scores : list Z) :
  scores <> [] ->
  (length scores <= 100)%nat ->
  Forall (fun x => 1 <= x <= 3) scores ->
  exists r,
    compute_satisfaction_percent scores = Some (Some r)
    /\ 33 <= r <= 100
    /\ (Forall (fun x => x = 1) scores -> r = 33)
    /\ (Forall (fun x => x = 2) scores -> r = 66)
    /\ (Forall (fun x => x = 3) scores -> r = 100)
    /\ (forall scores',
          length scores' = length scores ->
          Forall (fun x => 1 <= x <= 3) scores' ->
          int_sum scores <= int_sum scores' ->
          exists r', compute_satisfaction_percent scores' = Some (Some r') /\ r <= r').
Proof.
  intros Hne Hlen Hvalid.
  assert (Hn : 1 <= Z.of_nat (length scores) <= 100).
  { destruct scores; [done|simpl in *; lia]. }
  pose proof (int_sum_range scores Hvalid) as Hs.
  destruct (satisfaction_of_sum_facts _ _ Hn Hs) as (r & Hr & Hrange & H1 & H2 & H3 & _).
  exists r. rewrite satisfaction_of_sum_spec by done.
  split; [done|]. split; [done|].
  split; [intros Hall; apply H1; rewrite (int_sum_constant 1) by done; lia|].
  split; [intros Hall; apply H2; by rewrite (int_sum_constant 2)|].
  split; [intros Hall; apply H3; by rewrite (int_sum_constant 3)|].
  intros scores' Hlen' Hvalid' Hle.
  assert (Hne' : scores' <> []) by (intros ->; by destruct scores).
  pose proof (int_sum_range scores' Hvalid') as Hs'.
  rewrite satisfaction_of_sum_spec, Hlen' by done.
  destruct (satisfaction_of_sum_monotone (Z.of_nat (length scores))
              (Z.to_nat (int_sum scores' - int_sum scores)) (int_sum scores))
    as (r0 & r' & Hr0 & Hr' & Hle'); [lia|lia|lia|].
  replace (int_sum scores + Z.of_nat (Z.to_nat (int_sum scores' - int_sum scores)))
    with (int_sum scores') in Hr' by lia.
  exists r'. split; [done|]. rewrite Hr in Hr0. injection Hr0 as <-. lia.
Qed.

Section RatingsMultiplier.
Context `{B : Builtins}.

(** X10: without any feedback the multiplier is exactly 1.0; with up to 100
    ratings on the 1-3 scale and no detailed feedback it lies between 0.92
    and 1.08, and is 1.0 when every rating is 2. *)
Theorem X10_multiplier_of_ratings_alone utcnow (scores : list Z) :
  compute_feedback_demand_multiplier utcnow [] [] = Some 1.0%float
  /\ (scores <> [] ->
      (length scores <= 100)%nat ->
      Forall (fun x => 1 <= x <= 3) scores ->
      exists m,
        compute_feedback_demand_multiplier utcnow scores [] = Some m
        /\ PrimFloat.leb 0.92 m = true
        /\ PrimFloat.leb m 1.08 = true
        /\ (Forall (fun x => x = 2) scores -> m = 1.0%float)).
Proof.
  split; [by vm_compute|].
  intros Hne Hlen Hvalid.
  assert (Hn : 1 <= Z.of_nat (length scores) <= 100).
  { destruct scores; [done|simpl in *; lia]. }
  pose proof (int_sum_range scores Hvalid) as Hs.
  destruct (ratings_check_spec _ _ Hn Hs)
    as (r & r' & m & _ & _ & Hm & _ & _ & _ & H2 & _ & Hlow & Hhigh).
  rewrite multiplier_of_sum_spec by done.
  exists m. split; [done|]. split; [done|]. split; [done|].
  intros Hall. apply H2. by rewrite (int_sum_constant 2).
Qed.

End RatingsMultiplier.

(** ** The history caps *)

#[local] Instance keeps_capped_preorder : PreOrder keeps_capped.
Proof. split; [intros w Hw; exact Hw|intros w1 w2 w3 H12 H23 Hw; by apply H23, H12]. Qed.

Lemma keeps_capped_alter (f : ServiceDay.t -> ServiceDay.t) w key :
  (forall d, capped_session d -> capped_session (f d)) ->
  keeps_capped w
    {| SERVICE_DAYS := alter f key (SERVICE_DAYS w); REDIS_CLIENT := REDIS_CLIENT w |}.
Proof.
  intros Hf Hw k d. unfold session in *. simpl.
  destruct (decide (key = k)) as [->|Hk].
  - rewrite lookup_alter_eq. destruct (SERVICE_DAYS w !! k) as [d0|] eqn:E; [|done].
    intros [= <-]. apply Hf. by apply (Hw k d0).
  - rewrite lookup_alter_ne by done. apply (Hw k d).
Qed.

Lemma keeps_capped_redis w (f : Redis.t -> Redis.t) :
  keeps_capped w {| SERVICE_DAYS := SERVICE_DAYS w; REDIS_CLIENT := f <$> REDIS_CLIENT w |}.
Proof. intros Hw. exact Hw. Qed.

Lemma load_list_entries_length {A} (env : Env) (w : World)
    (stream : Redis.t -> gmap (string * Z) (list A)) (d : ServiceDay.t) (limit : nat) :
  (length (_load_list_entries env w stream d limit) <= limit)%nat.
Proof.
  unfold _load_list_entries. destruct (REDIS_CLIENT w); [|simpl; lia].
  destruct (redis_up env); [apply last_n_length|simpl; lia].
Qed.

Lemma capped_session_hydrate env w d :
  capped_session d -> capped_session (_hydrate_service_day_from_store env w d).
Proof.
  intros (Hs & Hd & Hr). unfold _hydrate_service_day_from_store.
  destruct (_redis_available w); [|done].
  repeat match goal with
         | |- context [is_nil ?l] => destruct (is_nil l)
         end; repeat split; simpl; try done; apply load_list_entries_length.
Qed.

Lemma capped_session_new site today : capped_session (new_service_day site today).
Proof.
  unfold new_service_day, capped_session,
    FEEDBACK_SCORE_HISTORY_LIMIT, DETAILED_FEEDBACK_HISTORY_LIMIT, MAX_REACTIONS_STORED.
  destruct (String.eqb _ _); simpl; lia.
Qed.

Lemma keeps_capped_created env w site :
  SERVICE_DAYS w !! (site, today env) = None ->
  keeps_capped w
    {| SERVICE_DAYS :=
         <[(site, today env) :=
             _hydrate_service_day_from_store env w (new_service_day site (today env))]>
           (SERVICE_DAYS w);
       REDIS_CLIENT := REDIS_CLIENT w |}.
Proof.
  intros Hnone Hw key d. unfold session. simpl.
  destruct (decide ((site, today env) = key)) as [<-|Hk].
  - rewrite lookup_insert_eq. intros [= <-].
    apply capped_session_hydrate, capped_session_new.
  - rewrite lookup_insert_ne by done. apply (Hw key d).
Qed.

(** An update that leaves the three histories alone. *)
Lemma keeps_capped_core (f : ServiceDay.t -> ServiceDay.t) :
  (forall d, ServiceDay.feedback_scores (f d) = ServiceDay.feedback_scores d
             /\ ServiceDay.detailed_feedback (f d) = ServiceDay.detailed_feedback d
             /\ ServiceDay.reaction_stream (f d) = ServiceDay.reaction_stream d) ->
  accepts keeps_capped f.
Proof.
  intros Hf w key. apply keeps_capped_alter. intros d (Hs & Hd & Hr).
  destruct (Hf d) as (Es & Ed & Er). unfold capped_session. by rewrite Es, Ed, Er.
Qed.

Lemma capped_get_feedback_scores env key : steps keeps_capped (get_feedback_scores env key).
Proof.
  unfold get_feedback_scores.
  apply (steps_bind keeps_capped); [apply (steps_service_day keeps_capped)|intros d].
  apply (steps_bind keeps_capped); [apply (steps_get_world keeps_capped)|intros w0].
  apply (steps_if keeps_capped); [apply (steps_ret keeps_capped)|].
  apply (steps_bind keeps_capped); [|intros _; apply (steps_ret keeps_capped)].
  apply (steps_update_service_day keeps_capped). intros w k. apply keeps_capped_alter.
  intros d0 (Hs & Hd & Hr). repeat split; simpl; try done.
  destruct (_redis_available w0); [apply load_list_entries_length|simpl; lia].
Qed.

Lemma capped_get_detailed_feedback_entries env key limit :
  (limit <= DETAILED_FEEDBACK_HISTORY_LIMIT)%nat ->
  steps keeps_capped (get_detailed_feedback_entries env key limit).
Proof.
  intros Hlimit. unfold get_detailed_feedback_entries.
  apply (steps_bind keeps_capped); [apply (steps_service_day keeps_capped)|intros d].
  apply (steps_bind keeps_capped); [apply (steps_get_world keeps_capped)|intros w0].
  apply (steps_if keeps_capped); [apply (steps_ret keeps_capped)|].
  apply (steps_bind keeps_capped); [|intros _; apply (steps_ret keeps_capped)].
  apply (steps_update_service_day keeps_capped). intros w k. apply keeps_capped_alter.
  intros d0 (Hs & Hd & Hr). repeat split; simpl; try done.
  destruct (_redis_available w0); [|simpl; lia].
  etransitivity; [apply load_list_entries_length|].
  unfold DETAILED_FEEDBACK_HISTORY_LIMIT in *. lia.
Qed.

Lemma capped_get_recent_reactions env key : steps keeps_capped (get_recent_reactions env key).
Proof.
  unfold get_recent_reactions.
  apply (steps_bind keeps_capped); [apply (steps_service_day keeps_capped)|intros d].
  apply (steps_bind keeps_capped); [apply (steps_get_world keeps_capped)|intros w0].
  apply (steps_if keeps_capped); [apply (steps_ret keeps_capped)|].
  apply (steps_bind keeps_capped); [|intros _; apply (steps_ret keeps_capped)].
  apply (steps_update_service_day keeps_capped). intros w k. apply keeps_capped_alter.
  intros d0 (Hs & Hd & Hr). repeat split; simpl; try done.
  destruct (_redis_available w0); [|simpl; lia].
  etransitivity; [apply load_list_entries_length|].
  unfold REACTION_RESPONSE_LIMIT, MAX_REACTIONS_STORED. lia.
Qed.

Lemma capped_append_reaction_entry env key response_key value source :
  steps keeps_capped (append_reaction_entry env key response_key value source).
Proof.
  unfold append_reaction_entry.
  apply (steps_bind keeps_capped).
  { apply (steps_update_service_day keeps_capped). intros w k. apply keeps_capped_alter.
    intros d0 (Hs & Hd & Hr). repeat split; simpl; try done.
    destruct (Nat.ltb_spec MAX_REACTIONS_STORED
                (length (ServiceDay.reaction_stream d0 ++ [ {| Reaction.response_key := response_key;
                           Reaction.value := value; Reaction.source := source |} ])));
      [apply last_n_length|done]. }
  intros _. apply (steps_bind keeps_capped); [apply (steps_service_day keeps_capped)|intros d].
  apply (steps_persist_reaction keeps_capped). apply keeps_capped_redis.
Qed.

Section Capped.
Context `{B : Builtins}.

Lemma capped_api_feedback env site data : steps keeps_capped (api_feedback env site data).
Proof.
  unfold api_feedback.
  apply (steps_bind keeps_capped); [apply (steps_get_or_create keeps_capped), keeps_capped_created|intros key].
  apply (steps_bind keeps_capped); [apply (steps_lift keeps_capped)|intros rating].
  apply (steps_if keeps_capped); [|apply (steps_ret keeps_capped)].
  apply (steps_bind keeps_capped).
  { apply (steps_update_service_day keeps_capped). intros w k. apply keeps_capped_alter.
    intros d0 (Hs & Hd & Hr). repeat split; simpl; try done. apply last_n_length. }
  intros _. apply (steps_bind keeps_capped); [apply (steps_service_day keeps_capped)|intros d].
  apply (steps_bind keeps_capped); [apply (steps_persist_feedback_score keeps_capped), keeps_capped_redis|intros _].
  apply (steps_bind keeps_capped); [apply capped_append_reaction_entry|intros _; apply (steps_ret keeps_capped)].
Qed.

Lemma capped_api_feedback_extended env site question_set responses :
  steps keeps_capped (api_feedback_extended env site question_set responses).
Proof.
  unfold api_feedback_extended.
  apply (steps_bind keeps_capped); [apply (steps_get_or_create keeps_capped), keeps_capped_created|intros key].
  destruct responses as [[|kv l]|]; try apply (steps_ret keeps_capped).
  apply (steps_bind keeps_capped).
  { apply (steps_update_service_day keeps_capped). intros w k. apply keeps_capped_alter.
    intros d0 (Hs & Hd & Hr). repeat split; simpl; try done. apply last_n_length. }
  intros _. apply (steps_bind keeps_capped); [apply (steps_service_day keeps_capped)|intros d].
  apply (steps_bind keeps_capped); [apply (steps_persist_detailed_feedback keeps_capped), keeps_capped_redis|intros _].
  apply (steps_bind keeps_capped); [|intros _].
  - generalize (kv :: l). intros l'.
    induction l' as [|x l' IH]; simpl; [apply (steps_ret keeps_capped)|].
    apply (steps_bind keeps_capped); [apply capped_append_reaction_entry|by intros _].
  - apply (steps_bind keeps_capped); [by apply capped_get_detailed_feedback_entries|intros ?; apply (steps_ret keeps_capped)].
Qed.

Lemma capped_compute_current_state env site :
  steps keeps_capped (compute_current_state env site).
Proof.
  unfold compute_current_state.
  apply (steps_bind keeps_capped); [apply (steps_get_or_create keeps_capped), keeps_capped_created|intros key].
  apply (steps_bind keeps_capped); [by apply (steps_update_service_day keeps_capped), keeps_capped_core|intros _].
  apply (steps_bind keeps_capped); [apply capped_get_feedback_scores|intros scores].
  apply (steps_bind keeps_capped); [by apply capped_get_detailed_feedback_entries|intros entries].
  apply (steps_bind keeps_capped); [apply (steps_lift keeps_capped)|intros multiplier].
  apply (steps_bind keeps_capped); [apply (steps_service_day keeps_capped)|intros d].
  apply (steps_bind keeps_capped); [apply (steps_if keeps_capped); [apply (steps_lift keeps_capped)|apply (steps_ret keeps_capped)]|intros predicted].
  apply (steps_bind keeps_capped).
  { apply (steps_if keeps_capped); [|apply (steps_ret keeps_capped)].
    by apply (steps_update_service_day keeps_capped), keeps_capped_core. }
  intros _. apply (steps_bind keeps_capped); [apply (steps_service_day keeps_capped)|intros d'].
  apply (steps_bind keeps_capped); [apply (steps_lift keeps_capped)|intros grams].
  apply (steps_bind keeps_capped); [apply (steps_lift keeps_capped)|intros satisfaction].
  apply (steps_bind keeps_capped); [apply (steps_if keeps_capped); [apply (steps_ret keeps_capped)|apply (steps_lift keeps_capped)]|intros portions].
  apply (steps_bind keeps_capped); [apply (steps_if keeps_capped); [apply (steps_ret keeps_capped)|apply (steps_lift keeps_capped)]|intros served].
  apply (steps_bind keeps_capped); [by apply (steps_update_service_day keeps_capped), keeps_capped_core|intros _].
  apply (steps_bind keeps_capped); [apply capped_get_recent_reactions|intros ?; apply (steps_ret keeps_capped)].
Qed.

Lemma run_op_keeps_capped env site op w w' r :
  run_op env site op w = (w', r) -> capped_world w -> capped_world w'.
Proof.
  intros Hrun.
  destruct op; simpl in Hrun.
  7: { intros Hw key d Hd. apply (Hw key). by eapply reset_removes. }
  all: revert Hrun.
  - unfold api_state.
    apply (steps_bind keeps_capped); [apply capped_compute_current_state|intros ?; apply (steps_ret keeps_capped)].
  - apply (steps_api_increment_diner keeps_capped);
      [apply keeps_capped_created|intros v; by apply keeps_capped_core].
  - apply capped_api_feedback.
  - apply capped_api_feedback_extended.
  - apply (steps_api_done keeps_capped); [apply keeps_capped_created|].
    intros w0 key d card pan _ _ _.
    change (keeps_capped w0
      {| SERVICE_DAYS :=
           alter (ServiceDay.set_last_decision (Some (DecisionCard.set_status done_ card)))
             key (SERVICE_DAYS
                    {| SERVICE_DAYS :=
                         alter (ServiceDay.set_pan_fill_percent pan) key (SERVICE_DAYS w0);
                       REDIS_CLIENT := REDIS_CLIENT w0 |});
         REDIS_CLIENT := REDIS_CLIENT w0 |}).
    transitivity
      {| SERVICE_DAYS := alter (ServiceDay.set_pan_fill_percent pan) key (SERVICE_DAYS w0);
         REDIS_CLIENT := REDIS_CLIENT w0 |}.
    + by apply keeps_capped_core.
    + apply (keeps_capped_alter _ {| SERVICE_DAYS := _; REDIS_CLIENT := _ |}).
      by intros d0 (Hs & Hd & Hr).
  - apply (steps_api_skip keeps_capped); [apply keeps_capped_created|].
    intros w0 key d card st _ _. by apply keeps_capped_core.
Qed.

(** X12: in every world the routes can reach, a session holds at most 100
    scores, 400 detailed feedback entries and 75 reactions, whatever the
    store held. *)
Theorem X12_histories_stay_within_caps w key d :
  reachable w ->
  session w key = Some d ->
  (length (ServiceDay.feedback_scores d) <= 100)%nat
  /\ (length (ServiceDay.detailed_feedback d) <= 400)%nat
  /\ (length (ServiceDay.reaction_stream d) <= 75)%nat.
Proof.
  intros Hreach. revert key d.
  induction Hreach as [client|env site op w w' r _ IH Hrun].
  - intros key d. unfold session. simpl. by rewrite lookup_empty.
  - by eapply run_op_keeps_capped.
Qed.

End Capped.

(** ** Prep quantity of the configured site *)

Lemma grams_table :
  all_from 101 0 (fun pan => all_from 401 0 (grams_check pan)) = true.
Proof. vm_compute. reflexivity. Qed.

Lemma grams_check_spec (predicted pan : Z) :
  0 <= pan <= 100 -> 0 <= predicted <= 400 -> grams_check pan predicted = true.
Proof.
  intros Hpan Hpred.
  apply (all_from_spec 401 0); [|lia].
  apply (all_from_spec 101 0 _ pan grams_table). lia.
Qed.

Lemma suggested_grams_none_predicted (pan : Z) :
  0 <= pan <= 100 -> compute_suggested_grams 0 pan 160 20 = Some 0.
Proof.
  intros Hpan. pose proof (grams_check_spec 0 pan Hpan ltac:(lia)) as Hc.
  unfold grams_check in Hc.
  destruct (compute_suggested_grams 0 pan 160 20) as [g|]; [|done].
  apply andb_true_iff in Hc as [Hc _].
  apply andb_true_iff in Hc as [Hnear Hpos].
  apply orb_true_iff in Hnear. unfold exact_grams in Hnear. f_equal. lia.
Qed.

(** X11: for the configured site (160 grams a portion, 20 portions a pan),
    a pan fill from 0 to 100 and up to 400 predicted diners, the suggested
    grams are the exact [max(160 * predicted - 32 * pan, 0)] capped at 4000
    or one gram less (the binary64 rounding of [pan / 100.0 * 20]); they are
    exact when the pan holds a whole number of portions, and 0 when the pan
    covers the predicted diners. *)
Theorem X11_suggested_grams_within_a_gram (predicted pan : Z) :
  0 <= pan <= 100 -> 0 <= predicted <= 400 ->
  exists g,
    compute_suggested_grams predicted pan
      (SiteConfig.portion_grams flavoria) (SiteConfig.pan_capacity_portions flavoria) = Some g
    /\ exact_grams predicted pan - 1 <= g <= exact_grams predicted pan
    /\ 0 <= g
    /\ (pan mod 5 = 0 -> g = exact_grams predicted pan)
    /\ (5 * predicted <= pan -> g = 0).
Proof.
  intros Hpan Hpred.
  pose proof (grams_check_spec predicted pan Hpan Hpred) as Hc.
  unfold grams_check in Hc. simpl.
  destruct (compute_suggested_grams predicted pan 160 20) as [g|]; [|done].
  apply andb_true_iff in Hc as [Hc Hwhole].
  apply andb_true_iff in Hc as [Hnear Hpos].
  exists g. split; [done|].
  assert (Hg : 0 <= g) by lia.
  split; [apply orb_true_iff in Hnear as [?|?]; lia|].
  split; [done|].
  split.
  - intros Hmod. rewrite Hmod in Hwhole. simpl in Hwhole. lia.
  - intros Hcover. apply orb_true_iff in Hnear. unfold exact_grams in *. lia.
Qed.

Section RecomputationProperties.
Context `{B : Builtins}.

(** X13: a recomputation of an existing session never changes the diners
    served or expected; it sets the wave index to the target wave; it never
    raises the pan fill: in demo mode a pan fill of 75% or more goes down by
    20 points, any other is left alone; and the state it returns reports the
    diners and the pan fill it leaves. *)
Theorem X13_recomputation_keeps_counters env site w w' state d :
  session w (site, today env) = Some d ->
  compute_current_state env site w = (w', Some state) ->
  exists d',
    session w' (site, today env) = Some d'
    /\ ServiceDay.diners_so_far d' = ServiceDay.diners_so_far d
    /\ ServiceDay.total_expected_diners d' = ServiceDay.total_expected_diners d
    /\ ServiceDay.wave_index d' = target_wave_idx env
    /\ ServiceDay.pan_fill_percent d'
       = demo_pan_relief (DEMO_MODE env) (ServiceDay.pan_fill_percent d)
    /\ ServiceDay.pan_fill_percent d' <= ServiceDay.pan_fill_percent d
    /\ (DEMO_MODE env = false \/ ServiceDay.pan_fill_percent d < 75 ->
        ServiceDay.pan_fill_percent d' = ServiceDay.pan_fill_percent d)
    /\ (DEMO_MODE env = true -> 75 <= ServiceDay.pan_fill_percent d ->
        ServiceDay.pan_fill_percent d' = ServiceDay.pan_fill_percent d - 20)
    /\ StateSnapshot.diners_so_far state = ServiceDay.diners_so_far d
    /\ StateSnapshot.pan_fill_percent state = ServiceDay.pan_fill_percent d'.
Proof.
  intros Hd Hrun.
  destruct (compute_current_state_effect env site w w' state d Hd Hrun)
    as (d' & Hd' & Hdiners & Htotal & Hwave & Hpan & _ & _ & _ & Hsd & Hsp & _).
  exists d'. split; [done|]. split; [done|]. split; [done|]. split; [done|].
  split; [done|].
  unfold demo_pan_relief in Hpan.
  split; [|split; [|split]].
  - destruct (DEMO_MODE env); simpl in Hpan; [|lia].
    destruct (Z.leb_spec 75 (ServiceDay.pan_fill_percent d)); lia.
  - intros [Hdemo|Hlow].
    + by rewrite Hdemo in Hpan.
    + destruct (DEMO_MODE env); simpl in Hpan; [|done].
      destruct (Z.leb_spec 75 (ServiceDay.pan_fill_percent d)); [lia|done].
  - intros Hdemo Hhigh. rewrite Hdemo in Hpan. simpl in Hpan.
    destruct (Z.leb_spec 75 (ServiceDay.pan_fill_percent d)); lia.
  - done.
Qed.

(** X14: the card a recomputation returns is the card it stores in the
    session; it is for the target wave, and it takes the status of the
    card the session held when that card was for the same wave (so a card
    that was done or skipped stays so while the wave lasts), and is pending
    otherwise. *)
Theorem X14_recomputation_carries_card_status env site w w' state d :
  session w (site, today env) = Some d ->
  compute_current_state env site w = (w', Some state) ->
  let card := StateSnapshot.last_decision state in
  (exists d', session w' (site, today env) = Some d'
              /\ ServiceDay.last_decision d' = Some card)
  /\ DecisionCard.wave_index card = target_wave_idx env
  /\ DecisionCard.status card
     = carried_status (target_wave_idx env) (ServiceDay.last_decision d)
  /\ (forall last,
        ServiceDay.last_decision d = Some last ->
        DecisionCard.wave_index last = target_wave_idx env ->
        DecisionCard.status card = DecisionCard.status last)
  /\ (forall last,
        ServiceDay.last_decision d = Some last ->
        DecisionCard.wave_index last <> target_wave_idx env ->
        DecisionCard.status card = pending)
  /\ (ServiceDay.last_decision d = None -> DecisionCard.status card = pending).
Proof.
  intros Hd Hrun card.
  destruct (compute_current_state_effect env site w w' state d Hd Hrun)
    as (d' & Hd' & _ & _ & _ & _ & Hlast & Hstatus & Hwave & _).
  split; [by exists d'|]. split; [done|]. split; [done|].
  unfold card. rewrite Hstatus. unfold carried_status.
  split; [|split].
  - intros last -> Hsame. by rewrite Hsame, Z.eqb_refl.
  - intros last -> Hother. by destruct (Z.eqb_spec (DecisionCard.wave_index last) (target_wave_idx env)).
  - by intros ->.
Qed.

End RecomputationProperties.

Lemma demo_forecast_facts (demo finished : bool) (remaining raw : Z) :
  0 <= raw -> 0 <= remaining ->
  0 <= demo_forecast demo finished remaining raw
  /\ (demo = true -> 0 < remaining -> 1 <= demo_forecast demo finished remaining raw)
  /\ (demo = true -> finished = true -> 0 < remaining ->
      14 <= demo_forecast demo finished remaining raw)
  /\ (demo = false -> demo_forecast demo finished remaining raw = raw).
Proof.
  intros Hraw Hrem. unfold demo_forecast.
  destruct demo, finished; destruct (Z.eqb_spec remaining 0); simpl;
    repeat match goal with
           | |- context [?a <=? ?b] => destruct (Z.leb_spec a b)
           end; simpl; repeat split; intros; try discriminate; lia.
Qed.

Section ForecastFloor.
Context `{B : Builtins}.

(** X15: the forecast a recomputation reports is never negative.  In demo
    mode, while diners remain, it is at least 1, and at least 14 once lunch
    is finished.  In demo mode with no diner remaining there is no floor:
    the forecast is the forecaster's own, also once lunch is finished (7
    for the default site with 360 of 360 served).  Outside demo mode, once
    lunch is finished, it is 0, and then no grams are suggested and the
    tier is that of the pan fill alone. *)
Theorem X15_forecast_of_a_recomputation env site w w' state d :
  session w (site, today env) = Some d ->
  compute_current_state env site w = (w', Some state) ->
  let predicted := StateSnapshot.predicted_diners_next_wave state in
  let remaining := ServiceDay.total_expected_diners d - ServiceDay.diners_so_far d in
  0 <= predicted
  /\ (DEMO_MODE env = true -> 0 < remaining -> 1 <= predicted)
  /\ (DEMO_MODE env = true -> lunch_finished env = true -> 0 < remaining ->
      14 <= predicted)
  /\ (DEMO_MODE env = true -> remaining <= 0 ->
      predict_next_wave (weekday env) d (target_wave_idx env)
        (StateSnapshot.feedback_multiplier state) = Some predicted)
  /\ (DEMO_MODE env = false -> lunch_finished env = true ->
      predicted = 0
      /\ (0 <= ServiceDay.pan_fill_percent d <= 100 ->
          StateSnapshot.suggested_grams state = 0
          /\ StateSnapshot.signal_level state
             = signal_level 0 (ServiceDay.pan_fill_percent d))).
Proof.
  intros Hd Hrun predicted remaining.
  destruct (compute_current_state_effect env site w w' state d Hd Hrun)
    as (d' & Hd' & _ & _ & _ & Hpan & _ & _ & _ & _ & Hsp & (raw & Hraw & Hpred) & Hgrams).
  destruct (compute_current_state_snapshot env site w w' state Hrun) as (Hsignal & _).
  assert (Hnonneg : 0 <= raw).
  { destruct (negb _ || _); [by eapply predict_next_wave_nonneg|lia]. }
  fold predicted in Hpred, Hgrams. fold remaining in Hpred.
  destruct (demo_forecast_facts (DEMO_MODE env) (lunch_finished env)
              (Z.max remaining 0) raw Hnonneg ltac:(lia))
    as (H0 & H1 & H14 & Hoff).
  rewrite <- Hpred in H0, H1, H14, Hoff.
  split; [done|]. split; [intros Hdemo Hrem; apply H1; [done|lia]|].
  split; [intros Hdemo Hfinished Hrem; apply H14; [done|done|lia]|].
  split.
  { intros Hdemo Hrem. rewrite Hdemo, orb_true_r in Hraw. rewrite Hraw. f_equal.
    rewrite Hpred, Hdemo. unfold demo_forecast.
    replace (Z.max remaining 0) with 0 by lia.
    cbn [Z.eqb negb]. by rewrite !andb_false_r. }
  intros Hdemo Hfinished. rewrite Hdemo, Hfinished in Hraw. simpl in Hraw.
  assert (Hzero : predicted = 0) by (rewrite (Hoff Hdemo); exact Hraw).
  split; [done|]. intros Hrange.
  unfold demo_pan_relief in Hpan. rewrite Hdemo in Hpan. simpl in Hpan.
  rewrite Hzero, Hpan, suggested_grams_none_predicted in Hgrams by done.
  injection Hgrams as Hgrams.
  split; [done|]. by rewrite Hsignal, <- Hgrams, Hsp, Hpan.
Qed.

End ForecastFloor.

(** ** The wave schedule *)

Lemma datetime_time_combine (day t : Z) :
  0 <= t < MICROSECONDS_PER_DAY -> datetime_time (datetime_combine day t) = t.
Proof.
  intros Ht. unfold datetime_time, datetime_combine.
  rewrite Z.add_comm, Z_mod_plus_full. by apply Z.mod_small.
Qed.

Lemma datetime_add_minutes_combine (day t m : Z) :
  1 <= day <= MAX_ORDINAL ->
  0 <= t + timedelta_minutes m < MICROSECONDS_PER_DAY ->
  datetime_add_minutes (datetime_combine day t) m
  = Some (datetime_combine day (t + timedelta_minutes m)).
Proof.
  intros Hday Ht. unfold datetime_add_minutes, datetime_combine.
  replace ((day - 1) * MICROSECONDS_PER_DAY + t + timedelta_minutes m)
    with ((day - 1) * MICROSECONDS_PER_DAY + (t + timedelta_minutes m)) by lia.
  unfold MAX_ORDINAL, MICROSECONDS_PER_DAY in *.
  destruct (Z.leb_spec 0 ((day - 1) * 86400000000 + (t + timedelta_minutes m))); [|lia].
  destruct (Z.ltb_spec ((day - 1) * 86400000000 + (t + timedelta_minutes m))
              (3652059 * 86400000000)); [done|lia].
Qed.

Lemma wave_loop_step (day end_ duration expected : Z) (pattern : list Z) (idx t : Z) :
  1 <= day <= MAX_ORDINAL ->
  0 <= t < MICROSECONDS_PER_DAY ->
  0 <= end_ < MICROSECONDS_PER_DAY ->
  t < end_ ->
  0 <= t + timedelta_minutes duration < MICROSECONDS_PER_DAY ->
  wave_loop (datetime_combine day end_) duration (expected :: pattern) idx
    (datetime_combine day t)
  = (waves ← wave_loop (datetime_combine day end_) duration pattern (idx + 1)
               (datetime_combine day (t + timedelta_minutes duration));
     Some ({| WaveState.index := idx;
              WaveState.start_time := t;
              WaveState.end_time := t + timedelta_minutes duration;
              WaveState.expected_diners_pattern := expected |} :: waves)).
Proof.
  intros Hday Ht Hend Hlt Hnext. cbn [wave_loop].
  rewrite !datetime_time_combine by done.
  replace (t <? end_) with true by (symmetry; by apply Z.ltb_lt).
  rewrite datetime_add_minutes_combine by done.
  cbn [mbind option_bind]. by rewrite datetime_time_combine.
Qed.

Lemma wave_loop_stop (day end_ duration : Z) (pattern : list Z) (idx t : Z) :
  0 <= t < MICROSECONDS_PER_DAY ->
  0 <= end_ < MICROSECONDS_PER_DAY ->
  end_ <= t ->
  wave_loop (datetime_combine day end_) duration pattern idx (datetime_combine day t)
  = Some [].
Proof.
  intros Ht Hend Hle. destruct pattern; [done|]. cbn [wave_loop].
  rewrite !datetime_time_combine by done.
  by replace (t <? end_) with false by (symmetry; by apply Z.ltb_ge).
Qed.

Lemma get_wave_template_flavoria (today : Z) :
  1 <= today <= MAX_ORDINAL ->
  get_wave_template today flavoria_schedule = Some flavoria_waves.
Proof.
  intros Hday. unfold get_wave_template, flavoria_schedule, EXPECTED_WAVES.
  cbn [SiteSchedule.lunch_window_start SiteSchedule.lunch_window_end
       SiteSchedule.wave_duration_minutes].
  change (time_of_hm 11 0) with 39600000000.
  change (time_of_hm 13 30) with 48600000000.
  rewrite wave_loop_step by (unfold timedelta_minutes, MICROSECONDS_PER_DAY; lia).
  change (39600000000 + timedelta_minutes 30) with 41400000000.
  rewrite wave_loop_step by (unfold timedelta_minutes, MICROSECONDS_PER_DAY; lia).
  change (41400000000 + timedelta_minutes 30) with 43200000000.
  rewrite wave_loop_step by (unfold timedelta_minutes, MICROSECONDS_PER_DAY; lia).
  change (43200000000 + timedelta_minutes 30) with 45000000000.
  rewrite wave_loop_step by (unfold timedelta_minutes, MICROSECONDS_PER_DAY; lia).
  change (45000000000 + timedelta_minutes 30) with 46800000000.
  rewrite wave_loop_step by (unfold timedelta_minutes, MICROSECONDS_PER_DAY; lia).
  reflexivity.
Qed.

Lemma wave_loop_shape (end_ duration : Z) (pattern : list Z) (idx current : Z)
    (waves : list WaveState.t) :
  wave_loop end_ duration pattern idx current = Some waves ->
  (length waves <= length pattern)%nat
  /\ (forall i wave,
        waves !! i = Some wave ->
        WaveState.index wave = idx + Z.of_nat i
        /\ pattern !! i = Some (WaveState.expected_diners_pattern wave)
        /\ WaveState.start_time wave < datetime_time end_)
  /\ (forall wave, head waves = Some wave -> WaveState.start_time wave = datetime_time current)
  /\ (forall i w1 w2,
        waves !! i = Some w1 -> waves !! S i = Some w2 ->
        WaveState.start_time w2 = WaveState.end_time w1)
  /\ (waves = [] <-> pattern = [] \/ datetime_time end_ <= datetime_time current).
Proof.
  revert idx current waves.
  induction pattern as [|expected pattern IH]; intros idx current waves Hloop.
  - injection Hloop as <-. repeat split; try done; simpl; auto.
  - cbn [wave_loop] in Hloop.
    destruct (Z.ltb_spec (datetime_time current) (datetime_time end_)) as [Hlt|Hge].
    2: { injection Hloop as <-. repeat split; try done; simpl; auto with lia. }
    apply bind_Some in Hloop as (next_slot & Hnext & Hloop).
    apply bind_Some in Hloop as (rest & Hrest & Hloop).
    injection Hloop as <-.
    destruct (IH _ _ _ Hrest) as (Hlen & Hidx & Hhead & Hadj & _).
    split; [simpl; lia|].
    split.
    { intros [|i] wave Hi; simpl in Hi.
      - injection Hi as <-. simpl. repeat split; [lia|done].
      - destruct (Hidx i wave Hi) as (Ei & Ep & Es).
        repeat split; [lia|done|done]. }
    split; [by intros wave [= <-]|].
    split.
    { intros [|i] w1 w2 H1 H2; simpl in H1, H2.
      - injection H1 as <-. simpl. apply Hhead. by destruct rest.
      - by eapply Hadj. }
    split; [done|]. intros [?|?]; [done|lia].
Qed.

(** X16: the wave template of a site has at most 5 waves, numbered from 0,
    with the expected diners 10, 30, 40, 25, 15 in that order; the first
    wave starts with the lunch window, every wave starts before the window
    ends and where the wave before it ended, and there is no wave exactly
    when the window ends at or before its start.  For the configured site
    these are the five half hours from 11:00 to 13:30. *)
Theorem X16_wave_template_shape (today : Z) (site : SiteSchedule.t) :
  0 <= SiteSchedule.lunch_window_start site < MICROSECONDS_PER_DAY ->
  0 <= SiteSchedule.lunch_window_end site < MICROSECONDS_PER_DAY ->
  (forall waves,
      get_wave_template today site = Some waves ->
      (length waves <= 5)%nat
      /\ (forall i wave,
            waves !! i = Some wave ->
            WaveState.index wave = Z.of_nat i
            /\ EXPECTED_WAVES !! i = Some (WaveState.expected_diners_pattern wave)
            /\ WaveState.start_time wave < SiteSchedule.lunch_window_end site)
      /\ (forall wave,
            head waves = Some wave ->
            WaveState.start_time wave = SiteSchedule.lunch_window_start site)
      /\ (forall i w1 w2,
            waves !! i = Some w1 -> waves !! S i = Some w2 ->
            WaveState.start_time w2 = WaveState.end_time w1)
      /\ (waves = []
          <-> SiteSchedule.lunch_window_end site <= SiteSchedule.lunch_window_start site))
  /\ (1 <= today <= MAX_ORDINAL ->
      get_wave_template today flavoria_schedule = Some flavoria_waves).
Proof.
  intros Hstart Hend. split; [|apply get_wave_template_flavoria].
  intros waves Hwaves. unfold get_wave_template in Hwaves.
  destruct (wave_loop_shape _ _ _ _ _ _ Hwaves) as (Hlen & Hidx & Hhead & Hadj & Hnil).
  rewrite !datetime_time_combine in * by done.
  split; [done|].
  split; [intros i wave Hi; destruct (Hidx i wave Hi) as (? & ? & ?); repeat split; [lia|done|done]|].
  split; [done|]. split; [done|].
  rewrite Hnil. split; [intros [?|?]; [done|lia]|auto].
Qed.

Lemma get_current_wave_index_flavoria (today now : Z) :
  1 <= today <= MAX_ORDINAL ->
  get_current_wave_index today now flavoria_schedule = Some (flavoria_wave_at now).
Proof.
  intros Hday. unfold get_current_wave_index.
  rewrite get_wave_template_flavoria by done.
  cbn [mbind option_bind]. unfold flavoria_waves, flavoria_wave_at.
  change (time_of_hm 11 0) with 39600000000.
  change (time_of_hm 11 30) with 41400000000.
  change (time_of_hm 12 0) with 43200000000.
  change (time_of_hm 12 30) with 45000000000.
  change (time_of_hm 13 0) with 46800000000.
  change (time_of_hm 13 30) with 48600000000.
  change (timedelta_minutes 30) with 1800000000.
  cbn [List.find WaveState.start_time WaveState.end_time WaveState.index head last
       fmap option_fmap option_map].
  repeat (match goal with
          | |- context [?a <=? ?b] => destruct (Z.leb_spec a b)
          | |- context [?a <? ?b] => destruct (Z.ltb_spec a b)
          end;
          cbn [andb mbind option_bind WaveState.index WaveState.start_time
               WaveState.end_time head last fmap option_fmap option_map] in *;
          try lia).
  all: f_equal.
  all: pose proof (Z.mul_div_le (now - 39600000000) 1800000000 ltac:(lia)) as Hlo.
  all: pose proof (Z.mul_succ_div_gt (now - 39600000000) 1800000000 ltac:(lia)) as Hhi.
  all: set (q := (now - 39600000000) / 1800000000) in *.
  all: lia.
Qed.

Lemma elem_of_find {A} (f : A -> bool) (l : list A) (x : A) :
  List.find f l = Some x -> x ∈ l.
Proof.
  induction l as [|y l IH]; simpl; [done|].
  destruct (f y); [intros [= ->]; apply list_elem_of_here|intros Hx; by apply list_elem_of_further, IH].
Qed.

(** X17: the wave index of a time of day is the index of a wave of the
    template, from 0 to 4; for a site whose lunch window is empty the call
    raises (the [IndexError] of [waves[0]]); for the configured site it is
    the half hour since 11:00, 0 before and 4 after. *)
Theorem X17_current_wave_index (today now : Z) (site : SiteSchedule.t) :
  0 <= SiteSchedule.lunch_window_start site < MICROSECONDS_PER_DAY ->
  0 <= SiteSchedule.lunch_window_end site < MICROSECONDS_PER_DAY ->
  (forall idx,
      get_current_wave_index today now site = Some idx ->
      exists waves wave,
        get_wave_template today site = Some waves
        /\ wave ∈ waves /\ WaveState.index wave = idx /\ 0 <= idx < 5)
  /\ (SiteSchedule.lunch_window_end site <= SiteSchedule.lunch_window_start site ->
      get_current_wave_index today now site = None)
  /\ (1 <= today <= MAX_ORDINAL ->
      get_current_wave_index today now flavoria_schedule = Some (flavoria_wave_at now)
      /\ 0 <= flavoria_wave_at now <= 4).
Proof.
  intros Hstart Hend. split; [|split].
  - intros idx Hidx. unfold get_current_wave_index in Hidx.
    apply bind_Some in Hidx as (waves & Hwaves & Hidx).
    assert (Hin : exists wave, wave ∈ waves /\ WaveState.index wave = idx).
    { destruct (List.find _ waves) as [wave|] eqn:Hfind.
      - injection Hidx as <-. exists wave. split; [by eapply elem_of_find|done].
      - apply bind_Some in Hidx as (first & Hfirst & Hidx).
        destruct (now <? WaveState.start_time first).
        + injection Hidx as <-. exists first. split; [|done].
          destruct waves; [done|]. injection Hfirst as ->. apply list_elem_of_here.
        + apply fmap_Some in Hidx as (wave & Hlast & ->).
          exists wave. split; [|done].
          apply list_elem_of_lookup. exists (pred (length waves)).
          by rewrite <- last_lookup. }
    destruct Hin as (wave & Hin & Hwave).
    exists waves, wave. split; [done|]. split; [done|]. split; [done|].
    apply list_elem_of_lookup in Hin as (i & Hi).
    unfold get_wave_template in Hwaves.
    destruct (wave_loop_shape _ _ _ _ _ _ Hwaves) as (Hlen & Hshape & _).
    destruct (Hshape i wave Hi) as (Ei & _).
    apply lookup_lt_Some in Hi. simpl in Hlen. lia.
  - intros Hempty. unfold get_current_wave_index, get_wave_template.
    rewrite wave_loop_stop by (done || lia). done.
  - intros Hday. split; [by apply get_current_wave_index_flavoria|].
    unfold flavoria_wave_at. lia.
Qed.

(** X18: for the configured site a recomputation prepares wave 0 exactly
    before 11:00, afterwards the wave after the current one, the last wave
    (4) from 13:00 on; and lunch is finished from 13:30 on. *)
Theorem X18_target_wave_of_the_configured_site (today now : Z)
    (session_waves : list WaveState.t) :
  1 <= today <= MAX_ORDINAL ->
  session_waves = [] \/ session_waves = flavoria_waves ->
  schedule_target today now flavoria_schedule session_waves
  = Some (flavoria_target_at now, time_of_hm 13 30 <=? now)
  /\ 0 <= flavoria_target_at now <= 4
  /\ (flavoria_target_at now = 0 <-> now < time_of_hm 11 0)
  /\ (time_of_hm 13 0 <= now -> flavoria_target_at now = 4).
Proof.
  intros Hday Hwaves. split.
  - unfold schedule_target.
    assert (Hw : (if is_nil session_waves then get_wave_template today flavoria_schedule
                  else Some session_waves) = Some flavoria_waves).
    { destruct Hwaves as [->| ->]; [by apply get_wave_template_flavoria|done]. }
    rewrite Hw, get_current_wave_index_flavoria by done.
    cbn [mbind option_bind flavoria_waves last WaveState.start_time WaveState.index].
    unfold flavoria_target_at. by destruct (now <? time_of_hm 11 0).
  - unfold flavoria_target_at, flavoria_wave_at.
    change (time_of_hm 11 0) with 39600000000.
    change (time_of_hm 13 0) with 46800000000.
    change (timedelta_minutes 30) with 1800000000.
    destruct (Z.ltb_spec now 39600000000).
    + repeat split; try lia.
    + pose proof (Z.mul_div_le (now - 39600000000) 1800000000 ltac:(lia)) as Hlo.
      pose proof (Z.mul_succ_div_gt (now - 39600000000) 1800000000 ltac:(lia)) as Hhi.
      set (q := (now - 39600000000) / 1800000000) in *.
      repeat split; try lia.
Qed.

(** ** The generated plan *)

Lemma with_date_date day m : MenuDay.date (with_date day m) = day.
Proof. done. Qed.

Lemma menu_entry_with_date day day' offset tpl total idx cfg :
  menu_entry day' offset tpl total idx cfg
  = with_date day' <$> menu_entry day offset tpl total idx cfg.
Proof.
  unfold menu_entry.
  repeat match goal with
  | |- context [@mbind option _ _ _ _ ?o] =>
      lazymatch o with
      | context [@mbind option] => fail
      | _ => destruct o; simpl; [|done]
      end
  end.
  done.
Qed.

Lemma menu_entries_with_date day day' offset tpl total idx slots :
  menu_entries day' offset tpl total idx slots
  = fmap (M := list) (with_date day') <$> menu_entries day offset tpl total idx slots.
Proof.
  revert idx. induction slots as [|cfg slots IH]; intros idx; simpl; [done|].
  rewrite (menu_entry_with_date day day').
  destruct (menu_entry day offset tpl total idx cfg) as [entry|]; simpl; [|done].
  rewrite IH.
  by destruct (menu_entries day offset tpl total (idx + 1) slots).
Qed.

Lemma main_dishes_with_date day rows :
  map MenuDay.main_dish_planned (with_date day <$> rows)
  = map MenuDay.main_dish_planned rows.
Proof.
  induction rows as [|m rows IH]; [done|].
  rewrite fmap_cons. cbn [map]. by rewrite IH.
Qed.

Lemma set_primary_additional_with_date day all_entries before after :
  set_primary_additional (with_date day <$> all_entries) (with_date day <$> before)
    (with_date day <$> after)
  = with_date day <$> set_primary_additional all_entries before after.
Proof.
  revert before. induction after as [|entry after IH]; intros before; [done|].
  rewrite fmap_cons. cbn [set_primary_additional].
  change (MenuDay.service_slot (with_date day entry)) with (MenuDay.service_slot entry).
  destruct (String.eqb (MenuDay.service_slot entry) PRIMARY_SERVICE_SLOT).
  - rewrite (fmap_app (with_date day) before (_ :: after)), fmap_cons. f_equal. f_equal.
    rewrite <- fmap_app, main_dishes_with_date. done.
  - rewrite <- (IH (before ++ [entry])). by rewrite fmap_app.
Qed.

Lemma menu_day_entries_with_date start offset day :
  date_add_days start offset = Some day ->
  is_Some (date_add_days 1 offset) ->
  menu_day_entries start offset
  = fmap (M := list) (with_date day) <$> menu_day_entries 1 offset.
Proof.
  intros Hday [day1 Hday1]. unfold menu_day_entries. rewrite Hday, Hday1.
  cbn [mbind option_bind].
  destruct (MOCK_MENU_TEMPLATES !! _) as [tpl|]; [|done].
  cbn [mbind option_bind].
  rewrite (menu_entries_with_date day1 day).
  destruct (menu_entries day1 _ _ _ _ _) as [entries|]; [|done].
  cbn [mbind option_bind fmap option_fmap option_map].
  f_equal. apply (set_primary_additional_with_date day entries [] entries).
Qed.

Lemma rows_of_slots_with_date day cfgs rows :
  rows_of_slots cfgs (with_date day <$> rows) = rows_of_slots cfgs rows.
Proof.
  revert rows. induction cfgs as [|cfg cfgs IH]; intros [|m rows]; simpl; try done.
  by rewrite IH.
Qed.

Lemma day_shape_with_date day rows :
  day_shape (with_date day <$> rows) = day_shape rows.
Proof.
  unfold day_shape. rewrite rows_of_slots_with_date.
  destruct rows as [|first others]; simpl; [done|].
  f_equal. f_equal.
  - rewrite <- !list_fmap_compose. done.
  - induction others as [|m others IH]; simpl; [done|]. by rewrite IH.
Qed.

Lemma day_table : all_from 366 0 day_check = true.
Proof. vm_compute. reflexivity. Qed.

Lemma menu_day_entries_shape start offset :
  1 <= start -> 0 <= offset < 366 -> start + offset <= MAX_ORDINAL ->
  exists rows, menu_day_entries start offset = Some rows
    /\ day_shape rows = true
    /\ Forall (fun m => MenuDay.date m = start + offset) rows.
Proof.
  intros Hstart Hoffset Hmax.
  assert (Hday : date_add_days start offset = Some (start + offset)).
  { unfold date_add_days. cbv zeta.
    replace (1 <=? start + offset) with true by (symmetry; apply Z.leb_le; lia).
    by replace (start + offset <=? MAX_ORDINAL) with true by (symmetry; apply Z.leb_le; lia). }
  assert (Hday1 : is_Some (date_add_days 1 offset)).
  { unfold date_add_days. cbv zeta.
    replace (1 <=? 1 + offset) with true by (symmetry; apply Z.leb_le; lia).
    replace (1 + offset <=? MAX_ORDINAL) with true
      by (symmetry; apply Z.leb_le; unfold MAX_ORDINAL; lia).
    by eexists. }
  rewrite (menu_day_entries_with_date _ _ _ Hday Hday1).
  pose proof (all_from_spec _ _ _ offset day_table) as Hcheck.
  unfold day_check in Hcheck.
  destruct (menu_day_entries 1 offset) as [rows|]; [|discriminate Hcheck; lia].
  exists (with_date (start + offset) <$> rows). split; [done|]. split.
  - rewrite day_shape_with_date. apply Hcheck. lia.
  - apply Forall_fmap. by apply Forall_true.
Qed.

Lemma menu_plan_from_shape start n offset :
  1 <= start -> 0 <= offset -> offset + Z.of_nat n <= 366 ->
  start + offset + Z.of_nat n - 1 <= MAX_ORDINAL ->
  exists days_rows : list (list MenuDay.t),
    menu_plan_from start n offset = Some (concat days_rows)
    /\ length days_rows = n
    /\ forall (i : nat) day_rows, days_rows !! i = Some day_rows ->
         day_shape day_rows = true
         /\ Forall (fun m => MenuDay.date m = start + offset + Z.of_nat i) day_rows.
Proof.
  intros Hstart. revert offset. induction n as [|n IH]; intros offset Hoffset Hn Hmax.
  - exists []. by repeat split.
  - destruct (menu_day_entries_shape start offset) as (rows & Hrows & Hshape & Hdates);
      [lia..|].
    destruct (IH (offset + 1)) as (rest & Hrest & Hlen & Hall); [lia..|].
    exists (rows :: rest). simpl. rewrite Hrows. simpl. rewrite Hrest. simpl.
    split; [done|]. split; [by rewrite Hlen|].
    intros [|i] day_rows Hi; simpl in Hi.
    + injection Hi as <-. split; [done|].
      eapply Forall_impl; [exact Hdates|]. simpl. intros m Hm. lia.
    + destruct (Hall i day_rows Hi) as [Hs Hd]. split; [done|].
      eapply Forall_impl; [exact Hd|]. simpl. intros m Hm. lia.
Qed.

Lemma generate_menu_plan_shape (site_id : string) (start_date days : Z) :
  1 <= start_date -> 0 <= days <= 366 -> start_date + days - 1 <= MAX_ORDINAL ->
  exists days_rows : list (list MenuDay.t),
    generate_menu_plan site_id start_date days = Some (concat days_rows)
    /\ Z.of_nat (length days_rows) = days
    /\ forall (i : nat) day_rows, days_rows !! i = Some day_rows ->
         day_shape day_rows = true
         /\ Forall (fun m => MenuDay.date m = start_date + Z.of_nat i) day_rows.
Proof.
  intros Hstart Hdays Hmax. unfold generate_menu_plan.
  destruct (menu_plan_from_shape start_date (Z.to_nat days) 0) as (rows & Hrows & Hlen & Hall);
    [lia..|].
  exists rows. split; [done|]. split; [lia|].
  intros i day_rows Hi. destruct (Hall i day_rows Hi) as [Hs Hd]. split; [done|].
  eapply Forall_impl; [exact Hd|]. simpl. intros m Hm. lia.
Qed.

(** X19: [generate_menu_plan] for up to a year of days that end by the last
    day of the calendar (9999-12-31) returns, for every day from the start
    date on and in order, the rows of that day: one row per entry of
    [SERVICE_SLOT_CONFIGS], in the order of the entries, each with the slot
    and the label of its entry, covers not below the slot's minimum and an
    uptake between 0.25 and 0.88; only the first row, of the primary slot,
    lists other dishes, the main dishes of the six rows after it. *)
Theorem X19_generated_plan_shape (site_id : string) (start_date days : Z) :
  1 <= start_date -> 0 <= days <= 366 -> start_date + days - 1 <= MAX_ORDINAL ->
  exists days_rows : list (list MenuDay.t),
    generate_menu_plan site_id start_date days = Some (concat days_rows)
    /\ Z.of_nat (length days_rows) = days
    /\ forall (i : nat) day_rows, days_rows !! i = Some day_rows ->
         day_shape day_rows = true
         /\ Forall (fun m => MenuDay.date m = start_date + Z.of_nat i) day_rows.
Proof.
  intros Hstart Hdays Hmax. unfold generate_menu_plan.
  destruct (menu_plan_from_shape start_date (Z.to_nat days) 0) as (rows & Hrows & Hlen & Hall);
    [lia..|].
  exists rows. split; [exact Hrows|]. split; [lia|].
  intros i day_rows Hi. destruct (Hall i day_rows Hi) as [Hshape Hdates].
  split; [exact Hshape|].
  eapply Forall_impl; [exact Hdates|]. cbn beta. intros m Hm. lia.
Qed.

(** ** Rows and the menu file *)

Lemma dict_get_elem_of {A} (k : string) (d : list (string * A)) v :
  dict_get k d = Some v -> (k, v) ∈ d.
Proof.
  induction d as [|[k' v'] d IH]; simpl; [done|].
  destruct (String.eqb k k') eqn:Hk.
  - intros [= ->]. apply String.eqb_eq in Hk as ->. apply list_elem_of_here.
  - intros Hd. apply list_elem_of_further. by apply IH.
Qed.

Lemma DISHES_ids : Forall (fun kv : string * Dish.t =>
  Dish.dish_id kv.2 = kv.1 /\ kv.1 <> "" /\ dict_get kv.1 DISHES = Some kv.2) DISHES.
Proof. repeat constructor; done. Qed.

Lemma dict_get_DISHES dish_id dish :
  dict_get dish_id DISHES = Some dish ->
  Dish.dish_id dish = dish_id /\ dish_id <> "" /\ (dish_id, dish) ∈ DISHES.
Proof.
  intros Hget. pose proof (dict_get_elem_of _ _ _ Hget) as Hin.
  pose proof (proj1 (Forall_forall _ _) DISHES_ids _ Hin) as (? & ? & ?). done.
Qed.

Lemma salmon_in_table : dish_in_table salmon.
Proof. done. Qed.

Lemma lentil_in_table : dish_in_table lentil.
Proof. done. Qed.

Lemma dish_or_in_table fallback dish_id :
  dish_in_table fallback -> dish_in_table (dish_or fallback dish_id).
Proof.
  intros Hf. unfold dish_or. destruct (dict_get dish_id DISHES) as [dish|] eqn:Hget; [|done].
  simpl. destruct (dict_get_DISHES _ _ Hget) as (Hid & _ & _).
  unfold dish_in_table. by rewrite Hid.
Qed.

Lemma SERVICE_SLOT_CONFIGS_facts : Forall (fun cfg =>
  SlotConfig.slot_label cfg <> "" /\ SlotConfig.station cfg <> ""
  /\ slot_config (SlotConfig.service_slot cfg) = Some cfg) SERVICE_SLOT_CONFIGS.
Proof. repeat constructor; done. Qed.

Lemma slot_config_elem_of service_slot cfg :
  slot_config service_slot = Some cfg ->
  cfg ∈ SERVICE_SLOT_CONFIGS /\ SlotConfig.service_slot cfg = service_slot.
Proof.
  unfold slot_config. intros Hfind. apply find_some in Hfind as [Hin Heq].
  split; [by apply list_elem_of_In|]. by apply String.eqb_eq.
Qed.

Lemma stable_row_status status m : stable_row m -> stable_row (MenuDay.set_swap_status status m).
Proof. done. Qed.

Ltac option_steps H :=
  repeat match type of H with
  | context [@mbind option _ _ _ _ ?o] =>
      lazymatch o with
      | context [@mbind option] => fail
      | _ => let x := fresh "x" in let Hx := fresh "Hx" in
             destruct o as [x|] eqn:Hx; cbn [mbind option_bind] in H; [|discriminate H]
      end
  end.

Lemma menu_entry_stable day offset tpl total idx cfg m :
  cfg ∈ SERVICE_SLOT_CONFIGS ->
  menu_entry day offset tpl total idx cfg = Some m ->
  stable_row m /\ MenuDay.additional_dishes m = [].
Proof.
  intros Hcfg Hm.
  pose proof (proj1 (Forall_forall _ _) SERVICE_SLOT_CONFIGS_facts _ Hcfg)
    as (Hlabel & Hstation & Hfind).
  unfold menu_entry in Hm. option_steps Hm. injection Hm as <-.
  split; [|done]. unfold stable_row; cbn.
  split; [apply dish_or_in_table, salmon_in_table|].
  split; [apply dish_or_in_table, lentil_in_table|].
  split; [constructor|]. split; [done|].
  left. destruct (String.eqb (SlotConfig.station cfg) "") eqn:Heq.
  - by apply String.eqb_eq in Heq.
  - cbn. by rewrite Heq.
Qed.

Lemma menu_entries_stable day offset tpl total idx slots rows :
  Forall (fun cfg => cfg ∈ SERVICE_SLOT_CONFIGS) slots ->
  menu_entries day offset tpl total idx slots = Some rows ->
  Forall (fun m => stable_row m /\ MenuDay.additional_dishes m = []) rows.
Proof.
  revert idx rows. induction slots as [|cfg slots IH]; intros idx rows Hslots Hrows.
  - injection Hrows as <-. constructor.
  - apply Forall_cons in Hslots as [Hcfg Hslots]. cbn [menu_entries] in Hrows.
    option_steps Hrows. injection Hrows as <-. constructor.
    + by eapply menu_entry_stable.
    + by eapply IH.
Qed.

Lemma set_primary_additional_stable all_entries before after :
  Forall stable_row all_entries -> Forall stable_row before -> Forall stable_row after ->
  Forall stable_row (set_primary_additional all_entries before after).
Proof.
  intros Hall. revert before. induction after as [|entry after IH]; intros before Hb Ha; [done|].
  apply Forall_cons in Ha as [He Ha]. cbn [set_primary_additional].
  destruct (String.eqb _ _).
  - apply Forall_app. split; [done|]. constructor; [|done].
    destruct He as (H1 & H2 & H3 & H4 & H5). repeat split; try done. cbn.
    apply Forall_fmap. apply Forall_app. split.
    + eapply Forall_impl; [exact Hb|]. by intros m (? & _).
    + eapply Forall_impl; [exact Ha|]. by intros m (? & _).
  - apply IH; [|done]. apply Forall_app. split; [done|]. by constructor.
Qed.

Lemma menu_day_entries_stable start offset rows :
  menu_day_entries start offset = Some rows -> Forall stable_row rows.
Proof.
  unfold menu_day_entries. intros Hrows. option_steps Hrows. injection Hrows as <-.
  assert (Hs : Forall stable_row x1).
  { eapply Forall_impl; [eapply menu_entries_stable; [|exact Hx1]|].
    - apply Forall_forall. done.
    - by intros m [? _]. }
  apply set_primary_additional_stable; [done|constructor|done].
Qed.

Lemma menu_plan_from_stable start n offset rows :
  menu_plan_from start n offset = Some rows -> Forall stable_row rows.
Proof.
  revert offset rows. induction n as [|n IH]; intros offset rows Hrows.
  - injection Hrows as <-. constructor.
  - cbn [menu_plan_from] in Hrows. option_steps Hrows. injection Hrows as <-.
    apply Forall_app. split; [by eapply menu_day_entries_stable|by eapply IH].
Qed.

Lemma generate_menu_plan_stable site_id start days rows :
  generate_menu_plan site_id start days = Some rows -> Forall stable_row rows.
Proof. apply menu_plan_from_stable. Qed.

Ltac mm_simpl :=
  unfold mbind, MM_bind, mret, MM_ret, mm_get, mm_lift, set_menu_days, set_refreshed_at,
    set_loaded;
  cbn [MENU_DAYS MENU_DAYS_REFRESHED_AT MENU_DATA_LOADED MENU_DATA_FILE].

Ltac mm_simpl_in H :=
  unfold mbind, MM_bind, mret, MM_ret, mm_get, mm_lift, set_menu_days, set_refreshed_at,
    set_loaded in H;
  cbn [MENU_DAYS MENU_DAYS_REFRESHED_AT MENU_DATA_LOADED MENU_DATA_FILE] in H.

#[local] Arguments slot_config : simpl never.

Section RowsAndFile.
Context `{B : Builtins} `{MB : MenuBuiltins}.

Lemma json_str_truthy v :
  repr_not_empty -> json_truthy v = true -> json_str v <> "".
Proof.
  intros Hrepr Hv. destruct v; try apply Hrepr.
  simpl in *. intros ->. done.
Qed.

Lemma menu_day_from_dict_stable payload m :
  repr_not_empty -> menu_day_from_dict payload = Some m -> stable_row m.
Proof.
  intros Hrepr Hm. destruct payload; try discriminate Hm.
  unfold menu_day_from_dict in Hm. cbv zeta in Hm. option_steps Hm. injection Hm as <-.
  unfold stable_row; cbn.
  split; [apply dish_or_in_table, salmon_in_table|].
  split; [apply dish_or_in_table, lentil_in_table|].
  split.
  { apply Forall_fmap, Forall_forall. intros did _. apply dish_or_in_table, lentil_in_table. }
  split.
  - destruct (json_truthy (default JsNull (dict_get "slot_label" items))) eqn:Hv.
    + by apply json_str_truthy.
    + match goal with |- context [slot_config ?slot] =>
        destruct (slot_config slot) as [cfg|] eqn:Hcfg end; [|done].
      cbn [json_str].
      apply slot_config_elem_of in Hcfg as [Hin _].
      by pose proof (proj1 (Forall_forall _ _) SERVICE_SLOT_CONFIGS_facts _ Hin) as (? & _).
  - destruct (json_truthy (default JsNull (dict_get "station" items))) eqn:Hv; [by left|].
    right. done.
Qed.

Lemma made_row_stable m : repr_not_empty -> made_row m -> stable_row m.
Proof.
  intros Hrepr. induction 1 as [site start days rows m Hrows Hin|payload m Hm|status m _ IH].
  - by eapply (proj1 (Forall_forall _ _)); [eapply generate_menu_plan_stable|].
  - by eapply menu_day_from_dict_stable.
  - by apply stable_row_status.
Qed.

Lemma lower_dish_id dish :
  lower_keeps_dish_ids -> dish_in_table dish ->
  str_lower (Dish.dish_id dish) = Dish.dish_id dish /\ Dish.dish_id dish <> "".
Proof.
  intros Hlower Hdish. destruct (dict_get_DISHES _ _ Hdish) as (_ & Hne & Hin).
  split; [|done]. exact (proj1 (Forall_forall _ _) Hlower _ Hin).
Qed.

Lemma lower_or_dish_id fallback dish :
  lower_keeps_dish_ids -> dish_in_table dish ->
  lower_or fallback (JsStr (Dish.dish_id dish)) = Dish.dish_id dish.
Proof.
  intros Hlower Hdish. destruct (lower_dish_id _ Hlower Hdish) as [Heq Hne].
  unfold lower_or. cbn. rewrite Heq.
  destruct (String.eqb _ "") eqn:He; [|done]. by apply String.eqb_eq in He.
Qed.

Lemma dish_or_dish_id fallback dish :
  dish_in_table dish -> dish_or fallback (Dish.dish_id dish) = dish.
Proof. intros Hdish. unfold dish_or. by rewrite Hdish. Qed.

Lemma stable_row_round_trip m :
  lower_keeps_dish_ids -> stable_row m -> date_round_trips (MenuDay.date m) ->
  menu_day_from_dict (menu_day_to_dict m) = Some m.
Proof.
  intros Hlower (Hmain & Hrec & Hadd & Hlabel & Hstation) Hdate.
  destruct m as [day weather covers main rec slot label station uptake kg eur status adds].
  cbn in Hmain, Hrec, Hadd, Hlabel, Hstation, Hdate.
  unfold menu_day_from_dict, menu_day_to_dict.
  cbn [dict_get String.eqb Ascii.eqb Bool.eqb default MenuDay.date MenuDay.weather
       MenuDay.predicted_covers MenuDay.main_dish_planned MenuDay.recommended_dish
       MenuDay.service_slot MenuDay.slot_label MenuDay.station MenuDay.uptake_if_kept
       MenuDay.suggested_swap_savings_kg MenuDay.suggested_swap_savings_eur
       MenuDay.swap_status MenuDay.additional_dishes from_option id].
  rewrite (proj2 Hdate). cbn [mbind option_bind json_iter json_int json_float json_str].
  rewrite !lower_or_dish_id by done. rewrite !dish_or_dish_id by done.
  f_equal. f_equal.
  - cbn. destruct (String.eqb label "") eqn:He; [by apply String.eqb_eq in He|done].
  - destruct Hstation as [Ht| ->].
    + by rewrite Ht.
    + unfold fallback_station. by destruct (json_truthy _).
  - rewrite <- list_fmap_compose. induction Hadd as [|dish adds Hdish _ IH]; [done|].
    rewrite fmap_cons. f_equal; [|exact IH].
    cbn. destruct (lower_dish_id _ Hlower Hdish) as [-> _]. by apply dish_or_dish_id.
Qed.

(** X20: a row the code made, by [generate_menu_plan], by
    [menu_day_from_dict] or by a change of status, is read back by
    [menu_day_from_dict] from what [menu_day_to_dict] writes exactly as it
    was, when [lower()] leaves the dish ids unchanged, [str()] of a value is
    never empty and [fromisoformat] reads the row's date back. *)
Theorem X20_made_rows_survive_the_file (m : MenuDay.t) :
  lower_keeps_dish_ids -> repr_not_empty ->
  made_row m -> date_round_trips (MenuDay.date m) ->
  menu_day_from_dict (menu_day_to_dict m) = Some m.
Proof.
  intros Hlower Hrepr Hm Hdate.
  apply stable_row_round_trip; [done| |done]. by apply made_row_stable.
Qed.

Lemma dict_get_fmap {A C} (g : A -> C) (k : string) (d : list (string * A)) :
  dict_get k ((fun kv => (kv.1, g kv.2)) <$> d) = g <$> dict_get k d.
Proof.
  induction d as [|[k' v] d IH]; [done|].
  rewrite fmap_cons. cbn [dict_get fst snd]. by destruct (String.eqb k k').
Qed.

Lemma menu_data_version s : json_get "version" JsNull (menu_data s) = Some (JsInt 3).
Proof. done. Qed.

Lemma menu_data_sites s :
  json_get "sites" (JsObj []) (menu_data s)
  = Some (JsObj ((fun kv => (kv.1, JsList (menu_day_to_dict <$> kv.2))) <$> MENU_DAYS s)).
Proof. done. Qed.

Lemma menu_data_refreshed_at s :
  json_get "refreshed_at" (JsObj []) (menu_data s)
  = Some (JsObj [(DEFAULT_SITE_ID,
                  match refreshed_at DEFAULT_SITE_ID s with
                  | Some day => JsStr (date_isoformat day)
                  | None => JsNull
                  end)]).
Proof. done. Qed.

Lemma rows_round_trip rows :
  lower_keeps_dish_ids -> repr_not_empty ->
  Forall made_row rows ->
  Forall (fun m => date_round_trips (MenuDay.date m)) rows ->
  mapM menu_day_from_dict (menu_day_to_dict <$> rows) = Some rows.
Proof.
  intros Hlower Hrepr Hmade Hdates. apply mapM_fmap_Forall_Some.
  apply Forall_forall. intros m Hm.
  apply stable_row_round_trip; [done| |].
  - apply made_row_stable; [done|]. exact (proj1 (Forall_forall _ _) Hmade _ Hm).
  - exact (proj1 (Forall_forall _ _) Hdates _ Hm).
Qed.

(** X21: what [persist_menu_days] writes, a new process loads: after a
    restart [load_menu_data] returns with the rows of the configured site
    and its refresh date as they were, generates nothing and leaves the file
    as it is. It restores the configured site only: the rows of any other
    site id are written to the file and not read back. *)
Theorem X21_restart_restores_the_configured_site (s s1 : MenuStore) (today : Z) :
  lower_keeps_dish_ids -> repr_not_empty ->
  menu_rows DEFAULT_SITE_ID s <> [] ->
  Forall made_row (menu_rows DEFAULT_SITE_ID s) ->
  Forall (fun m => date_round_trips (MenuDay.date m)) (menu_rows DEFAULT_SITE_ID s) ->
  (forall day, refreshed_at DEFAULT_SITE_ID s = Some day -> date_round_trips day) ->
  persist_menu_days s = (s1, Some tt) ->
  load_menu_data today (restart s1)
  = ({| MENU_DAYS := [(DEFAULT_SITE_ID, menu_rows DEFAULT_SITE_ID s)];
        MENU_DAYS_REFRESHED_AT := [(DEFAULT_SITE_ID, refreshed_at DEFAULT_SITE_ID s)];
        MENU_DATA_LOADED := true;
        MENU_DATA_FILE := MENU_DATA_FILE s1 |}, Some tt).
Proof.
  intros Hlower Hrepr Hne Hmade Hdates Hrefreshed Hpersist.
  pose proof (rows_round_trip _ Hlower Hrepr Hmade Hdates) as Hrows.
  injection Hpersist as <-.
  unfold load_menu_data, restart, persist_menu_days, write_menu_file.
  mm_simpl. rewrite menu_data_version, menu_data_sites, menu_data_refreshed_at.
  cbn [json_eq_int MENU_DATA_VERSION Z.eqb Pos.eqb SITE_IDS load_sites].
  mm_simpl. unfold json_get.
  rewrite (dict_get_fmap (fun rows => JsList (menu_day_to_dict <$> rows))).
  unfold menu_rows in Hne, Hrows |- *.
  destruct (dict_get DEFAULT_SITE_ID (MENU_DAYS s)) as [rows|] eqn:Hget; [|done].
  cbn [fmap option_fmap option_map default from_option id json_truthy] in *.
  destruct rows as [|m rows]; [done|].
  cbn [is_nil negb json_iter]. rewrite Hrows.
  cbn [dict_get fst snd fmap list_fmap dict_set]. rewrite String.eqb_refl.
  cbn [default from_option id].
  destruct (refreshed_at DEFAULT_SITE_ID s) as [day|] eqn:Href.
  - destruct (Hrefreshed day eq_refl) as [Hiso Hfrom].
    cbn [json_truthy]. destruct (String.eqb (date_isoformat day) "") eqn:He;
      [by apply String.eqb_eq in He|].
    cbn [negb dict_set]. by rewrite Hfrom.
  - done.
Qed.

End RowsAndFile.

(** ** Dicts, sorting and dates *)

Lemma dict_get_set_eq {A} (k : string) (v : A) d : dict_get k (dict_set k v d) = Some v.
Proof.
  induction d as [|[k' v'] d IH]; cbn [dict_set dict_get].
  - by rewrite String.eqb_refl.
  - destruct (String.eqb k k') eqn:Hk; cbn [dict_get]; [by rewrite String.eqb_refl|].
    by rewrite Hk.
Qed.

Lemma dict_get_set_ne {A} (k k' : string) (v : A) d :
  k <> k' -> dict_get k' (dict_set k v d) = dict_get k' d.
Proof.
  intros Hne. induction d as [|[k0 v0] d IH]; cbn [dict_set dict_get].
  - destruct (String.eqb k' k) eqn:Hk; [|done]. apply String.eqb_eq in Hk. congruence.
  - destruct (String.eqb k k0) eqn:Hk; cbn [dict_get].
    + apply String.eqb_eq in Hk as <-.
      destruct (String.eqb k' k) eqn:Hk'; [|done]. apply String.eqb_eq in Hk'. congruence.
    + by rewrite IH.
Qed.

Lemma elem_of_concat {A} (x : A) (ls : list (list A)) :
  x ∈ concat ls <-> exists l, x ∈ l /\ l ∈ ls.
Proof.
  induction ls as [|l ls IH]; cbn [concat].
  - split; [by intros ?%elem_of_nil|]. by intros (? & _ & ?%elem_of_nil).
  - rewrite elem_of_app, IH. split.
    + intros [Hx|(l' & Hx & Hl')]; [exists l|exists l']; (split; [done|]).
      * apply list_elem_of_here.
      * by apply list_elem_of_further.
    + intros (l' & Hx & [->|Hl']%elem_of_cons); [by left|right; by exists l'].
Qed.

Lemma insert_by_perm {A} (le : A -> A -> bool) x l : insert_by le x l ≡ₚ x :: l.
Proof.
  induction l as [|y l IH]; cbn [insert_by]; [done|].
  destruct (le x y); [done|]. rewrite IH. apply Permutation_swap.
Qed.

Lemma sort_by_perm {A} (le : A -> A -> bool) l : sort_by le l ≡ₚ l.
Proof.
  induction l as [|x l IH]; [done|].
  unfold sort_by in *. cbn [foldr]. by rewrite insert_by_perm, IH.
Qed.

Lemma insert_by_in_order {A} (le : A -> A -> bool) x l :
  (forall a b, le a b = false -> le b a = true) ->
  in_order le l = true -> in_order le (insert_by le x l) = true.
Proof.
  intros Htotal. induction l as [|y l IH]; [done|]. intros Hl.
  cbn [insert_by]. destruct (le x y) eqn:Hxy.
  - cbn [in_order]. by rewrite Hxy.
  - destruct l as [|z l].
    + cbn [insert_by in_order]. by rewrite (Htotal _ _ Hxy).
    + cbn [in_order] in Hl. apply andb_true_iff in Hl as [Hyz Hl].
      specialize (IH Hl). cbn [insert_by] in IH |- *.
      destruct (le x z) eqn:Hxz.
      * cbn [in_order] in IH |- *. by rewrite (Htotal _ _ Hxy), Hxz.
      * cbn [in_order] in IH |- *. by rewrite Hyz.
Qed.

Lemma sort_by_in_order {A} (le : A -> A -> bool) l :
  (forall a b, le a b = false -> le b a = true) ->
  in_order le (sort_by le l) = true.
Proof.
  intros Htotal. induction l as [|x l IH]; [done|].
  unfold sort_by in *. cbn [foldr]. by apply insert_by_in_order.
Qed.

Lemma row_key_le_total a b : row_key_le a b = false -> row_key_le b a = true.
Proof.
  unfold row_key_le. intros Hab.
  apply orb_false_iff in Hab as [Hlt Heq]. apply Z.ltb_ge in Hlt.
  destruct (MenuDay.date b <? MenuDay.date a) eqn:Hlt'; [done|]. apply Z.ltb_ge in Hlt'.
  replace (MenuDay.date b =? MenuDay.date a) with true by (symmetry; apply Z.eqb_eq; lia).
  replace (MenuDay.date a =? MenuDay.date b) with true in Heq by (symmetry; apply Z.eqb_eq; lia).
  cbn in *. destruct (String.leb_total (MenuDay.service_slot a) (MenuDay.service_slot b)); congruence.
Qed.

Lemma insert_date_elem_of x d l : x ∈ insert_date d l <-> x = d \/ x ∈ l.
Proof.
  induction l as [|y l IH]; cbn [insert_date].
  - rewrite list_elem_of_singleton, elem_of_nil. tauto.
  - destruct (d <? y) eqn:Hlt; [by rewrite elem_of_cons|].
    destruct (d =? y) eqn:Heq.
    + apply Z.eqb_eq in Heq as ->. rewrite elem_of_cons. tauto.
    + rewrite !elem_of_cons, IH. tauto.
Qed.

Lemma insert_date_ascending d l : ascending l -> ascending (insert_date d l).
Proof.
  induction l as [|y l IH]; cbn [insert_date ascending]; [by intros _; split|].
  intros [Hy Hl]. destruct (d <? y) eqn:Hlt.
  - apply Z.ltb_lt in Hlt. cbn [ascending]. split; [|done]. constructor; [done|].
    eapply Forall_impl; [exact Hy|]. simpl. intros; lia.
  - destruct (d =? y) eqn:Heq; [done|]. apply Z.ltb_ge in Hlt. apply Z.eqb_neq in Heq.
    cbn [ascending]. split; [|by apply IH].
    apply Forall_forall. intros x Hx. apply insert_date_elem_of in Hx as [->|Hx]; [lia|].
    exact (proj1 (Forall_forall _ _) Hy _ Hx).
Qed.

Lemma sorted_dates_elem_of x rows :
  x ∈ sorted_dates rows <-> exists m, m ∈ rows /\ MenuDay.date m = x.
Proof.
  unfold sorted_dates. induction rows as [|m rows IH].
  - cbn. split; [by intros ?%elem_of_nil|]. by intros (? & ?%elem_of_nil & _).
  - rewrite fmap_cons. cbn [foldr]. rewrite insert_date_elem_of, IH. split.
    + intros [->|(m' & Hm' & <-)]; [exists m|exists m']; (split; [|done]).
      * apply list_elem_of_here.
      * by apply list_elem_of_further.
    + intros (m' & [->|Hm']%elem_of_cons & <-); [by left|right; by exists m'].
Qed.

Lemma sorted_dates_ascending rows : ascending (sorted_dates rows).
Proof.
  unfold sorted_dates. induction rows as [|m rows IH]; [done|].
  rewrite fmap_cons. cbn [foldr]. by apply insert_date_ascending.
Qed.

Lemma ascending_NoDup l : ascending l -> NoDup l.
Proof.
  induction l as [|x l IH]; [constructor|]. intros [Hx Hl]. constructor; [|by apply IH].
  intros Hin. pose proof (proj1 (Forall_forall _ _) Hx _ Hin). lia.
Qed.

Lemma ascending_last l d : ascending l -> last l = Some d -> Forall (fun x => x <= d) l.
Proof.
  induction l as [|x l IH]; [done|]. intros [Hx Hl] Hlast.
  destruct l as [|y l].
  - injection Hlast as <-. by constructor.
  - assert (Hlast' : last (y :: l) = Some d) by done.
    specialize (IH Hl Hlast'). constructor; [|done].
    apply last_Some_elem_of in Hlast'.
    pose proof (proj1 (Forall_forall _ _) Hx _ Hlast'). lia.
Qed.

Lemma date_add_days_Some day offset r :
  date_add_days day offset = Some r -> r = day + offset /\ 1 <= r <= MAX_ORDINAL.
Proof.
  unfold date_add_days. cbv zeta.
  destruct (1 <=? day + offset) eqn:H1; [|done].
  destruct (day + offset <=? MAX_ORDINAL) eqn:H2; [|done].
  intros [= <-]. apply Z.leb_le in H1, H2. lia.
Qed.

Lemma menu_plan_from_range start n offset rows :
  menu_plan_from start (S n) offset = Some rows ->
  1 <= start + offset /\ start + offset + Z.of_nat n <= MAX_ORDINAL.
Proof.
  revert offset rows. induction n as [|n IH]; intros offset rows Hrows.
  - cbn [menu_plan_from] in Hrows. unfold menu_day_entries in Hrows.
    destruct (date_add_days start offset) as [day|] eqn:Hday; [|done].
    apply date_add_days_Some in Hday. lia.
  - change (menu_plan_from start (S (S n)) offset)
      with (day_entries ← menu_day_entries start offset;
            rest ← menu_plan_from start (S n) (offset + 1);
            Some (day_entries ++ rest)) in Hrows.
    destruct (menu_day_entries start offset) as [entries|] eqn:He; [|done].
    cbn [mbind option_bind] in Hrows.
    destruct (menu_plan_from start (S n) (offset + 1)) as [rest|] eqn:Hrest; [|done].
    apply IH in Hrest. unfold menu_day_entries in He.
    destruct (date_add_days start offset) as [day|] eqn:Hday; [|done].
    apply date_add_days_Some in Hday. lia.
Qed.

Lemma rows_of_slots_length cfgs rows :
  rows_of_slots cfgs rows = true -> length rows = length cfgs.
Proof.
  revert rows. induction cfgs as [|cfg cfgs IH]; intros [|m rows]; cbn; try done.
  intros [_ H]%andb_true_iff. by rewrite (IH _ H).
Qed.

Lemma day_shape_nonempty rows : day_shape rows = true -> rows <> [].
Proof. by destruct rows. Qed.

(** The dates of a generated plan of at most a year. *)
Lemma generate_menu_plan_dates site_id start days rows :
  0 < days <= 366 ->
  generate_menu_plan site_id start days = Some rows ->
  Forall (fun m => start <= MenuDay.date m < start + days) rows
  /\ forall day, start <= day < start + days -> exists m, m ∈ rows /\ MenuDay.date m = day.
Proof.
  intros Hdays Hrows.
  assert (Hrange : 1 <= start /\ start + days - 1 <= MAX_ORDINAL).
  { unfold generate_menu_plan in Hrows.
    destruct (Z.to_nat days) as [|n] eqn:Hn; [lia|].
    apply menu_plan_from_range in Hrows. lia. }
  destruct (generate_menu_plan_shape site_id start days) as (chunks & Hgen & Hlen & Hall);
    [lia..|].
  rewrite Hgen in Hrows. injection Hrows as <-. split.
  - apply Forall_forall. intros m Hm. apply elem_of_concat in Hm as (chunk & Hm & Hchunk).
    apply list_elem_of_lookup in Hchunk as [i Hi].
    destruct (Hall i chunk Hi) as [_ Hd].
    pose proof (proj1 (Forall_forall _ _) Hd _ Hm) as Hdate. cbn in Hdate.
    apply lookup_lt_Some in Hi. lia.
  - intros day Hday.
    destruct (lookup_lt_is_Some_2 chunks (Z.to_nat (day - start))) as [chunk Hi]; [lia|].
    destruct (Hall _ chunk Hi) as [Hshape Hd].
    destruct chunk as [|m chunk]; [done|].
    exists m. split.
    + apply elem_of_concat. exists (m :: chunk). split; [apply list_elem_of_here|].
      by eapply list_elem_of_lookup_2.
    + apply Forall_cons in Hd as [Hd _]. lia.
Qed.

(** ** Loading the menu file *)

Section LoadingTheFile.
Context `{B : Builtins} `{MB : MenuBuiltins}.

Lemma generate_week site_id today :
  1 <= today -> today + 6 <= MAX_ORDINAL ->
  exists rows, generate_menu_plan site_id today 7 = Some rows.
Proof.
  intros H1 H2. destruct (generate_menu_plan_shape site_id today 7) as (chunks & Hgen & _);
    [lia..|]. by eexists.
Qed.

(** X22: without a menu file, with a file that is no JSON, or with a JSON
    object of another version, [load_menu_data] replaces the rows of the
    configured site by a fresh week from today, takes today as its refresh
    date, marks the calendar loaded and writes the file, which then holds
    the new state. *)
Theorem X22_unusable_file_gives_a_fresh_week (s : MenuStore) (today : Z) :
  MENU_DATA_LOADED s = false -> file_unusable (MENU_DATA_FILE s) ->
  1 <= today -> today + 6 <= MAX_ORDINAL ->
  exists rows s',
    generate_menu_plan DEFAULT_SITE_ID today 7 = Some rows
    /\ load_menu_data today s = (s', Some tt)
    /\ MENU_DAYS s' = dict_set DEFAULT_SITE_ID rows (MENU_DAYS s)
    /\ MENU_DAYS_REFRESHED_AT s'
       = dict_set DEFAULT_SITE_ID (Some today) (MENU_DAYS_REFRESHED_AT s)
    /\ MENU_DATA_LOADED s' = true
    /\ MENU_DATA_FILE s' = FileJson (menu_data s').
Proof.
  intros Hl Hfile H1 H2. destruct (generate_week DEFAULT_SITE_ID today H1 H2) as [rows Hrows].
  exists rows. unfold load_menu_data. mm_simpl. rewrite Hl.
  destruct Hfile as [-> | [-> | (items & -> & Hversion)]].
  - cbn [SITE_IDS regenerate_sites]. unfold persist_menu_days, write_menu_file. mm_simpl.
    rewrite Hrows. eexists. by repeat split.
  - cbn [json_get dict_get default from_option id json_eq_int SITE_IDS regenerate_sites].
    unfold persist_menu_days, write_menu_file. mm_simpl.
    rewrite Hrows. eexists. by repeat split.
  - cbn [json_get]. rewrite Hversion.
    cbn [SITE_IDS regenerate_sites]. unfold persist_menu_days, write_menu_file. mm_simpl.
    rewrite Hrows. eexists. by repeat split.
Qed.

Lemma load_menu_data_broken today s :
  MENU_DATA_LOADED s = false -> file_broken (MENU_DATA_FILE s) ->
  load_menu_data today s = (s, None).
Proof.
  intros Hl Hfile. unfold load_menu_data. mm_simpl. rewrite Hl.
  destruct Hfile as [-> | (payload & -> & Hobj)]; [done|].
  destruct payload; try done. by destruct (Hobj items).
Qed.

Lemma ensure_menu_days_current_broken site_id today s :
  MENU_DATA_LOADED s = false -> file_broken (MENU_DATA_FILE s) ->
  ensure_menu_days_current site_id today s = (s, None).
Proof.
  intros Hl Hfile. unfold ensure_menu_days_current.
  unfold mbind at 1, MM_bind at 1. by rewrite load_menu_data_broken.
Qed.

(** X23: a menu file of bytes that are no text, or of a JSON value that is
    no object (a list, say), makes [load_menu_data] raise before it marks
    the calendar loaded and before it writes anything; so every function of
    the calendar raises and leaves the store as it was, on every call until
    the file is replaced. *)
Theorem X23_broken_file_fails_every_call (s : MenuStore) :
  MENU_DATA_LOADED s = false -> file_broken (MENU_DATA_FILE s) ->
  forall (site_id : string) (today : Z),
    ensure_menu_days_current site_id today s = (s, None)
    /\ (forall target_date service_slot,
          get_current_menu_day site_id today target_date service_slot s = (s, None))
    /\ (forall target_date, get_menu_days_for_date site_id today target_date s = (s, None))
    /\ (forall target_date status service_slot,
          update_menu_status site_id today target_date status service_slot s = (s, None))
    /\ (forall dish_name portion_grams service_date,
          resolve_display_dish dish_name portion_grams site_id today service_date s
          = (s, None))
    /\ build_menu_rows site_id today s = (s, None)
    /\ build_alerts site_id today s = (s, None).
Proof.
  intros Hl Hfile site_id today.
  pose proof (ensure_menu_days_current_broken site_id today s Hl Hfile) as He.
  assert (Hc : forall target_date service_slot,
             get_current_menu_day site_id today target_date service_slot s = (s, None)).
  { intros. unfold get_current_menu_day. unfold mbind at 1, MM_bind at 1. by rewrite He. }
  split; [done|]. split; [done|].
  split.
  { intros. unfold get_menu_days_for_date. unfold mbind at 1, MM_bind at 1. by rewrite He. }
  split.
  { intros. unfold update_menu_status. unfold mbind at 1, MM_bind at 1. by rewrite He. }
  split.
  { intros. unfold resolve_display_dish. unfold mbind at 1, MM_bind at 1. by rewrite Hc. }
  split.
  - unfold build_menu_rows. unfold mbind at 1, MM_bind at 1. by rewrite He.
  - unfold build_alerts. unfold mbind at 1, MM_bind at 1. by rewrite He.
Qed.

End LoadingTheFile.

(** ** Refreshing the calendar *)

Section KeepingCurrent.
Context `{B : Builtins} `{MB : MenuBuiltins}.

Lemma load_menu_data_loaded today s :
  MENU_DATA_LOADED s = true -> load_menu_data today s = (s, Some tt).
Proof. intros Hl. unfold load_menu_data. mm_simpl. by rewrite Hl. Qed.

Lemma ensure_menu_days_current_refreshed site_id today s :
  MENU_DATA_LOADED s = true -> refreshed_at site_id s = Some today ->
  ensure_menu_days_current site_id today s = (s, Some tt).
Proof.
  intros Hl Hr. unfold ensure_menu_days_current.
  unfold mbind at 1, MM_bind at 1. rewrite (load_menu_data_loaded _ _ Hl).
  mm_simpl. rewrite Hr. by rewrite bool_decide_eq_true_2.
Qed.

Lemma menu_rows_set site_id rows s s' :
  set_menu_days site_id rows s = (s', Some tt) -> menu_rows site_id s' = rows.
Proof.
  intros [= <-]. unfold menu_rows. cbn [MENU_DAYS]. by rewrite dict_get_set_eq.
Qed.

(** What a refresh does, step by step. *)
Lemma ensure_menu_days_current_refresh site_id today s s' :
  MENU_DATA_LOADED s = true -> refreshed_at site_id s <> Some today ->
  ensure_menu_days_current site_id today s = (s', Some tt) ->
  let kept := sort_by row_key_le (kept_rows site_id today s) in
  let needed := 7 - Z.of_nat (length (sorted_dates kept)) in
  exists more,
    (if 0 <? needed
     then exists start_date,
            match last (sorted_dates kept) with
            | None => Some today
            | Some day => date_add_days day 1
            end = Some start_date
            /\ generate_menu_plan site_id start_date needed = Some more
     else more = [])
    /\ MENU_DAYS s' = dict_set site_id (sort_by row_key_le (kept ++ more)) (MENU_DAYS s)
    /\ MENU_DAYS_REFRESHED_AT s'
       = dict_set site_id (Some today) (MENU_DAYS_REFRESHED_AT s)
    /\ MENU_DATA_LOADED s' = true
    /\ MENU_DATA_FILE s' = FileJson (menu_data s').
Proof.
  intros Hl Hr Hrun kept needed. unfold ensure_menu_days_current in Hrun.
  unfold mbind at 1, MM_bind at 1 in Hrun. rewrite (load_menu_data_loaded _ _ Hl) in Hrun.
  unfold mbind at 1, MM_bind at 1, mm_get at 1 in Hrun.
  rewrite bool_decide_eq_false_2 in Hrun by done.
  fold (kept_rows site_id today s) in Hrun. fold kept in Hrun. fold needed in Hrun.
  destruct (0 <? needed) eqn:Hneeded.
  - unfold mbind, MM_bind, mm_lift, mret, MM_ret in Hrun.
    destruct (match last (sorted_dates kept) with
              | None => Some today
              | Some day => date_add_days day 1
              end) as [start_date|] eqn:Hstart; [|done].
    destruct (generate_menu_plan site_id start_date needed) as [more|] eqn:Hmore; [|done].
    cbn in Hrun. injection Hrun as <-. exists more. cbn.
    split; [by exists start_date|]. done.
  - unfold mbind, MM_bind, mm_lift, mret, MM_ret in Hrun.
    cbn in Hrun. injection Hrun as <-. exists []. cbn. rewrite app_nil_r. done.
Qed.

(** X24: the first [ensure_menu_days_current] of a day that returns, on a
    loaded calendar: the site's refresh date is today, its rows are in the
    order of date and slot, none is before today, they cover at least seven
    days, every row there was for today or later is still there, the rows
    of the other sites are untouched, and the file holds the new state. *)
Theorem X24_refresh_of_the_calendar (site_id : string) (today : Z) (s s' : MenuStore) :
  MENU_DATA_LOADED s = true -> refreshed_at site_id s <> Some today ->
  ensure_menu_days_current site_id today s = (s', Some tt) ->
  refreshed_at site_id s' = Some today
  /\ in_order row_key_le (menu_rows site_id s') = true
  /\ Forall (fun m => today <= MenuDay.date m) (menu_rows site_id s')
  /\ (7 <= length (sorted_dates (menu_rows site_id s')))%nat
  /\ (forall m, m ∈ menu_rows site_id s -> today <= MenuDay.date m ->
        m ∈ menu_rows site_id s')
  /\ (forall other, other <> site_id -> menu_rows other s' = menu_rows other s)
  /\ MENU_DATA_FILE s' = FileJson (menu_data s').
Proof.
  intros Hl Hr Hrun.
  destruct (ensure_menu_days_current_refresh _ _ _ _ Hl Hr Hrun)
    as (more & Hmore & Hdays & Hat & _ & Hfile).
  set (kept := sort_by row_key_le (kept_rows site_id today s)) in *.
  set (needed := 7 - Z.of_nat (length (sorted_dates kept))) in *.
  assert (Hrows : menu_rows site_id s' = sort_by row_key_le (kept ++ more)).
  { unfold menu_rows. by rewrite Hdays, dict_get_set_eq. }
  assert (Hkept : forall m, m ∈ kept <-> m ∈ menu_rows site_id s /\ today <= MenuDay.date m).
  { intros m. unfold kept. rewrite sort_by_perm. unfold kept_rows.
    rewrite list_elem_of_filter. tauto. }
  assert (Hin : forall m, m ∈ menu_rows site_id s' <-> m ∈ kept \/ m ∈ more).
  { intros m. rewrite Hrows, sort_by_perm. apply elem_of_app. }
  assert (Hstart : 0 < needed ->
            exists start_date, today <= start_date
              /\ Forall (fun day => day < start_date) (sorted_dates kept)
              /\ generate_menu_plan site_id start_date needed = Some more).
  { intros Hpos. replace (0 <? needed) with true in Hmore by (symmetry; by apply Z.ltb_lt).
    destruct Hmore as (start_date & Hstart & Hgen). exists start_date.
    destruct (last (sorted_dates kept)) as [day|] eqn:Hlast.
    - apply date_add_days_Some in Hstart as [-> _].
      pose proof (ascending_last _ _ (sorted_dates_ascending kept) Hlast) as Hmax.
      apply last_Some_elem_of, sorted_dates_elem_of in Hlast as (m & Hm & Hdate).
      apply Hkept in Hm as [_ Hm]. split; [lia|]. split; [|done].
      eapply Forall_impl; [exact Hmax|]. cbn. intros; lia.
    - injection Hstart as <-. apply last_None in Hlast. rewrite Hlast.
      split; [lia|]. split; [constructor|done]. }
  split; [unfold refreshed_at; by rewrite Hat, dict_get_set_eq|].
  split; [rewrite Hrows; apply sort_by_in_order, row_key_le_total|].
  split.
  { apply Forall_forall. intros m [Hm|Hm]%Hin; [by apply Hkept in Hm as [_ ?]|].
    destruct (decide (0 < needed)) as [Hpos|Hneg].
    - destruct (Hstart Hpos) as (start_date & Hle & _ & Hgen).
      destruct (generate_menu_plan_dates site_id start_date needed more
                  ltac:(unfold needed in *; lia) Hgen)
        as [Hdates _].
      pose proof (proj1 (Forall_forall _ _) Hdates _ Hm). cbn in *. lia.
    - replace (0 <? needed) with false in Hmore by (symmetry; apply Z.ltb_ge; lia).
      subst more. by apply elem_of_nil in Hm. }
  split.
  { destruct (decide (0 < needed)) as [Hpos|Hneg].
    - destruct (Hstart Hpos) as (start_date & Hle & Hbelow & Hgen).
      destruct (generate_menu_plan_dates site_id start_date needed more
                  ltac:(unfold needed in *; lia) Hgen)
        as [_ Hdates].
      assert (Hsub : sorted_dates kept ++ seqZ start_date needed
                     ⊆+ sorted_dates (menu_rows site_id s')).
      { apply NoDup_submseteq.
        - apply NoDup_app. split; [apply ascending_NoDup, sorted_dates_ascending|].
          split; [|apply NoDup_seqZ].
          intros day Hday Hseq. apply elem_of_seqZ in Hseq.
          pose proof (proj1 (Forall_forall _ _) Hbelow _ Hday). cbn in *. lia.
        - intros day [Hday|Hday]%elem_of_app; apply sorted_dates_elem_of.
          + apply sorted_dates_elem_of in Hday as (m & Hm & Hdate).
            exists m. split; [|done]. apply Hin. by left.
          + apply elem_of_seqZ in Hday. destruct (Hdates day Hday) as (m & Hm & Hdate).
            exists m. split; [|done]. apply Hin. by right. }
      apply submseteq_length in Hsub. rewrite length_app, length_seqZ in Hsub.
      unfold needed in *. lia.
    - assert (Hsub : sorted_dates kept ⊆+ sorted_dates (menu_rows site_id s')).
      { apply NoDup_submseteq; [apply ascending_NoDup, sorted_dates_ascending|].
        intros day Hday. apply sorted_dates_elem_of.
        apply sorted_dates_elem_of in Hday as (m & Hm & Hdate).
        exists m. split; [|done]. apply Hin. by left. }
      apply submseteq_length in Hsub. unfold needed in *. lia. }
  split; [intros m Hm Hdate; apply Hin; left; by apply Hkept|].
  split; [|done].
  intros other Hother. unfold menu_rows. rewrite Hdays. by rewrite dict_get_set_ne.
Qed.

Lemma mm_bind_Some_inv {A C} (m : MM A) (f : A -> MM C) s s' c :
  (m ≫= f) s = (s', Some c) -> exists s1 a, m s = (s1, Some a) /\ f a s1 = (s', Some c).
Proof.
  unfold mbind, MM_bind. destruct (m s) as [s1 [a|]]; [|done]. intros H. by exists s1, a.
Qed.

Lemma load_menu_data_Some_loaded today s s' :
  load_menu_data today s = (s', Some tt) -> MENU_DATA_LOADED s' = true.
Proof.
  unfold load_menu_data. intros Hrun.
  apply mm_bind_Some_inv in Hrun as (s0 & s0' & Hget & Hrun). injection Hget as <- <-.
  destruct (MENU_DATA_LOADED s) eqn:Hl; [by injection Hrun as <-|].
  apply mm_bind_Some_inv in Hrun as (s1 & ensure_save & _ & Hrun).
  apply mm_bind_Some_inv in Hrun as (s2 & [] & _ & Hrun).
  by injection Hrun as <-.
Qed.

Lemma ensure_menu_days_current_Some site_id today s s' :
  ensure_menu_days_current site_id today s = (s', Some tt) ->
  MENU_DATA_LOADED s' = true /\ refreshed_at site_id s' = Some today.
Proof.
  intros Hrun. unfold ensure_menu_days_current in Hrun.
  apply mm_bind_Some_inv in Hrun as (s1 & [] & Hload & Hrun).
  pose proof (load_menu_data_Some_loaded _ _ _ Hload) as Hl.
  destruct (decide (refreshed_at site_id s1 = Some today)) as [Hr|Hr].
  - pose proof (ensure_menu_days_current_refreshed _ _ _ Hl Hr) as Hsame.
    unfold ensure_menu_days_current in Hsame.
    unfold mbind at 1, MM_bind at 1 in Hsame. rewrite (load_menu_data_loaded _ _ Hl) in Hsame.
    rewrite Hsame in Hrun. by injection Hrun as <-.
  - assert (Hagain : ensure_menu_days_current site_id today s1 = (s', Some tt)).
    { unfold ensure_menu_days_current. unfold mbind at 1, MM_bind at 1.
      by rewrite (load_menu_data_loaded _ _ Hl). }
    destruct (ensure_menu_days_current_refresh _ _ _ _ Hl Hr Hagain)
      as (more & _ & _ & Hat & Hl' & _).
    split; [done|]. unfold refreshed_at. by rewrite Hat, dict_get_set_eq.
Qed.

(** X29: once [ensure_menu_days_current] has returned for a site today,
    calling it again changes nothing, and the reading functions
    ([get_current_menu_day], [get_menu_days_for_date],
    [resolve_display_dish], [build_menu_rows], [build_alerts]) leave the
    store and the menu file as they are, whether they return or raise. *)
Theorem X29_reads_after_a_refresh_change_nothing (site_id : string) (today : Z)
    (s0 s : MenuStore) :
  ensure_menu_days_current site_id today s0 = (s, Some tt) ->
  ensure_menu_days_current site_id today s = (s, Some tt)
  /\ (forall target_date service_slot,
        (get_current_menu_day site_id today target_date service_slot s).1 = s)
  /\ (forall target_date, (get_menu_days_for_date site_id today target_date s).1 = s)
  /\ (forall dish_name portion_grams service_date,
        (resolve_display_dish dish_name portion_grams site_id today service_date s).1 = s)
  /\ (build_menu_rows site_id today s).1 = s
  /\ (build_alerts site_id today s).1 = s.
Proof.
  intros Hrun. destruct (ensure_menu_days_current_Some _ _ _ _ Hrun) as [Hl Hr].
  pose proof (ensure_menu_days_current_refreshed _ _ _ Hl Hr) as He.
  assert (Hc : forall target_date service_slot,
             (get_current_menu_day site_id today target_date service_slot s).1 = s).
  { intros. unfold get_current_menu_day. unfold mbind at 1, MM_bind at 1. by rewrite He. }
  split; [done|]. split; [done|]. split.
  { intros. unfold get_menu_days_for_date. unfold mbind at 1, MM_bind at 1. by rewrite He. }
  split.
  { intros. unfold resolve_display_dish. unfold mbind at 1, MM_bind at 1.
    specialize (Hc (Some service_date) (Some PRIMARY_SERVICE_SLOT)).
    destruct (get_current_menu_day _ _ _ _ s) as [s1 [[m|]|]]; cbn in Hc; subst s1;
      [|by destruct (dict_get _ _)|done].
    by destruct (String.eqb _ _). }
  split.
  - unfold build_menu_rows. unfold mbind at 1, MM_bind at 1. by rewrite He.
  - unfold build_alerts. unfold mbind at 1, MM_bind at 1. by rewrite He.
Qed.

End KeepingCurrent.

(** ** Decisions of the manager *)

Section ManagerDecisions.
Context `{B : Builtins} `{MB : MenuBuiltins}.

Lemma update_menu_status_refreshed site_id today target_date status service_slot s :
  MENU_DATA_LOADED s = true -> refreshed_at site_id s = Some today ->
  exists s1,
    update_menu_status site_id today target_date status service_slot s = (s1, Some tt)
    /\ menu_rows site_id s1
       = with_status target_date service_slot status (menu_rows site_id s)
    /\ MENU_DATA_LOADED s1 = true
    /\ refreshed_at site_id s1 = Some today.
Proof.
  intros Hl Hr. unfold update_menu_status.
  unfold mbind at 1, MM_bind at 1.
  rewrite (ensure_menu_days_current_refreshed _ _ _ Hl Hr).
  unfold mbind at 1, MM_bind at 1, mm_get at 1.
  destruct (existsb _ _) eqn:Hex.
  - unfold persist_menu_days, write_menu_file. mm_simpl. eexists. split; [done|].
    unfold menu_rows at 1, refreshed_at at 1. cbn [MENU_DAYS MENU_DAYS_REFRESHED_AT MENU_DATA_LOADED].
    rewrite dict_get_set_eq. done.
  - exists s. split; [done|]. split; [|done].
    unfold with_status. symmetry. apply list_eq. intros i. rewrite list_lookup_fmap.
    destruct (menu_rows site_id s !! i) as [m|] eqn:Hm; [|done]. cbn.
    destruct (status_target target_date service_slot m) eqn:Ht; [|done].
    assert (existsb (status_target target_date service_slot) (menu_rows site_id s) = true);
      [|congruence].
    apply existsb_exists. exists m. split; [|done].
    apply list_elem_of_In. by eapply list_elem_of_lookup_2.
Qed.

Lemma manager_swap_refreshed status site_id today items day s :
  MENU_DATA_LOADED s = true -> refreshed_at site_id s = Some today ->
  body_for_day items day ->
  exists s1,
    manager_swap status site_id today (Some (JsObj items)) s = (s1, Some tt)
    /\ menu_rows site_id s1 = with_status day JsNull status (menu_rows site_id s)
    /\ MENU_DATA_LOADED s1 = true
    /\ refreshed_at site_id s1 = Some today.
Proof.
  intros Hl Hr [(text & Hdate & _ & Hday) Hslot].
  destruct (update_menu_status_refreshed site_id today day status JsNull s Hl Hr)
    as (s1 & Hrun & Hrows). exists s1. split; [|done].
  unfold manager_swap. mm_simpl. rewrite Hdate, Hday. cbn [json_get]. by rewrite Hslot.
Qed.

Lemma find_elem_of {A} (P : A -> bool) l x :
  List.find P l = Some x -> x ∈ l /\ P x = true.
Proof. intros [Hin HP]%find_some. split; [by apply list_elem_of_In|done]. Qed.

Lemma find_is_Some {A} (P : A -> bool) l x :
  x ∈ l -> P x = true -> is_Some (List.find P l).
Proof.
  intros Hin HP. destruct (List.find P l) eqn:Hfind; [by eexists|].
  pose proof (find_none _ _ Hfind x (proj1 (list_elem_of_In _ _) Hin)). congruence.
Qed.

Lemma with_status_elem_of target_date status rows m :
  m ∈ with_status target_date JsNull status rows ->
  MenuDay.date m = target_date -> MenuDay.swap_status m = status.
Proof.
  unfold with_status. intros (m0 & -> & Hm0)%list_elem_of_fmap.
  unfold status_target. cbn [slot_matches]. rewrite andb_true_r.
  destruct (MenuDay.date m0 =? target_date) eqn:Hd; [done|].
  apply Z.eqb_neq in Hd. done.
Qed.

Lemma with_status_has_day target_date service_slot status rows day :
  (exists m, m ∈ rows /\ MenuDay.date m = day) ->
  exists m, m ∈ with_status target_date service_slot status rows /\ MenuDay.date m = day.
Proof.
  intros (m & Hm & Hd). unfold with_status.
  eexists. split; [apply list_elem_of_fmap; by exists m|].
  by destruct (status_target _ _ _).
Qed.

(** The dish shown for a day after a decision on the whole day. *)
Lemma display_after_decision status dish_name portion_grams site_id today items day s :
  MENU_DATA_LOADED s = true -> refreshed_at site_id s = Some today ->
  body_for_day items day -> has_day site_id day s ->
  exists s1 m,
    manager_swap status site_id today (Some (JsObj items)) s = (s1, Some tt)
    /\ resolve_display_dish dish_name portion_grams site_id today day s1
       = (s1, Some ((if String.eqb status "approved"
                     then MenuDay.recommended_dish m else MenuDay.main_dish_planned m),
                    Some m))
    /\ m ∈ menu_rows site_id s1 /\ MenuDay.date m = day /\ MenuDay.swap_status m = status.
Proof.
  intros Hl Hr Hbody Hday.
  destruct (manager_swap_refreshed status site_id today items day s Hl Hr Hbody)
    as (s1 & Hrun & Hrows & Hl1 & Hr1).
  exists s1.
  assert (Hget : exists m,
    get_current_menu_day site_id today (Some day) (Some PRIMARY_SERVICE_SLOT) s1
    = (s1, Some (Some m)) /\ m ∈ menu_rows site_id s1 /\ MenuDay.date m = day).
  { unfold get_current_menu_day. unfold mbind at 1, MM_bind at 1.
    rewrite (ensure_menu_days_current_refreshed _ _ _ Hl1 Hr1). mm_simpl.
    cbn [default from_option id String.eqb PRIMARY_SERVICE_SLOT].
    destruct (List.find _ (menu_rows site_id s1)) as [m|] eqn:Hfind.
    - exists m. split; [done|]. apply find_elem_of in Hfind as [Hin HP].
      split; [done|]. apply andb_true_iff in HP as [HP _]. by apply Z.eqb_eq.
    - destruct (with_status_has_day day JsNull status _ day Hday) as (m0 & Hm0 & Hd0).
      rewrite <- Hrows in Hm0.
      destruct (find_is_Some (fun menu => MenuDay.date menu =? day) _ m0 Hm0) as [m Hm];
        [by apply Z.eqb_eq|].
      rewrite Hm. exists m. split; [done|]. apply find_elem_of in Hm as [Hin HP].
      split; [done|]. by apply Z.eqb_eq. }
  destruct Hget as (m & Hget & Hin & Hd). exists m.
  assert (Hst : MenuDay.swap_status m = status).
  { rewrite Hrows in Hin. by eapply with_status_elem_of. }
  split; [done|]. split; [|done].
  unfold resolve_display_dish. unfold mbind at 1, MM_bind at 1. rewrite Hget.
  rewrite Hst. by destruct (String.eqb status "approved").
Qed.

Lemma send_menu_to_jamix_approves site_id today items day s :
  body_for_day items day ->
  api_manager_send_menu_to_jamix site_id today (Some (JsObj items)) s
  = api_manager_approve_swap site_id today (Some (JsObj items)) s.
Proof.
  intros [(text & Hdate & Htext & Hday) Hslot].
  unfold api_manager_send_menu_to_jamix, api_manager_approve_swap, manager_swap.
  assert (Hitems : json_truthy (JsObj items) = true) by by destruct items.
  rewrite Hitems. mm_simpl. cbn [json_get]. rewrite Hdate. cbn [default from_option id json_truthy].
  destruct (String.eqb text "") eqn:He; [by apply String.eqb_eq in He|].
  cbn [negb]. by rewrite Hday.
Qed.

(** X25: on a calendar refreshed today that has rows for a day, a decision
    on that whole day (a body with the date and no service slot) changes the
    dish shown for the day: after [approve_swap] [resolve_display_dish]
    returns the recommended dish of a row of that day, now [approved]; after
    [ignore_swap] the planned main dish of a row now [ignored]; and
    [send_menu_to_jamix] does what [approve_swap] does. *)
Theorem X25_decision_changes_the_dish_shown (dish_name : string) (portion_grams : Z)
    (site_id : string) (today : Z) (items : list (string * Json)) (day : Z)
    (s : MenuStore) :
  MENU_DATA_LOADED s = true -> refreshed_at site_id s = Some today ->
  body_for_day items day -> has_day site_id day s ->
  (exists s1 m,
     api_manager_approve_swap site_id today (Some (JsObj items)) s = (s1, Some tt)
     /\ resolve_display_dish dish_name portion_grams site_id today day s1
        = (s1, Some (MenuDay.recommended_dish m, Some m))
     /\ m ∈ menu_rows site_id s1 /\ MenuDay.date m = day
     /\ MenuDay.swap_status m = "approved")
  /\ (exists s1 m,
        api_manager_ignore_swap site_id today (Some (JsObj items)) s = (s1, Some tt)
        /\ resolve_display_dish dish_name portion_grams site_id today day s1
           = (s1, Some (MenuDay.main_dish_planned m, Some m))
        /\ m ∈ menu_rows site_id s1 /\ MenuDay.date m = day
        /\ MenuDay.swap_status m = "ignored")
  /\ api_manager_send_menu_to_jamix site_id today (Some (JsObj items)) s
     = api_manager_approve_swap site_id today (Some (JsObj items)) s.
Proof.
  intros Hl Hr Hbody Hday. split; [|split].
  - exact (display_after_decision "approved" dish_name portion_grams site_id today items day
             s Hl Hr Hbody Hday).
  - exact (display_after_decision "ignored" dish_name portion_grams site_id today items day
             s Hl Hr Hbody Hday).
  - by eapply send_menu_to_jamix_approves.
Qed.

Lemma build_alerts_refreshed site_id today s :
  MENU_DATA_LOADED s = true -> refreshed_at site_id s = Some today ->
  build_alerts site_id today s
  = (s, mapM alert_item (List.filter (alert_due today) (menu_rows site_id s))).
Proof.
  intros Hl Hr. unfold build_alerts. unfold mbind at 1, MM_bind at 1.
  by rewrite (ensure_menu_days_current_refreshed _ _ _ Hl Hr).
Qed.

Lemma alert_item_date_iso m a :
  alert_item m = Some a -> AlertItem.date_iso a = date_isoformat (MenuDay.date m).
Proof.
  unfold alert_item. destruct (uptake_pct m); [|done]. by intros [= <-].
Qed.

Lemma alerts_after_decision today day status rows alerts :
  String.eqb status "suggested" = false ->
  iso_singles_out day rows ->
  mapM alert_item (List.filter (alert_due today) rows) = Some alerts ->
  mapM alert_item (List.filter (alert_due today) (with_status day JsNull status rows))
  = Some (List.filter
            (fun a => negb (String.eqb (AlertItem.date_iso a) (date_isoformat day))) alerts).
Proof.
  intros Hstatus. revert alerts. induction rows as [|m rows IH]; intros alerts Hiso Hrun.
  - injection Hrun as <-. done.
  - apply Forall_cons in Hiso as [Hm Hiso].
    unfold with_status in *. rewrite fmap_cons. cbn [List.filter] in Hrun |- *.
    unfold status_target at 1 2. cbn [slot_matches]. rewrite andb_true_r.
    destruct (MenuDay.date m =? day) eqn:Hd.
    + apply Z.eqb_eq in Hd.
      assert (Hdue : alert_due today (MenuDay.set_swap_status status m) = false).
      { unfold alert_due. cbn [MenuDay.service_slot MenuDay.set_swap_status MenuDay.swap_status
                               MenuDay.date].
        destruct (slot_config _); [|done]. rewrite Hstatus. by rewrite andb_false_r. }
      rewrite Hdue. destruct (alert_due today m).
      * cbn [mapM] in Hrun.
        destruct (alert_item m) as [a|] eqn:Ha; [|done].
        cbn [mbind option_bind] in Hrun.
        destruct (mapM alert_item (List.filter (alert_due today) rows)) as [rest|] eqn:Hrest;
          [|done].
        injection Hrun as <-. cbn [List.filter].
        rewrite (alert_item_date_iso _ _ Ha), Hd, String.eqb_refl. cbn [negb].
        by apply IH.
      * by apply IH.
    + apply Z.eqb_neq in Hd. destruct (alert_due today m).
      * cbn [mapM] in Hrun |- *.
        destruct (alert_item m) as [a|] eqn:Ha; [|done].
        cbn [mbind option_bind] in Hrun |- *.
        destruct (mapM alert_item (List.filter (alert_due today) rows)) as [rest|] eqn:Hrest;
          [|done].
        injection Hrun as <-. rewrite (IH rest Hiso eq_refl). cbn [mbind option_bind mret option_ret List.filter].
        rewrite (alert_item_date_iso _ _ Ha).
        destruct (String.eqb (date_isoformat (MenuDay.date m)) (date_isoformat day)) eqn:He;
          [|reflexivity].
        apply String.eqb_eq in He. by apply Hm in He.
      * by apply IH.
Qed.

Lemma alerts_after_manager_swap status site_id today items day s alerts :
  String.eqb status "suggested" = false ->
  MENU_DATA_LOADED s = true -> refreshed_at site_id s = Some today ->
  body_for_day items day -> iso_singles_out day (menu_rows site_id s) ->
  build_alerts site_id today s = (s, Some alerts) ->
  exists s1,
    manager_swap status site_id today (Some (JsObj items)) s = (s1, Some tt)
    /\ build_alerts site_id today s1
       = (s1, Some (List.filter
                      (fun a => negb (String.eqb (AlertItem.date_iso a)
                                                 (date_isoformat day))) alerts)).
Proof.
  intros Hstatus Hl Hr Hbody Hiso Halerts.
  destruct (manager_swap_refreshed status site_id today items day s Hl Hr Hbody)
    as (s1 & Hrun & Hrows & Hl1 & Hr1).
  exists s1. split; [done|].
  rewrite (build_alerts_refreshed _ _ _ Hl Hr) in Halerts. injection Halerts as Halerts.
  rewrite (build_alerts_refreshed _ _ _ Hl1 Hr1), Hrows.
  by rewrite (alerts_after_decision today day status _ alerts Hstatus Hiso Halerts).
Qed.

(** X26: on a calendar refreshed today, approving or ignoring the swap of a
    whole day removes exactly the alerts of that day: [build_alerts] then
    returns the alerts it returned before without those whose date is the
    day's, when [isoformat] tells the day from the other days of the
    calendar. *)
Theorem X26_decision_clears_the_alerts_of_the_day (site_id : string) (today : Z)
    (items : list (string * Json)) (day : Z) (s : MenuStore) (alerts : list AlertItem.t) :
  MENU_DATA_LOADED s = true -> refreshed_at site_id s = Some today ->
  body_for_day items day -> iso_singles_out day (menu_rows site_id s) ->
  build_alerts site_id today s = (s, Some alerts) ->
  let others :=
    List.filter (fun a => negb (String.eqb (AlertItem.date_iso a) (date_isoformat day)))
      alerts in
  (exists s1,
     api_manager_approve_swap site_id today (Some (JsObj items)) s = (s1, Some tt)
     /\ build_alerts site_id today s1 = (s1, Some others))
  /\ (exists s1,
        api_manager_ignore_swap site_id today (Some (JsObj items)) s = (s1, Some tt)
        /\ build_alerts site_id today s1 = (s1, Some others)).
Proof.
  intros Hl Hr Hbody Hiso Halerts others. split.
  - by apply (alerts_after_manager_swap "approved").
  - by apply (alerts_after_manager_swap "ignored").
Qed.

Lemma update_menu_status_no_row site_id today target_date status service_slot s :
  MENU_DATA_LOADED s = true -> refreshed_at site_id s = Some today ->
  Forall (fun m => status_target target_date service_slot m = false) (menu_rows site_id s) ->
  update_menu_status site_id today target_date status service_slot s = (s, Some tt).
Proof.
  intros Hl Hr Hnone. unfold update_menu_status.
  unfold mbind at 1, MM_bind at 1.
  rewrite (ensure_menu_days_current_refreshed _ _ _ Hl Hr).
  unfold mbind at 1, MM_bind at 1, mm_get at 1.
  destruct (existsb _ _) eqn:Hex; [|done].
  apply existsb_exists in Hex as (m & Hm%list_elem_of_In & Ht).
  pose proof (proj1 (Forall_forall _ _) Hnone _ Hm) as Hf. cbn beta in Hf. congruence.
Qed.

(** X30: a decision that matches no row is answered like any other and does
    nothing: on a calendar refreshed today, [approve_swap] and [ignore_swap]
    return and leave the store and the file as they are when the calendar
    has no row for the date, when no row of the date has the service slot
    asked for, or when the service slot is a value that is neither a text
    nor null. *)
Theorem X30_decision_that_matches_no_row (site_id : string) (today : Z)
    (items : list (string * Json)) (text : string) (day : Z) (s : MenuStore) :
  MENU_DATA_LOADED s = true -> refreshed_at site_id s = Some today ->
  dict_get "date" items = Some (JsStr text) -> date_fromisoformat text = Some day ->
  (~ has_day site_id day s
   \/ (exists slot, dict_get "service_slot" items = Some (JsStr slot)
                    /\ Forall (fun m => MenuDay.date m = day ->
                                        MenuDay.service_slot m <> slot)
                         (menu_rows site_id s))
   \/ (exists v, dict_get "service_slot" items = Some v
                 /\ v <> JsNull /\ forall slot, v <> JsStr slot)) ->
  api_manager_approve_swap site_id today (Some (JsObj items)) s = (s, Some tt)
  /\ api_manager_ignore_swap site_id today (Some (JsObj items)) s = (s, Some tt).
Proof.
  intros Hl Hr Hdate Hday Hnone.
  assert (Hrows : Forall (fun m => status_target day
                                     (default JsNull (dict_get "service_slot" items)) m
                                   = false) (menu_rows site_id s)).
  { apply Forall_forall. intros m Hm. unfold status_target.
    destruct (MenuDay.date m =? day) eqn:Hd; [|done]. apply Z.eqb_eq in Hd.
    destruct Hnone as [Hno | [(slot & -> & Hslots) | (v & -> & Hnull & Hstr)]].
    - destruct Hno. by exists m.
    - cbn. pose proof (proj1 (Forall_forall _ _) Hslots _ Hm Hd) as Hne.
      by apply String.eqb_neq in Hne as ->.
    - cbn. destruct v; try done. by destruct (Hstr s0). }
  assert (Hswap : forall status,
            manager_swap status site_id today (Some (JsObj items)) s = (s, Some tt)).
  { intros status. unfold manager_swap. mm_simpl. rewrite Hdate, Hday. cbn [json_get].
    by apply update_menu_status_no_row. }
  split; apply Hswap.
Qed.

End ManagerDecisions.

(** ** The manager's menu table *)

Lemma string_compare_refl s : String.compare s s = Eq.
Proof.
  induction s as [|c s IH]; [done|]. cbn.
  unfold Ascii.compare. by rewrite N.compare_refl.
Qed.

Lemma string_leb_refl s : String.leb s s = true.
Proof. unfold String.leb. by rewrite string_compare_refl. Qed.

Lemma string_leb_trans a b c :
  String.leb a b = true -> String.leb b c = true -> String.leb a c = true.
Proof.
  unfold String.leb. revert b c.
  induction a as [|x a IH]; intros [|y b] [|z c]; cbn; try done.
  destruct (Ascii.compare x y) eqn:Hxy; [| |done].
  - apply Ascii.compare_eq_iff in Hxy as ->.
    destruct (Ascii.compare y z); [apply IH|done..].
  - destruct (Ascii.compare y z) eqn:Hyz; [| |done].
    + apply Ascii.compare_eq_iff in Hyz as ->. by rewrite Hxy.
    + unfold Ascii.compare in *.
      apply N.compare_lt_iff in Hxy. apply N.compare_lt_iff in Hyz.
      assert (Hxz : (Ascii.N_of_ascii x ?= Ascii.N_of_ascii z)%N = Lt)
        by (apply N.compare_lt_iff; by eapply N.lt_trans).
      by rewrite Hxz.
Qed.

Lemma in_order_last {A} (le : A -> A -> bool) l x :
  (forall a, le a a = true) ->
  (forall a b c, le a b = true -> le b c = true -> le a c = true) ->
  in_order le l = true -> last l = Some x -> Forall (fun y => le y x = true) l.
Proof.
  intros Hrefl Htrans. induction l as [|y l IH]; [done|]. intros Hl Hlast.
  destruct l as [|z l].
  - injection Hlast as <-. by constructor.
  - cbn [in_order] in Hl. apply andb_true_iff in Hl as [Hyz Hl].
    assert (Hlast' : last (z :: l) = Some x) by done.
    specialize (IH Hl Hlast'). constructor; [|done].
    apply Forall_cons in IH as [Hzx _]. by eapply Htrans.
Qed.

Lemma slot_le_total a b : slot_le a b = false -> slot_le b a = true.
Proof.
  unfold slot_le. intros Hab.
  destruct (String.leb_total (MenuDay.service_slot a) (MenuDay.service_slot b)); congruence.
Qed.

Section MenuTable.
Context `{B : Builtins} `{MB : MenuBuiltins}.

Lemma menu_row_of_date_last rows day r :
  menu_row_of_date rows day = Some r ->
  exists m,
    m ∈ rows /\ MenuDay.date m = day
    /\ MenuPreventionRow.date_iso r = date_isoformat day
    /\ MenuPreventionRow.service_slot r = MenuDay.service_slot m
    /\ MenuPreventionRow.current_dish_name r = Dish.name (MenuDay.main_dish_planned m)
    /\ forall m', m' ∈ rows -> MenuDay.date m' = day ->
         String.leb (MenuDay.service_slot m') (MenuDay.service_slot m) = true.
Proof.
  unfold menu_row_of_date. cbv zeta.
  set (daily := sort_by slot_le (List.filter (fun menu => MenuDay.date menu =? day) rows)).
  assert (Hdaily : forall m, m ∈ daily <-> m ∈ rows /\ MenuDay.date m = day).
  { intros m. unfold daily. rewrite sort_by_perm, !list_elem_of_In, filter_In, Z.eqb_eq.
    done. }
  destruct (last daily) as [m|] eqn:Hlast; [|done]. cbn [mbind option_bind].
  unfold menu_prevention_row. cbv zeta.
  destruct (uptake_pct m) as [pct|]; [|done]. cbn [mbind option_bind].
  intros [= <-]. exists m.
  pose proof (last_Some_elem_of _ _ Hlast) as Hm. apply Hdaily in Hm as [Hm Hd].
  split; [done|]. split; [done|]. cbn. rewrite Hd. repeat split.
  intros m' Hm' Hd'.
  assert (Hin : m' ∈ daily) by by apply Hdaily.
  pose proof (in_order_last slot_le daily m
                (fun a => string_leb_refl _)
                (fun a b c => string_leb_trans _ _ _)
                (sort_by_in_order _ _ slot_le_total) Hlast) as Hmax.
  exact (proj1 (Forall_forall _ _) Hmax _ Hin).
Qed.

(** X27: the table of [build_menu_rows] has one row per date of the
    calendar, not one per calendar row: its [append] stands after the loop
    over the day's entries, so the row of a date is that of the entry whose
    service slot is last in the order of the slots' names, and the other
    entries of the date show up in no row of their own. *)
Theorem X27_menu_table_has_one_row_per_day (site_id : string) (today : Z)
    (s s' : MenuStore) (table : list MenuPreventionRow.t) :
  build_menu_rows site_id today s = (s', Some table) ->
  length table = length (sorted_dates (menu_rows site_id s'))
  /\ forall (i : nat) day, sorted_dates (menu_rows site_id s') !! i = Some day ->
       exists r m,
         table !! i = Some r
         /\ m ∈ menu_rows site_id s' /\ MenuDay.date m = day
         /\ MenuPreventionRow.date_iso r = date_isoformat day
         /\ MenuPreventionRow.service_slot r = MenuDay.service_slot m
         /\ MenuPreventionRow.current_dish_name r = Dish.name (MenuDay.main_dish_planned m)
         /\ forall m', m' ∈ menu_rows site_id s' -> MenuDay.date m' = day ->
              String.leb (MenuDay.service_slot m') (MenuDay.service_slot m) = true.
Proof.
  unfold build_menu_rows. unfold mbind at 1, MM_bind at 1.
  destruct (ensure_menu_days_current site_id today s) as [s1 [[]|]]; [|done].
  mm_simpl. intros [= <- Htable].
  split; [symmetry; by eapply length_mapM|].
  intros i day Hday. apply mapM_Some_1 in Htable.
  destruct (Forall2_lookup_l _ _ _ _ _ Htable Hday) as (r & Hr & Hrow).
  destruct (menu_row_of_date_last _ _ _ Hrow) as (m & Hm). by exists r, m.
Qed.

End MenuTable.

(** ** The calendar is never empty *)

Lemma refreshed_sites_have_rows_days site_id rows s :
  rows <> [] -> refreshed_sites_have_rows s ->
  refreshed_sites_have_rows
    {| MENU_DAYS := dict_set site_id rows (MENU_DAYS s);
       MENU_DAYS_REFRESHED_AT := MENU_DAYS_REFRESHED_AT s;
       MENU_DATA_LOADED := MENU_DATA_LOADED s;
       MENU_DATA_FILE := MENU_DATA_FILE s |}.
Proof.
  intros Hrows Hs site day Hday. unfold menu_rows, refreshed_at in *. cbn in *.
  destruct (decide (site_id = site)) as [->|Hne].
  - by rewrite dict_get_set_eq.
  - rewrite dict_get_set_ne by done. by eapply Hs.
Qed.

Lemma refreshed_sites_have_rows_at site_id day s :
  menu_rows site_id s <> [] -> refreshed_sites_have_rows s ->
  refreshed_sites_have_rows
    {| MENU_DAYS := MENU_DAYS s;
       MENU_DAYS_REFRESHED_AT := dict_set site_id day (MENU_DAYS_REFRESHED_AT s);
       MENU_DATA_LOADED := MENU_DATA_LOADED s;
       MENU_DATA_FILE := MENU_DATA_FILE s |}.
Proof.
  intros Hrows Hs site day' Hday. unfold menu_rows, refreshed_at in *. cbn in *.
  destruct (decide (site_id = site)) as [->|Hne]; [done|].
  rewrite dict_get_set_ne in Hday by done. by eapply Hs.
Qed.

Lemma refreshed_sites_have_rows_flags loaded file s :
  refreshed_sites_have_rows s ->
  refreshed_sites_have_rows
    {| MENU_DAYS := MENU_DAYS s;
       MENU_DAYS_REFRESHED_AT := MENU_DAYS_REFRESHED_AT s;
       MENU_DATA_LOADED := loaded;
       MENU_DATA_FILE := file |}.
Proof. done. Qed.

Lemma refreshed_sites_have_rows_step site_id rows s s' :
  rows <> [] ->
  MENU_DAYS s' = dict_set site_id rows (MENU_DAYS s) ->
  (MENU_DAYS_REFRESHED_AT s' = MENU_DAYS_REFRESHED_AT s
   \/ exists day, MENU_DAYS_REFRESHED_AT s'
                   = dict_set site_id day (MENU_DAYS_REFRESHED_AT s)) ->
  refreshed_sites_have_rows s -> refreshed_sites_have_rows s'.
Proof.
  intros Hrows Hdays Hat Hs site day Hday. unfold menu_rows, refreshed_at in *.
  rewrite Hdays. destruct (decide (site_id = site)) as [->|Hne].
  - by rewrite dict_get_set_eq.
  - rewrite dict_get_set_ne by done. apply (Hs site day). unfold refreshed_at.
    destruct Hat as [Hat|[day' Hat]]; rewrite Hat in Hday; [done|].
    by rewrite dict_get_set_ne in Hday.
Qed.

Lemma generate_menu_plan_nonempty site_id start days rows :
  0 < days <= 366 -> generate_menu_plan site_id start days = Some rows -> rows <> [].
Proof.
  intros Hdays Hrows.
  destruct (generate_menu_plan_dates _ _ _ _ Hdays Hrows) as [_ Hex].
  destruct (Hex start) as (m & Hm & _); [lia|]. intros ->. by apply elem_of_nil in Hm.
Qed.

Section NeverEmpty.
Context `{B : Builtins} `{MB : MenuBuiltins}.
Hypothesis Hchars : chars_not_empty.

Lemma loaded_rows_nonempty rows_payload items rows :
  json_truthy rows_payload = true -> json_iter rows_payload = Some items ->
  mapM menu_day_from_dict items = Some rows -> rows <> [].
Proof.
  intros Ht Hiter Hrows Hnil. subst rows.
  apply length_mapM in Hrows. destruct items as [|item items]; [|done].
  destruct rows_payload; try done; cbn in Ht, Hiter.
  - injection Hiter as Hiter. apply fmap_nil_inv in Hiter.
    apply negb_true_iff in Ht. apply String.eqb_neq in Ht. by apply Hchars in Ht.
  - injection Hiter as ->. done.
  - injection Hiter as Hiter. apply fmap_nil_inv in Hiter. by subst.
Qed.

Lemma load_sites_keeps today sites_payload refreshed_map sites ensure_save s s' r :
  refreshed_sites_have_rows s ->
  load_sites today sites_payload refreshed_map sites ensure_save s = (s', r) ->
  refreshed_sites_have_rows s'.
Proof.
  revert ensure_save s. induction sites as [|site_id sites IH]; intros ensure_save s Hs Hrun.
  - by injection Hrun as <- _.
  - cbn [load_sites] in Hrun. unfold mbind at 1, MM_bind at 1, mm_lift at 1 in Hrun.
    destruct (json_get site_id (JsList []) sites_payload) as [rows_payload|];
      [|by injection Hrun as <- _].
    unfold mbind at 1, MM_bind at 1 in Hrun.
    destruct (json_truthy rows_payload) eqn:Ht.
    + unfold mbind at 1, MM_bind at 1, mm_lift at 1 in Hrun.
      destruct (json_iter rows_payload) as [items|] eqn:Hiter; [|by injection Hrun as <- _].
      unfold mbind at 1, MM_bind at 1, mm_lift at 1 in Hrun.
      destruct (mapM menu_day_from_dict items) as [rows|] eqn:Hrows;
        [|by injection Hrun as <- _].
      pose proof (loaded_rows_nonempty _ _ _ Ht Hiter Hrows) as Hne.
      unfold mbind at 1, MM_bind at 1, set_menu_days at 1, mret at 1, MM_ret at 1 in Hrun.
      set (s1 := {| MENU_DAYS := dict_set site_id rows (MENU_DAYS s) |}) in Hrun.
      assert (Hs1 : refreshed_sites_have_rows s1)
        by by apply refreshed_sites_have_rows_days.
      assert (Hr1 : menu_rows site_id s1 = rows)
        by (unfold menu_rows, s1; cbn; by rewrite dict_get_set_eq).
      unfold mbind at 1, MM_bind at 1, mm_lift at 1 in Hrun.
      destruct (json_get site_id JsNull refreshed_map) as [refreshed_value|];
        [|by injection Hrun as <- _].
      unfold mbind at 1, MM_bind at 1 in Hrun.
      destruct (json_truthy refreshed_value).
      * destruct refreshed_value; try by injection Hrun as <- _.
        unfold set_refreshed_at at 1 in Hrun. eapply IH; [|exact Hrun].
        apply refreshed_sites_have_rows_at; [by rewrite Hr1|done].
      * unfold set_refreshed_at at 1 in Hrun. eapply IH; [|exact Hrun].
        apply refreshed_sites_have_rows_at; [by rewrite Hr1|done].
    + unfold mbind at 1, MM_bind at 1, mm_lift at 1 in Hrun.
      destruct (generate_menu_plan site_id today 7) as [rows|] eqn:Hrows;
        [|by injection Hrun as <- _].
      pose proof (generate_menu_plan_nonempty site_id today 7 rows ltac:(lia) Hrows) as Hne.
      unfold mbind at 1, MM_bind at 1, set_menu_days at 1, mret at 1, MM_ret at 1 in Hrun.
      set (s1 := {| MENU_DAYS := dict_set site_id rows (MENU_DAYS s) |}) in Hrun.
      assert (Hs1 : refreshed_sites_have_rows s1)
        by by apply refreshed_sites_have_rows_days.
      assert (Hr1 : menu_rows site_id s1 = rows)
        by (unfold menu_rows, s1; cbn; by rewrite dict_get_set_eq).
      unfold mbind at 1, MM_bind at 1, mm_lift at 1 in Hrun.
      destruct (json_get site_id JsNull refreshed_map) as [refreshed_value|];
        [|by injection Hrun as <- _].
      unfold mbind at 1, MM_bind at 1 in Hrun.
      destruct (json_truthy refreshed_value).
      * destruct refreshed_value; try by injection Hrun as <- _.
        unfold set_refreshed_at at 1 in Hrun. eapply IH; [|exact Hrun].
        apply refreshed_sites_have_rows_at; [by rewrite Hr1|done].
      * unfold set_refreshed_at at 1 in Hrun. eapply IH; [|exact Hrun].
        apply refreshed_sites_have_rows_at; [by rewrite Hr1|done].
Qed.

Lemma regenerate_sites_keeps today sites s s' r :
  refreshed_sites_have_rows s ->
  regenerate_sites today sites s = (s', r) ->
  refreshed_sites_have_rows s'.
Proof.
  revert s. induction sites as [|site_id sites IH]; intros s Hs Hrun.
  - by injection Hrun as <- _.
  - cbn [regenerate_sites] in Hrun. unfold mbind at 1, MM_bind at 1, mm_lift at 1 in Hrun.
    destruct (generate_menu_plan site_id today 7) as [rows|] eqn:Hrows;
      [|by injection Hrun as <- _].
    pose proof (generate_menu_plan_nonempty site_id today 7 rows ltac:(lia) Hrows) as Hne.
    unfold mbind at 1, MM_bind at 1, set_menu_days at 1 in Hrun.
    unfold mbind at 1, MM_bind at 1, set_refreshed_at at 1 in Hrun.
    eapply IH; [|exact Hrun].
    apply (refreshed_sites_have_rows_at site_id (Some today)
             {| MENU_DAYS := dict_set site_id rows (MENU_DAYS s) |}).
    + unfold menu_rows; cbn. by rewrite dict_get_set_eq.
    + by apply refreshed_sites_have_rows_days.
Qed.

Lemma persist_menu_days_keeps s s' r :
  refreshed_sites_have_rows s -> persist_menu_days s = (s', r) ->
  refreshed_sites_have_rows s'.
Proof. intros Hs [= <- _]. done. Qed.

Lemma load_menu_data_keeps today s s' r :
  refreshed_sites_have_rows s -> load_menu_data today s = (s', r) ->
  refreshed_sites_have_rows s'.
Proof.
  intros Hs Hrun. unfold load_menu_data in Hrun.
  unfold mbind at 1, MM_bind at 1, mm_get at 1 in Hrun.
  destruct (MENU_DATA_LOADED s); [by injection Hrun as <- _|].
  unfold mbind at 1, MM_bind at 1 in Hrun.
  match type of Hrun with
  | (let (_, _) := ?m s in _) = _ => destruct (m s) as [s1 ensure_save] eqn:Hfirst
  end.
  assert (Hs1 : refreshed_sites_have_rows s1).
  { destruct (MENU_DATA_FILE s) as [| | |payload] eqn:Hfile.
    - by injection Hfirst as <- _.
    - by injection Hfirst as <- _.
    - cbn in Hfirst. by injection Hfirst as <- _.
    - unfold mbind at 1, MM_bind at 1, mm_lift at 1 in Hfirst.
      destruct (json_get "version" JsNull payload) as [version|];
        [|by injection Hfirst as <- _].
      destruct (json_eq_int version MENU_DATA_VERSION); [|by injection Hfirst as <- _].
      unfold mbind at 1, MM_bind at 1, mm_lift at 1 in Hfirst.
      destruct (json_get "sites" (JsObj []) payload) as [sites_payload|];
        [|by injection Hfirst as <- _].
      unfold mbind at 1, MM_bind at 1, mm_lift at 1 in Hfirst.
      destruct (json_get "refreshed_at" (JsObj []) payload) as [refreshed_map|];
        [|by injection Hfirst as <- _].
      by eapply load_sites_keeps. }
  destruct ensure_save as [[]|]; [| |by injection Hrun as <- _].
  - unfold mbind at 1, MM_bind at 1 in Hrun.
    unfold mbind at 1, MM_bind at 1 in Hrun.
    destruct (regenerate_sites today SITE_IDS s1) as [s2 [[]|]] eqn:Hregen.
    + pose proof (regenerate_sites_keeps _ _ _ _ _ Hs1 Hregen) as Hs2.
      unfold persist_menu_days, write_menu_file in Hrun. mm_simpl_in Hrun.
      by injection Hrun as <- _.
    + injection Hrun as <- _. by eapply regenerate_sites_keeps.
  - mm_simpl_in Hrun. by injection Hrun as <- _.
Qed.

Lemma ensure_menu_days_current_keeps site_id today s s' r :
  refreshed_sites_have_rows s ->
  ensure_menu_days_current site_id today s = (s', r) ->
  refreshed_sites_have_rows s' /\ (r = Some tt -> menu_rows site_id s' <> []).
Proof.
  intros Hs Hrun. unfold ensure_menu_days_current in Hrun.
  unfold mbind at 1, MM_bind at 1 in Hrun.
  destruct (load_menu_data today s) as [s1 [[]|]] eqn:Hload.
  2:{ injection Hrun as <- <-. split; [by eapply load_menu_data_keeps|done]. }
  pose proof (load_menu_data_keeps _ _ _ _ Hs Hload) as Hs1.
  unfold mbind at 1, MM_bind at 1, mm_get at 1 in Hrun.
  destruct (bool_decide (refreshed_at site_id s1 = Some today)) eqn:Hr.
  { injection Hrun as <- <-. split; [done|]. intros _.
    apply bool_decide_eq_true_1 in Hr. by eapply Hs1. }
  fold (kept_rows site_id today s1) in Hrun.
  set (kept := sort_by row_key_le (kept_rows site_id today s1)) in Hrun.
  set (needed := 7 - Z.of_nat (length (sorted_dates kept))) in Hrun.
  unfold mbind at 1, MM_bind at 1 in Hrun.
  assert (Hdone : forall rows, rows <> [] ->
    (_ ← set_menu_days site_id (sort_by row_key_le rows);
     _ ← set_refreshed_at site_id (Some today);
     persist_menu_days) s1 = (s', r) ->
    refreshed_sites_have_rows s' /\ (r = Some tt -> menu_rows site_id s' <> [])).
  { intros rows Hrows Hset. unfold persist_menu_days, write_menu_file in Hset.
    mm_simpl_in Hset. injection Hset as <- <-.
    assert (Hsorted : sort_by row_key_le rows <> []).
    { intros Hnil. pose proof (sort_by_perm row_key_le rows) as Hp.
      rewrite Hnil in Hp. apply Permutation_nil_l in Hp. done. }
    split.
    - apply (refreshed_sites_have_rows_step site_id (sort_by row_key_le rows) s1);
        [done|done| |done]. right. by eexists.
    - intros _. unfold menu_rows; cbn. by rewrite dict_get_set_eq. }
  destruct (0 <? needed) eqn:Hneeded.
  - unfold mbind at 1, MM_bind at 1, mm_lift at 1 in Hrun.
    destruct (match last (sorted_dates kept) with
              | None => Some today
              | Some day => date_add_days day 1
              end) as [start_date|]; [|by injection Hrun as <- <-].
    unfold mbind at 1, MM_bind at 1, mm_lift at 1 in Hrun.
    destruct (generate_menu_plan site_id start_date needed) as [more|] eqn:Hmore;
      [|by injection Hrun as <- <-].
    cbn [mret MM_ret] in Hrun. apply (Hdone (kept ++ more)); [|done].
    apply Z.ltb_lt in Hneeded.
    pose proof (generate_menu_plan_nonempty site_id start_date needed more
                  ltac:(unfold needed in *; lia) Hmore) as Hne.
    by destruct kept, more.
  - cbn [mret MM_ret] in Hrun. apply (Hdone kept); [|done].
    apply Z.ltb_ge in Hneeded. intros Hnil. unfold needed in Hneeded.
    rewrite Hnil in Hneeded. cbn in Hneeded. lia.
Qed.

Lemma update_menu_status_keeps site_id today target_date status service_slot s s' r :
  refreshed_sites_have_rows s ->
  update_menu_status site_id today target_date status service_slot s = (s', r) ->
  refreshed_sites_have_rows s'.
Proof.
  intros Hs Hrun. unfold update_menu_status in Hrun.
  unfold mbind at 1, MM_bind at 1 in Hrun.
  destruct (ensure_menu_days_current site_id today s) as [s1 [[]|]] eqn:Hensure.
  2:{ injection Hrun as <- _. by eapply ensure_menu_days_current_keeps. }
  destruct (ensure_menu_days_current_keeps _ _ _ _ _ Hs Hensure) as [Hs1 Hrows].
  specialize (Hrows eq_refl).
  unfold mbind at 1, MM_bind at 1, mm_get at 1 in Hrun.
  destruct (existsb _ _); [|by injection Hrun as <- _].
  unfold persist_menu_days, write_menu_file in Hrun. mm_simpl_in Hrun.
  injection Hrun as <- _.
  eapply (refreshed_sites_have_rows_step site_id _ s1); [|done|by left|done].
  by destruct (menu_rows site_id s1).
Qed.

Lemma get_current_menu_day_found site_id today target_date service_slot s s' menu :
  refreshed_sites_have_rows s ->
  get_current_menu_day site_id today target_date service_slot s = (s', Some menu) ->
  exists m,
    menu = Some m /\ m ∈ menu_rows site_id s'
    /\ (has_day site_id (default today target_date) s' ->
        MenuDay.date m = default today target_date)
    /\ (~ has_day site_id (default today target_date) s' ->
        head (menu_rows site_id s') = Some m).
Proof.
  intros Hs Hrun. unfold get_current_menu_day in Hrun.
  unfold mbind at 1, MM_bind at 1 in Hrun.
  destruct (ensure_menu_days_current site_id today s) as [s1 [[]|]] eqn:Hensure; [|done].
  destruct (ensure_menu_days_current_keeps _ _ _ _ _ Hs Hensure) as [Hs1 Hrows].
  specialize (Hrows eq_refl). mm_simpl_in Hrun. injection Hrun as <- <-.
  set (target := default today target_date).
  match goal with
  | |- context [match ?o with Some _ => _ | None => _ end] =>
      destruct o as [m|] eqn:Hslot
  end.
  - exists m. destruct service_slot as [slot|]; [|done].
    destruct (String.eqb slot ""); [done|]. apply find_elem_of in Hslot as [Hin HP].
    apply andb_true_iff in HP as [HP%Z.eqb_eq _].
    split; [done|]. split; [done|]. split; [done|].
    intros Hnone. destruct Hnone. by exists m.
  - destruct (List.find _ _) as [m|] eqn:Hfind.
    + exists m. apply find_elem_of in Hfind as [Hin HP%Z.eqb_eq].
      split; [done|]. split; [done|]. split; [done|].
      intros Hnone. destruct Hnone. by exists m.
    + destruct (menu_rows site_id s1) as [|m rows] eqn:Hall; [done|].
      exists m. split; [done|]. split; [apply list_elem_of_here|]. split; [|done].
      intros (m' & Hm' & Hd'). rewrite Hall in Hm'.
      pose proof (find_none _ _ Hfind m' (proj1 (list_elem_of_In _ _) Hm')) as Hno.
      apply Z.eqb_neq in Hno. done.
Qed.

Lemma ensure_effect_keeps site_id today s :
  refreshed_sites_have_rows s ->
  refreshed_sites_have_rows (ensure_menu_days_current site_id today s).1.
Proof.
  intros Hs. destruct (ensure_menu_days_current site_id today s) eqn:Hrun.
  by eapply ensure_menu_days_current_keeps.
Qed.

Lemma update_effect_keeps site_id today target_date status service_slot s :
  refreshed_sites_have_rows s ->
  refreshed_sites_have_rows
    (update_menu_status site_id today target_date status service_slot s).1.
Proof.
  intros Hs. destruct (update_menu_status _ _ _ _ _ s) eqn:Hrun.
  by eapply update_menu_status_keeps.
Qed.

Lemma get_current_menu_day_effect site_id today target_date service_slot s :
  (get_current_menu_day site_id today target_date service_slot s).1
  = (ensure_menu_days_current site_id today s).1.
Proof.
  unfold get_current_menu_day. unfold mbind at 1, MM_bind at 1.
  by destruct (ensure_menu_days_current site_id today s) as [s1 [[]|]].
Qed.

Lemma get_menu_days_for_date_effect site_id today target_date s :
  (get_menu_days_for_date site_id today target_date s).1
  = (ensure_menu_days_current site_id today s).1.
Proof.
  unfold get_menu_days_for_date. unfold mbind at 1, MM_bind at 1.
  by destruct (ensure_menu_days_current site_id today s) as [s1 [[]|]].
Qed.

Lemma resolve_display_dish_effect dish_name portion_grams site_id today service_date s :
  (resolve_display_dish dish_name portion_grams site_id today service_date s).1
  = (ensure_menu_days_current site_id today s).1.
Proof.
  rewrite <- (get_current_menu_day_effect site_id today (Some service_date)
                (Some PRIMARY_SERVICE_SLOT)).
  unfold resolve_display_dish. unfold mbind at 1, MM_bind at 1.
  destruct (get_current_menu_day _ _ _ _ s) as [s1 [[m|]|]]; [|by destruct (dict_get _ _)|done].
  by destruct (String.eqb _ _).
Qed.

Lemma build_menu_rows_effect site_id today s :
  (build_menu_rows site_id today s).1 = (ensure_menu_days_current site_id today s).1.
Proof.
  unfold build_menu_rows. unfold mbind at 1, MM_bind at 1.
  by destruct (ensure_menu_days_current site_id today s) as [s1 [[]|]].
Qed.

Lemma build_alerts_effect site_id today s :
  (build_alerts site_id today s).1 = (ensure_menu_days_current site_id today s).1.
Proof.
  unfold build_alerts. unfold mbind at 1, MM_bind at 1.
  by destruct (ensure_menu_days_current site_id today s) as [s1 [[]|]].
Qed.

Lemma manager_swap_keeps status site_id today payload s :
  refreshed_sites_have_rows s ->
  refreshed_sites_have_rows (manager_swap status site_id today payload s).1.
Proof.
  intros Hs. unfold manager_swap.
  unfold mbind at 1, MM_bind at 1, mm_lift at 1.
  destruct payload as [payload|]; [|done].
  unfold mbind at 1, MM_bind at 1, mm_lift at 1.
  destruct (match payload with
            | JsObj items =>
                match dict_get "date" items with
                | Some (JsStr text) => date_fromisoformat text
                | _ => None
                end
            | _ => None
            end) as [target|]; [|done].
  unfold mbind at 1, MM_bind at 1, mm_lift at 1.
  destruct (json_get "service_slot" JsNull payload) as [service_slot|]; [|done].
  by apply update_effect_keeps.
Qed.

Lemma menu_call_effect_keeps site_id today call s :
  refreshed_sites_have_rows s ->
  refreshed_sites_have_rows (menu_call_effect site_id today call s).
Proof.
  intros Hs. destruct call; cbn [menu_call_effect].
  - destruct (load_menu_data today s) eqn:Hrun. by eapply load_menu_data_keeps.
  - by apply ensure_effect_keeps.
  - rewrite get_current_menu_day_effect. by apply ensure_effect_keeps.
  - rewrite get_menu_days_for_date_effect. by apply ensure_effect_keeps.
  - by apply update_effect_keeps.
  - rewrite resolve_display_dish_effect. by apply ensure_effect_keeps.
  - rewrite build_menu_rows_effect. by apply ensure_effect_keeps.
  - rewrite build_alerts_effect. by apply ensure_effect_keeps.
  - unfold api_manager_send_menu_to_jamix. cbv zeta.
    set (body := match payload with
                 | Some v => if json_truthy v then v else JsObj []
                 | None => JsObj []
                 end).
    unfold mbind at 1, MM_bind at 1, mm_lift at 1.
    destruct (json_get "date" JsNull body) as [day_str|]; [|done].
    unfold mbind at 1, MM_bind at 1, mm_lift at 1.
    destruct (json_get "service_slot" JsNull body) as [service_slot|]; [|done].
    destruct (json_truthy day_str); [|done].
    unfold mbind at 1, MM_bind at 1, mm_lift at 1.
    destruct (match day_str with JsStr text => date_fromisoformat text | _ => None end)
      as [target|]; [|done].
    by apply update_effect_keeps.
  - by apply (manager_swap_keeps "approved").
  - by apply (manager_swap_keeps "ignored").
Qed.

Lemma menu_reachable_have_rows s : menu_reachable s -> refreshed_sites_have_rows s.
Proof.
  induction 1 as [file|site_id today call s _ IH].
  - intros site_id day Hday. done.
  - by apply menu_call_effect_keeps.
Qed.

(** X28: in every store the calendar's functions can reach from a new
    process, whatever the menu file holds, [resolve_display_dish] finds a
    menu row when it returns: the dish is the recommended dish of that row
    when its status is [approved] and its planned main dish otherwise, never
    the dish of the site configuration. The row is of the service date when
    the calendar has one, and the first row of the calendar, of another day,
    when it has none. It holds when a text that is not empty has
    characters. *)
Theorem X28_a_menu_row_is_always_found (dish_name : string) (portion_grams : Z)
    (site_id : string) (today service_date : Z) (s s' : MenuStore)
    (dish : Dish.t) (menu : option MenuDay.t) :
  menu_reachable s ->
  resolve_display_dish dish_name portion_grams site_id today service_date s
  = (s', Some (dish, menu)) ->
  exists m,
    menu = Some m /\ m ∈ menu_rows site_id s'
    /\ dish = (if String.eqb (MenuDay.swap_status m) "approved"
               then MenuDay.recommended_dish m else MenuDay.main_dish_planned m)
    /\ (has_day site_id service_date s' -> MenuDay.date m = service_date)
    /\ (~ has_day site_id service_date s' -> head (menu_rows site_id s') = Some m).
Proof.
  intros Hreach Hrun. apply menu_reachable_have_rows in Hreach.
  unfold resolve_display_dish in Hrun. unfold mbind at 1, MM_bind at 1 in Hrun.
  destruct (get_current_menu_day _ _ _ _ s) as [s1 [found|]] eqn:Hget; [|done].
  destruct (get_current_menu_day_found _ _ _ _ _ _ _ Hreach Hget)
    as (m & -> & Hm & Hday & Hnone).
  exists m. destruct (String.eqb (MenuDay.swap_status m) "approved");
    by injection Hrun as <- <- <-.
Qed.

End NeverEmpty.

(** ** The further properties on the sample requests *)

(** X1 on the sample world: a rating of 7 and one of 0.5 are turned down,
    a rating of [null] raises, and the world stays as it was. *)
Lemma X1_witness :
  api_feedback (B := sample_builtins) sample_env DEFAULT_SITE_ID (rating_body (JsInt 7))
    sample_world
  = (sample_world, Some RInvalid)
  /\ api_feedback (B := sample_builtins) sample_env DEFAULT_SITE_ID
       (rating_body (JsFloat 0.5)) sample_world
     = (sample_world, Some RInvalid)
  /\ api_feedback (B := sample_builtins) sample_env DEFAULT_SITE_ID (rating_body JsNull)
       sample_world
     = (sample_world, None).
Proof.
  destruct (X1_invalid_feedback_changes_nothing (B := sample_builtins) sample_env
              DEFAULT_SITE_ID sample_world)
    as (Hrating & Hraise & _ & _ & _ & _ & _ & Hsame).
  rewrite <- (Hsame sample_session sample_session_there) at 2 4 6.
  split; [|split].
  - apply (Hrating (rating_body (JsInt 7)) 7); [reflexivity|lia|lia|lia].
  - apply (Hrating (rating_body (JsFloat 0.5)) 0); [by vm_compute|lia|lia|lia].
  - apply (Hraise (rating_body JsNull)). reflexivity.
Defined.

(** X2 on the sample world: a rating of 3 becomes the thirteenth score. *)
Lemma X2_witness :
  exists w' d',
    api_feedback (B := sample_builtins) sample_env DEFAULT_SITE_ID (rating_body (JsInt 3))
      sample_world
    = (w', Some (RRating 3))
    /\ session w' (DEFAULT_SITE_ID, today sample_env) = Some d'
    /\ ServiceDay.feedback_scores d' = [3; 3; 2; 3; 3; 1; 3; 2; 3; 2; 3; 3; 3].
Proof.
  destruct (X2_rating_recorded (B := sample_builtins) sample_env DEFAULT_SITE_ID
              (rating_body (JsInt 3)) 3
              sample_world sample_session sample_session_there eq_refl ltac:(lia))
    as (w' & d' & Hrun & Hd' & _ & Hscores & _).
  exists w', d'. split; [exact Hrun|]. split; [exact Hd'|].
  rewrite Hscores. by vm_compute.
Defined.

(** X3 on the sample world with a store: after a rating of 3 the engine
    reads the store's [1; 3], not the thirteen scores in memory. *)
Lemma X3_witness :
  exists w1 w2,
    api_feedback (B := sample_builtins) sample_env DEFAULT_SITE_ID (rating_body (JsInt 3))
      sample_world_with_store
    = (w1, Some (RRating 3))
    /\ get_feedback_scores sample_env (DEFAULT_SITE_ID, today sample_env) w1
       = (w2, Some [1; 3]).
Proof.
  destruct (proj1 (X3_stored_ratings_override_memory (B := sample_builtins) sample_env
                     DEFAULT_SITE_ID (rating_body (JsInt 3)) 3 sample_world_with_store
                     sample_session ltac:(by vm_compute) eq_refl ltac:(lia))
              _ eq_refl eq_refl)
    as (w1 & w2 & d2 & Hrun & Hread & _).
  exists w1, w2. split; [exact Hrun|]. rewrite Hread. by vm_compute.
Defined.

(** X4 on the sample world: two done requests with the matching payload
    take the pan from 46% to 75% and on to 100%. *)
Lemma X4_witness :
  exists w1 w2,
    api_done (B := sample_builtins) sample_env DEFAULT_SITE_ID matching_payload sample_world
    = (w1, Some (RPan 75))
    /\ api_done (B := sample_builtins) sample_env DEFAULT_SITE_ID matching_payload w1
       = (w2, Some (RPan 100)).
Proof.
  destruct (X4_done_is_repeatable (B := sample_builtins) sample_env DEFAULT_SITE_ID
              matching_payload sample_world sample_session sample_card
              sample_session_there ltac:(by vm_compute) ltac:(by vm_compute)
              ltac:(by vm_compute))
    as (pan1 & pan2 & w1 & w2 & d2 & Hrun1 & Hrun2 & Hadj1 & Hadj2 & _).
  assert (pan1 = 75) as -> by (vm_compute in Hadj1; congruence).
  assert (pan2 = 100) as -> by (vm_compute in Hadj2; congruence).
  exists w1, w2. split; [exact Hrun1|exact Hrun2].
Defined.

(** X5 on the sample world: a request for wave 1 while the card is for
    wave 2 is stale. *)
Lemma X5_witness :
  api_done (B := sample_builtins) sample_env DEFAULT_SITE_ID stale_payload sample_world
  = (sample_world, Some RStale).
Proof.
  destruct (X5_done_and_skip_turned_down (B := sample_builtins) sample_env DEFAULT_SITE_ID
              stale_payload sample_world sample_session sample_session_there)
    as (_ & Hwave & _).
  apply (Hwave sample_card 1); by vm_compute.
Defined.

(** X6: 2000 grams at a pan of 30% are at least as urgent as nothing at
    80%. *)
Lemma X6_witness : urgency (signal_level 0 80) <= urgency (signal_level 2000 30).
Proof. apply X6_signal_level_monotone; lia. Defined.


(** X8 on the one sample answer sheet. *)
Lemma X8_witness :
  compute_feedback_demand_multiplier (B := sample_builtins) 0 [3; 3; 2] sample_entries
  = compute_feedback_demand_multiplier (B := sample_builtins) 0 [3; 3; 2]
      (last_n 160 sample_entries).
Proof.
  apply X8_newest_160_entries_count.
  constructor; [by vm_compute|constructor].
Defined.

(** X9 on the ratings 3, 1, 2. *)
Lemma X9_witness :
  exists r, compute_satisfaction_percent [3; 1; 2] = Some (Some r) /\ 33 <= r <= 100.
Proof.
  destruct (X9_satisfaction_of_ratings [3; 1; 2] ltac:(done) ltac:(simpl; lia)
              ltac:(repeat constructor; lia))
    as (r & Hr & Hrange & _).
  by exists r.
Defined.

(** X10 on the ratings 3, 1, 2. *)
Lemma X10_witness :
  exists m,
    compute_feedback_demand_multiplier (B := sample_builtins) 0 [3; 1; 2] [] = Some m
    /\ PrimFloat.leb 0.92 m = true /\ PrimFloat.leb m 1.08 = true.
Proof.
  destruct (proj2 (X10_multiplier_of_ratings_alone (B := sample_builtins) 0 [3; 1; 2])
              ltac:(done) ltac:(simpl; lia) ltac:(repeat constructor; lia))
    as (m & Hm & Hlow & Hhigh & _).
  by exists m.
Defined.

(** X11 at 15 predicted diners and a pan of 60%. *)
Lemma X11_witness :
  exists g, compute_suggested_grams 15 60 160 20 = Some g /\ g = exact_grams 15 60.
Proof.
  destruct (X11_suggested_grams_within_a_gram 15 60 ltac:(lia) ltac:(lia))
    as (g & Hg & _ & _ & Hwhole & _).
  exists g. split; [exact Hg|]. by apply Hwhole.
Defined.

Lemma polled_world_reachable : reachable (B := sample_builtins) polled_world.
Proof.
  apply (reachable_step sample_env DEFAULT_SITE_ID OpState empty_world polled_world
           (run_op (B := sample_builtins) sample_env DEFAULT_SITE_ID OpState empty_world).2);
    [apply reachable_start|].
  apply surjective_pairing.
Qed.

(** X12 on the world after the first poll. *)
Lemma X12_witness :
  (length (ServiceDay.feedback_scores
             (default sample_session (session polled_world sample_key))) <= 100)%nat.
Proof.
  apply (X12_histories_stay_within_caps (B := sample_builtins) polled_world sample_key
           (default sample_session (session polled_world sample_key))
           polled_world_reachable).
  by vm_compute.
Defined.

(** X13 on the refilled sample world: the poll takes the pan from 75% to
    55% and leaves the 148 diners. *)
Lemma X13_witness :
  exists w' state d',
    compute_current_state (B := sample_builtins) sample_env DEFAULT_SITE_ID refilled_world
    = (w', Some state)
    /\ session w' (DEFAULT_SITE_ID, today sample_env) = Some d'
    /\ ServiceDay.diners_so_far d' = 148
    /\ ServiceDay.pan_fill_percent d' = 55.
Proof.
  destruct (compute_current_state (B := sample_builtins) sample_env DEFAULT_SITE_ID
              refilled_world) as [w' [state|]] eqn:Hrun;
    [|vm_compute in Hrun; discriminate].
  destruct (X13_recomputation_keeps_counters (B := sample_builtins) sample_env
              DEFAULT_SITE_ID refilled_world w' state
              (default sample_session (session refilled_world sample_key))
              ltac:(by vm_compute) Hrun)
    as (d' & Hd' & Hdiners & _ & _ & Hpan & _).
  exists w', state, d'. split; [done|]. split; [exact Hd'|].
  split; [rewrite Hdiners|rewrite Hpan]; by vm_compute.
Defined.

(** X14 on the refilled sample world: the card of wave 2 is done, and the
    poll for wave 2 stores a card that is done. *)
Lemma X14_witness :
  exists w' state,
    compute_current_state (B := sample_builtins) sample_env DEFAULT_SITE_ID refilled_world
    = (w', Some state)
    /\ DecisionCard.status (StateSnapshot.last_decision state) = done_.
Proof.
  destruct (compute_current_state (B := sample_builtins) sample_env DEFAULT_SITE_ID
              refilled_world) as [w' [state|]] eqn:Hrun;
    [|vm_compute in Hrun; discriminate].
  destruct (X14_recomputation_carries_card_status (B := sample_builtins) sample_env
              DEFAULT_SITE_ID refilled_world w' state
              (default sample_session (session refilled_world sample_key))
              ltac:(by vm_compute) Hrun)
    as (_ & _ & Hstatus & _).
  exists w', state. split; [done|]. rewrite Hstatus. by vm_compute.
Defined.

Lemma served_session_there served :
  session (served_world served) (DEFAULT_SITE_ID, today sample_env_after_lunch)
  = Some (ServiceDay.set_diners_so_far served sample_session).
Proof. unfold session, served_world. cbn [SERVICE_DAYS]. apply lookup_singleton_eq. Qed.

(** X15 in demo mode after lunch: with 358 of the 360 diners served the
    poll predicts at least 14 diners; with all 360 served it predicts the
    forecaster's 7. *)
Lemma X15_witness :
  (exists w' state,
     compute_current_state (B := sample_builtins) sample_env_after_lunch DEFAULT_SITE_ID
       (served_world 358)
     = (w', Some state)
     /\ 14 <= StateSnapshot.predicted_diners_next_wave state)
  /\ (exists w' state,
        compute_current_state (B := sample_builtins) sample_env_after_lunch DEFAULT_SITE_ID
          (served_world 360)
        = (w', Some state)
        /\ predict_next_wave 3 (ServiceDay.set_diners_so_far 360 sample_session) 4
             (StateSnapshot.feedback_multiplier state)
           = Some (StateSnapshot.predicted_diners_next_wave state)
        /\ StateSnapshot.predicted_diners_next_wave state = 7).
Proof.
  split.
  - destruct (compute_current_state (B := sample_builtins) sample_env_after_lunch
                DEFAULT_SITE_ID (served_world 358)) as [w' [state|]] eqn:Hrun;
      [|vm_compute in Hrun; discriminate].
    destruct (X15_forecast_of_a_recomputation (B := sample_builtins) sample_env_after_lunch
                DEFAULT_SITE_ID (served_world 358) w' state _
                (served_session_there 358) Hrun)
      as (_ & _ & Hfloor & _).
    exists w', state. split; [reflexivity|]. apply Hfloor; by vm_compute.
  - destruct (compute_current_state (B := sample_builtins) sample_env_after_lunch
                DEFAULT_SITE_ID (served_world 360)) as [w' [state|]] eqn:Hrun;
      [|vm_compute in Hrun; discriminate].
    destruct (X15_forecast_of_a_recomputation (B := sample_builtins) sample_env_after_lunch
                DEFAULT_SITE_ID (served_world 360) w' state _
                (served_session_there 360) Hrun)
      as (_ & _ & _ & Hraw & _).
    specialize (Hraw eq_refl ltac:(by vm_compute)).
    exists w', state. split; [reflexivity|]. split; [exact Hraw|].
    vm_compute in Hrun. injection Hrun as _ <-. reflexivity.
Defined.

(** X16 on the configured site. *)
Lemma X16_witness : get_wave_template sample_day flavoria_schedule = Some flavoria_waves.
Proof.
  apply (X16_wave_template_shape sample_day flavoria_schedule); by vm_compute.
Defined.

(** X17 on the configured site: a quarter past noon is in wave 2. *)
Lemma X17_witness :
  get_current_wave_index sample_day quarter_past_noon flavoria_schedule = Some 2.
Proof.
  destruct (X17_current_wave_index sample_day quarter_past_noon flavoria_schedule
              ltac:(by vm_compute) ltac:(by vm_compute))
    as (_ & _ & Hflavoria).
  destruct Hflavoria as (Hidx & _); [by vm_compute|]. exact Hidx.
Defined.

(** X18 on the configured site: a quarter past noon the engine prepares
    wave 3, and lunch is not finished. *)
Lemma X18_witness :
  schedule_target sample_day quarter_past_noon flavoria_schedule [] = Some (3, false).
Proof.
  destruct (X18_target_wave_of_the_configured_site sample_day quarter_past_noon []
              ltac:(by vm_compute) ltac:(by left))
    as (Htarget & _).
  exact Htarget.
Defined.

(** ** The calendar properties on the sample calendar *)

Lemma append_not_empty (a b : string) : b <> "" -> a +:+ b <> "".
Proof. intros Hb. destruct a; [done|]. cbn. discriminate. Qed.

Lemma decimal_digits_not_empty fuel z : decimal_digits (S fuel) z <> "".
Proof. cbn [decimal_digits]. apply append_not_empty. discriminate. Qed.

Lemma sample_lower_keeps_dish_ids : lower_keeps_dish_ids (MB := sample_menu_builtins).
Proof. unfold lower_keeps_dish_ids. repeat (constructor; [reflexivity|]). constructor. Qed.

Lemma sample_repr_not_empty : repr_not_empty (B := calendar_builtins).
Proof.
  intros v. destruct v; cbn; try discriminate.
  - by destruct b.
  - unfold decimal_text. destruct (z <? 0).
    + apply append_not_empty. apply decimal_digits_not_empty.
    + apply decimal_digits_not_empty.
Qed.

Lemma sample_chars_not_empty : chars_not_empty (MB := sample_menu_builtins).
Proof. intros text Htext. by destruct text. Qed.

Lemma may_2_store_made :
  Forall (made_row (B := calendar_builtins) (MB := sample_menu_builtins))
    (menu_rows DEFAULT_SITE_ID may_2_store).
Proof.
  apply Forall_forall. intros m Hm.
  apply (made_generated DEFAULT_SITE_ID may_2 7 (menu_rows DEFAULT_SITE_ID may_2_store) m);
    [vm_compute; reflexivity|exact Hm].
Qed.

Lemma may_2_store_week :
  Forall (fun m => may_2 <= MenuDay.date m < may_2 + 7)
    (menu_rows DEFAULT_SITE_ID may_2_store).
Proof.
  assert (Hcheck : forallb (fun m => (may_2 <=? MenuDay.date m)
                                     && (MenuDay.date m <? may_2 + 7))
                     (menu_rows DEFAULT_SITE_ID may_2_store) = true)
    by (vm_compute; reflexivity).
  apply Forall_forall. intros m Hm.
  pose proof (proj1 (forallb_forall _ _) Hcheck m (proj1 (list_elem_of_In _ _) Hm)) as Hc.
  apply andb_true_iff in Hc as [H1%Z.leb_le H2%Z.ltb_lt]. done.
Qed.

Lemma may_2_store_dates :
  Forall (fun m => date_round_trips (MB := sample_menu_builtins) (MenuDay.date m))
    (menu_rows DEFAULT_SITE_ID may_2_store).
Proof.
  assert (Hweek : forall day, may_2 <= day < may_2 + 7 ->
            date_round_trips (MB := sample_menu_builtins) day).
  { intros day Hday. unfold may_2 in Hday.
    assert (Hcases : day = 739008 \/ day = 739009 \/ day = 739010 \/ day = 739011
                     \/ day = 739012 \/ day = 739013 \/ day = 739014) by lia.
    destruct Hcases as [->|[->|[->|[->|[->|[->| ->]]]]]]; by split. }
  eapply Forall_impl; [exact may_2_store_week|]. intros m Hm. by apply Hweek.
Qed.

(** X19 on the week from 2 May. *)
Lemma X19_witness :
  exists days_rows : list (list MenuDay.t),
    generate_menu_plan DEFAULT_SITE_ID may_2 7 = Some (concat days_rows)
    /\ Z.of_nat (length days_rows) = 7
    /\ forall (i : nat) day_rows, days_rows !! i = Some day_rows ->
         day_shape day_rows = true
         /\ Forall (fun m => MenuDay.date m = may_2 + Z.of_nat i) day_rows.
Proof.
  apply (X19_generated_plan_shape DEFAULT_SITE_ID may_2 7); [by vm_compute|lia|by vm_compute].
Defined.

(** X20 on the first row of the sample calendar. *)
Lemma X20_witness :
  exists m,
    head (menu_rows DEFAULT_SITE_ID may_2_store) = Some m
    /\ menu_day_from_dict (B := calendar_builtins) (MB := sample_menu_builtins)
         (menu_day_to_dict (MB := sample_menu_builtins) m) = Some m.
Proof.
  destruct (menu_rows DEFAULT_SITE_ID may_2_store) as [|m rows] eqn:Hrows;
    [vm_compute in Hrows; discriminate Hrows|].
  exists m. split; [reflexivity|].
  pose proof may_2_store_made as Hmade. pose proof may_2_store_dates as Hdates.
  rewrite Hrows in Hmade, Hdates.
  apply Forall_cons in Hmade as [Hmade _]. apply Forall_cons in Hdates as [Hdates _].
  exact (X20_made_rows_survive_the_file (B := calendar_builtins) (MB := sample_menu_builtins)
           m sample_lower_keeps_dish_ids sample_repr_not_empty Hmade Hdates).
Defined.

(** X21 on the sample calendar: written and loaded again by a new process,
    whatever the day. *)
Lemma X21_witness :
  load_menu_data (B := calendar_builtins) (MB := sample_menu_builtins) may_4
    (restart (persist_menu_days (MB := sample_menu_builtins) may_2_store).1)
  = ({| MENU_DAYS := [(DEFAULT_SITE_ID, menu_rows DEFAULT_SITE_ID may_2_store)];
        MENU_DAYS_REFRESHED_AT := [(DEFAULT_SITE_ID, Some may_2)];
        MENU_DATA_LOADED := true;
        MENU_DATA_FILE :=
          MENU_DATA_FILE (persist_menu_days (MB := sample_menu_builtins) may_2_store).1 |},
     Some tt).
Proof.
  apply (X21_restart_restores_the_configured_site (B := calendar_builtins)
           (MB := sample_menu_builtins) may_2_store _ may_4
           sample_lower_keeps_dish_ids sample_repr_not_empty).
  - vm_compute. discriminate.
  - apply may_2_store_made.
  - apply may_2_store_dates.
  - intros day Hday. vm_compute in Hday. injection Hday as <-.
    split; [vm_compute; discriminate|vm_compute; reflexivity].
  - reflexivity.
Defined.

(** X22 on a process without a menu file. *)
Lemma X22_witness :
  exists rows s',
    generate_menu_plan DEFAULT_SITE_ID may_2 7 = Some rows
    /\ load_menu_data (B := calendar_builtins) (MB := sample_menu_builtins) may_2
         new_menu_store = (s', Some tt)
    /\ MENU_DAYS s' = dict_set DEFAULT_SITE_ID rows []
    /\ MENU_DAYS_REFRESHED_AT s' = dict_set DEFAULT_SITE_ID (Some may_2) []
    /\ MENU_DATA_LOADED s' = true
    /\ MENU_DATA_FILE s' = FileJson (menu_data (MB := sample_menu_builtins) s').
Proof.
  apply (X22_unusable_file_gives_a_fresh_week (B := calendar_builtins)
           (MB := sample_menu_builtins) new_menu_store may_2);
    [done|by left|by vm_compute|by vm_compute].
Defined.

(** X23 on a menu file that holds a JSON list. *)
Lemma X23_witness :
  build_menu_rows (B := calendar_builtins) (MB := sample_menu_builtins)
    DEFAULT_SITE_ID may_2 broken_menu_store
  = (broken_menu_store, None).
Proof.
  apply (X23_broken_file_fails_every_call (B := calendar_builtins)
           (MB := sample_menu_builtins) broken_menu_store eq_refl).
  right. exists (JsList [JsInt 3]). by split.
Defined.

(** X24 on the sample calendar two days later: the rows of 2 and 3 May are
    gone, two days are added, and the rows of 4 May are kept. *)
Lemma X24_witness :
  refreshed_at DEFAULT_SITE_ID may_4_store = Some may_4
  /\ in_order row_key_le (menu_rows DEFAULT_SITE_ID may_4_store) = true
  /\ Forall (fun m => may_4 <= MenuDay.date m) (menu_rows DEFAULT_SITE_ID may_4_store)
  /\ (7 <= length (sorted_dates (menu_rows DEFAULT_SITE_ID may_4_store)))%nat.
Proof.
  assert (Hrun : ensure_menu_days_current (B := calendar_builtins)
                   (MB := sample_menu_builtins) DEFAULT_SITE_ID may_4 may_2_store
                 = (may_4_store, Some tt)) by (vm_compute; reflexivity).
  assert (Hat : refreshed_at DEFAULT_SITE_ID may_2_store <> Some may_4)
    by (vm_compute; discriminate).
  pose proof (X24_refresh_of_the_calendar (B := calendar_builtins)
                (MB := sample_menu_builtins) DEFAULT_SITE_ID may_4 may_2_store may_4_store
                eq_refl Hat Hrun) as (H1 & H2 & H3 & H4 & _).
  exact (conj H1 (conj H2 (conj H3 H4))).
Defined.

Lemma may_2_store_has_may_3 : has_day DEFAULT_SITE_ID may_3 may_2_store.
Proof.
  assert (Hfind : is_Some (List.find (fun m => MenuDay.date m =? may_3)
                             (menu_rows DEFAULT_SITE_ID may_2_store)))
    by (vm_compute; eexists; reflexivity).
  destruct Hfind as [m Hm]. apply find_elem_of in Hm as [Hin Hdate%Z.eqb_eq].
  by exists m.
Qed.

Lemma may_3_body_for_day : body_for_day (MB := sample_menu_builtins) may_3_body may_3.
Proof. split; [|done]. by exists "2024-05-03". Qed.

(** X25 on the sample calendar: after the swap of 3 May is approved, the
    dish shown for 3 May is the recommended one. *)
Lemma X25_witness :
  exists s1 m,
    api_manager_approve_swap (B := calendar_builtins) (MB := sample_menu_builtins)
      DEFAULT_SITE_ID may_2 (Some (JsObj may_3_body)) may_2_store = (s1, Some tt)
    /\ resolve_display_dish (B := calendar_builtins) (MB := sample_menu_builtins)
         "Salmon" 160 DEFAULT_SITE_ID may_2 may_3 s1
       = (s1, Some (MenuDay.recommended_dish m, Some m))
    /\ MenuDay.date m = may_3.
Proof.
  assert (Hat : refreshed_at DEFAULT_SITE_ID may_2_store = Some may_2)
    by (vm_compute; reflexivity).
  destruct (proj1 (X25_decision_changes_the_dish_shown (B := calendar_builtins)
                     (MB := sample_menu_builtins) "Salmon" 160 DEFAULT_SITE_ID may_2
                     may_3_body may_3 may_2_store eq_refl Hat
                     may_3_body_for_day may_2_store_has_may_3))
    as (s1 & m & Hrun & Hdish & _ & Hdate & _).
  exists s1, m. exact (conj Hrun (conj Hdish Hdate)).
Defined.

Lemma may_2_store_iso : iso_singles_out (MB := sample_menu_builtins) may_3
                          (menu_rows DEFAULT_SITE_ID may_2_store).
Proof.
  assert (Hcheck : forallb (fun m => implb (String.eqb (sample_isoformat (MenuDay.date m))
                                                      (sample_isoformat may_3))
                                           (MenuDay.date m =? may_3))
                     (menu_rows DEFAULT_SITE_ID may_2_store) = true)
    by (vm_compute; reflexivity).
  apply Forall_forall. intros m Hm Hiso.
  pose proof (proj1 (forallb_forall _ _) Hcheck m (proj1 (list_elem_of_In _ _) Hm)) as Hc.
  cbn beta in Hc. cbn [date_isoformat sample_menu_builtins] in Hiso.
  rewrite Hiso, String.eqb_refl in Hc.
  by apply Z.eqb_eq.
Qed.

(** X26 on the sample calendar: the three alerts of 2 May are for 3 May,
    and none is left once the swap of 3 May is approved. *)
Lemma X26_witness :
  exists s1,
    api_manager_approve_swap (B := calendar_builtins) (MB := sample_menu_builtins)
      DEFAULT_SITE_ID may_2 (Some (JsObj may_3_body)) may_2_store = (s1, Some tt)
    /\ build_alerts (B := calendar_builtins) (MB := sample_menu_builtins)
         DEFAULT_SITE_ID may_2 s1 = (s1, Some []).
Proof.
  assert (Hat : refreshed_at DEFAULT_SITE_ID may_2_store = Some may_2)
    by (vm_compute; reflexivity).
  assert (Halerts0 : build_alerts (B := calendar_builtins) (MB := sample_menu_builtins)
                       DEFAULT_SITE_ID may_2 may_2_store
                     = (may_2_store, Some may_2_alerts)) by (vm_compute; reflexivity).
  destruct (proj1 (X26_decision_clears_the_alerts_of_the_day (B := calendar_builtins)
                     (MB := sample_menu_builtins) DEFAULT_SITE_ID may_2 may_3_body may_3
                     may_2_store may_2_alerts eq_refl Hat
                     may_3_body_for_day may_2_store_iso Halerts0))
    as (s1 & Hrun & Halerts).
  exists s1. split; [exact Hrun|]. rewrite Halerts. vm_compute. reflexivity.
Defined.

(** X27 on the sample calendar: 49 rows in the calendar, 7 in the table. *)
Lemma X27_witness :
  length (menu_rows DEFAULT_SITE_ID may_2_store) = 49%nat /\ length may_2_table = 7%nat.
Proof.
  split; [vm_compute; reflexivity|].
  assert (Hrun : build_menu_rows (B := calendar_builtins) (MB := sample_menu_builtins)
                   DEFAULT_SITE_ID may_2 may_2_store
                 = (may_2_store, Some may_2_table)) by (vm_compute; reflexivity).
  destruct (X27_menu_table_has_one_row_per_day (B := calendar_builtins)
              (MB := sample_menu_builtins) DEFAULT_SITE_ID may_2 may_2_store may_2_store
              may_2_table Hrun) as [Hlength _].
  rewrite Hlength. vm_compute. reflexivity.
Defined.

Lemma may_2_store_reachable :
  menu_reachable (B := calendar_builtins) (MB := sample_menu_builtins) may_2_store.
Proof.
  assert (Hrun : menu_call_effect (B := calendar_builtins) (MB := sample_menu_builtins)
                   DEFAULT_SITE_ID may_2 CallEnsure new_menu_store = may_2_store)
    by (vm_compute; reflexivity).
  rewrite <- Hrun. apply menu_reachable_call. apply menu_reachable_start.
Qed.

(** X28 on the sample calendar and a day it does not hold, 1 May: the dish
    shown is the salmon of the first row, of 2 May. *)
Lemma X28_witness :
  exists m,
    resolve_display_dish (B := calendar_builtins) (MB := sample_menu_builtins)
      "Salmon" 160 DEFAULT_SITE_ID may_2 (may_2 - 1) may_2_store
    = (may_2_store, Some (dish_or salmon "salmon", Some m))
    /\ m ∈ menu_rows DEFAULT_SITE_ID may_2_store
    /\ MenuDay.date m = may_2.
Proof.
  assert (Hrun : resolve_display_dish (B := calendar_builtins) (MB := sample_menu_builtins)
                   "Salmon" 160 DEFAULT_SITE_ID may_2 (may_2 - 1) may_2_store
                 = (may_2_store, Some (dish_or salmon "salmon",
                                       head (menu_rows DEFAULT_SITE_ID may_2_store))))
    by (vm_compute; reflexivity).
  destruct (X28_a_menu_row_is_always_found (B := calendar_builtins)
              (MB := sample_menu_builtins) sample_chars_not_empty "Salmon" 160
              DEFAULT_SITE_ID may_2 (may_2 - 1) may_2_store may_2_store _ _
              may_2_store_reachable Hrun) as (m & Hhead & Hin & _).
  assert (Hdate : MenuDay.date <$> head (menu_rows DEFAULT_SITE_ID may_2_store)
                  = Some may_2) by (vm_compute; reflexivity).
  exists m. rewrite Hrun, Hhead. rewrite Hhead in Hdate. injection Hdate as Hdate.
  exact (conj eq_refl (conj Hin Hdate)).
Defined.

(** X29 on the sample calendar: building the alerts leaves it as it is. *)
Lemma X29_witness :
  (build_alerts (B := calendar_builtins) (MB := sample_menu_builtins)
     DEFAULT_SITE_ID may_2 may_2_store).1 = may_2_store.
Proof.
  assert (Hrun : ensure_menu_days_current (B := calendar_builtins)
                   (MB := sample_menu_builtins) DEFAULT_SITE_ID may_2 new_menu_store
                 = (may_2_store, Some tt)) by (vm_compute; reflexivity).
  exact (proj2 (proj2 (proj2 (proj2 (proj2
           (X29_reads_after_a_refresh_change_nothing (B := calendar_builtins)
              (MB := sample_menu_builtins) DEFAULT_SITE_ID may_2 new_menu_store may_2_store
              Hrun)))))).
Defined.

(** X30 on the sample calendar: approving the swap of 1 April, a day it
    does not hold, is answered and changes nothing. *)
Lemma X30_witness :
  api_manager_approve_swap (B := calendar_builtins) (MB := sample_menu_builtins)
    DEFAULT_SITE_ID may_2 (Some (JsObj [("date", JsStr "2024-04-01")])) may_2_store
  = (may_2_store, Some tt).
Proof.
  assert (Hat : refreshed_at DEFAULT_SITE_ID may_2_store = Some may_2)
    by (vm_compute; reflexivity).
  assert (Hday : date_fromisoformat (MenuBuiltins := sample_menu_builtins) "2024-04-01"
                 = Some 738977) by (vm_compute; reflexivity).
  apply (X30_decision_that_matches_no_row (B := calendar_builtins)
           (MB := sample_menu_builtins) DEFAULT_SITE_ID may_2
           [("date", JsStr "2024-04-01")] "2024-04-01" 738977 may_2_store
           eq_refl Hat eq_refl Hday).
  left. intros (m & Hm & Hdate).
  pose proof (proj1 (Forall_forall _ _) may_2_store_week _ Hm) as Hweek.
  cbn beta in Hweek. unfold may_2 in Hweek. lia.
Defined.
